(* ===== verification/_CoqProject ===== *)
-Q . S2P
Prelude.v
Js.v
Codec.v
Task.v
Query.v
Regex.v
RegexSpec.v
Repo.v
User.v
Http.v
Auth.v
Policy.v
TaskController.v
Router.v
Server.v
Boot.v
Concurrency.v
Registration.v
Search.v
Scenarios.v
