(* ===== verification/Prelude.v ===== *)
(** * back_manager: a verification development of the task-management backend

    The repository is an Express/Mongoose service (src/).  Its parts are
    - the task controller, src/controllers/task.controller.js: seven request
      handlers (getAllUsers, getTaskCounts, CreateTask, getAllTasks,
      getTaskById, updateTask, deleteTask) that decide, from the caller's
      [req.user = {id, role}], which tasks are visible, which fields may be
      written and who may delete, and that talk to the Task collection
      through Mongoose ([countDocuments], [find], [findById], [create],
      [save], [findByIdAndDelete]);
    - the authentication controller, src/controllers/auth.controller.js
      (register, login) and the middleware src/middleware/isAuthenticated.js
      that turns an [Authorization: Bearer] header into [req.user];
    - the router src/router/task.route.js that puts [isAuthenticated] in
      front of every task handler, and the server src/index.js.
    The Mongoose models (models/*.js) and the database bootstrap are not in
    src/: the Task and User schemas and the collection semantics are
    modelled from the spec (sections 3 and 6) and marked so in the map.

    Files, in dependency order:
    - [Prelude] (this file): the [bm_scope] notation [let*] for fallible
      code (a sum type, [inl] = thrown error), the hint databases [bm] and
      [bm_rw], the tactics [destr_eqb] and [bm_simp], and the counting
      lemmas on boolean filters the count and listing proofs share.
    - [Js]: JavaScript values as the handlers receive them ([jsval]),
      truthiness ([truthy], the code's [if (x)] and [!x]), [x || d]
      ([js_or]), [Array.prototype.includes] ([includes]), the errors a
      handler can throw ([fault]), the ObjectId test of CreateTask
      [/^[0-9a-fA-F]{24}$/] ([is_object_id], [match_object_id]), Mongoose's
      ObjectId cast ([oid_cast]), ASCII case folding, and the hexadecimal
      ObjectId encoding of the store with its decoder (round trip), and
      [s.split(" ")] ([js_split]).
    - [Codec]: values of countable types sealed into strings of 0s and 1s
      ([seal], [unseal], round trip and injectivity); the reference
      implementations of bcrypt and JWT in [Auth] store their data so.
    - [Task]: the Task document ([task], [TaskStatus]), the whitelist
      [allowedStatuses] of updateTask, the schema casts of its paths
      (String, ObjectId, the status enum, [priority] as a Number
      [cast_number], [dueDate] as a Date [cast_date] with ECMAScript's
      [Date.parse] on its date time format [date_parse], [tags] as an
      array of strings [cast_tags]) and the validators of [Task.create]
      ([build_task]); spec-modelled (models/ is not in src).
    - [Query]: the MongoDB filters the handlers build, parsed and cast by
      [compile], with the condition operators [$eq], [$ne], [$gt], [$gte],
      [$lt], [$lte], [$in], [$nin], [$all], [$exists], [$not] and [$regex]
      (string paths only) a request body can smuggle into [User.findOne],
      and tested by [fmatch]; [$not] matches exactly the documents its
      condition does not ([compile_not_complement]); object spread
      [spread]; the [$regex]
      engine as an interface [RegexEngine] whose laws fix literal patterns.
    - [Regex]: a [$regex] engine for a PCRE subset (classes, groups,
      alternation, [* + ?], counted repetition [{n,m}], anchors): a
      parser into [re] and a search by Brzozowski derivatives;
      [pcre_engine] implements [RegexEngine] and [pcre_engine_laws]
      proves its laws.
    - [RegexSpec]: the reference semantics [mt] of expressions with
      anchors, and the proof that the derivative matcher decides it
      ([deriv_spec], [run_spec], [search_spec], [pcre_test_spec]); the
      expansion of [a{n,m}] matches between [n] and [m] consecutive
      matches of [a] ([count_re_spec]).
    - [Repo]: the repository contract of spec section 6 as a class
      [TaskRepository] with laws [TaskRepositoryLaws] over an abstract view
      (the documents in natural order), and the list-backed [Collection]
      with an ObjectId counter that implements it ([collection_laws]).
    - [User]: the User document, the projection of getAllUsers, and the
      users collection ([user_store]) with [User.findOne] (a filter parsed
      by [Query.compile], matched by [fmatch_on] over the User paths) and
      [User.create] (schema casts, unique email, default role "user"),
      spec-modelled; [users_wf] is its invariant and [users_wfb] a test of
      it for concrete collections.
    - [Http]: [req.user] ([caller], as isAuthenticated.js sets it), the
      request fields the handlers read, and the responses they send.
    - [Auth]: bcryptjs and jsonwebtoken as classes with laws
      ([PasswordHasher]: a hash accepts exactly the passwords with the
      same first 72 bytes; [TokenService]: a token verifies under its
      signing secret until it expires and under nothing else), reference
      instances satisfying them ([sealed_hasher], [sealed_tokens]), and
      the handlers [register] and [login] of auth.controller.js and the
      middleware [isAuthenticated].  [register] returns [option
      auth_response]: [None] is its [catch], which logs and answers
      nothing.  The signing secret ["Krishna"] is [login_secret], the
      middleware's [process.env.SECRET_KEY] a parameter [secret] (fixed
      by [Boot] from the environment), the clock and bcrypt's random salt
      parameters too.
    - [Policy]: the access policy of spec section 4.1 stated abstractly:
      [visible], [may_read], [spec_counts], [keyword_match], the frames
      [user_frame] and [key_fields] of an update, and [docs_change], the
      changes to the stored documents a caller may cause.
    - [TaskController]: the seven handlers of task.controller.js, each a
      function of the repository state, the request and (for writes) the
      clock, returning the response and the new state; a handler's
      try/catch is the final [match] that turns a thrown fault into its 500
      (CreateTask: 400) response.  Then their theorems, proved against the
      repository laws only, so they hold for every implementation; last,
      that each write handler causes only a [docs_change].
    - [Router]: the route table of task.route.js with isAuthenticated in
      front of every handler ([task_router]), the two routers of index.js
      as one server step [app_step] on a [world] (the Task collection, the
      users collection, and a ghost record [w_issued] of the tokens login
      handed out), and the inductive [reachable] of the worlds a request
      sequence reaches.
    - [Server]: the application of index.js in its layer order
      ([serve_full], which also returns the headers [cors] set; [serve]):
      [GET /] (and [HEAD /]) answered before the body parsers, a body that
      does not parse, or a JSON body whose top level is neither an object
      nor an array, refused with 400, [cors] answering preflights and adding its
      headers, the routers mounted at [/api/v1/auth] and
      [/api/v1/task], Express's final 404, and [PORT]; [served] is the
      inductive of the states raw requests reach; the CORS check a
      browser applies to the answers ([cors_check]).
    - [Boot]: start-up of index.js in its order ([boot]): [dotenv.config]
      adding the [.env] bindings the process environment lacks
      ([dotenv_config]), [PORT], [app.listen] and its log line
      ([listen_message]); [deployed] is [serve] with the [SECRET_KEY] the
      environment then holds ([dep_secret]), and the requests of a client
      session through it.
    - [Concurrency]: updateTask split at its two awaits ([update_begin] up
      to [task.save()], [update_commit] the save and the answer), the save
      of a loaded document as Mongoose performs it ([save_delta]: a [$set]
      of the paths whose value changed, [modifiedPaths], on the document
      stored at that moment, DocumentNotFoundError when it is gone), and
      requests as threads of a [system] (the Task collection and the
      requests in flight: updateTask in either phase, CreateTask and
      deleteTask, whose single await is one store operation, and
      getTaskCounts, whose four counts are separate operations) run in the
      order of a schedule ([run]); the stored version keys, and the
      version check of a save that sets [tags] ([update_commit_v]).
    - [Registration]: register split at its awaits ([register_begin]:
      the presence test and [User.findOne]; [register_commit]:
      [bcrypt.hash] and [User.create] on the collection as it then is),
      and registrations as threads over the users collection run in the
      order of a schedule ([reg_run]).
    - [Search]: getAllTasks for every keyword: with any [$regex] engine, and
      with [pcre_engine] against the reference semantics of [RegexSpec].
    - [Scenarios]: a concrete collection, the scenarios of spec section 8
      evaluated by [vm_compute], a registration, a login and requests
      through the server, and a witness for every theorem with hypotheses.

    Theorems, by group:
    - functional behaviour of every handler on every branch, errors
      included (NotFound, Forbidden, ValidationError, InternalFault);
    - refinement: the filter documents built by getTaskCounts and
      getAllTasks select exactly the tasks of the spec's visibility
      predicate; counts are the sizes of visible sets and the per-status
      counts sum to the total;
    - frame and invariant properties of updateTask: a non-admin changes only
      [status] and [updatedAt]; admin writes are "set if truthy"; a failed
      update leaves the collection unchanged; [createdBy] never changes;
    - round trip: the ObjectId encoding of the store's counter decodes back,
      and a task created by U is returned by getTaskById for U;
    - the repository laws of [Collection] (the collection refines the
      contract of spec section 6), and the regex laws of [pcre_engine] (a
      literal pattern parses to its characters and its search is the
      case-insensitive substring test);
    - sessions (Auth, proved against the library laws): a token from
      login is accepted by isAuthenticated exactly when SECRET_KEY is the
      hard-coded signing secret and the token is less than a day old; the
      middleware admits only validly signed, unexpired tokens with a
      non-empty userId and role;
    - credentials: login succeeds only for a stored user whose hash came
      from a password with the same first 72 bytes; an unknown email and
      a wrong password get the same answer; register-then-login round
      trip; register keeps the users collection well formed, and every
      collection reachable by registrations (the inductive [registered])
      holds no admin; a numeric password makes register answer nothing;
    - typed results: every answer of the task router is a success (200,
      201) or one of the five error kinds of spec section 7 (Router);
    - the application (Server): every state raw requests reach through
      index.js is reachable by [app_step], so the server invariants below
      hold of the deployed application; a page on another origin can
      read exactly the answers given after [cors] (not the hello route's,
      not a body parser's 400), and none sent with credentials;
    - start-up and sessions end to end (Boot): the port the server listens
      on and logs (the process environment's [PORT], even empty, before
      the [.env] file's; 3000 when empty or missing); and, when
      [SECRET_KEY] resolves to login's secret, a client that registers,
      logs in, creates a task with its token and reads it back gets each
      answer in turn and the task it created;
    - interleaving (Concurrency): the two phases of updateTask run back to
      back are the atomic handler; under every schedule each step changes
      the documents only as the policy allows the caller of the thread
      that takes it; with no admin among the callers every task keeps all
      fields but [status] and [updatedAt]; the save writes exactly the
      changed paths over the current document; the lost update of spec
      section 5 (an admin's status silently overwritten, [updatedAt]
      going back); a delete between the two awaits makes the update answer
      500; the counts of getTaskCounts can straddle an update and add up
      to more than the total; two updates of the [tags] of a task read at
      the same version are never both answered with success (the version
      key, unlike last-write-wins); and every request is answered after
      at most four of its own steps (liveness: no request waits on
      another);
    - registrations (Registration): the two steps run back to back are
      [register]; under every schedule the users collection stays well
      formed, by the unique index on [email]; and of two registrations of
      one email that both passed the lookup, at least one is never
      answered, the second insertion's duplicate-key error being
      swallowed by the [catch] ([register_race]);
    - the keyword search (Search): with the PCRE engine, getAllTasks lists
      the visible tasks with a factor of title or description matched by
      the parsed pattern in the reference semantics, 500 for a pattern
      outside the syntax;
    - the server (Router, by induction on [reachable]): only authenticated
      create, update and delete requests change the state; reachable
      worlds stay well formed; every issued token that is accepted
      authenticates a stored user; from a world without admins no delete
      ever succeeds; no request changes a task's key fields, and a request
      without admin credentials changes no field but [status] and
      [updatedAt] of a stored task.

    Bounds and fuel: no handler loops; every definition is structural but
    the [$regex] pattern parser of [Regex], whose four mutually recursive
    functions run on fuel [4 * length + 4]: each passes one step less to
    the next and the parser re-enters alternation only after reading a
    character, so more fuel never changes the parse ([Regex.parse_fuel],
    and [Search.getAllTasks_pcre_total] for the handler); character
    classes run on fuel [length], one step per character read.
    ObjectIds are 24 hex digits, so the counter of [Collection] is read
    modulo 16^24; the round-trip theorem is stated for counters below that
    bound, which 2^96 insertions never reach.

    The token lifetime ["1d"] is 86400 seconds; the clock is an integer
    number of seconds, as [jwt.verify] reads it.

    The clock of [app_step] is [Date.now()] in milliseconds; the
    middleware and login read it in seconds ([now / 1000]).

    Not modelled (yet): [$regex] patterns outside the subset of [Regex]
    (back references, word boundaries, possessive quantifiers, the [m],
    [s] and [x] options), which that engine refuses; the MongoDB condition
    operator [$type], which [Query.compile] refuses although Mongoose
    passes it on (the model's field values carry no BSON type), and the
    difference between a null and a missing field, which no handler's own
    filter observes; the login cookie, which no code reads; of
    [Date.parse], the implementation-specific formats V8 accepts beyond
    ECMAScript's date time string format (a [dueDate] such as
    "2024/01/02" is refused here), and numbers that are not integers (a
    JSON number is an integer in [jsval]; a [priority] string such as
    "1.5" is refused here).  In [Router] each
    request is one atomic step whose [save] writes the whole document;
    [Concurrency] shows this is exact when nothing runs between the two
    awaits of updateTask, and models the interleavings themselves for the
    write handlers and getTaskCounts; the other read handlers make a
    single store call and are not run as threads.  The version key is
    not part of the documents the handlers answer with, and the atomic
    [save] of [Router] does not version (nothing runs between its read
    and its save).  The cryptography of
    bcrypt and JWT is represented by their laws only.  The body parsers
    are represented by their result, so their size limit (100kb, a 413)
    and the form parser's [qs] syntax are not modelled: a request body is
    the value they produce.  Of index.js, the
    cookie parser fills [req.cookies], which no handler reads, and
    [ConnectTOdb] (database.js is not in the repository) opens the
    database connection, which is I/O: the collections are there from
    the start, and a request arriving before the connection is not
    modelled.

    Schedules: a schedule is any finite list of thread indices, so
    [Concurrency] and [Registration] quantify over every interleaving of
    finitely many steps; a thread needs at most four steps of its own, which bounds every
    request's work ([run_answers]).  The four queries of [Promise.all] run
    in the order of its array there, one of the orders the store may
    execute them in.  A registration has two steps; the await of
    [bcrypt.hash] between them touches no store, so folding it into the
    second step loses no interleaving that matters to the collection. *)

From stdpp Require Import base list strings options.
From Stdlib Require Import ZArith.

Declare Scope bm_scope.
Delimit Scope bm_scope with bm.
Open Scope bm_scope.

(** ** Fallible code

    A computation that may throw returns [inl e] (the thrown error) or
    [inr x]; [let* x := m in k] propagates the error, as an [await] inside
    a [try] block does. *)

Notation "'let*' x ':=' m 'in' k" :=
  (match m with inl e => inl e | inr x => k end)
  (at level 10, x pattern, m at level 100, k at level 200) : bm_scope.

Create HintDb bm.
Create Rewrite HintDb bm_rw.

(** ** Boolean string equality *)

Lemma String_eqb_refl (s : string) : String.eqb s s = true.
Proof. apply String.eqb_refl. Qed.

Lemma String_eqb_sym (s t : string) : String.eqb s t = String.eqb t s.
Proof. apply String.eqb_sym. Qed.

#[export] Hint Rewrite String_eqb_refl : bm_rw.

(** [destr_eqb] case-splits every string comparison of the goal into the
    equation and the disequation it decides. *)
Ltac destr_eqb :=
  repeat match goal with
  | |- context [String.eqb ?a ?b] =>
      destruct (String.eqb_spec a b); subst; try congruence
  end.

Ltac bm_simp := simpl in *; autorewrite with bm_rw in *; try congruence.

(** ** Counting with boolean filters

    The handlers count the documents that satisfy a filter; these lemmas
    relate the counts of several filters over the same list. *)

Section Counting.
Context {A : Type}.
Implicit Types (l : list A) (p q : A -> bool).

Lemma filter_ext_bool p q l :
  (forall x, In x l -> p x = q x) -> List.filter p l = List.filter q l.
Proof. apply filter_ext_in. Qed.

Lemma length_filter_app p l1 l2 :
  length (List.filter p (l1 ++ l2)) =
  length (List.filter p l1) + length (List.filter p l2).
Proof. by rewrite List.filter_app, length_app. Qed.

(** A count under [p || q] for disjoint [p] and [q] is the sum. *)
Lemma length_filter_orb_disjoint p q l :
  (forall x, In x l -> p x && q x = false) ->
  length (List.filter (fun x => p x || q x) l) =
  length (List.filter p l) + length (List.filter q l).
Proof.
  induction l as [|x l IH]; intros Hd; [done|]; simpl.
  specialize (Hd x (or_introl eq_refl)) as Hx.
  destruct (p x), (q x); simpl in *; try discriminate;
    rewrite IH by (intros; apply Hd; by right); lia.
Qed.

(** Filtering by [p] a list all of whose elements satisfy [p]. *)
Lemma filter_all p l : (forall x, In x l -> p x = true) -> List.filter p l = l.
Proof.
  induction l as [|x l IH]; intros H; [done|]; simpl.
  rewrite H by (by left). f_equal. apply IH. intros; apply H; by right.
Qed.

Lemma filter_none p l : (forall x, In x l -> p x = false) -> List.filter p l = [].
Proof.
  induction l as [|x l IH]; intros H; [done|]; simpl.
  rewrite H by (by left). apply IH. intros; apply H; by right.
Qed.

Lemma filter_andb p q l :
  List.filter (fun x => p x && q x) l = List.filter q (List.filter p l).
Proof.
  induction l as [|x l IH]; [done|]; simpl.
  destruct (p x) eqn:Hp, (q x) eqn:Hq; simpl; rewrite ?Hp, ?Hq, ?IH; done.
Qed.
(** [List.find] reads only the elements of the list. *)
Lemma find_ext_in p q l :
  (forall x, In x l -> p x = q x) -> List.find p l = List.find q l.
Proof.
  induction l as [|x l IH]; intros H; [done|]; simpl.
  rewrite H by (by left). rewrite IH by (intros; apply H; by right). done.
Qed.

Lemma find_app p l1 l2 :
  List.find p (l1 ++ l2) =
  match List.find p l1 with Some x => Some x | None => List.find p l2 end.
Proof. induction l1 as [|x l1 IH]; simpl; [done|]. by destruct (p x). Qed.
End Counting.

#[export] Hint Resolve filter_all filter_none : bm.
