(* ===== verification/Js.v ===== *)
(** * JavaScript values and the string tests of the handlers

    What [express.json()] hands the handlers ([req.body] fields, query
    string values) as [jsval]; JavaScript truthiness, [x || d],
    [Array.prototype.includes] on a string whitelist, the errors thrown at
    run time ([fault]), the ObjectId shape test of CreateTask
    ([/^[0-9a-fA-F]{24}$/]), Mongoose's ObjectId cast, ASCII case folding
    for [$options: "i"], the hexadecimal encoding of ObjectIds with its
    decoder, and [String.prototype.split] on one character, with which the
    middleware takes the token out of its header. *)

From Stdlib Require Import ZArith NArith Ascii String.
From stdpp Require Import base list strings options.
From S2P Require Import Prelude.

Module Js.

Local Set Warnings "-register-all".

(** JSON numbers are IEEE doubles; the handlers only test them for
    truthiness, so an integer model suffices ([NaN] never comes out of
    [JSON.parse]). *)
Inductive jsval : Type :=
| JUndefined
| JNull
| JBool (b : bool)
| JNum (z : Z)
| JStr (s : string)
| JArr (l : list jsval)
| JObj (fields : list (string * jsval)).

(** Mongoose's [deepEqual] on plain JSON values: structural equality,
    decided by a nested recursion on arrays and objects. *)
#[export] Instance jsval_eq_dec : EqDecision jsval.
Proof.
  unfold EqDecision, Decision. fix go 1. intros v w.
  destruct v as [| |a|a|a|l|l], w as [| |b|b|b|m|m];
    try (right; discriminate); try (left; reflexivity).
  - destruct (decide (a = b)); [left; by subst | right; congruence].
  - destruct (decide (a = b)); [left; by subst | right; congruence].
  - destruct (decide (a = b)); [left; by subst | right; congruence].
  - assert (Decision (l = m)) as [E|E]; [|left; by subst|right; congruence].
    revert m; induction l as [|x l IH]; intros [|y m];
      try (right; discriminate); [by left|].
    destruct (go x y) as [->|Hxy]; [|right; congruence].
    destruct (IH m) as [->|Hlm]; [by left | right; congruence].
  - assert (Decision (l = m)) as [E|E]; [|left; by subst|right; congruence].
    revert m; induction l as [|[k x] l IH]; intros [|[k' y] m];
      try (right; discriminate); [by left|].
    destruct (decide (k = k')) as [->|Hk]; [|right; congruence].
    destruct (go x y) as [->|Hxy]; [|right; congruence].
    destruct (IH m) as [->|Hlm]; [by left | right; congruence].
Defined.

(** [if (v)]: [undefined], [null], [false], [0] and [""] are falsy; arrays
    and objects, even empty, are truthy. *)
Definition truthy (v : jsval) : bool :=
  match v with
  | JUndefined | JNull => false
  | JBool b => b
  | JNum z => negb (Z.eqb z 0)
  | JStr s => negb (String.eqb s "")
  | JArr _ | JObj _ => true
  end.

(** [v || d] *)
Definition js_or (v d : jsval) : jsval := if truthy v then v else d.

(** [l.includes(v)] for an array of strings: SameValueZero, so only a
    string equal to an element is included. *)
Definition includes (l : list string) (v : jsval) : bool :=
  match v with
  | JStr s => existsb (String.eqb s) l
  | _ => false
  end.

(** Errors thrown inside a handler's [try] block. *)
Inductive fault : Type :=
| TypeError (msg : string)            (** a method called on a non-string *)
| CastError (path : string)           (** Mongoose could not cast a value *)
| ValidationError (path : string)     (** a schema validator rejected a value *)
| DocumentNotFoundError               (** [save] of a document no longer stored *)
| RegexError (pattern : string)       (** [$regex] with an invalid pattern *)
| StoreError (msg : string).          (** the store refused the operation *)

(** ** Characters and the ObjectId shape *)

Definition is_hex_digit (c : ascii) : bool :=
  let n := nat_of_ascii c in
  ((48 <=? n) && (n <=? 57)) || ((97 <=? n) && (n <=? 102))
  || ((65 <=? n) && (n <=? 70)).

(** [/^[0-9a-fA-F]{24}$/.test(s)] *)
Definition is_object_id (s : string) : bool :=
  Nat.eqb (String.length s) 24 && forallb is_hex_digit (list_ascii_of_string s).

(** [s.match(/^[0-9a-fA-F]{24}$/)] is truthy: [match] exists on strings
    only; on any other value the call throws a TypeError. *)
Definition match_object_id (v : jsval) : fault + bool :=
  match v with
  | JStr s => inr (is_object_id s)
  | _ => inl (TypeError "assignedTo.match is not a function")
  end.

(** ASCII case folding, the canonicalisation of the [i] flag on ASCII. *)
Definition to_lower (c : ascii) : ascii :=
  let n := nat_of_ascii c in
  if (65 <=? n) && (n <=? 90) then ascii_of_nat (n + 32) else c.

Definition lower (s : string) : string :=
  string_of_list_ascii (map to_lower (list_ascii_of_string s)).

(** [s.split(sep)] for a one-character separator: the pieces between
    separators, empty pieces included (["a  b"] gives ["a"; ""; "b"]). *)
Fixpoint js_split (sep : ascii) (s : string) : list string :=
  match s with
  | EmptyString => [EmptyString]
  | String c s' =>
      let r := js_split sep s' in
      if Ascii.eqb c sep then EmptyString :: r
      else match r with
           | [] => [String c EmptyString]
           | w :: ws => String c w :: ws
           end
  end.

(** No space in [s]. *)
Definition no_space (s : string) : bool :=
  forallb (fun c => negb (Ascii.eqb c " ")) (list_ascii_of_string s).

(** Mongoose's ObjectId cast: a 24-digit hex string becomes the ObjectId,
    printed back in lower case; anything else fails to cast. *)
Definition oid_cast (s : string) : option string :=
  if is_object_id s then Some (lower s) else None.

Arguments oid_cast : simpl never.

(** ** Hexadecimal encoding of ObjectIds

    The store issues the ObjectId of its [n]th document as [n] written
    with 24 lower-case hex digits. *)

Definition hex_char (d : N) : ascii :=
  if (d <? 10)%N then ascii_of_N (48 + d) else ascii_of_N (87 + d).

Fixpoint hex_digits (k : nat) (n : N) : list ascii :=
  match k with
  | O => []
  | S k' => hex_digits k' (n / 16) ++ [hex_char (n mod 16)]
  end.

Definition oid_of_counter (n : N) : string :=
  string_of_list_ascii (hex_digits 24 n).

Definition hex_val (c : ascii) : N :=
  let n := N_of_ascii c in
  if (n <? 58)%N then n - 48
  else if (n <? 71)%N then n - 55
  else n - 87.

(** [parseInt(s, 16)] on a string of hex digits. *)
Definition unhex (cs : list ascii) : N :=
  fold_left (fun acc c => acc * 16 + hex_val c)%N cs 0%N.

(** ** Lemmas *)

Lemma includes_iff (l : list string) (v : jsval) :
  includes l v = true <-> exists s, v = JStr s /\ In s l.
Proof.
  split.
  - destruct v; try discriminate. simpl. intros [x [Hin Hx]]%existsb_exists.
    apply String.eqb_eq in Hx. subst. eauto.
  - intros [x [-> Hin]]. simpl. apply existsb_exists. exists x. by rewrite String_eqb_refl.
Qed.

Lemma oid_cast_valid (s k : string) : oid_cast s = Some k -> is_object_id s = true.
Proof. unfold oid_cast. by destruct (is_object_id s). Qed.

(** A finite case analysis on a hex digit value. *)
Lemma N_lt_16_cases (d : N) :
  (d < 16)%N ->
  d = 0%N \/ d = 1%N \/ d = 2%N \/ d = 3%N \/ d = 4%N \/ d = 5%N \/ d = 6%N \/
  d = 7%N \/ d = 8%N \/ d = 9%N \/ d = 10%N \/ d = 11%N \/ d = 12%N \/
  d = 13%N \/ d = 14%N \/ d = 15%N.
Proof. lia. Qed.

Lemma hex_char_props (d : N) :
  (d < 16)%N ->
  is_hex_digit (hex_char d) = true /\ to_lower (hex_char d) = hex_char d /\
  hex_val (hex_char d) = d.
Proof. intros H. apply N_lt_16_cases in H. repeat destruct H as [-> | H]; [..| subst]; done. Qed.

Lemma mod16_lt (n : N) : (n mod 16 < 16)%N.
Proof. apply N.mod_lt. lia. Qed.

Lemma length_hex_digits (k : nat) (n : N) : length (hex_digits k n) = k.
Proof.
  revert n. induction k as [|k IH]; intros n; [done|].
  simpl. rewrite length_app, IH. simpl. lia.
Qed.

Lemma hex_digits_hex (k : nat) (n : N) :
  Forall (fun c => is_hex_digit c = true /\ to_lower c = c) (hex_digits k n).
Proof.
  revert n. induction k as [|k IH]; intros n; simpl; [constructor|].
  apply Forall_app. split; [apply IH|]. repeat constructor;
    apply (hex_char_props _ (mod16_lt n)).
Qed.

(** Decoding the [k] digits of [n] gives [n] modulo [16^k]. *)
Lemma unhex_hex_digits (k : nat) (n : N) :
  unhex (hex_digits k n) = (n mod 16 ^ N.of_nat k)%N.
Proof.
  revert n. induction k as [|k IH]; intros n; [simpl; by rewrite N.mod_1_r|].
  unfold unhex in *. simpl hex_digits. rewrite fold_left_app, IH. simpl.
  rewrite (proj2 (proj2 (hex_char_props _ (mod16_lt n)))).
  rewrite Nat2N.inj_succ, N.pow_succ_r by lia.
  rewrite N.Div0.mod_mul_r. lia.
Qed.

Lemma length_string_of_list_ascii (l : list ascii) :
  String.length (string_of_list_ascii l) = length l.
Proof. induction l; simpl; congruence. Qed.

Lemma oid_of_counter_valid (n : N) : is_object_id (oid_of_counter n) = true.
Proof.
  unfold is_object_id, oid_of_counter.
  rewrite list_ascii_of_string_of_list_ascii.
  apply andb_true_intro. split.
  - rewrite length_string_of_list_ascii, length_hex_digits. done.
  - apply forallb_forall. intros c Hc.
    apply (proj1 (List.Forall_forall _ _) (hex_digits_hex 24 n) c Hc).
Qed.

Lemma lower_oid_of_counter (n : N) : lower (oid_of_counter n) = oid_of_counter n.
Proof.
  unfold lower, oid_of_counter. rewrite list_ascii_of_string_of_list_ascii.
  f_equal. induction (hex_digits_hex 24 n) as [|c l [_ Hc] _ IH]; simpl; congruence.
Qed.

(** A string of ObjectId shape is not empty. *)
Lemma object_id_nonempty (s : string) : is_object_id s = true -> s <> "".
Proof. intros H ->. discriminate. Qed.

Lemma oid_of_counter_nonempty (n : N) : oid_of_counter n <> "".
Proof. apply object_id_nonempty, oid_of_counter_valid. Qed.

(** The store's ObjectIds pass the CreateTask test and cast to themselves. *)
Lemma oid_cast_counter (n : N) : oid_cast (oid_of_counter n) = Some (oid_of_counter n).
Proof. unfold oid_cast. by rewrite oid_of_counter_valid, lower_oid_of_counter. Qed.

(** Distinct counters below [16^24] give distinct ObjectIds. *)
Lemma oid_of_counter_inj (n m : N) :
  (n < 16 ^ 24)%N -> (m < 16 ^ 24)%N -> oid_of_counter n = oid_of_counter m -> n = m.
Proof.
  intros Hn Hm Heq. apply (f_equal (fun s => unhex (list_ascii_of_string s))) in Heq.
  unfold oid_of_counter in Heq. rewrite !list_ascii_of_string_of_list_ascii,
    !unhex_hex_digits, !N.mod_small in Heq by done. done.
Qed.

(** Splitting on a character the string does not contain. *)
Lemma js_split_no_space (s : string) : no_space s = true -> js_split " " s = [s].
Proof.
  unfold no_space. induction s as [|c s IH]; simpl; [done|].
  intros [Hc Hs]%andb_prop. apply negb_true_iff in Hc. by rewrite Hc, IH.
Qed.

Lemma js_split_app_no_space (w s : string) :
  no_space w = true -> js_split " " (w ++ String " " s) = w :: js_split " " s.
Proof.
  unfold no_space. induction w as [|c w IH]; simpl; [done|].
  intros [Hc Hw]%andb_prop. apply negb_true_iff in Hc. by rewrite Hc, IH.
Qed.

End Js.
