(* ===== verification/Codec.v ===== *)
(** * Sealed strings

    A value of any countable type written as a string over the characters
    [0] and [1] ([seal]) and read back ([unseal]).  The reference
    implementations of the password-hashing and token interfaces of
    [Auth] store what they need to check later in such a string, the way
    a bcrypt hash carries its salt and a JWT its payload. *)

From Stdlib Require Import Ascii String.
From stdpp Require Import base countable strings options.
From S2P Require Import Prelude Js.

Module Codec.
Import Js.

Fixpoint bits_of_pos (p : positive) : string :=
  match p with
  | xH => EmptyString
  | xO p' => String "0" (bits_of_pos p')
  | xI p' => String "1" (bits_of_pos p')
  end.

Fixpoint pos_of_bits (s : string) : option positive :=
  match s with
  | EmptyString => Some xH
  | String c s' =>
      if Ascii.eqb c "0" then xO <$> pos_of_bits s'
      else if Ascii.eqb c "1" then xI <$> pos_of_bits s'
      else None
  end.

Definition seal `{Countable A} (x : A) : string := bits_of_pos (encode x).

Definition unseal `{Countable A} (s : string) : option A :=
  p ← pos_of_bits s;
  x ← decode p;
  if decide (encode x = p) then Some x else None.

Lemma pos_of_bits_of_pos (p : positive) : pos_of_bits (bits_of_pos p) = Some p.
Proof. induction p; simpl; rewrite ?IHp; reflexivity. Qed.

Lemma bits_of_pos_of_bits (s : string) (p : positive) :
  pos_of_bits s = Some p -> bits_of_pos p = s.
Proof.
  revert p. induction s as [|c s IH]; simpl; intros p Hp; [by simplify_eq|].
  destruct (Ascii.eqb_spec c "0"); [|destruct (Ascii.eqb_spec c "1")]; try done;
    destruct (pos_of_bits s) eqn:E; simplify_eq/=; subst; by rewrite (IH _ eq_refl).
Qed.

Section Seal.
Context `{Countable A}.

Lemma unseal_seal (x : A) : unseal (seal x) = Some x.
Proof.
  unfold unseal, seal. rewrite pos_of_bits_of_pos. simpl.
  rewrite decode_encode. simpl. by rewrite decide_True.
Qed.

Lemma unseal_Some (s : string) (x : A) : unseal s = Some x -> s = seal x.
Proof.
  unfold unseal, seal. destruct (pos_of_bits s) as [p|] eqn:Hp; simpl; [|done].
  destruct (decode p) as [y|]; simpl; [|done].
  case_decide; intros; simplify_eq. by rewrite (bits_of_pos_of_bits _ _ Hp).
Qed.

Lemma seal_inj (x y : A) : seal x = seal y -> x = y.
Proof.
  intros E. apply (f_equal (unseal (A:=A))) in E. rewrite !unseal_seal in E. by simplify_eq.
Qed.

Lemma seal_no_space (x : A) : no_space (seal x) = true.
Proof. unfold seal, no_space. generalize (encode x). by induction p. Qed.

End Seal.

End Codec.
