(* ===== verification/Task.v ===== *)
(** * The Task document

    The Task model (models/task.model.js, not under src/) as spec section 3
    describes it: the record a document of the Task collection holds, the
    status enumeration, the whitelist [allowedStatuses] of updateTask, the
    path reader the query evaluator uses, and the schema casts that
    [Task.create] and [task.save()] apply (Mongoose casting and the
    [required] and [enum] validators). *)

From Stdlib Require Import ZArith String Ascii.
From stdpp Require Import base list strings options pretty.
From S2P Require Import Prelude Js.

Module Task.
Import Js.

Inductive TaskStatus : Type := Pending | InProgress | Completed.

#[export] Instance TaskStatus_eq_dec : EqDecision TaskStatus.
Proof. solve_decision. Defined.

Definition status_string (s : TaskStatus) : string :=
  match s with
  | Pending => "pending"
  | InProgress => "in-progress"
  | Completed => "completed"
  end.

Definition status_of_string (s : string) : option TaskStatus :=
  if String.eqb s "pending" then Some Pending
  else if String.eqb s "in-progress" then Some InProgress
  else if String.eqb s "completed" then Some Completed
  else None.

(** [const allowedStatuses = ["pending", "in-progress", "completed"];] *)
Definition allowedStatuses : list string := ["pending"; "in-progress"; "completed"].

(** A stored Task document.  [priority], [dueDate] and [tags] hold the
    values their schema casts produced ([cast_number], [cast_date],
    [cast_tags] below): a number, a time in milliseconds, an array of
    strings, or [null]/[undefined] when unset. *)
Record task : Type := mkTask {
  task_id : string;               (** [_id], a lower-case ObjectId *)
  title : string;
  description : option string;
  status : TaskStatus;
  priority : jsval;
  dueDate : jsval;
  tags : jsval;
  createdBy : string;             (** ObjectId of the creating user *)
  assignedTo : option string;     (** ObjectId of the assignee *)
  createdAt : Z;
  updatedAt : Z
}.

(** The string value of a path of the document, as a MongoDB filter sees
    it; [None] for a missing or null field. *)
Definition get_path (t : task) (p : string) : option string :=
  if String.eqb p "_id" then Some (task_id t)
  else if String.eqb p "title" then Some (title t)
  else if String.eqb p "description" then description t
  else if String.eqb p "status" then Some (status_string (status t))
  else if String.eqb p "createdBy" then Some (createdBy t)
  else if String.eqb p "assignedTo" then assignedTo t
  else None.

Lemma get_path_title (t : task) : get_path t "title" = Some (title t).
Proof. reflexivity. Qed.
Lemma get_path_description (t : task) : get_path t "description" = description t.
Proof. reflexivity. Qed.
Lemma get_path_status (t : task) : get_path t "status" = Some (status_string (status t)).
Proof. reflexivity. Qed.
Lemma get_path_createdBy (t : task) : get_path t "createdBy" = Some (createdBy t).
Proof. reflexivity. Qed.
Lemma get_path_assignedTo (t : task) : get_path t "assignedTo" = assignedTo t.
Proof. reflexivity. Qed.

#[export] Hint Rewrite get_path_title get_path_description get_path_status
  get_path_createdBy get_path_assignedTo : bm_rw.

(** ** Schema casts *)

(** A String path: [undefined] and [null] leave it unset; numbers and
    booleans are converted; arrays and objects fail to cast. *)
Definition cast_string (p : string) (v : jsval) : fault + option string :=
  match v with
  | JUndefined | JNull => inr None
  | JStr s => inr (Some s)
  | JNum z => inr (Some (pretty z))
  | JBool b => inr (Some (if b then "true" else "false"))
  | JArr _ | JObj _ => inl (CastError p)
  end.

(** An ObjectId path. *)
Definition cast_oid (p : string) (v : jsval) : fault + option string :=
  match v with
  | JUndefined | JNull => inr None
  | JStr s => match oid_cast s with Some k => inr (Some k) | None => inl (CastError p) end
  | _ => inl (CastError p)
  end.

(** ** Number, Date and [String] paths

    [priority] is an ordinal (spec section 3), a Number path; [dueDate] a
    timestamp, a Date path; [tags] a set of strings, a [String] array
    path.  Each cast failure is a validation error of [save()] or
    [Task.create].  A cast number or date is stored as [JNum]; a date is
    its time in milliseconds. *)

Section Casts.
Local Open Scope Z_scope.

(** The decimal number the ASCII digits [l] write after [acc]. *)
Fixpoint digits_val (acc : Z) (l : list ascii) : option Z :=
  match l with
  | [] => Some acc
  | c :: l' =>
      let n := nat_of_ascii c in
      if ((48 <=? n) && (n <=? 57))%nat then digits_val (10 * acc + (Z.of_nat n - 48)) l' else None
  end.

(** [Number(s)] on a string that denotes an integer: white space around
    it (as [String.prototype.trim] removes it), an optional sign,
    decimal digits; only white space is [0]. *)
Definition number_of_string (s : string) : option Z :=
  let fix skip_space (l : list ascii) : list ascii :=
    match l with
    | c :: l' =>
        let n := nat_of_ascii c in
        if ((n =? 32) || ((9 <=? n) && (n <=? 13)))%nat then skip_space l' else l
    | [] => []
    end in
  let l := rev (skip_space (rev (skip_space (list_ascii_of_string s)))) in
  match l with
  | [] => Some 0
  | "-"%char :: ds => match ds with [] => None | _ => z ← digits_val 0 ds; Some (- z) end
  | "+"%char :: ds => match ds with [] => None | _ => digits_val 0 ds end
  | ds => digits_val 0 ds
  end.

(** Mongoose's [castNumber]: [""] is [null], a string or a boolean goes
    through [Number()], and a value that is not a number fails. *)
Definition cast_number (p : string) (v : jsval) : fault + jsval :=
  match v with
  | JUndefined | JNull => inr v
  | JStr "" => inr JNull
  | JStr s => match number_of_string s with Some z => inr (JNum z) | None => inl (ValidationError p) end
  | JNum z => inr (JNum z)
  | JBool b => inr (JNum (if b then 1 else 0))
  | JArr _ | JObj _ => inl (ValidationError p)
  end.

(** [Date.parse] on ECMAScript's date time string format
    [YYYY[-MM[-DD]][THH:mm[:ss[.sss]][Z|+HH:mm|-HH:mm]]]: a date alone is
    UTC, a time without offset is local time (the process runs in UTC).
    The format's fields are range-checked as V8 does (a day up to 31 in
    any month, which [MakeDay] carries over).  The time in milliseconds,
    if the string has that form and the time is within +/- 8.64e15.
    The day number is ECMAScript's [MakeDay] (day 0 is 1970-01-01). *)
Definition date_parse (str : string) : option Z :=
  let n2 a b := digits_val 0 [a; b] in
  let days_from_civil y m d :=
    let y' := if m <=? 2 then y - 1 else y in
    let era := y' / 400 in
    let yoe := y' - era * 400 in
    let doy := (153 * (if 2 <? m then m - 3 else m + 9) + 2) / 5 + d - 1 in
    let doe := yoe * 365 + yoe / 4 - yoe / 100 + doy in
    era * 146097 + doe - 719468 in
  let date := match list_ascii_of_string str with
    | y1 :: y2 :: y3 :: y4 :: r =>
        y ← digits_val 0 [y1; y2; y3; y4];
        match r with
        | "-"%char :: m1 :: m2 :: r' =>
            m ← n2 m1 m2;
            match r' with
            | "-"%char :: d1 :: d2 :: r'' => d ← n2 d1 d2; Some (y, m, d, r'')
            | _ => Some (y, m, 1, r')
            end
        | _ => Some (y, 1, 1, r)
        end
    | _ => None
    end in
  ' (y, m, d, r) ← date;
  t ← match r with
      | [] => Some 0
      | "T"%char :: h1 :: h2 :: ":"%char :: i1 :: i2 :: r' =>
          h ← n2 h1 h2; i ← n2 i1 i2;
          ' (sec, ms, r'') ← match r' with
            | ":"%char :: s1 :: s2 :: "."%char :: f1 :: f2 :: f3 :: r'' =>
                sec ← n2 s1 s2; ms ← digits_val 0 [f1; f2; f3]; Some (sec, ms, r'')
            | ":"%char :: s1 :: s2 :: r'' => sec ← n2 s1 s2; Some (sec, 0, r'')
            | _ => Some (0, 0, r')
            end;
          off ← match r'' with
            | [] | ["Z"%char] => Some 0
            | sg :: a1 :: a2 :: ":"%char :: b1 :: b2 :: [] =>
                oh ← n2 a1 a2; om ← n2 b1 b2;
                if (oh <=? 23) && (om <=? 59) then
                  if Ascii.eqb sg "+" then Some (oh * 60 + om)
                  else if Ascii.eqb sg "-" then Some (- (oh * 60 + om)) else None
                else None
            | _ => None
            end;
          if ((h <? 24) || ((h =? 24) && (i =? 0) && (sec =? 0) && (ms =? 0))) &&
             (i <=? 59) && (sec <=? 59)
          then Some ((((h * 60 + i) * 60 + sec) * 1000 + ms) - off * 60000) else None
      | _ => None
      end;
  if (1 <=? m) && (m <=? 12) && (1 <=? d) && (d <=? 31) then
    let ms := days_from_civil y m d * 86400000 + t in
    if Z.abs ms <=? 8640000000000000 then Some ms else None
  else None.

(** Mongoose's [castDate]: [null], [undefined] and [""] leave it unset; a
    number is a time in milliseconds ([new Date(n)]); a boolean or an
    object fails; a string is read by [Date.parse], except a numeric one
    outside the years' range, which is milliseconds; a one-element
    array is the string of its element. *)
Definition cast_date (p : string) (v : jsval) : fault + jsval :=
  let of_ms z := if Z.abs z <=? 8640000000000000 then inr (JNum z) else inl (ValidationError p) in
  let of_string s :=
    match number_of_string s with
    | Some z => if (275761 <=? z) || (z <? -271820) then of_ms z
                else match date_parse s with Some t => inr (JNum t) | None => inl (ValidationError p) end
    | None => match date_parse s with Some t => inr (JNum t) | None => inl (ValidationError p) end
    end in
  match v with
  | JUndefined => inr JUndefined
  | JNull | JStr "" => inr JNull
  | JNum z => of_ms z
  | JStr s => of_string s
  | JArr [JStr s] => of_string s
  | JArr [JNum z] => of_string (pretty z)
  | _ => inl (ValidationError p)
  end.

(** A [[String]] path: a value that is not an array is wrapped in one,
    each element cast to a string ([null] stays [null]). *)
Definition cast_tags (p : string) (v : jsval) : fault + jsval :=
  let fix each (l : list jsval) : fault + list jsval :=
    match l with
    | [] => inr []
    | x :: l' =>
        let* o := cast_string p x in
        let* r := each l' in
        inr (match o with Some s => JStr s | None => JNull end :: r)
    end in
  match v with
  | JArr l => let* r := each l in inr (JArr r)
  | _ => let* r := each [v] in inr (JArr r)
  end.
End Casts.

(** The status path: [enum] over the three values, [default: "pending"]. *)
Definition cast_status (v : jsval) : fault + TaskStatus :=
  match v with
  | JUndefined => inr Pending
  | _ =>
      let* s := cast_string "status" v in
      match s ≫= status_of_string with
      | Some st => inr st
      | None => inl (ValidationError "status")
      end
  end.

(** The fields CreateTask passes to [Task.create]. *)
Record task_input : Type := mkInput {
  in_title : jsval;
  in_description : jsval;
  in_status : jsval;
  in_priority : jsval;
  in_dueDate : jsval;
  in_assignedTo : jsval;
  in_createdBy : string
}.

(** The document [Task.create] builds from its input under the schema:
    [title] is [required] (so a missing or empty title is rejected),
    [createdBy] must cast to an ObjectId, and the store supplies [_id] and
    both timestamps. *)
Definition build_task (i : task_input) (id : string) (now : Z) : fault + task :=
  let* t := cast_string "title" (in_title i) in
  let* d := cast_string "description" (in_description i) in
  let* st := cast_status (in_status i) in
  let* pr := cast_number "priority" (in_priority i) in
  let* dd := cast_date "dueDate" (in_dueDate i) in
  let* a := cast_oid "assignedTo" (in_assignedTo i) in
  let* c := cast_oid "createdBy" (JStr (in_createdBy i)) in
  match t, c with
  | Some t, Some c =>
      if String.eqb t "" then inl (ValidationError "title")
      else inr (mkTask id t d st pr dd JUndefined c a now now)
  | None, _ => inl (ValidationError "title")
  | _, None => inl (ValidationError "createdBy")
  end.

(** ** Lemmas *)

Lemma status_of_string_string (s : TaskStatus) : status_of_string (status_string s) = Some s.
Proof. by destruct s. Qed.

Lemma status_of_string_Some (s : string) (st : TaskStatus) :
  status_of_string s = Some st -> s = status_string st.
Proof. unfold status_of_string. destr_eqb; intros [= <-]; done. Qed.

(** The whitelist of updateTask is exactly the set of status strings. *)
Lemma allowed_status_iff (s : string) :
  In s allowedStatuses <-> exists st, status_of_string s = Some st.
Proof.
  split.
  - intros [<-|[<-|[<-|[]]]]; eauto.
  - intros [st Hst]. apply status_of_string_Some in Hst as ->. destruct st; simpl; tauto.
Qed.

(** The status whitelist test [allowedStatuses.includes(v)] of updateTask
    holds exactly for the three status strings. *)
Lemma includes_allowed (v : jsval) :
  includes allowedStatuses v = true <->
  exists st, v = JStr (status_string st).
Proof.
  rewrite includes_iff. split.
  - intros [s [-> [st Hst]%allowed_status_iff]]. apply status_of_string_Some in Hst. subst; eauto.
  - intros [st ->]. eexists; split; [done|]. apply allowed_status_iff.
    rewrite status_of_string_string; eauto.
Qed.

Lemma status_string_eqb (a b : TaskStatus) :
  String.eqb (status_string a) (status_string b) = bool_decide (a = b).
Proof. destruct a, b; reflexivity. Qed.

Lemma status_string_inj (s1 s2 : TaskStatus) : status_string s1 = status_string s2 -> s1 = s2.
Proof. by destruct s1, s2. Qed.

(** Every document [build_task] produces carries the id, creator and
    timestamps it was given; its title is non-empty. *)
Lemma build_task_fields (i : task_input) (id : string) (now : Z) (t : task) :
  build_task i id now = inr t ->
  task_id t = id /\ oid_cast (in_createdBy i) = Some (createdBy t) /\
  createdAt t = now /\ updatedAt t = now /\ title t <> "".
Proof.
  unfold build_task; simpl. intros H.
  repeat case_match; simplify_eq; simpl; repeat split; auto.
  by apply String.eqb_neq.
Qed.

(** Whether [Task.create] rejects its input does not depend on the id the
    store allocates. *)
Lemma build_task_err_indep (i : task_input) (id id' : string) (now : Z) (e : fault) :
  build_task i id now = inl e -> build_task i id' now = inl e.
Proof. unfold build_task. repeat case_match; congruence. Qed.

End Task.
