(* ===== verification/Query.v ===== *)
(** * MongoDB filter documents

    The handlers build their filters as JavaScript objects
    ([{ $or: [{ createdBy: userId }, { assignedTo: userId }] }],
    [{ ...matchQuery, status: "pending" }], [{ title: { $regex: keyword,
    $options: "i" } }]); a filter here is that object, a [jsval].  MongoDB
    first parses and casts it ([compile], which fails on an uncastable
    ObjectId, a non-string or invalid [$regex], an empty [$or]/[$and], an
    operator Mongoose does not know for the path) and then tests each
    document against the parsed [filter] ([fmatch]).  A condition object
    ([{ $ne: null }], [{ $gt: "" }], [{ $in: [...] }], ...) is the
    conjunction of its operators, each operand cast to the path's type
    by the path's handler ([compile_op]: [$eq], [$ne], [$gt], [$gte],
    [$lt], [$lte], [$in], [$nin], [$all], [$exists], and on string
    paths [$regex] with [$options]); [$not] negates a condition object
    ([compile_not], [compile_not_complement]).  The handlers build only
    equalities and [$regex], but a request body that reaches a filter
    can carry any of them.
    Object spread is [spread].  The regular-expression engine is an
    interface ([RegexEngine]) whose laws fix its behaviour on literal
    patterns; [literal_engine] implements it for those patterns. *)

From Stdlib Require Import ZArith Ascii String.
From stdpp Require Import base list strings options.
From S2P Require Import Prelude Js Task.

Module Query.
Import Js Task.

Local Set Warnings "-register-all".

(** ** Regular expressions *)

(** [h] contains [n] as a substring. *)
Fixpoint contains (n h : string) : bool :=
  String.prefix n h || match h with EmptyString => false | String _ h' => contains n h' end.

Definition regex_meta : list ascii :=
  list_ascii_of_string "\^$.|?*+()[]{}".

(** A pattern without metacharacters: it matches itself literally. *)
Definition is_literal (p : string) : bool :=
  forallb (fun c => negb (existsb (Ascii.eqb c) regex_meta)) (list_ascii_of_string p).

Definition has_flag_i (o : string) : bool :=
  existsb (Ascii.eqb "i"%char) (list_ascii_of_string o).

Class RegexEngine : Type := {
  re_valid : string -> string -> bool;          (** pattern, options *)
  re_test : string -> string -> string -> bool  (** pattern, options, subject *)
}.

(** What every engine does on a literal pattern: it compiles, and with the
    [i] option it tests for a case-insensitive substring. *)
Class RegexEngineLaws `{RegexEngine} : Prop := {
  re_literal_valid : forall p o, is_literal p = true -> re_valid p o = true;
  re_literal_test_i : forall p s, is_literal p = true ->
    re_test p "i" s = contains (lower p) (lower s)
}.

(** An engine for literal patterns; it refuses every other pattern. *)
#[export] Instance literal_engine : RegexEngine := {
  re_valid p _ := is_literal p;
  re_test p o s := if has_flag_i o then contains (lower p) (lower s) else contains p s
}.

#[export] Instance literal_engine_laws : @RegexEngineLaws literal_engine.
Proof. split; simpl; [done | intros; reflexivity]. Qed.

(** ** Parsed filters *)

(** The order comparisons of a condition object. *)
Inductive cmp_op : Type := OGt | OGte | OLt | OLte.

(** A parsed filter.  An operand [option string] is a cast value, [None]
    standing for [null]. *)
Inductive filter : Type :=
| FAnd (fs : list filter)
| FOr (fs : list filter)
| FEq (path : string) (v : string)
| FRegex (path : string) (pattern options : string)
| FNull (path : string)                               (** [{ $eq: null }] *)
| FNe (path : string) (v : option string)             (** [$ne] *)
| FCmp (path : string) (op : cmp_op) (v : option string) (** [$gt], [$gte], [$lt], [$lte] *)
| FIn (path : string) (vs : list (option string))     (** [$in] *)
| FNin (path : string) (vs : list (option string))    (** [$nin] *)
| FExists (path : string) (b : bool)                  (** [$exists] *)
| FAll (path : string) (vs : list (option string))    (** [$all] *)
| FNot (f : filter).                                  (** [$not] *)

Definition is_oid_path (k : string) : bool :=
  String.eqb k "_id" || String.eqb k "createdBy" || String.eqb k "assignedTo".

Definition lookup_key (k : string) (es : list (string * jsval)) : jsval :=
  match List.find (fun e => String.eqb (fst e) k) es with
  | Some (_, v) => v
  | None => JUndefined
  end.

Section Compile.
Context `{RegexEngine}.

(** The operand of a query operator, cast to the path's type (Mongoose's
    [castForQuery]): an ObjectId on the ObjectId paths, a string
    elsewhere; [null] stays [null]. *)
Definition cast_operand (k : string) (v : jsval) : fault + option string :=
  if is_oid_path k then cast_oid k v else cast_string k v.

Fixpoint cast_operands (k : string) (vs : list jsval) : fault + list (option string) :=
  match vs with
  | [] => inr []
  | v :: vs' => let* o := cast_operand k v in let* os := cast_operands k vs' in inr (o :: os)
  end.

(** Mongoose's boolean cast of the operand of [$exists]. *)
Definition cast_bool_query (k : string) (v : jsval) : fault + bool :=
  match v with
  | JBool b => inr b
  | JNull => inr false
  | JNum z => if Z.eqb z 1 then inr true else if Z.eqb z 0 then inr false else inl (CastError k)
  | JStr s =>
      if String.eqb s "true" || String.eqb s "1" || String.eqb s "yes" then inr true
      else if String.eqb s "false" || String.eqb s "0" || String.eqb s "no" then inr false
      else inl (CastError k)
  | _ => inl (CastError k)
  end.

(** One entry [op: v] of the condition object [es] on path [k], cast by
    the path's handler ([castForQuery]); an operator Mongoose does not
    know for the path is refused ("Can't use $op with String"): ObjectId
    paths have no [$regex] and no [$options], and [$options] only
    accompanies [$regex]. *)
Definition compile_op (k : string) (es : list (string * jsval)) (op : string) (v : jsval) :
    fault + list filter :=
  if (String.eqb op "$regex" || String.eqb op "$options") && is_oid_path k then inl (CastError k)
  else if String.eqb op "$regex" then
    match v, lookup_key "$options" es with
    | JStr p, JStr o => if re_valid p o then inr [FRegex k p o] else inl (RegexError p)
    | JStr p, JUndefined => if re_valid p "" then inr [FRegex k p ""] else inl (RegexError p)
    | _, _ => inl (CastError k)
    end
  else if String.eqb op "$options" then
    match lookup_key "$regex" es with
    | JUndefined => inl (StoreError "$options needs a $regex")
    | _ => inr []
    end
  else if String.eqb op "$eq" then
    let* o := cast_operand k v in inr [match o with Some x => FEq k x | None => FNull k end]
  else if String.eqb op "$ne" then let* o := cast_operand k v in inr [FNe k o]
  else if String.eqb op "$gt" then let* o := cast_operand k v in inr [FCmp k OGt o]
  else if String.eqb op "$gte" then let* o := cast_operand k v in inr [FCmp k OGte o]
  else if String.eqb op "$lt" then let* o := cast_operand k v in inr [FCmp k OLt o]
  else if String.eqb op "$lte" then let* o := cast_operand k v in inr [FCmp k OLte o]
  else if String.eqb op "$in" || String.eqb op "$nin" then
    let* os := cast_operands k (match v with JArr l => l | _ => [v] end) in
    inr [if String.eqb op "$in" then FIn k os else FNin k os]
  else if String.eqb op "$exists" then let* b := cast_bool_query k v in inr [FExists k b]
  else if String.eqb op "$all" then
    let* os := cast_operands k (match v with JArr l => l | _ => [v] end) in inr [FAll k os]
  else inl (CastError k).

(** The entries of a condition object, each cast by the path's handler. *)
Fixpoint compile_handlers (k : string) (all es : list (string * jsval)) : fault + list filter :=
  match es with
  | [] => inr []
  | (op, x) :: es' =>
      let* fs := compile_op k all op x in let* fs' := compile_handlers k all es' in inr (fs ++ fs')
  end.

(** [$not] (Mongoose's cast.js): an object whose first key is an
    operator has each of its entries cast by the path's handlers, so a
    nested [$not] fails; the condition is their conjunction, negated.
    Another operand is cast as one value with the path's [$not] handler
    (String has one, ObjectId none) and then refused by MongoDB ("$not
    needs a regex or a document"), as [null] is. *)
Definition compile_not (k : string) (v : jsval) : fault + list filter :=
  match v with
  | JObj (((op0, _) :: _) as nes) =>
      if String.prefix "$" op0 then let* fs := compile_handlers k nes nes in inr [FNot (FAnd fs)]
      else inl (CastError k)
  | JObj [] | JArr _ => inl (CastError k)
  | JNull | JUndefined => inl (StoreError "$not needs a regex or a document")
  | _ => if is_oid_path k then inl (CastError k) else inl (StoreError "$not needs a regex or a document")
  end.

Fixpoint compile_ops (k : string) (all es : list (string * jsval)) : fault + list filter :=
  match es with
  | [] => inr []
  | (op, v) :: es' =>
      let* fs := if String.eqb op "$not" then compile_not k v else compile_op k all op v in
      let* fs' := compile_ops k all es' in inr (fs ++ fs')
  end.

(** The condition on a path: an equality (cast to an ObjectId on the
    ObjectId paths, a number or boolean cast to its string elsewhere), or
    an object of operators, all of which must hold; an object without
    operators is cast as a whole and fails. *)
Definition compile_cond (k : string) (v : jsval) : fault + filter :=
  match v with
  | JStr s =>
      if is_oid_path k then
        match oid_cast s with Some id => inr (FEq k id) | None => inl (CastError k) end
      else inr (FEq k s)
  | JNum _ | JBool _ =>
      if is_oid_path k then inl (CastError k)
      else match cast_string k v with inr (Some s) => inr (FEq k s) | _ => inl (CastError k) end
  | JObj es =>
      if existsb (fun e => String.prefix "$" (fst e)) es then
        let* fs := compile_ops k es es in
        inr (match fs with [f] => f | _ => FAnd fs end)
      else inl (CastError k)
  | _ => inl (CastError k)
  end.

Fixpoint compile (q : jsval) : fault + filter :=
  match q with
  | JObj es =>
      let fix entries (es : list (string * jsval)) : fault + list filter :=
        match es with
        | [] => inr []
        | (k, v) :: es' =>
            let* f :=
              if String.eqb k "$or" || String.eqb k "$and" then
                match v with
                | JArr items =>
                    let fix each (l : list jsval) : fault + list filter :=
                      match l with
                      | [] => inr []
                      | x :: l' => let* f := compile x in let* fs := each l' in inr (f :: fs)
                      end in
                    let* fs := each items in
                    match fs with
                    | [] => inl (CastError k)
                    | _ => inr (if String.eqb k "$or" then FOr fs else FAnd fs)
                    end
                | _ => inl (CastError k)
                end
              else compile_cond k v in
            let* fs := entries es' in
            inr (f :: fs)
        end in
      let* fs := entries es in
      inr (FAnd fs)
  | _ => inl (CastError "filter")
  end.

(** Equality of values, [null] (or a missing field) equal to [null]. *)
Definition opt_eqb (a b : option string) : bool :=
  match a, b with
  | Some x, Some y => String.eqb x y
  | None, None => true
  | _, _ => false
  end.

(** MongoDB's order on strings: byte-wise, as [String.compare] on ASCII. *)
Definition cmp_holds (op : cmp_op) (c : comparison) : bool :=
  match op, c with
  | OGt, Gt | OGte, (Gt | Eq) | OLt, Lt | OLte, (Lt | Eq) => true
  | _, _ => false
  end.

(** [d] satisfies [f], the document's paths read by [get] ([None]: the
    field is missing or null, which this model does not tell apart). *)
Fixpoint fmatch_on {D : Type} (get : D -> string -> option string) (f : filter) (d : D) : bool :=
  match f with
  | FAnd fs => forallb (fun g => fmatch_on get g d) fs
  | FOr fs => existsb (fun g => fmatch_on get g d) fs
  | FEq k s => match get d k with Some v => String.eqb v s | None => false end
  | FRegex k p o => match get d k with Some v => re_test p o v | None => false end
  | FNull k => match get d k with Some _ => false | None => true end
  | FNe k o => negb (opt_eqb (get d k) o)
  | FCmp k op (Some s) => match get d k with Some v => cmp_holds op (String.compare v s) | None => false end
  | FCmp k op None =>
      match op with OGte | OLte => match get d k with Some _ => false | None => true end | _ => false end
  | FIn k os => existsb (opt_eqb (get d k)) os
  | FNin k os => negb (existsb (opt_eqb (get d k)) os)
  | FExists k b => Bool.eqb (match get d k with Some _ => true | None => false end) b
  | FAll k os => match os with [] => false | _ => forallb (opt_eqb (get d k)) os end
  | FNot g => negb (fmatch_on get g d)
  end.

(** A Task document satisfies [f]. *)
Definition fmatch (f : filter) (t : task) : bool := fmatch_on get_path f t.
Arguments fmatch f t /.
End Compile.

Section CompileLemmas.
Context `{RegexEngine}.

Definition no_not (es : list (string * jsval)) : bool :=
  forallb (fun e => negb (String.eqb e.1 "$not")) es.

Lemma compile_ops_handlers (k : string) (all es : list (string * jsval)) :
  no_not es = true -> compile_ops k all es = compile_handlers k all es.
Proof.
  induction es as [|[op v] es IH]; [done|]. simpl. intros [Hop Hes]%andb_prop.
  apply negb_true_iff in Hop. rewrite Hop, IH by done. done.
Qed.

Lemma fmatch_single {D : Type} (get : D -> string -> option string) (fs : list filter) (d : D) :
  fmatch_on get (match fs with [f] => f | _ => FAnd fs end) d = fmatch_on get (FAnd fs) d.
Proof. destruct fs as [|f [|]]; simpl; rewrite ?andb_true_r; done. Qed.

(** [{ $not: c }] on a path matches exactly the documents the condition
    object [c] does not match, when [c] starts with an operator and
    holds no [$not] of its own; documents without the field included. *)
Lemma compile_not_complement (k op0 : string) (v0 : jsval) (es : list (string * jsval))
    (f : filter) :
  String.prefix "$" op0 = true -> no_not ((op0, v0) :: es) = true ->
  compile_cond k (JObj ((op0, v0) :: es)) = inr f ->
  exists g, compile_cond k (JObj [("$not", JObj ((op0, v0) :: es))]) = inr g /\
            forall (D : Type) (get : D -> string -> option string) (d : D),
              fmatch_on get g d = negb (fmatch_on get f d).
Proof.
  intros Hp Hn.
  assert (E : compile_cond k (JObj ((op0, v0) :: es)) =
              let* fs := compile_handlers k ((op0, v0) :: es) ((op0, v0) :: es) in
              inr (match fs with [f] => f | _ => FAnd fs end)).
  { rewrite <- compile_ops_handlers by done. unfold compile_cond. cbn [existsb fst]. by rewrite Hp. }
  rewrite E. unfold compile_cond, compile_ops, compile_not. cbn [existsb fst]. rewrite Hp.
  destruct (compile_handlers k _ _) as [e|fs]; simpl; [done|]. intros [= <-].
  eexists; split; [reflexivity|]. intros D get d. simpl. by rewrite ?andb_true_r, fmatch_single.
Qed.

End CompileLemmas.

(** ** Object spread *)

(** [{ ...es, k: v }]: an existing key keeps its position and takes the
    new value; a new key goes last. *)
Fixpoint set_field (es : list (string * jsval)) (k : string) (v : jsval) :
    list (string * jsval) :=
  match es with
  | [] => [(k, v)]
  | (k', v') :: es' => if String.eqb k' k then (k, v) :: es' else (k', v') :: set_field es' k v
  end.

Definition spread (q : jsval) (k : string) (v : jsval) : jsval :=
  match q with
  | JObj es => JObj (set_field es k v)
  | _ => JObj [(k, v)]
  end.

End Query.
