(* ===== verification/Regex.v ===== *)
(** * A [$regex] engine

    MongoDB evaluates [$regex] with PCRE.  This file gives the subset the
    task search can meet a semantics: literal characters, [.], classes
    [[...]] with ranges and negation, the escapes [\d \w \s \D \W \S],
    escaped punctuation, groups, alternation, the quantifiers [* + ?]
    and the counted repetitions [{n}], [{n,}], [{n,m}] (greedy or lazy;
    bounds at most 65535 and in order, a [{] that opens no quantifier is
    a literal), and the anchors [^] and [$] (single-line).  A
    pattern is parsed ([parse]) into [re]; a subject is searched
    ([search]) by Brzozowski derivatives: [run] reads the subject one
    character at a time and asks at each position whether the residual
    expression accepts the empty word.  Patterns outside the subset
    (back references, [\b], possessive quantifiers, the [{,m}] form of
    PCRE2 10.43) are refused, as an invalid pattern is.  [pcre_engine]
    is the resulting [RegexEngine]; [pcre_engine_laws] proves it meets
    the laws of [Query] on literal patterns. *)

From Stdlib Require Import Ascii String NArith.
From stdpp Require Import base list strings options.
From S2P Require Import Prelude Js Query.

Module Regex.
Import Js Query.

(** ** Syntax *)

Inductive cclass : Type :=
| CLit (c : ascii)                              (** one character *)
| CAny                                          (** [.]: all but newline *)
| CSet (neg : bool) (ranges : list (ascii * ascii)).   (** [[...]] *)

Inductive re : Type :=
| RNone                (** matches nothing *)
| REps                 (** the empty word *)
| RChr (k : cclass)
| RBol                 (** [^] *)
| REol                 (** [$] *)
| RCat (a b : re)
| RAlt (a b : re)
| RStar (a : re).

(** ** Matching *)

Definition to_upper (c : ascii) : ascii :=
  let n := nat_of_ascii c in
  if (97 <=? n) && (n <=? 122) then ascii_of_nat (n - 32) else c.

Definition in_range (c : ascii) (rg : ascii * ascii) : bool :=
  (nat_of_ascii rg.1 <=? nat_of_ascii c) && (nat_of_ascii c <=? nat_of_ascii rg.2).

(** [c] is in the class [k]; [ic] is the [i] option. *)
Definition cmatch (ic : bool) (k : cclass) (c : ascii) : bool :=
  match k with
  | CLit d => if ic then Ascii.eqb (to_lower d) (to_lower c) else Ascii.eqb d c
  | CAny => negb (Ascii.eqb c "010"%char)
  | CSet neg rs =>
      let hit x := existsb (in_range x) rs in
      xorb neg (hit c || (ic && (hit (to_lower c) || hit (to_upper c))))
  end.

(** [r] accepts the empty word at a position that is the start of the
    subject when [bol] and its end when [eol]. *)
Fixpoint nullable (bol eol : bool) (r : re) : bool :=
  match r with
  | RNone | RChr _ => false
  | REps | RStar _ => true
  | RBol => bol
  | REol => eol
  | RCat a b => nullable bol eol a && nullable bol eol b
  | RAlt a b => nullable bol eol a || nullable bol eol b
  end.

Definition ralt (a b : re) : re :=
  match a, b with RNone, _ => b | _, RNone => a | _, _ => RAlt a b end.

Definition rcat (a b : re) : re :=
  match a, b with
  | RNone, _ | _, RNone => RNone
  | REps, _ => b
  | _, REps => a
  | _, _ => RCat a b
  end.

(** The derivative of [r] by the character [c] read at a position that
    is the start of the subject when [bol]. *)
Fixpoint deriv (ic bol : bool) (c : ascii) (r : re) : re :=
  match r with
  | RNone | REps | RBol | REol => RNone
  | RChr k => if cmatch ic k c then REps else RNone
  | RCat a b =>
      if nullable bol false a then ralt (rcat (deriv ic bol c a) b) (deriv ic bol c b)
      else rcat (deriv ic bol c a) b
  | RAlt a b => ralt (deriv ic bol c a) (deriv ic bol c b)
  | RStar a => rcat (deriv ic bol c a) (RStar a)
  end.

(** [r] matches a prefix of [s]. *)
Fixpoint run (ic bol : bool) (r : re) (s : list ascii) : bool :=
  match s with
  | [] => nullable bol true r
  | c :: s' => nullable bol false r || run ic false (deriv ic bol c r) s'
  end.

(** [r] matches a factor of [s]: [RegExp.prototype.test]. *)
Fixpoint search_from (ic bol : bool) (r : re) (s : list ascii) : bool :=
  run ic bol r s || match s with [] => false | _ :: s' => search_from ic false r s' end.

Definition search (ic : bool) (r : re) (s : list ascii) : bool := search_from ic true r s.

(** ** Parsing *)

Definition is_meta (c : ascii) : bool := existsb (Ascii.eqb c) regex_meta.

Definition is_digit (c : ascii) : bool := in_range c ("0", "9")%char.

Definition is_alnum (c : ascii) : bool :=
  is_digit c || in_range c ("a", "z")%char || in_range c ("A", "Z")%char.

Definition digit_ranges : list (ascii * ascii) := [("0", "9")%char].
Definition word_ranges : list (ascii * ascii) :=
  [("a", "z"); ("A", "Z"); ("0", "9"); ("_", "_")]%char.
Definition space_ranges : list (ascii * ascii) := [(" ", " "); ("009", "013")]%char.

(** [\d], [\w], [\s]. *)
Definition class_escape (c : ascii) : option (list (ascii * ascii)) :=
  if Ascii.eqb c "d" then Some digit_ranges
  else if Ascii.eqb c "w" then Some word_ranges
  else if Ascii.eqb c "s" then Some space_ranges
  else None.

(** The character an escape [\c] stands for, when it stands for one. *)
Definition escape_char (c : ascii) : option ascii :=
  if Ascii.eqb c "n" then Some "010"%char
  else if Ascii.eqb c "t" then Some "009"%char
  else if Ascii.eqb c "r" then Some "013"%char
  else if is_alnum c then None
  else Some c.

(** [\c] outside a class. *)
Definition escape_atom (c : ascii) : option re :=
  match class_escape c with
  | Some rs => Some (RChr (CSet false rs))
  | None =>
      match class_escape (to_lower c) with
      | Some rs => if negb (Ascii.eqb c (to_lower c)) then Some (RChr (CSet true rs)) else None
      | None => option_map (fun d => RChr (CLit d)) (escape_char c)
      end
  end.

(** The items of a class after [[] or [[^], up to the closing []];
    a [] that comes first is literal.  Each item reads a character, so
    [length s] steps suffice. *)
Fixpoint p_class (n : nat) (first : bool) (s : list ascii) :
    option (list (ascii * ascii) * list ascii) :=
  match n, s with
  | O, _ | _, [] => None
  | S n', c :: s1 =>
      if Ascii.eqb c "]" && negb first then Some ([], s1)
      else
        let item_rest :=
          if Ascii.eqb c "\" then
            match s1 with
            | [] => None
            | d :: s2 =>
                match class_escape d with
                | Some rs => Some (rs, s2)
                | None => option_map (fun e => ([(e, e)], s2)) (escape_char d)
                end
            end
          else
            match s1 with
            | m :: e :: s2 =>
                if Ascii.eqb m "-" && negb (Ascii.eqb e "]") then
                  if nat_of_ascii c <=? nat_of_ascii e then Some ([(c, e)], s2) else None
                else Some ([(c, c)], s1)
            | _ => Some ([(c, c)], s1)
            end in
        match item_rest with
        | Some (rs, s2) =>
            match p_class n' false s2 with
            | Some (rs', s3) => Some (rs ++ rs', s3)
            | None => None
            end
        | None => None
        end
  end.

(** The decimal digits at the head of [s], and what follows them. *)
Fixpoint digits_span (s : list ascii) : list ascii * list ascii :=
  match s with
  | c :: s1 => if is_digit c then let '(ds, s2) := digits_span s1 in (c :: ds, s2) else ([], s)
  | [] => ([], [])
  end.

(** The number the digits [ds] write, most significant first. *)
Definition digits_value (ds : list ascii) : N :=
  fold_left (fun acc c => 10 * acc + N.of_nat (nat_of_ascii c - 48))%N ds 0%N.

(** [{n}], [{n,}] or [{n,m}], read after the [{]: the two bounds ([None]
    for no upper bound) and what follows the [}].  Anything else is not a
    quantifier, and its [{] is a literal character. *)
Definition p_count (s : list ascii) : option (N * option N * list ascii) :=
  match digits_span s with
  | ([], _) | (_, []) => None
  | (ds, c :: s1) =>
      if Ascii.eqb c "}" then Some (digits_value ds, Some (digits_value ds), s1)
      else if Ascii.eqb c "," then
        match digits_span s1 with
        | (es, d :: s2) =>
            if Ascii.eqb d "}" then
              Some (digits_value ds, match es with [] => None | _ => Some (digits_value es) end, s2)
            else None
        | (_, []) => None
        end
      else None
  end.

(** PCRE's limit on the bounds of a counted repetition, and its order
    check. *)
Definition count_max : N := 65535.

Definition count_ok (lo : N) (hi : option N) : bool :=
  (lo <=? count_max)%N &&
  match hi with Some h => (h <=? count_max)%N && (lo <=? h)%N | None => true end.

(** [a] [n] times in a row. *)
Fixpoint rep_re (n : nat) (a : re) : re :=
  match n with O => REps | S n' => RCat a (rep_re n' a) end.

(** [a{lo,hi}]: [lo] copies of [a], then [hi - lo] optional ones, or [a*]
    when there is no upper bound. *)
Definition count_re (a : re) (lo : N) (hi : option N) : re :=
  RCat (rep_re (N.to_nat lo) a)
    match hi with
    | Some h => rep_re (N.to_nat (h - lo)) (RAlt a REps)
    | None => RStar a
    end.

(** The quantifier at the head of [s], if there is one: [Some (Some r,
    s')] for a valid one, [Some (None, s')] for a counted repetition whose
    bounds PCRE refuses. *)
Definition quantifier (a : re) (s : list ascii) : option (option re * list ascii) :=
  match s with
  | c :: s1 =>
      if Ascii.eqb c "*" then Some (Some (RStar a), s1)
      else if Ascii.eqb c "+" then Some (Some (RCat a (RStar a)), s1)
      else if Ascii.eqb c "?" then Some (Some (RAlt a REps), s1)
      else if Ascii.eqb c "{" then
        match p_count s1 with
        | Some (lo, hi, s2) => Some (if count_ok lo hi then Some (count_re a lo hi) else None, s2)
        | None => None
        end
      else None
  | [] => None
  end.

(** A quantifier after an atom: [*], [+], [?] or a counted repetition,
    each possibly lazy ([?]); a possessive [+] or a second [*] is
    refused. *)
Definition p_quant (a : re) (s : list ascii) : option (re * list ascii) :=
  match quantifier a s with
  | None => Some (a, s)
  | Some (None, _) => None
  | Some (Some r, s1) =>
      match s1 with
      | d :: s2 =>
          if Ascii.eqb d "?" then Some (r, s2)
          else if Ascii.eqb d "*" || Ascii.eqb d "+" then None
          else Some (r, s1)
      | [] => Some (r, [])
      end
  end.

Fixpoint p_alt (n : nat) (s : list ascii) {struct n} : option (re * list ascii) :=
  match n with
  | O => None
  | S n' =>
      match p_seq n' s with
      | Some (r1, c :: s1) =>
          if Ascii.eqb c "|" then
            match p_alt n' s1 with
            | Some (r2, s2) => Some (RAlt r1 r2, s2)
            | None => None
            end
          else Some (r1, c :: s1)
      | o => o
      end
  end
with p_seq (n : nat) (s : list ascii) {struct n} : option (re * list ascii) :=
  match n with
  | O => None
  | S n' =>
      match s with
      | [] => Some (REps, [])
      | c :: _ =>
          if Ascii.eqb c "|" || Ascii.eqb c ")" then Some (REps, s)
          else
            match p_atom n' s with
            | Some (a, s1) =>
                match p_seq n' s1 with
                | Some (r, s2) => Some (RCat a r, s2)
                | None => None
                end
            | None => None
            end
      end
  end
with p_atom (n : nat) (s : list ascii) {struct n} : option (re * list ascii) :=
  match n with
  | O => None
  | S n' =>
      match p_base n' s with
      | Some (a, s1) => p_quant a s1
      | None => None
      end
  end
with p_base (n : nat) (s : list ascii) {struct n} : option (re * list ascii) :=
  match n with
  | O => None
  | S n' =>
      match s with
      | [] => None
      | c :: s1 =>
          if negb (is_meta c) then Some (RChr (CLit c), s1)
          else if Ascii.eqb c "(" then
            match p_alt n' s1 with
            | Some (r, d :: s2) => if Ascii.eqb d ")" then Some (r, s2) else None
            | _ => None
            end
          else if Ascii.eqb c "[" then
            match s1 with
            | d :: s2 =>
                if Ascii.eqb d "^" then
                  option_map (fun p => (RChr (CSet true p.1), p.2)) (p_class (length s2) true s2)
                else option_map (fun p => (RChr (CSet false p.1), p.2)) (p_class (length s1) true s1)
            | [] => None
            end
          else if Ascii.eqb c "." then Some (RChr CAny, s1)
          else if Ascii.eqb c "^" then Some (RBol, s1)
          else if Ascii.eqb c "$" then Some (REol, s1)
          else if Ascii.eqb c "\" then
            match s1 with
            | d :: s2 => option_map (fun r => (r, s2)) (escape_atom d)
            | [] => None
            end
          else if Ascii.eqb c "]" || Ascii.eqb c "}" then Some (RChr (CLit c), s1)
          else if Ascii.eqb c "{" then
            match p_count s1 with
            | Some _ => None
            | None => Some (RChr (CLit c), s1)
            end
          else None
      end
  end.

(** Each of the four functions passes one step less to the next, and
    [p_alt] is entered again only after a character ([(] or [|]) has been
    read, so [4 * length + 4] steps suffice: with more the parse is the
    same ([parse_fuel]). *)
Definition parse_fuel_of (cs : list ascii) : nat := 4 * length cs + 4.

Definition parse (p : string) : option re :=
  let cs := list_ascii_of_string p in
  match p_alt (parse_fuel_of cs) cs with
  | Some (r, []) => Some r
  | _ => None
  end.

#[export] Instance pcre_engine : RegexEngine := {
  re_valid p _ := match parse p with Some _ => true | None => false end;
  re_test p o s :=
    match parse p with
    | Some r => search (has_flag_i o) r (list_ascii_of_string s)
    | None => false
    end
}.

(** ** Literal patterns *)

(** The expression of a pattern without metacharacters. *)
Fixpoint lit_re (cs : list ascii) : re :=
  match cs with
  | [] => REps
  | c :: cs' => RCat (RChr (CLit c)) (lit_re cs')
  end.

Lemma not_meta_eqb (c x : ascii) : is_meta c = false -> is_meta x = true -> Ascii.eqb c x = false.
Proof. intros H1 H2. destruct (Ascii.eqb_spec c x); [subst; congruence|done]. Qed.

Lemma p_seq_step (n : nat) (c : ascii) (s : list ascii) :
  Ascii.eqb c "|" = false -> Ascii.eqb c ")" = false ->
  p_seq (S n) (c :: s) =
  match p_atom n (c :: s) with
  | Some (a, s1) => match p_seq n s1 with Some (r, s2) => Some (RCat a r, s2) | None => None end
  | None => None
  end.
Proof. intros H1 H2. cbn [p_seq]. by rewrite H1, H2. Qed.

(** A character without meaning, not followed by a quantifier, is an
    atom by itself. *)
Lemma p_atom_lit (n : nat) (c : ascii) (s : list ascii) :
  is_meta c = false -> forallb (fun d => negb (is_meta d)) s = true ->
  p_atom (S (S n)) (c :: s) = Some (RChr (CLit c), s).
Proof.
  intros Hc Hs. cbn [p_atom p_base]. rewrite Hc. simpl.
  destruct s as [|d s]; [done|]. simpl in Hs. apply andb_prop in Hs as [Hd%negb_true_iff _].
  unfold p_quant, quantifier. rewrite !(not_meta_eqb d) by done. done.
Qed.

Lemma p_seq_lit (cs : list ascii) (n : nat) :
  forallb (fun c => negb (is_meta c)) cs = true -> length cs + 2 <= n ->
  p_seq n cs = Some (lit_re cs, []).
Proof.
  revert n. induction cs as [|c cs IH]; intros n Hl Hn; simpl in *.
  - by destruct n; [lia|].
  - apply andb_prop in Hl as [Hc%negb_true_iff Hl].
    destruct n as [|[|[|n]]]; try lia.
    rewrite p_seq_step, p_atom_lit, IH by (done || lia || by apply not_meta_eqb). done.
Qed.

(** A pattern without metacharacters parses to the chain of its
    characters. *)
Lemma parse_literal (p : string) :
  is_literal p = true -> parse p = Some (lit_re (list_ascii_of_string p)).
Proof.
  intros Hl. unfold parse, parse_fuel_of.
  replace (4 * length (list_ascii_of_string p) + 4)
    with (S (4 * length (list_ascii_of_string p) + 3)) by lia.
  cbn [p_alt]. rewrite p_seq_lit by (exact Hl || lia). done.
Qed.

(** ** The fuel of the parser suffices *)

Lemma digits_span_app (s : list ascii) : s = (digits_span s).1 ++ (digits_span s).2.
Proof.
  induction s as [|c s IH]; [done|]. simpl.
  destruct (is_digit c); [|done]. destruct (digits_span s). simpl in *. by f_equal.
Qed.

Lemma digits_span_length (s : list ascii) (ds s' : list ascii) :
  digits_span s = (ds, s') -> length s = length ds + length s'.
Proof. intros E. rewrite (digits_span_app s), E. apply length_app. Qed.

Lemma p_count_suffix (s s' : list ascii) (lo : N) (hi : option N) :
  p_count s = Some (lo, hi, s') -> length s' < length s.
Proof.
  unfold p_count. destruct (digits_span s) as [ds s1] eqn:E. apply digits_span_length in E.
  destruct ds, s1 as [|c s1]; try discriminate. simpl in E.
  case_match; [intros [= _ _ <-]; lia|]. case_match; [|discriminate].
  destruct (digits_span s1) as [es [|d s2]] eqn:E2; [discriminate|].
  apply digits_span_length in E2. simpl in E2. case_match; [|discriminate].
  intros [= _ _ <-]. lia.
Qed.

Lemma p_quant_suffix (a r : re) (s s' : list ascii) :
  p_quant a s = Some (r, s') -> length s' <= length s.
Proof.
  unfold p_quant, quantifier. intros H.
  repeat (case_match; simplify_eq/=);
    repeat match goal with H : p_count _ = Some _ |- _ => apply p_count_suffix in H end;
    simpl in *; lia.
Qed.

Lemma p_class_suffix (n : nat) (first : bool) (s s' : list ascii) (rs : list (ascii * ascii)) :
  p_class n first s = Some (rs, s') -> length s' < length s.
Proof.
  revert first s rs. induction n as [|n IH]; intros first [|c s1] rs; simpl; try discriminate.
  case_match; [intros [= _ <-]; simpl; lia|].
  destruct (if Ascii.eqb c "\" then _ else _) as [[rs0 s2]|] eqn:Hi; [|discriminate].
  destruct (p_class n false s2) as [[rs' s3]|] eqn:Hc; [|discriminate]. intros [= _ <-].
  apply IH in Hc. enough (length s2 <= length s1) by (simpl; lia).
  revert Hi. unfold option_map. repeat (case_match; simplify_eq/=); intros; simplify_eq/=; lia.
Qed.

#[local] Arguments p_class : simpl never.

(** What the parser leaves unread is a suffix of its input, strictly
    shorter after an atom. *)
Lemma p_suffix (n : nat) :
  (forall s r s', p_alt n s = Some (r, s') -> length s' <= length s) /\
  (forall s r s', p_seq n s = Some (r, s') -> length s' <= length s) /\
  (forall s r s', p_atom n s = Some (r, s') -> length s' < length s) /\
  (forall s r s', p_base n s = Some (r, s') -> length s' < length s).
Proof.
  induction n as [|n (IHa & IHs & IHt & IHb)]; [split_and!; discriminate|].
  split_and!; intros s r s'; cbn [p_alt p_seq p_atom p_base].
  - destruct (p_seq n s) as [[r1 [|c s1]]|] eqn:E; [intros [= _ <-]; simpl; lia| |discriminate].
    apply IHs in E. case_match; [|intros [= _ <-]; lia].
    destruct (p_alt n s1) as [[r2 s2]|] eqn:E2; [|discriminate]. intros [= _ <-].
    apply IHa in E2. simpl in E. lia.
  - destruct s as [|c s0]; [intros [= _ <-]; done|]. case_match; [intros [= _ <-]; done|].
    destruct (p_atom n _) as [[a s1]|] eqn:E; [|discriminate]. apply IHt in E.
    destruct (p_seq n s1) as [[r2 s2]|] eqn:E2; [|discriminate]. intros [= _ <-].
    apply IHs in E2. lia.
  - destruct (p_base n s) as [[a s1]|] eqn:E; [|discriminate]. apply IHb in E.
    intros Hq%p_quant_suffix. lia.
  - destruct s as [|c s1]; [discriminate|]. simpl. unfold option_map.
    repeat case_match; intros; simplify_eq/=;
      repeat match goal with
      | H : p_alt n _ = Some _ |- _ => apply IHa in H
      | H : p_class _ _ _ = Some (_, _) |- _ => apply p_class_suffix in H
      | H : p_class _ _ _ = Some ?p |- _ => destruct p
      end; simpl in *; lia.
Qed.

(** Fuel beyond [4 * length + 4] does not change what [p_alt] returns,
    nor the other three functions beyond their own bounds. *)
Lemma p_fuel (n : nat) :
  (forall s m, 4 * length s + 4 <= n -> n <= m -> p_alt m s = p_alt n s) /\
  (forall s m, 4 * length s + 3 <= n -> n <= m -> p_seq m s = p_seq n s) /\
  (forall s m, 4 * length s + 2 <= n -> n <= m -> p_atom m s = p_atom n s) /\
  (forall s m, 4 * length s + 1 <= n -> n <= m -> p_base m s = p_base n s).
Proof.
  induction n as [|n (IHa & IHs & IHt & IHb)]; [split_and!; intros; lia|].
  split_and!; intros s [|m] Hn Hm; try lia; cbn [p_alt p_seq p_atom p_base].
  - rewrite (IHs s m) by lia.
    destruct (p_seq n s) as [[r1 [|c s1]]|] eqn:E; [done| |done].
    apply (proj1 (proj2 (p_suffix n))) in E. simpl in E.
    by rewrite (IHa s1 m) by lia.
  - destruct s as [|c s0]; [done|]. simpl in Hn. case_match; [done|].
    rewrite (IHt (c :: s0) m) by (simpl; lia).
    destruct (p_atom n (c :: s0)) as [[a s1]|] eqn:E; [|done].
    apply (proj1 (proj2 (proj2 (p_suffix n)))) in E. simpl in E.
    by rewrite (IHs s1 m) by lia.
  - by rewrite (IHb s m) by lia.
  - destruct s as [|c s1]; [done|]. simpl in Hn.
    by rewrite (IHa s1 m) by lia.
Qed.

(** The parse of a pattern is the parse with any fuel beyond the bound:
    [parse] is the parser run to completion, not cut short. *)
Theorem parse_fuel (p : string) (n : nat) :
  parse_fuel_of (list_ascii_of_string p) <= n ->
  parse p = match p_alt n (list_ascii_of_string p) with
            | Some (r, []) => Some r
            | _ => None
            end.
Proof.
  unfold parse, parse_fuel_of. intros Hn.
  by rewrite ((proj1 (p_fuel (4 * length (list_ascii_of_string p) + 4))) _ n) by lia.
Qed.

Lemma rcat_eps_l (b : re) : b <> RNone -> rcat REps b = b.
Proof. destruct b; done. Qed.

Lemma lit_re_not_none (cs : list ascii) : lit_re cs <> RNone.
Proof. by destruct cs. Qed.

Lemma run_none (ic bol : bool) (s : list ascii) : run ic bol RNone s = false.
Proof. revert bol. induction s; simpl; auto. Qed.

Lemma run_eps (ic bol : bool) (s : list ascii) : run ic bol REps s = true.
Proof. by destruct s. Qed.

(** On a literal, [run] with the [i] option is a case-insensitive
    prefix test. *)
Lemma run_lit (cs : list ascii) (bol : bool) (h : string) :
  run true bol (lit_re cs) (list_ascii_of_string h) =
  String.prefix (lower (string_of_list_ascii cs)) (lower h).
Proof.
  revert bol h. induction cs as [|c cs IH]; intros bol h; [by rewrite run_eps; destruct (lower h)|].
  destruct h as [|d h]; [done|]. simpl.
  destruct (Ascii.eqb_spec (to_lower c) (to_lower d)) as [E|E];
    destruct (ascii_dec (to_lower c) (to_lower d)); try done.
  - rewrite rcat_eps_l by apply lit_re_not_none. apply IH.
  - apply run_none.
Qed.

Lemma search_from_eq (ic bol : bool) (r : re) (s : list ascii) :
  search_from ic bol r s =
  run ic bol r s || match s with [] => false | _ :: s' => search_from ic false r s' end.
Proof. by destruct s. Qed.

Lemma search_lit (cs : list ascii) (bol : bool) (h : string) :
  search_from true bol (lit_re cs) (list_ascii_of_string h) =
  contains (lower (string_of_list_ascii cs)) (lower h).
Proof.
  revert bol. induction h as [|d h IH]; intros bol.
  - rewrite search_from_eq, (run_lit cs bol ""). reflexivity.
  - rewrite search_from_eq, (run_lit cs bol (String d h)).
    change (list_ascii_of_string (String d h)) with (d :: list_ascii_of_string h).
    change (lower (String d h)) with (String (to_lower d) (lower h)).
    cbv iota. rewrite IH. reflexivity.
Qed.

#[export] Instance pcre_engine_laws : @RegexEngineLaws pcre_engine.
Proof.
  split; simpl.
  - intros p o Hl. by rewrite parse_literal.
  - intros p s Hl. rewrite parse_literal by done. unfold search.
    by rewrite search_lit, string_of_list_ascii_of_string.
Qed.

End Regex.
