(* ===== verification/RegexSpec.v ===== *)
(** * The [$regex] engine against its reference semantics

    [mt bol eol r w]: the expression [r] matches the word [w], where the
    position before [w] is the start of the subject exactly when [bol]
    and the position after it is the end exactly when [eol] (what the
    anchors read).  This is the textbook definition of the language of
    a regular expression with anchors; the theorems of this file show
    that the derivative matcher of [Regex] decides it: [nullable] is
    [mt] on the empty word, [deriv] is the quotient of [mt] by one
    character, [run] finds a matched prefix and [search] a matched
    factor; and the expansion of a counted repetition [a{n,m}] matches
    the words of between [n] and [m] consecutive matches of [a]. *)

From Stdlib Require Import Ascii String NArith.
From stdpp Require Import base list strings options.
From S2P Require Import Prelude Js Query Regex.

Module RegexSpec.
Import Js Query Regex.
Local Unset Default Proof Using.

Section Semantics.
Variable ic : bool.

Inductive mt : bool -> bool -> re -> list ascii -> Prop :=
| mt_eps bol eol : mt bol eol REps []
| mt_bol eol : mt true eol RBol []
| mt_eol bol : mt bol true REol []
| mt_chr bol eol k c : cmatch ic k c = true -> mt bol eol (RChr k) [c]
| mt_cat bol eol a b w1 w2 :
    mt bol (eol && bool_decide (w2 = [])) a w1 -> mt (bol && bool_decide (w1 = [])) eol b w2 ->
    mt bol eol (RCat a b) (w1 ++ w2)
| mt_alt_l bol eol a b w : mt bol eol a w -> mt bol eol (RAlt a b) w
| mt_alt_r bol eol a b w : mt bol eol b w -> mt bol eol (RAlt a b) w
| mt_star_nil bol eol a : mt bol eol (RStar a) []
| mt_star_cons bol eol a w1 w2 :
    mt bol (eol && bool_decide (w2 = [])) a w1 -> mt (bol && bool_decide (w1 = [])) eol (RStar a) w2 ->
    mt bol eol (RStar a) (w1 ++ w2).

Lemma nullable_spec (bol eol : bool) (r : re) : nullable bol eol r = true <-> mt bol eol r [].
Proof.
  split.
  - induction r; simpl; intros Hn; try discriminate.
    + constructor.
    + destruct bol; [constructor|done].
    + destruct eol; [constructor|done].
    + apply andb_prop in Hn as [Ha Hb]. apply (mt_cat _ _ _ _ [] []);
        rewrite ?andb_true_r; auto.
    + apply orb_prop in Hn as [Ha|Hb]; [apply mt_alt_l|apply mt_alt_r]; auto.
    + constructor.
  - remember [] as w eqn:Hw. induction 1; simpl; try done.
    + apply app_eq_nil in Hw as [-> ->]. rewrite !andb_true_r in *.
      rewrite IHmt1, IHmt2 by done. done.
    + rewrite IHmt; [done|done].
    + rewrite IHmt, orb_true_r; done.
Qed.

Lemma mt_none (bol eol : bool) (w : list ascii) : ~ mt bol eol RNone w.
Proof. inversion 1. Qed.

Ltac mt_none_contra :=
  match goal with H : mt _ _ RNone _ |- _ => exfalso; by apply mt_none in H end.

Lemma mt_ralt (bol eol : bool) (a b : re) (w : list ascii) :
  mt bol eol (ralt a b) w <-> mt bol eol (RAlt a b) w.
Proof.
  split.
  - destruct a, b; simpl; intros H; try (by apply mt_alt_l); try (by apply mt_alt_r); done.
  - intros H; destruct a, b; simpl; try exact H; inversion H; subst; try done; mt_none_contra.
Qed.

Lemma mt_cat_eps_l (bol eol : bool) (b : re) (w : list ascii) :
  mt bol eol (RCat REps b) w <-> mt bol eol b w.
Proof.
  split.
  - inversion 1 as [| | | |? ? ? ? w1 w2 Ha Hb| | | |]; subst.
    inversion Ha; subst. simpl. by rewrite andb_true_r in Hb.
  - intros H. apply (mt_cat _ _ _ _ [] w); [constructor|by rewrite andb_true_r].
Qed.

Lemma mt_cat_eps_r (bol eol : bool) (a : re) (w : list ascii) :
  mt bol eol (RCat a REps) w <-> mt bol eol a w.
Proof.
  split.
  - inversion 1 as [| | | |? ? ? ? w1 w2 Ha Hb| | | |]; subst.
    inversion Hb; subst. rewrite app_nil_r. by rewrite andb_true_r in Ha.
  - intros H. rewrite <- (app_nil_r w). apply mt_cat; [by rewrite andb_true_r|constructor].
Qed.

Lemma mt_rcat (bol eol : bool) (a b : re) (w : list ascii) :
  mt bol eol (rcat a b) w <-> mt bol eol (RCat a b) w.
Proof.
  destruct a, b; simpl; rewrite ?mt_cat_eps_l, ?mt_cat_eps_r; try done;
    split; intros H; try mt_none_contra; inversion H; subst; mt_none_contra.
Qed.

Lemma mt_cat_inv (bol eol : bool) (a b : re) (w : list ascii) :
  mt bol eol (RCat a b) w <->
  exists w1 w2, w = w1 ++ w2 /\ mt bol (eol && bool_decide (w2 = [])) a w1 /\
                mt (bol && bool_decide (w1 = [])) eol b w2.
Proof.
  split; [inversion 1; subst; eauto|]. intros (w1 & w2 & -> & Ha & Hb). by apply mt_cat.
Qed.

Lemma mt_alt_inv (bol eol : bool) (a b : re) (w : list ascii) :
  mt bol eol (RAlt a b) w <-> mt bol eol a w \/ mt bol eol b w.
Proof.
  split; [inversion 1; subst; auto|]. intros [H|H]; [by apply mt_alt_l|by apply mt_alt_r].
Qed.

Lemma mt_chr_inv (bol eol : bool) (k : cclass) (w : list ascii) :
  mt bol eol (RChr k) w <-> exists c, w = [c] /\ cmatch ic k c = true.
Proof. split; [inversion 1; subst; eauto|]. intros (c & -> & Hc). by constructor. Qed.

(** A non-empty word matched by a star: its first iteration reads a
    character. *)
Lemma mt_star_inv (bol eol : bool) (a : re) (c : ascii) (w : list ascii) :
  mt bol eol (RStar a) (c :: w) ->
  exists w1 w2, w = w1 ++ w2 /\ mt bol (eol && bool_decide (w2 = [])) a (c :: w1) /\
                mt false eol (RStar a) w2.
Proof.
  remember (RStar a) as r eqn:Er. remember (c :: w) as cw eqn:Ecw.
  intros H. revert c w Ecw. induction H; intros c0 w0 Ecw; try discriminate; simplify_eq.
  destruct w1 as [|d w1]; simpl in *.
  - rewrite andb_true_r in IHmt2. by apply IHmt2.
  - injection Ecw as <- <-. exists w1, w2. rewrite andb_false_r in H0. auto.
Qed.

(** The derivative by [c] matches [w] exactly when the expression
    matches [c :: w]. *)
Theorem deriv_spec (bol eol : bool) (c : ascii) (r : re) (w : list ascii) :
  mt false eol (deriv ic bol c r) w <-> mt bol eol r (c :: w).
Proof.
  revert bol eol w. induction r as [| |k| | |a IHa b IHb|a IHa b IHb|a IHa];
    intros bol eol w; simpl.
  - split; intros H; [by apply mt_none in H|inversion H].
  - split; intros H; [by apply mt_none in H|inversion H].
  - rewrite mt_chr_inv. destruct (cmatch ic k c) eqn:Hc.
    + split; [inversion 1; eauto|]. intros (d & [= <- ->] & _). constructor.
    + split; [intros H; by apply mt_none in H|]. intros (d & [= <- ->] & Hd). congruence.
  - split; intros H; [by apply mt_none in H|inversion H].
  - split; intros H; [by apply mt_none in H|inversion H].
  - rewrite mt_cat_inv. destruct (nullable bol false a) eqn:Hn.
    + rewrite mt_ralt, mt_alt_inv, mt_rcat, mt_cat_inv, IHb. split.
      * intros [(w1 & w2 & -> & Ha & Hb)|Hb].
        -- apply IHa in Ha. exists (c :: w1), w2. simpl in *. rewrite andb_false_r. auto.
        -- exists [], (c :: w). apply nullable_spec in Hn. simpl. rewrite andb_false_r, andb_true_r.
           auto.
      * intros ([|d w1] & w2 & Hw & Ha & Hb); simpl in *; subst.
        -- right. by rewrite andb_true_r in Hb.
        -- injection Hw as <- ->. left. exists w1, w2. rewrite andb_false_r in Hb.
           rewrite IHa. simpl. auto.
    + rewrite mt_rcat, mt_cat_inv. split.
      * intros (w1 & w2 & -> & Ha & Hb). apply IHa in Ha. exists (c :: w1), w2.
        simpl in *. rewrite andb_false_r. auto.
      * intros ([|d w1] & w2 & Hw & Ha & Hb); simpl in *; subst.
        -- rewrite andb_false_r in Ha. apply nullable_spec in Ha. congruence.
        -- injection Hw as <- ->. exists w1, w2. rewrite andb_false_r in Hb.
           rewrite IHa. simpl. auto.
  - rewrite mt_ralt, !mt_alt_inv, IHa, IHb. done.
  - rewrite mt_rcat, mt_cat_inv. split.
    + intros (w1 & w2 & -> & Ha & Hb). apply IHa in Ha.
      change (c :: w1 ++ w2) with ((c :: w1) ++ w2). apply mt_star_cons; [done|].
      simpl. by rewrite andb_false_r.
    + intros (w1 & w2 & -> & Ha & Hb)%mt_star_inv. exists w1, w2. rewrite IHa. simpl. auto.
Qed.

(** [run] finds a prefix of the subject that [r] matches. *)
Theorem run_spec (bol : bool) (r : re) (s : list ascii) :
  run ic bol r s = true <->
  exists w rest, s = w ++ rest /\ mt bol (bool_decide (rest = [])) r w.
Proof.
  revert bol r. induction s as [|c s IH]; intros bol r; simpl.
  - rewrite nullable_spec. split; [by exists [], []|].
    intros ([|? ?] & [|? ?] & Hs & H); done.
  - rewrite orb_true_iff, nullable_spec, IH. split.
    + intros [H|(w & rest & -> & H)]; [by exists [], (c :: s)|].
      apply deriv_spec in H. by exists (c :: w), rest.
    + intros ([|d w] & rest & Hs & H); simpl in Hs; subst; [by left|].
      injection Hs as <- ->. right. exists w, rest. split; [done|]. by apply deriv_spec.
Qed.

Lemma search_from_spec (bol : bool) (r : re) (s : list ascii) :
  search_from ic bol r s = true <->
  exists pre w post, s = pre ++ w ++ post /\
    mt (bol && bool_decide (pre = [])) (bool_decide (post = [])) r w.
Proof.
  revert bol. induction s as [|c s IH]; intros bol.
  - rewrite search_from_eq, orb_true_iff, run_spec. split.
    + intros [(w & rest & Hs & H)|?]; [|done]. exists [], w, rest. by rewrite andb_true_r.
    + intros ([|? ?] & [|? ?] & [|? ?] & Hs & H); try done. left. exists [], [].
      by rewrite andb_true_r in H.
  - rewrite search_from_eq, orb_true_iff, run_spec, IH. split.
    + intros [(w & rest & Hs & H)|(pre & w & post & -> & H)].
      * exists [], w, rest. by rewrite andb_true_r.
      * exists (c :: pre), w, post. by rewrite andb_false_r.
    + intros ([|d pre] & w & post & Hs & H); simpl in Hs.
      * left. exists w, post. by rewrite andb_true_r in H.
      * injection Hs as <- ->. right. exists pre, w, post. by rewrite andb_false_r in H.
Qed.

(** [search] ([RegExp.prototype.test]) decides whether [r] matches a
    factor of the subject, the anchors reading the subject's ends. *)
Theorem search_spec (r : re) (s : list ascii) :
  search ic r s = true <->
  exists pre w post, s = pre ++ w ++ post /\
    mt (bool_decide (pre = [])) (bool_decide (post = [])) r w.
Proof. unfold search. by rewrite search_from_spec. Qed.

(** ** Counted repetition *)

(** [k] consecutive matches of [a], the anchors of each reading the ends
    of the whole subject: the meaning of [a{k}]. *)
Inductive mt_times : bool -> bool -> nat -> re -> list ascii -> Prop :=
| times_O bol eol a : mt_times bol eol O a []
| times_S bol eol k a w1 w2 :
    mt bol (eol && bool_decide (w2 = [])) a w1 -> mt_times (bol && bool_decide (w1 = [])) eol k a w2 ->
    mt_times bol eol (S k) a (w1 ++ w2).

Lemma bool_decide_app_nil (w1 w2 : list ascii) :
  bool_decide (w1 ++ w2 = []) = bool_decide (w1 = []) && bool_decide (w2 = []).
Proof. rewrite <- bool_decide_and. apply bool_decide_ext, app_nil. Qed.

Lemma mt_rep (k : nat) (bol eol : bool) (a : re) (w : list ascii) :
  mt bol eol (rep_re k a) w <-> mt_times bol eol k a w.
Proof.
  revert bol eol w. induction k as [|k IH]; intros bol eol w; simpl.
  - split; inversion 1; subst; constructor.
  - rewrite mt_cat_inv. split.
    + intros (w1 & w2 & -> & Ha & Hr). apply IH in Hr. by constructor.
    + inversion 1; subst. exists w1, w2. rewrite IH. auto.
Qed.

Lemma mt_times_app (k1 k2 : nat) (bol eol : bool) (a : re) (w1 w2 : list ascii) :
  mt_times bol (eol && bool_decide (w2 = [])) k1 a w1 ->
  mt_times (bol && bool_decide (w1 = [])) eol k2 a w2 ->
  mt_times bol eol (k1 + k2) a (w1 ++ w2).
Proof.
  intros H. remember (eol && bool_decide (w2 = [])) as e eqn:He. revert eol He.
  induction H as [bol e a|bol e k a u1 u2 Hu Ht IH]; intros eol He H2; subst; simpl.
  - by rewrite andb_true_r in H2.
  - rewrite <- app_assoc. constructor.
    + rewrite bool_decide_app_nil, andb_assoc.
      by rewrite <- andb_assoc, (andb_comm (bool_decide (w2 = []))), andb_assoc in Hu.
    + apply IH; [done|]. by rewrite bool_decide_app_nil, andb_assoc in H2.
Qed.

Lemma mt_times_split (k1 k2 : nat) (bol eol : bool) (a : re) (w : list ascii) :
  mt_times bol eol (k1 + k2) a w ->
  exists w1 w2, w = w1 ++ w2 /\ mt_times bol (eol && bool_decide (w2 = [])) k1 a w1 /\
                mt_times (bol && bool_decide (w1 = [])) eol k2 a w2.
Proof.
  revert bol w. induction k1 as [|k1 IH]; intros bol w H; simpl in H.
  - exists [], w. rewrite andb_true_r. split_and!; [done|constructor|done].
  - inversion H as [|? ? ? ? u1 u2 Hu Ht]; subst.
    destruct (IH _ _ Ht) as (v1 & v2 & -> & H1 & H2).
    exists (u1 ++ v1), v2. rewrite <- app_assoc, bool_decide_app_nil, andb_assoc.
    split_and!; [done| |done]. constructor; [|done].
    by rewrite bool_decide_app_nil, andb_assoc, <- andb_assoc,
      (andb_comm (bool_decide (v1 = []))), andb_assoc in Hu.
Qed.

(** [n] optional copies of [a] match the words of at most [n] copies. *)
Lemma mt_times_opt (n : nat) (bol eol : bool) (a : re) (w : list ascii) :
  mt_times bol eol n (RAlt a REps) w <-> exists j, j <= n /\ mt_times bol eol j a w.
Proof.
  split.
  - remember (RAlt a REps) as r eqn:Er.
    induction 1 as [bol eol a'|bol eol k a' w1 w2 Hu Ht IH]; [exists 0; split; [lia|constructor]|].
    subst. destruct IH as (j & Hj & Hw); [done|]. apply mt_alt_inv in Hu as [Hu|Hu].
    + exists (S j). split; [lia|]. by constructor.
    + inversion Hu; subst. exists j. split; [lia|]. by rewrite andb_true_r in Hw.
  - intros (j & Hj & Hw). revert bol w j Hj Hw. induction n as [|n IH]; intros bol w j Hj Hw.
    + replace j with 0 in Hw by lia. inversion Hw; subst. constructor.
    + destruct j as [|j].
      * inversion Hw; subst. apply (times_S _ _ _ _ [] []); [by apply mt_alt_r; constructor|].
        rewrite andb_true_r. by apply (IH _ _ 0); [lia|constructor].
      * inversion Hw as [|? ? ? ? w1 w2 Hu Ht]; subst. constructor; [by apply mt_alt_l|].
        by apply (IH _ _ j); [lia|].
Qed.

(** [a*] matches the words of any number of copies of [a]. *)
Lemma mt_star_times (bol eol : bool) (a : re) (w : list ascii) :
  mt bol eol (RStar a) w <-> exists k, mt_times bol eol k a w.
Proof.
  split.
  - remember (RStar a) as r eqn:Er. induction 1; simplify_eq; [exists 0; constructor|].
    destruct IHmt2 as (k & Hk); [done|]. exists (S k). by constructor.
  - intros (k & Hk). induction Hk; [constructor|]. by apply mt_star_cons.
Qed.

(** The expansion of a counted repetition means what PCRE says: [a{lo,h}]
    matches the words of between [lo] and [h] consecutive matches of [a],
    [a{lo,}] those of at least [lo]. *)
Theorem count_re_spec (bol eol : bool) (a : re) (lo : N) (hi : option N) (w : list ascii) :
  match hi with Some h => (lo <= h)%N | None => True end ->
  mt bol eol (count_re a lo hi) w <->
  exists k, N.to_nat lo <= k /\
    match hi with Some h => k <= N.to_nat h | None => True end /\ mt_times bol eol k a w.
Proof.
  intros Hlo. unfold count_re. rewrite mt_cat_inv. setoid_rewrite mt_rep. split.
  - intros (w1 & w2 & -> & H1 & H2). destruct hi as [h|].
    + apply mt_rep, mt_times_opt in H2 as (j & Hj & H2). exists (N.to_nat lo + j).
      split_and!; [lia|lia|by apply mt_times_app].
    + apply mt_star_times in H2 as (j & H2). exists (N.to_nat lo + j).
      split_and!; [lia|done|by apply mt_times_app].
  - intros (k & Hk & Hh & H). replace k with (N.to_nat lo + (k - N.to_nat lo)) in H by lia.
    destruct (mt_times_split _ _ _ _ _ _ H) as (w1 & w2 & -> & H1 & H2).
    exists w1, w2. split_and!; [done|done|]. destruct hi as [h|].
    + apply mt_rep, mt_times_opt. exists (k - N.to_nat lo). split; [lia|done].
    + apply mt_star_times. eauto.
Qed.

End Semantics.

(** What [$regex: p, $options: o] of [pcre_engine] accepts: the subjects
    with a factor that the parsed pattern matches in the reference
    semantics, case-insensitively when [o] has [i]. *)
Theorem pcre_test_spec (p o s : string) :
  @re_test pcre_engine p o s = true <->
  exists (r : re) (pre w post : list ascii), parse p = Some r /\
    list_ascii_of_string s = pre ++ w ++ post /\
    mt (has_flag_i o) (bool_decide (pre = [])) (bool_decide (post = [])) r w.
Proof.
  simpl. destruct (parse p) as [r|]; [|split; [done|by intros (? & ? & ? & ? & ? & _)]].
  rewrite search_spec. split.
  - intros (pre & w & post & ? & ?). by exists r, pre, w, post.
  - intros (r' & pre & w & post & [= <-] & ? & ?). by exists pre, w, post.
Qed.

End RegexSpec.
