(* ===== verification/Repo.v ===== *)
(** * The Task repository

    The contract of spec section 6 between the handlers and the Task
    collection, as the Mongoose calls of task.controller.js use it:
    [Task.findById], [Task.countDocuments], [Task.find], [Task.create],
    [task.save()] and [Task.findByIdAndDelete].  [TaskRepository] is the
    interface; [TaskRepositoryLaws] states what each call does to the
    abstract view [repo_docs] (the documents in natural order) and the
    well-formedness [repo_wf] every call preserves.  [Collection], a list
    of documents with an ObjectId counter, implements the interface
    ([collection_laws]). *)

From Stdlib Require Import ZArith NArith String.
From stdpp Require Import base list strings options.
From S2P Require Import Prelude Js Task Query.

Module Repo.
Import Js Task Query.

(** ** The abstract view: a list of documents *)

Definition find_doc (id : string) (docs : list task) : option task :=
  List.find (fun d => String.eqb (task_id d) id) docs.

(** [save]: the stored document with the same [_id] becomes [t]. *)
Definition replace_doc (t : task) (docs : list task) : list task :=
  map (fun d => if String.eqb (task_id d) (task_id t) then t else d) docs.

Definition remove_doc (id : string) (docs : list task) : list task :=
  List.filter (fun d => negb (String.eqb (task_id d) id)) docs.

Definition select `{RegexEngine} (f : filter) (docs : list task) : list task :=
  List.filter (fmatch f) docs.

Section Interface.
Context `{RegexEngine}.

Class TaskRepository (S : Type) : Type := {
  repo_docs : S -> list task;
  repo_wf : S -> Prop;
  repo_full : S -> bool;
  findById : S -> string -> fault + option task;
  countDocuments : S -> jsval -> fault + nat;
  find : S -> jsval -> fault + list task;
  create : S -> task_input -> Z -> fault + (task * S);
  save : S -> task -> fault + S;
  findByIdAndDelete : S -> string -> fault + (option task * S)
}.

Class TaskRepositoryLaws (S : Type) `{TaskRepository S} : Prop := {
  findById_spec s id :
    findById s id =
    match oid_cast id with
    | Some k => inr (find_doc k (repo_docs s))
    | None => inl (CastError "_id")
    end;
  find_spec s q : find s q = (let* f := compile q in inr (select f (repo_docs s)));
  countDocuments_spec s q :
    countDocuments s q = (let* f := compile q in inr (length (select f (repo_docs s))));
  create_spec s i now :
    repo_wf s ->
    match create s i now with
    | inl e => (exists id, build_task i id now = inl e) \/ repo_full s = true
    | inr (t, s') =>
        build_task i (task_id t) now = inr t /\ oid_cast (task_id t) = Some (task_id t) /\
        find_doc (task_id t) (repo_docs s) = None /\
        repo_docs s' = repo_docs s ++ [t] /\ repo_wf s'
    end;
  create_room s i now t :
    repo_full s = false -> (exists id, build_task i id now = inr t) ->
    exists t' s', create s i now = inr (t', s');
  save_spec s t :
    repo_wf s ->
    match save s t with
    | inl e => e = DocumentNotFoundError /\ find_doc (task_id t) (repo_docs s) = None
    | inr s' => find_doc (task_id t) (repo_docs s) <> None /\
                repo_docs s' = replace_doc t (repo_docs s) /\ repo_wf s'
    end;
  findByIdAndDelete_spec s id :
    repo_wf s ->
    match oid_cast id with
    | None => findByIdAndDelete s id = inl (CastError "_id")
    | Some k => exists s', findByIdAndDelete s id = inr (find_doc k (repo_docs s), s') /\
                repo_docs s' = remove_doc k (repo_docs s) /\ repo_wf s'
    end;
  wf_nodup s : repo_wf s -> NoDup (map task_id (repo_docs s))
}.
End Interface.

(** ** The collection *)

Record Collection : Type := mkCollection {
  coll_docs : list task;
  coll_next : N          (** the counter of the next ObjectId *)
}.

Definition oid_space : N := (16 ^ 24)%N.

Definition coll_wf (c : Collection) : Prop :=
  NoDup (map task_id (coll_docs c)) /\
  Forall (fun d => exists n, (n < coll_next c)%N /\ task_id d = oid_of_counter n) (coll_docs c).

Section CollectionOps.
Context `{RegexEngine}.

Definition coll_findById (c : Collection) (id : string) : fault + option task :=
  match oid_cast id with
  | Some k => inr (find_doc k (coll_docs c))
  | None => inl (CastError "_id")
  end.

Definition coll_find (c : Collection) (q : jsval) : fault + list task :=
  let* f := compile q in inr (select f (coll_docs c)).

Definition coll_count (c : Collection) (q : jsval) : fault + nat :=
  let* ts := coll_find c q in inr (length ts).

Definition coll_create (c : Collection) (i : task_input) (now : Z) : fault + (task * Collection) :=
  if (coll_next c <? oid_space)%N then
    let* t := build_task i (oid_of_counter (coll_next c)) now in
    inr (t, mkCollection (coll_docs c ++ [t]) (N.succ (coll_next c)))
  else inl (StoreError "ObjectId space exhausted").

Definition coll_save (c : Collection) (t : task) : fault + Collection :=
  match find_doc (task_id t) (coll_docs c) with
  | Some _ => inr (mkCollection (replace_doc t (coll_docs c)) (coll_next c))
  | None => inl DocumentNotFoundError
  end.

Definition coll_delete (c : Collection) (id : string) : fault + (option task * Collection) :=
  match oid_cast id with
  | Some k => inr (find_doc k (coll_docs c), mkCollection (remove_doc k (coll_docs c)) (coll_next c))
  | None => inl (CastError "_id")
  end.

#[export] Instance collection_repo : TaskRepository Collection := {
  repo_docs := coll_docs;
  repo_wf := coll_wf;
  repo_full c := negb (coll_next c <? oid_space)%N;
  findById := coll_findById;
  countDocuments := coll_count;
  find := coll_find;
  create := coll_create;
  save := coll_save;
  findByIdAndDelete := coll_delete
}.
End CollectionOps.

Definition empty_collection : Collection := mkCollection [] 0%N.

(** ** Lemmas on the document list *)

Section DocLemmas.
Implicit Types (docs : list task) (t d : task) (k : string).

Lemma find_doc_Some k docs d : find_doc k docs = Some d -> In d docs /\ task_id d = k.
Proof. unfold find_doc. intros [Hin Heq]%find_some. split; [done|]. by apply String.eqb_eq. Qed.

Lemma find_doc_None k docs : find_doc k docs = None <-> ~ In k (map task_id docs).
Proof.
  unfold find_doc. induction docs as [|d docs IH]; simpl; [tauto|].
  destruct (String.eqb_spec (task_id d) k); [split; [discriminate | tauto]|].
  rewrite IH. tauto.
Qed.

Lemma find_doc_app_one k docs t :
  find_doc k (docs ++ [t]) =
  match find_doc k docs with
  | Some d => Some d
  | None => if String.eqb (task_id t) k then Some t else None
  end.
Proof.
  unfold find_doc. induction docs as [|d docs IH]; simpl; [by destruct (String.eqb _ _)|].
  destruct (String.eqb (task_id d) k); [done | exact IH].
Qed.

Lemma map_task_id_replace t docs : map task_id (replace_doc t docs) = map task_id docs.
Proof.
  induction docs as [|d docs IH]; simpl; [done|].
  destruct (String.eqb_spec (task_id d) (task_id t)); simpl; congruence.
Qed.

Lemma find_doc_replace_same t docs :
  find_doc (task_id t) docs <> None -> find_doc (task_id t) (replace_doc t docs) = Some t.
Proof.
  unfold find_doc. induction docs as [|d docs IH]; simpl; [done|].
  destruct (String.eqb_spec (task_id d) (task_id t)) as [E|E]; simpl.
  - by rewrite String_eqb_refl.
  - rewrite (proj2 (String.eqb_neq _ _) E). exact IH.
Qed.

Lemma find_doc_replace_other k t docs :
  k <> task_id t -> find_doc k (replace_doc t docs) = find_doc k docs.
Proof.
  intros Hk. unfold find_doc. induction docs as [|d docs IH]; simpl; [done|].
  destruct (String.eqb_spec (task_id d) (task_id t)) as [E|E]; simpl.
  - rewrite E, (proj2 (String.eqb_neq _ _) (not_eq_sym Hk)). exact IH.
  - by rewrite IH.
Qed.

Lemma find_doc_remove_same k docs : find_doc k (remove_doc k docs) = None.
Proof.
  unfold find_doc, remove_doc. induction docs as [|d docs IH]; simpl; [done|].
  destruct (String.eqb_spec (task_id d) k); simpl; [done|].
  rewrite (proj2 (String.eqb_neq _ _) n). exact IH.
Qed.

Lemma find_doc_remove_other k k' docs :
  k' <> k -> find_doc k' (remove_doc k docs) = find_doc k' docs.
Proof.
  intros Hk. unfold find_doc, remove_doc. induction docs as [|d docs IH]; simpl; [done|].
  destruct (String.eqb_spec (task_id d) k) as [E|E]; simpl.
  - rewrite E, (proj2 (String.eqb_neq _ _) (not_eq_sym Hk)). exact IH.
  - by rewrite IH.
Qed.

Lemma In_remove_doc d k docs : In d (remove_doc k docs) <-> In d docs /\ task_id d <> k.
Proof.
  unfold remove_doc. rewrite filter_In, negb_true_iff.
  split; intros [? ?]; split; auto; by apply String.eqb_neq.
Qed.

Lemma In_replace_doc d t docs :
  In d (replace_doc t docs) -> d = t \/ (In d docs /\ task_id d <> task_id t).
Proof.
  unfold replace_doc. intros [d' [<- Hin]]%in_map_iff.
  destruct (String.eqb_spec (task_id d') (task_id t)); auto.
Qed.

Lemma NoDup_ids_remove k docs :
  NoDup (map task_id docs) -> NoDup (map task_id (remove_doc k docs)).
Proof.
  unfold remove_doc. induction docs as [|d docs IH]; simpl; [done|].
  intros [Hn Hd]%NoDup_cons. destruct (negb _); simpl; [|auto].
  apply NoDup_cons. split; [|auto]. intros [d' [Hid Hin]]%list_elem_of_In%in_map_iff.
  apply filter_In in Hin as [Hin _]. apply Hn, list_elem_of_In, in_map_iff. eauto.
Qed.

Lemma NoDup_ids_inj docs d1 d2 :
  NoDup (map task_id docs) -> In d1 docs -> In d2 docs -> task_id d1 = task_id d2 -> d1 = d2.
Proof.
  induction docs as [|d docs IH]; [done|]. simpl.
  intros [Hn Hnd]%NoDup_cons [<-|H1] [<-|H2] E; auto; exfalso;
    apply Hn, list_elem_of_In, in_map_iff.
  - exists d2. auto.
  - exists d1. auto.
Qed.
End DocLemmas.

#[export] Hint Rewrite map_task_id_replace find_doc_remove_same : bm_rw.

(** ** The collection implements the contract *)

Section CollectionLaws.
Context `{RegexEngine}.

Lemma coll_fresh (c : Collection) :
  coll_wf c -> (coll_next c < oid_space)%N ->
  ~ In (oid_of_counter (coll_next c)) (map task_id (coll_docs c)).
Proof.
  intros [_ Hall] Hlt [d [Hid Hin]]%in_map_iff.
  destruct (proj1 (List.Forall_forall _ _) Hall d Hin) as [n [Hn Hd]].
  rewrite Hd in Hid. apply oid_of_counter_inj in Hid; unfold oid_space in *; lia.
Qed.

Lemma coll_create_spec (c : Collection) (i : task_input) (now : Z) :
  coll_wf c ->
  match coll_create c i now with
  | inl e => (exists id, build_task i id now = inl e) \/ negb (coll_next c <? oid_space)%N = true
  | inr (t, c') =>
      build_task i (task_id t) now = inr t /\ oid_cast (task_id t) = Some (task_id t) /\
      find_doc (task_id t) (coll_docs c) = None /\
      coll_docs c' = coll_docs c ++ [t] /\ coll_wf c'
  end.
Proof.
  intros Hwf. unfold coll_create.
  destruct (N.ltb_spec (coll_next c) oid_space) as [Hlt|]; [|by right].
  destruct (build_task _ _ _) as [e|t] eqn:Hb; [left; eauto|].
  pose proof (build_task_fields _ _ _ _ Hb) as (Hid & _).
  pose proof (coll_fresh c Hwf Hlt) as Hfresh.
  destruct Hwf as [Hnd Hall]. rewrite Hid.
  split_and!; [done | apply oid_cast_counter | by apply find_doc_None | done |]. split; simpl.
  - rewrite map_app. apply NoDup_app. split_and!; [done | | simpl; apply NoDup_singleton].
    intros x Hx Hx'. simpl in Hx'. apply list_elem_of_singleton in Hx' as ->.
    rewrite Hid in Hx. by apply Hfresh, list_elem_of_In.
  - apply Forall_app. split; [|constructor; [exists (coll_next c); split; [lia | done] | constructor]].
    eapply Forall_impl; [exact Hall|]. intros d [n [Hn Hd]]. exists n. split; [lia | done].
Qed.

Lemma coll_save_spec (c : Collection) (t : task) :
  coll_wf c ->
  match coll_save c t with
  | inl e => e = DocumentNotFoundError /\ find_doc (task_id t) (coll_docs c) = None
  | inr c' => find_doc (task_id t) (coll_docs c) <> None /\
              coll_docs c' = replace_doc t (coll_docs c) /\ coll_wf c'
  end.
Proof.
  intros [Hnd Hall]. unfold coll_save.
  destruct (find_doc _ _) as [d|] eqn:Hf; [|done].
  apply find_doc_Some in Hf as [Hin Hid].
  split_and!; [done | done |]. split; simpl; [by rewrite map_task_id_replace |].
  apply List.Forall_forall. intros x [-> | [Hx _]]%In_replace_doc; simpl.
  - rewrite <- Hid. exact (proj1 (List.Forall_forall _ _) Hall d Hin).
  - exact (proj1 (List.Forall_forall _ _) Hall x Hx).
Qed.

Lemma coll_delete_spec (c : Collection) (id : string) :
  coll_wf c ->
  match oid_cast id with
  | None => coll_delete c id = inl (CastError "_id")
  | Some k => exists c', coll_delete c id = inr (find_doc k (coll_docs c), c') /\
              coll_docs c' = remove_doc k (coll_docs c) /\ coll_wf c'
  end.
Proof.
  intros [Hnd Hall]. unfold coll_delete. destruct (oid_cast id) as [k|]; [|done].
  eexists. split_and!; [done | done | split; simpl].
  - by apply NoDup_ids_remove.
  - apply List.Forall_forall. intros x [Hx _]%In_remove_doc.
    exact (proj1 (List.Forall_forall _ _) Hall x Hx).
Qed.

#[export] Instance collection_laws : TaskRepositoryLaws Collection.
Proof.
  split.
  - reflexivity.
  - reflexivity.
  - intros s q. simpl. unfold coll_count, coll_find. by destruct (compile q).
  - apply coll_create_spec.
  - intros s i now t Hfull [id Hb]. simpl in *. unfold coll_create.
    apply negb_false_iff in Hfull. rewrite Hfull.
    destruct (build_task i (oid_of_counter (coll_next s)) now) eqn:Hb'; [|eauto].
    apply (build_task_err_indep _ _ id) in Hb'. congruence.
  - apply coll_save_spec.
  - apply coll_delete_spec.
  - by intros s [? _].
Qed.
End CollectionLaws.

End Repo.
