(* ===== verification/User.v ===== *)
(** * The User document and the users collection

    The User model (models/auth.model.js, not under src/) as spec section 3
    describes it, the projection [User.find({}, "_id fullname email
    role")] of getAllUsers, and the users collection that register and
    login read and write: [User.findOne(filter)] (parse the filter with
    [Query.compile], return the first document it matches) and
    [User.create] (cast the fields, enforce the unique email, issue the
    next ObjectId, default the role to ["user"]). *)

From Stdlib Require Import ZArith NArith String.
From stdpp Require Import base list strings options.
From S2P Require Import Prelude Js Task Query.

Module User.
Import Js Task Query.

Record user : Type := mkUser {
  user_id : string;          (** [_id] *)
  fullname : string;
  email : string;
  phoneNumber : jsval;
  password : string;         (** the bcrypt hash *)
  role : string;             (** ["admin"] or ["user"], default ["user"] *)
  profile : jsval
}.

(** The fields the projection ["_id fullname email role"] keeps. *)
Record user_view : Type := mkUserView {
  view_id : string;
  view_fullname : string;
  view_email : string;
  view_role : string
}.

Definition project (u : user) : user_view :=
  mkUserView (user_id u) (fullname u) (email u) (role u).

(** The paths a filter reads on a User document. *)
Definition user_get (u : user) (k : string) : option string :=
  if String.eqb k "_id" then Some (user_id u)
  else if String.eqb k "fullname" then Some (fullname u)
  else if String.eqb k "email" then Some (email u)
  else if String.eqb k "password" then Some (password u)
  else if String.eqb k "role" then Some (role u)
  else None.

(** The users collection: its documents in insertion order and the
    counter its next ObjectId is made from. *)
Record user_store : Type := mkUserStore {
  users : list user;
  next_user : N
}.

Definition empty_user_store : user_store := mkUserStore [] 0.

(** The role enum of the schema. *)
Definition valid_role (r : string) : bool := String.eqb r "admin" || String.eqb r "user".

(** Every id was issued by the counter, the ids and the emails are
    unique, every role is one of the enum. *)
Definition users_wf (s : user_store) : Prop :=
  Forall (fun u => (exists n, (n < next_user s)%N /\ user_id u = oid_of_counter n) /\
                   valid_role (role u) = true) (users s) /\
  NoDup (map user_id (users s)) /\ NoDup (map email (users s)) /\
  (next_user s <= 16 ^ 24)%N.

(** [users_wf] as a test, for concrete collections. *)
Definition users_wfb (s : user_store) : bool :=
  forallb (fun u => let n := unhex (list_ascii_of_string (user_id u)) in
                    String.eqb (oid_of_counter n) (user_id u) && (n <? next_user s)%N &&
                    valid_role (role u)) (users s) &&
  bool_decide (NoDup (map user_id (users s))) && bool_decide (NoDup (map email (users s))) &&
  (next_user s <=? 16 ^ 24)%N.

Section Store.
Context `{RegexEngine}.

(** [User.findOne(q)] *)
Definition user_findOne (s : user_store) (q : jsval) : fault + option user :=
  let* f := compile q in
  inr (List.find (fmatch_on user_get f) (users s)).

(** [User.create({ fullname, email, phoneNumber, password })]: the
    string fields are cast, the unique index on [email] refuses a
    duplicate, [role] takes its default ["user"]. *)
Definition user_create (s : user_store) (fn em ph pw : jsval) : fault + (user * user_store) :=
  let* fn' := cast_string "fullname" fn in
  let* em' := cast_string "email" em in
  let* pw' := cast_string "password" pw in
  match fn', em', pw' with
  | Some fn'', Some em'', Some pw'' =>
      if existsb (fun u => String.eqb (email u) em'') (users s)
      then inl (StoreError "E11000 duplicate key error collection: users index: email_1")
      else if (next_user s <? 16 ^ 24)%N then
        let u := mkUser (oid_of_counter (next_user s)) fn'' em'' ph pw'' "user" JUndefined in
        inr (u, mkUserStore (users s ++ [u]) (N.succ (next_user s)))
      else inl (StoreError "ObjectId space exhausted")
  | None, _, _ => inl (ValidationError "fullname")
  | _, None, _ => inl (ValidationError "email")
  | _, _, None => inl (ValidationError "password")
  end.

(** [User.find(q, projection)]: the users the filter matches, in stored
    order (the projection is applied by the caller). *)
Definition user_find (s : user_store) (q : jsval) : fault + list user :=
  let* f := compile q in inr (List.filter (fmatch_on user_get f) (users s)).

End Store.

Arguments user_findOne : simpl never.

Section StoreLemmas.
Context `{RegexEngine}.

(** [User.findOne({ email })] for a string [email]: the first user with
    that email. *)
Lemma user_findOne_email (s : user_store) (e : string) :
  user_findOne s (JObj [("email", JStr e)]) =
  inr (List.find (fun u => String.eqb (email u) e) (users s)).
Proof.
  unfold user_findOne. simpl. f_equal. apply find_ext_in. intros u _.
  unfold user_get. simpl. by rewrite andb_true_r.
Qed.

(** [User.findOne({ email: { $ne: null } })]: every stored user has an
    email, so the first user is found. *)
Lemma user_findOne_ne_null (s : user_store) (u : user) (us : list user) :
  users s = u :: us -> user_findOne s (JObj [("email", JObj [("$ne", JNull)])]) = inr (Some u).
Proof. intros Hs. unfold user_findOne. rewrite Hs. simpl. unfold compile_op. simpl. done. Qed.

Lemma find_email_None (l : list user) (e : string) :
  List.find (fun u => String.eqb (email u) e) l = None <-> e ∉ map email l.
Proof.
  rewrite list_elem_of_In, in_map_iff. split.
  - intros Hf [u [<- Hu]]. apply (List.find_none _ _ Hf) in Hu. by rewrite String_eqb_refl in Hu.
  - intros Hn. destruct (List.find _ l) as [u|] eqn:Hf; [|done].
    apply List.find_some in Hf as [Hu He%String.eqb_eq]. destruct Hn. eauto.
Qed.

Lemma existsb_email (l : list user) (e : string) :
  existsb (fun u => String.eqb (email u) e) l = bool_decide (e ∈ map email l).
Proof.
  apply Bool.eq_iff_eq_true. rewrite existsb_exists, bool_decide_eq_true,
    list_elem_of_In, in_map_iff. split.
  - intros [u [Hu <-%String.eqb_eq]]. eauto.
  - intros [u [<- Hu]]. exists u. by rewrite String_eqb_refl.
Qed.

(** A created user: what [User.create] stored, appended at the end
    with the next ObjectId and the default role. *)
Lemma user_create_inr (s s' : user_store) (fn em ph pw : jsval) (u : user) :
  user_create s fn em ph pw = inr (u, s') ->
  cast_string "fullname" fn = inr (Some (fullname u)) /\
  cast_string "email" em = inr (Some (email u)) /\
  cast_string "password" pw = inr (Some (password u)) /\
  phoneNumber u = ph /\ role u = "user" /\ (email u ∉ map email (users s)) /\
  user_id u = oid_of_counter (next_user s) /\ (next_user s < 16 ^ 24)%N /\
  s' = mkUserStore (users s ++ [u]) (N.succ (next_user s)).
Proof.
  unfold user_create.
  destruct (cast_string "fullname" fn) as [|[f|]]; simpl; try done;
  destruct (cast_string "email" em) as [|[e|]]; simpl; try done;
  destruct (cast_string "password" pw) as [|[p|]]; simpl; try done.
  rewrite existsb_email. case_bool_decide; [done|].
  destruct (N.ltb_spec (next_user s) (16 ^ 24)); [|done]. intros; simplify_eq/=. done.
Qed.

(** [User.create] keeps the collection well formed. *)
Lemma user_create_wf (s s' : user_store) (fn em ph pw : jsval) (u : user) :
  users_wf s -> user_create s fn em ph pw = inr (u, s') -> users_wf s'.
Proof.
  intros (Hall & Hids & Hem & Hle) (_ & _ & _ & _ & Hr & Hfresh & Hid & Hlt & ->)%user_create_inr.
  split_and!; simpl.
  - apply List.Forall_app. split.
    + eapply List.Forall_impl; [|exact Hall]. intros v [[n [Hn Hv]] Hvr]. split; [|done].
      exists n. split; [lia|done].
    + constructor; [|done]. split; [exists (next_user s); split; [lia|done]|].
      by rewrite Hr.
  - rewrite map_app. apply NoDup_app. split_and!; [done| |by apply NoDup_singleton].
    intros x Hx ->%list_elem_of_singleton. apply list_elem_of_In, in_map_iff in Hx as [v [Hv Hin]].
    apply (proj1 (List.Forall_forall _ _) Hall) in Hin as [[n [Hn Hvn]] _].
    rewrite Hvn, Hid in Hv. apply oid_of_counter_inj in Hv; lia.
  - rewrite map_app. apply NoDup_app. split_and!; [done| |by apply NoDup_singleton].
    by intros x Hx ->%list_elem_of_singleton.
  - lia.
Qed.

(** [User.findOne] returns a stored document. *)
Lemma user_findOne_In (s : user_store) (q : jsval) (u : user) :
  user_findOne s q = inr (Some u) -> In u (users s).
Proof.
  unfold user_findOne. destruct (compile q); simpl; [done|].
  intros [=Hf]. by apply List.find_some in Hf as [? _].
Qed.

(** A stored user of a well-formed collection has a non-empty id and
    role. *)
Lemma users_wf_In (s : user_store) (u : user) :
  users_wf s -> In u (users s) -> user_id u <> "" /\ role u <> "".
Proof.
  intros [Hall _] Hu. apply (proj1 (List.Forall_forall _ _) Hall) in Hu as [[n [_ ->]] Hr].
  split.
  - apply oid_of_counter_nonempty.
  - intros Hn. by rewrite Hn in Hr.
Qed.

Lemma users_wfb_sound (s : user_store) : users_wfb s = true -> users_wf s.
Proof.
  unfold users_wfb. intros (((Hall & Hid)%andb_prop & Hem)%andb_prop & Hle)%andb_prop.
  apply bool_decide_eq_true in Hid, Hem. apply N.leb_le in Hle.
  split_and!; [|done..]. apply List.Forall_forall. intros u Hu.
  apply forallb_forall with (x := u) in Hall; [|done].
  apply andb_prop in Hall as [[Hs Hn]%andb_prop Hr]. split; [|done].
  exists (unhex (list_ascii_of_string (user_id u))). apply N.ltb_lt in Hn.
  apply String.eqb_eq in Hs. done.
Qed.

(** [User.find({})] lists every user. *)
Lemma user_find_all (s : user_store) : user_find s (JObj []) = inr (users s).
Proof.
  unfold user_find. simpl. f_equal. induction (users s) as [|u us IH]; [done|]. simpl. by rewrite IH.
Qed.

End StoreLemmas.

End User.
