(* ===== verification/Http.v ===== *)
(** * Requests and responses of the task handlers

    The HTTP surface of spec section 6 as the handlers see it: the caller
    [req.user] that src/middleware/isAuthenticated.js sets, the fields of
    [req.params], [req.query] and [req.body] the handlers read, and the
    responses [res.status(code).json(...)] sends, and how a response reads
    as a typed result of spec section 7 ([result_of]). *)

From Stdlib Require Import ZArith NArith String.
From stdpp Require Import base list strings options.
From S2P Require Import Prelude Js Task User.

Module Http.
Import Js Task User.

(** [req.user = { id: decoded.userId, role: decoded.role }] *)
Record caller : Type := mkCaller { id : string; role : string }.

(** The fields of [req.body] the handlers destructure. *)
Record body : Type := mkBody {
  b_title : jsval;
  b_description : jsval;
  b_status : jsval;
  b_priority : jsval;
  b_dueDate : jsval;
  b_assignedTo : jsval;
  b_tags : jsval
}.

Definition empty_body : body :=
  mkBody JUndefined JUndefined JUndefined JUndefined JUndefined JUndefined JUndefined.

Record request : Type := mkRequest {
  req_user : caller;
  req_params_id : string;       (** [req.params.id] *)
  req_keyword : jsval;          (** [req.query.keyword] *)
  req_body : body
}.

Record counts : Type := mkCounts {
  totalTasks : nat;
  totalPending : nat;
  totalInProgress : nat;
  totalCompleted : nat
}.

Inductive payload : Type :=
| PNone
| PTask (t : task)
| PTasks (ts : list task)
| PCounts (c : counts)
| PUsers (us : list user_view).

(** [res.status(code).json({ success, message, ... })] *)
Record response : Type := mkResponse {
  code : N;
  success : bool;
  message : string;
  data : payload
}.

(** [error.message] of a thrown fault. *)
Definition fault_message (e : fault) : string :=
  match e with
  | TypeError m => m
  | CastError p => "Cast to ObjectId failed for path " ++ p
  | ValidationError p => "Task validation failed: " ++ p
  | DocumentNotFoundError => "No document found"
  | RegexError p => "Regular expression is invalid: " ++ p
  | StoreError m => m
  end.

Definition internal_error : response :=
  mkResponse 500 false "Internal server error" PNone.

Definition is_admin (u : caller) : bool := String.eqb (role u) "admin".

(** The result types of spec section 7: a success, or an error of one of
    the five kinds. *)
Inductive error_kind : Type :=
| EValidation | EUnauthenticated | EForbidden | ENotFound | EInternal.

Inductive result_kind : Type :=
| RSuccess
| RError (k : error_kind).

(** How an answer reads as a typed result: 200 or 201 with [success:
    true], or 400, 401, 403, 404, 500 with [success: false] and no data
    ([has_data] says whether the body carries more than the message);
    [None] for any other answer. *)
Definition result_parts (c : N) (ok has_data : bool) : option result_kind :=
  if ok then (if bool_decide (c = 200%N \/ c = 201%N) then Some RSuccess else None)
  else if has_data then None
  else if N.eqb c 400 then Some (RError EValidation)
  else if N.eqb c 401 then Some (RError EUnauthenticated)
  else if N.eqb c 403 then Some (RError EForbidden)
  else if N.eqb c 404 then Some (RError ENotFound)
  else if N.eqb c 500 then Some (RError EInternal)
  else None.

Definition result_of (r : response) : option result_kind :=
  result_parts (code r) (success r) (match data r with PNone => false | _ => true end).

End Http.
