(* ===== verification/Auth.v ===== *)
(** * Credentials and sessions

    [controllers/auth.controller.js] ([register], [login]) and
    [middleware/isAuthenticated.js].  The two libraries they call are
    interfaces with laws: [PasswordHasher] for bcryptjs ([hash] with a
    cost and a random salt, [compare], both reading only the first 72
    bytes of the password) and [TokenService] for jsonwebtoken ([sign]
    with a secret and a lifetime, [verify] against a secret and the
    clock).  [sealed_hasher] and [sealed_tokens] implement them with
    [Codec.seal].  [register] answers [None] where the handler's [catch]
    only logs the error and sends no response.  The email of both
    handlers reaches [User.findOne] as a query ([login_ne_email]); every
    login answer is a typed result of spec section 7, every register
    answer but the 201 of an existing email ([register_typed]). *)

From Stdlib Require Import ZArith NArith Ascii String.
From stdpp Require Import base countable numbers list strings options.
From S2P Require Import Prelude Js Codec Task Query User Http.

Module Auth.
Local Unset Default Proof Using.
Import Js Codec Task Query User Http.

Local Open Scope Z_scope.

(** ** Password hashing *)

(** bcrypt reads the first 72 bytes of the password. *)
Definition bcrypt_prefix (p : string) : string := String.substring 0 72 p.

Class PasswordHasher : Type := {
  bcrypt_hash : string -> N -> N -> string;   (** password, cost, salt *)
  bcrypt_compare : string -> string -> bool    (** password, hash *)
}.

(** A hash accepts exactly the passwords with the hashed password's
    first 72 bytes. *)
Class PasswordHasherLaws `{PasswordHasher} : Prop := {
  compare_hash : forall p q cost salt,
    bcrypt_compare p (bcrypt_hash q cost salt) = String.eqb (bcrypt_prefix p) (bcrypt_prefix q);
  compare_sound : forall p h, bcrypt_compare p h = true ->
    exists q cost salt, h = bcrypt_hash q cost salt /\ bcrypt_prefix q = bcrypt_prefix p
}.

(** ** Session tokens *)

(** The payload [jwt.verify] returns, as the middleware reads it. *)
Record claims : Type := mkClaims {
  c_userId : option string;
  c_role : option string
}.

#[export] Instance claims_eq_dec : EqDecision claims.
Proof. solve_decision. Defined.

#[export] Instance claims_countable : Countable claims.
Proof.
  apply (inj_countable' (fun c => (c_userId c, c_role c)) (fun p => mkClaims p.1 p.2)).
  by intros [].
Defined.

Inductive jwt_error : Type :=
| JsonWebTokenError (msg : string)
| TokenExpiredError.

Class TokenService : Type := {
  jwt_sign : claims -> string -> Z -> Z -> string;   (** payload, secret, iat, expiresIn *)
  jwt_verify : string -> option string -> Z -> jwt_error + claims   (** token, secret, now *)
}.

(** A token verifies under the secret it was signed with until it
    expires, and under nothing else; it contains no space. *)
Class TokenServiceLaws `{TokenService} : Prop := {
  verify_sign : forall c k iat e now, k <> "" ->
    jwt_verify (jwt_sign c k iat e) (Some k) now =
    if now <? iat + e then inr c else inl TokenExpiredError;
  verify_sound : forall tok k now c, jwt_verify tok k now = inr c ->
    exists k' iat e, k = Some k' /\ k' <> "" /\ tok = jwt_sign c k' iat e /\ now < iat + e;
  sign_inj : forall c k iat e c' k' iat' e',
    jwt_sign c k iat e = jwt_sign c' k' iat' e' -> c = c' /\ k = k' /\ iat = iat' /\ e = e';
  sign_no_space : forall c k iat e, no_space (jwt_sign c k iat e) = true
}.

(** ** Requests and responses of the auth routes *)

(** [req.body] of register and login. *)
Record auth_body : Type := mkAuthBody {
  ab_fullname : jsval;
  ab_email : jsval;
  ab_phoneNumber : jsval;
  ab_password : jsval
}.

(** The user object login returns (lines 76-83). *)
Record login_user : Type := mkLoginUser {
  lu_id : string;
  lu_fullname : string;
  lu_email : string;
  lu_phoneNumber : jsval;
  lu_profile : jsval;
  lu_role : string
}.

(** [res.status(code).json({ message, success, token, user })]. *)
Record auth_response : Type := mkAuthResponse {
  a_code : N;
  a_success : bool;
  a_message : string;
  a_token : option string;
  a_user : option login_user
}.

Definition auth_reply (code : N) (ok : bool) (m : string) : auth_response :=
  mkAuthResponse code ok m None None.

Definition bad_credentials : auth_response :=
  auth_reply 400 false "Incorrect email or password".

(** The secret login signs with (line 72), the lifetime ["1d"] (line 73)
    in seconds, and the bcrypt cost of register (line 22). *)
Definition login_secret : string := "Krishna".
Definition token_lifetime : Z := 86400.
Definition bcrypt_cost : N := 10.

Definition login_view (u : user) : login_user :=
  mkLoginUser (user_id u) (fullname u) (email u) (phoneNumber u) (profile u) (User.role u).

(** [tokenData] (lines 66-69). *)
Definition token_claims (u : user) : claims := mkClaims (Some (user_id u)) (Some (User.role u)).

Definition unauthenticated (m : string) : response := mkResponse 401 false m PNone.

(** An answer of the auth controller as a typed result of spec section 7. *)
Definition auth_result_of (a : auth_response) : option result_kind :=
  result_parts (a_code a) (a_success a)
    (match a_token a, a_user a with None, None => false | _, _ => true end).

Section Handlers.
Context `{RegexEngine} `{PasswordHasher} `{TokenService}.

(** bcryptjs throws ["Illegal arguments"] on a password that is not a
    string. *)
Definition hash_js (pw : jsval) (cost salt : N) : fault + string :=
  match pw with JStr p => inr (bcrypt_hash p cost salt) | _ => inl (TypeError "Illegal arguments") end.

Definition compare_js (pw : jsval) (h : string) : fault + bool :=
  match pw with JStr p => inr (bcrypt_compare p h) | _ => inl (TypeError "Illegal arguments") end.

(** [register] (auth.controller.js lines 5-37).  [salt] is the random
    salt bcrypt draws.  [None]: the [catch] logs and sends nothing. *)
Definition register (s : user_store) (b : auth_body) (salt : N) : option auth_response * user_store :=
  if negb (truthy (ab_fullname b)) || negb (truthy (ab_email b)) ||
     negb (truthy (ab_phoneNumber b)) || negb (truthy (ab_password b))
  then (Some (auth_reply 400 false "something is missing"), s)
  else
    match user_findOne s (JObj [("email", ab_email b)]) with
    | inl _ => (None, s)
    | inr (Some _) => (Some (auth_reply 201 false "user already exist"), s)
    | inr None =>
        match hash_js (ab_password b) bcrypt_cost salt with
        | inl _ => (None, s)
        | inr h =>
            match user_create s (ab_fullname b) (ab_email b) (ab_phoneNumber b) (JStr h) with
            | inl _ => (None, s)
            | inr (_, s') => (Some (auth_reply 200 true "Account created successfuly"), s')
            end
        end
    end.

(** [login] (lines 39-105) at the clock [now], in seconds. *)
Definition login (s : user_store) (b : auth_body) (now : Z) : auth_response :=
  if negb (truthy (ab_email b)) || negb (truthy (ab_password b))
  then auth_reply 400 false "Something is missing"
  else
    match user_findOne s (JObj [("email", ab_email b)]) with
    | inl _ => auth_reply 500 false "Internal server error"
    | inr None => bad_credentials
    | inr (Some u) =>
        match compare_js (ab_password b) (password u) with
        | inl _ => auth_reply 500 false "Internal server error"
        | inr false => bad_credentials
        | inr true =>
            let token := jwt_sign (token_claims u) login_secret now token_lifetime in
            mkAuthResponse 200 true ("Welcome back " ++ fullname u) (Some token) (Some (login_view u))
        end
    end.

(** Lines 16-26 of the middleware: the caller of a verified payload. *)
Definition decode_caller (c : claims) : response + caller :=
  match c_userId c, c_role c with
  | Some uid, Some r =>
      if truthy (JStr uid) && truthy (JStr r) then inr (mkCaller uid r)
      else inl (unauthenticated "Invalid token payload")
  | _, _ => inl (unauthenticated "Invalid token payload")
  end.

(** [isAuthenticated] (middleware/isAuthenticated.js): [secret] is
    [process.env.SECRET_KEY], [authorization] the header.  [inr] is
    [next()] with [req.user] set. *)
Definition isAuthenticated (secret : option string) (now : Z) (authorization : option string) :
    response + caller :=
  match authorization with
  | Some h =>
      if String.prefix "Bearer " h then
        match nth_error (js_split " " h) 1 with
        | Some token =>
            match jwt_verify token secret now with
            | inr c => decode_caller c
            | inl _ => inl (unauthenticated "Invalid or expired token")
            end
        | None => inl (unauthenticated "Invalid or expired token")
        end
      else inl (unauthenticated "User not authenticated - No token provided")
  | None => inl (unauthenticated "User not authenticated - No token provided")
  end.

End Handlers.

(** ** Reference implementations *)

#[export] Instance sealed_hasher : PasswordHasher := {
  bcrypt_hash q cost salt := seal (bcrypt_prefix q, cost, salt);
  bcrypt_compare p h :=
    match unseal (A:=string * N * N) h with
    | Some (q, _, _) => String.eqb (bcrypt_prefix p) q
    | None => false
    end
}.

#[export] Instance sealed_tokens : TokenService := {
  jwt_sign c k iat e := seal (c, k, iat, e);
  jwt_verify tok k now :=
    match k with
    | None | Some "" => inl (JsonWebTokenError "secret or public key must be provided")
    | Some k =>
        match unseal (A:=claims * string * Z * Z) tok with
        | None => inl (JsonWebTokenError "jwt malformed")
        | Some (c, k', iat, e) =>
            if String.eqb k' k then
              if now <? iat + e then inr c else inl TokenExpiredError
            else inl (JsonWebTokenError "invalid signature")
        end
    end
}.

#[export] Instance sealed_hasher_laws : @PasswordHasherLaws sealed_hasher.
Proof.
  split; simpl.
  - intros p q cost salt. by rewrite unseal_seal.
  - intros p h. destruct (unseal h) as [[[q cost] salt]|] eqn:Hu; [|done].
    intros Hq%String.eqb_eq. apply unseal_Some in Hu. subst q h.
    exists p, cost, salt. done.
Qed.

#[export] Instance sealed_tokens_laws : @TokenServiceLaws sealed_tokens.
Proof.
  split; simpl.
  - intros c k iat e now Hk. rewrite unseal_seal, String_eqb_refl.
    by destruct k as [|? ?].
  - intros tok [k|] now c; [|done]. destruct k as [|a k]; [done|].
    destruct (unseal tok) as [[[[c' k'] iat] e]|] eqn:Hu; [|done].
    destruct (String.eqb_spec k' (String a k)); [subst|done].
    destruct (Z.ltb_spec now (iat + e)); [|done]. intros; simplify_eq.
    exists (String a k), iat, e. by rewrite (unseal_Some _ _ Hu).
  - intros c k iat e c' k' iat' e' Heq. apply seal_inj in Heq. by simplify_eq.
  - intros. apply seal_no_space.
Qed.

(** ** Helper lemmas *)

Lemma prefix_app_self (s t : string) : String.prefix s (s ++ t) = true.
Proof.
  induction s as [|c s IH]; simpl; [by destruct t|].
  destruct (ascii_dec c c); [done|congruence].
Qed.

Lemma bearer_split (tok : string) :
  no_space tok = true -> nth_error (js_split " " ("Bearer " ++ tok)) 1 = Some tok.
Proof.
  intros Ht. change ("Bearer " ++ tok)%string with ("Bearer" ++ String " " tok)%string.
  rewrite js_split_app_no_space by reflexivity. by rewrite js_split_no_space.
Qed.

Section HandlerLemmas.
Context `{RegexEngine} `{PasswordHasher} `{TokenService}.

(** The middleware on [Bearer <token>], for a token without spaces. *)
Lemma isAuthenticated_bearer (sec : option string) (now : Z) (tok : string) :
  no_space tok = true ->
  isAuthenticated sec now (Some ("Bearer " ++ tok)%string) =
  match jwt_verify tok sec now with
  | inr c => decode_caller c
  | inl _ => inl (unauthenticated "Invalid or expired token")
  end.
Proof. intros Ht. unfold isAuthenticated. by rewrite prefix_app_self, bearer_split. Qed.

Lemma decode_token_claims (u : user) :
  user_id u <> "" -> User.role u <> "" ->
  decode_caller (token_claims u) = inr (mkCaller (user_id u) (User.role u)).
Proof.
  unfold decode_caller, truthy; simpl.
  destruct (String.eqb_spec (user_id u) ""), (String.eqb_spec (User.role u) ""); done.
Qed.

(** What a successful login did: it found [u] by the email filter,
    the password is a string bcrypt accepts for [u], and the answer
    carries [u]'s token and view. *)
Lemma login_success (s : user_store) (b : auth_body) (now : Z) :
  a_success (login s b now) = true \/ a_token (login s b now) <> None ->
  exists u p, user_findOne s (JObj [("email", ab_email b)]) = inr (Some u) /\
    ab_password b = JStr p /\ bcrypt_compare p (password u) = true /\
    login s b now = mkAuthResponse 200 true ("Welcome back " ++ fullname u)
      (Some (jwt_sign (token_claims u) login_secret now token_lifetime)) (Some (login_view u)).
Proof.
  unfold login. intros Hs.
  destruct (negb _ || negb _); [by destruct Hs as [Hs|Hs]|].
  destruct (user_findOne _ _) as [e|[u|]] eqn:Hf; [by destruct Hs as [Hs|Hs]| |by destruct Hs as [Hs|Hs]].
  destruct (compare_js _ _) as [e|[|]] eqn:Hc; try by destruct Hs as [Hs|Hs].
  unfold compare_js in Hc. destruct (ab_password b) as [| | | |p| |]; simplify_eq.
  eauto 10.
Qed.

(** register changes the collection only by a [User.create]. *)
Lemma register_snd (s : user_store) (b : auth_body) (salt : N) :
  snd (register s b salt) = s \/
  exists pw u, user_create s (ab_fullname b) (ab_email b) (ab_phoneNumber b) pw =
               inr (u, snd (register s b salt)).
Proof.
  unfold register. repeat case_match; simplify_eq/=; eauto.
Qed.

(** The user register stores for a fresh string email. *)
Definition registered_user (s : user_store) (fn e : string) (ph : jsval) (p : string) (salt : N) : user :=
  mkUser (oid_of_counter (next_user s)) fn e ph (bcrypt_hash p bcrypt_cost salt) "user" JUndefined.

Lemma register_fresh (s : user_store) (fn e p : string) (ph : jsval) (salt : N) :
  e ∉ map email (users s) -> fn <> "" -> e <> "" -> p <> "" -> truthy ph = true ->
  (next_user s < 16 ^ 24)%N ->
  register s (mkAuthBody (JStr fn) (JStr e) ph (JStr p)) salt =
  (Some (auth_reply 200 true "Account created successfuly"),
   mkUserStore (users s ++ [registered_user s fn e ph p salt]) (N.succ (next_user s))).
Proof.
  intros Hfresh Hfn He Hp Hph Hlt. unfold register; cbn [ab_fullname ab_email ab_phoneNumber ab_password].
  rewrite Hph, user_findOne_email, (proj2 (find_email_None _ _) Hfresh). simpl.
  destruct (String.eqb_spec fn ""), (String.eqb_spec e ""), (String.eqb_spec p ""); try done.
  unfold user_create; simpl. rewrite existsb_email, bool_decide_eq_false_2 by done.
  by rewrite (proj2 (N.ltb_lt _ _) Hlt).
Qed.

(** Login finds the user appended last when no earlier user has its
    email. *)
Lemma findOne_appended (l : list user) (u : user) (n : N) :
  email u ∉ map email l ->
  user_findOne (mkUserStore (l ++ [u]) n) (JObj [("email", JStr (email u))]) = inr (Some u).
Proof.
  intros Hn. rewrite user_findOne_email; simpl. rewrite find_app, (proj2 (find_email_None _ _) Hn).
  simpl. by rewrite String_eqb_refl.
Qed.

Context `{!PasswordHasherLaws}.

Lemma compare_prefix_impl (p p' h : string) :
  bcrypt_prefix p = bcrypt_prefix p' -> bcrypt_compare p h = true -> bcrypt_compare p' h = true.
Proof.
  intros Hpp (q & cost & salt & -> & Hq)%compare_sound.
  rewrite compare_hash, Hq, Hpp. apply String_eqb_refl.
Qed.

(** bcrypt cannot tell apart two passwords with the same first 72
    bytes. *)
Lemma compare_prefix (p p' h : string) :
  bcrypt_prefix p = bcrypt_prefix p' -> bcrypt_compare p h = bcrypt_compare p' h.
Proof.
  intros Hpp. apply Bool.eq_iff_eq_true. split; by apply compare_prefix_impl.
Qed.

Lemma bcrypt_prefix_empty (p : string) : bcrypt_prefix p = "" <-> p = "".
Proof. unfold bcrypt_prefix. split; [by destruct p|by intros ->]. Qed.

End HandlerLemmas.

(** ** Sessions *)

Section Sessions.
Context `{RegexEngine} `{PasswordHasher} `{TokenService} `{!TokenServiceLaws}.

(** A token login signed for [u], presented with the signing secret:
    accepted until it expires, as [u] with [u]'s role. *)
Lemma isAuthenticated_login_token (u : user) (iat now : Z) :
  user_id u <> "" -> User.role u <> "" ->
  isAuthenticated (Some login_secret) now
    (Some ("Bearer " ++ jwt_sign (token_claims u) login_secret iat token_lifetime)%string) =
  if now <? iat + token_lifetime then inr (mkCaller (user_id u) (User.role u))
  else inl (unauthenticated "Invalid or expired token").
Proof.
  intros Hid Hr. rewrite isAuthenticated_bearer by apply sign_no_space.
  rewrite verify_sign by (unfold login_secret; done).
  destruct (now <? iat + token_lifetime); [by apply decode_token_claims|done].
Qed.

(** C20: A token login hands out is accepted by isAuthenticated exactly
    when the middleware's [SECRET_KEY] is the secret login signs with
    (["Krishna"]) and the day of validity has not passed; it then
    authenticates the logged-in user with that user's role. *)
Theorem login_session (s : user_store) (b : auth_body) (t0 now : Z) (sec : option string)
    (tok : string) (lu : login_user) :
  users_wf s -> a_token (login s b t0) = Some tok -> a_user (login s b t0) = Some lu ->
  isAuthenticated sec now (Some ("Bearer " ++ tok)%string) =
  if bool_decide (sec = Some login_secret) && (now <? t0 + token_lifetime)
  then inr (mkCaller (lu_id lu) (lu_role lu))
  else inl (unauthenticated "Invalid or expired token").
Proof.
  intros Hwf Ht Hu.
  destruct (login_success s b t0) as (u & p & Hf & _ & _ & Hl); [right; by rewrite Ht|].
  rewrite Hl in Ht, Hu; simpl in Ht, Hu; simplify_eq.
  destruct (users_wf_In s u Hwf (user_findOne_In _ _ _ Hf)) as [Hid Hr].
  case_bool_decide as Hsec; cbn [andb]; [subst sec; by apply isAuthenticated_login_token|].
  rewrite isAuthenticated_bearer by apply sign_no_space.
  destruct (jwt_verify _ _ _) as [|c] eqn:Hv; [done|].
  apply verify_sound in Hv as (k' & iat & e & -> & _ & Heq & _).
  apply sign_inj in Heq as (_ & <- & _). done.
Qed.

(** C25: isAuthenticated lets a request through only with a header
    [Bearer <token>] whose token was signed with the configured secret
    and has not expired; the caller it sets is the token's non-empty
    [userId] and [role]. *)
Theorem isAuthenticated_sound (sec : option string) (now : Z) (h : option string) (c : caller) :
  isAuthenticated sec now h = inr c ->
  exists hdr tok cl k iat e, h = Some hdr /\ String.prefix "Bearer " hdr = true /\
    nth_error (js_split " " hdr) 1 = Some tok /\ sec = Some k /\ k <> "" /\
    tok = jwt_sign cl k iat e /\ now < iat + e /\
    c_userId cl = Some (id c) /\ c_role cl = Some (role c) /\ id c <> "" /\ role c <> "".
Proof.
  unfold isAuthenticated. destruct h as [hdr|]; [|done].
  destruct (String.prefix _ _) eqn:Hpre; [|done].
  destruct (nth_error _ 1) as [tok|] eqn:Htok; [|done].
  destruct (jwt_verify tok sec now) as [|cl] eqn:Hv; [done|].
  apply verify_sound in Hv as (k & iat & e & -> & Hk & -> & Hlt).
  unfold decode_caller, truthy.
  destruct (c_userId cl) as [uid|] eqn:Hu, (c_role cl) as [r|] eqn:Hr; try done.
  destruct (String.eqb_spec uid ""), (String.eqb_spec r ""); simpl; intros; simplify_eq/=;
    try done.
  exists hdr, (jwt_sign cl k iat e), cl, k, iat, e. done.
Qed.

End Sessions.

(** ** Credentials *)

Section Credentials.
Context `{RegexEngine} `{PasswordHasher} `{TokenService} `{!PasswordHasherLaws}.

(** C21: login succeeds only for a stored user that the email filter
    selects and whose stored hash was made from a password with the
    presented password's first 72 bytes; the token it returns carries
    that user's id and role, signed with login's secret at the login
    time. *)
Theorem login_authenticates (s : user_store) (b : auth_body) (now : Z) :
  a_success (login s b now) = true ->
  exists u p q cost salt, In u (users s) /\
    user_findOne s (JObj [("email", ab_email b)]) = inr (Some u) /\
    ab_password b = JStr p /\ password u = bcrypt_hash q cost salt /\
    bcrypt_prefix q = bcrypt_prefix p /\
    a_token (login s b now) = Some (jwt_sign (token_claims u) login_secret now token_lifetime).
Proof.
  intros Hs. destruct (login_success s b now) as (u & p & Hf & Hp & Hc & ->); [by left|].
  apply compare_sound in Hc as (q & cost & salt & Hh & Hq).
  exists u, p, q, cost, salt. split_and!; try done. by eapply user_findOne_In.
Qed.

(** C22: The email of the login body is a query, not an identifier: with
    the email [{ "$ne": null }] and the password of the first stored user,
    login succeeds and hands out a session for that user, to a caller who
    knows no email at all (spec section 6 treats the email as an opaque
    identifier). *)
Theorem login_ne_email (s : user_store) (u : user) (us : list user) (fn ph : jsval)
    (pw : string) (now : Z) :
  users s = u :: us -> pw <> "" -> bcrypt_compare pw (password u) = true ->
  login s (mkAuthBody fn (JObj [("$ne", JNull)]) ph (JStr pw)) now =
  mkAuthResponse 200 true ("Welcome back " ++ fullname u)
    (Some (jwt_sign (token_claims u) login_secret now token_lifetime)) (Some (login_view u)).
Proof.
  intros Hs Hpw Hc. unfold login. cbn [ab_email ab_password truthy].
  rewrite (proj2 (String.eqb_neq _ _) Hpw). cbn [negb orb].
  rewrite (user_findOne_ne_null s u us Hs). simpl. by rewrite Hc.
Qed.

(** C23: for a string email and password, login gives the same answer
    when no user has the email as when the user with it has another
    password: it does not tell which of the two failed. *)
Theorem login_uniform_failure (s : user_store) (b : auth_body) (now : Z) (e p : string) :
  ab_email b = JStr e -> ab_password b = JStr p -> e <> "" -> p <> "" ->
  (forall u, In u (users s) -> email u = e -> bcrypt_compare p (password u) = false) ->
  login s b now = bad_credentials.
Proof.
  intros He Hp Hne Hnp Hno. unfold login. rewrite He, Hp, user_findOne_email. simpl.
  destruct (String.eqb_spec e ""), (String.eqb_spec p ""); try done; simpl.
  destruct (List.find _ _) as [u|] eqn:Hf; [|done].
  apply List.find_some in Hf as [Hu He'%String.eqb_eq]. simpl. by rewrite (Hno u Hu He').
Qed.

(** C33: bcrypt reads 72 bytes: login answers a password exactly as it
    answers any other password with the same first 72 bytes. *)
Theorem login_bcrypt_prefix (s : user_store) (fn em ph : jsval) (p p' : string) (now : Z) :
  bcrypt_prefix p = bcrypt_prefix p' ->
  login s (mkAuthBody fn em ph (JStr p)) now = login s (mkAuthBody fn em ph (JStr p')) now.
Proof.
  intros Hpp. unfold login; cbn [ab_email ab_password truthy].
  assert (String.eqb p "" = String.eqb p' "") as ->.
  { apply Bool.eq_iff_eq_true. rewrite !String.eqb_eq, <- (bcrypt_prefix_empty p), <- (bcrypt_prefix_empty p'), Hpp. done. }
  destruct (_ || _); [done|]. destruct (user_findOne _ _) as [|[u|]]; [done| |done].
  simpl. by rewrite (compare_prefix p p' _ Hpp).
Qed.

(** registering a fresh email with string fields answers 200 and
    stores the user; logging in with that email and password then
    succeeds, with a token for the new id and the role ["user"]. *)
Theorem register_then_login (s : user_store) (fn e p : string) (ph : jsval) (salt : N) (now : Z) :
  e ∉ map email (users s) -> fn <> "" -> e <> "" -> p <> "" -> truthy ph = true ->
  (next_user s < 16 ^ 24)%N ->
  exists s', register s (mkAuthBody (JStr fn) (JStr e) ph (JStr p)) salt =
               (Some (auth_reply 200 true "Account created successfuly"), s') /\
    login s' (mkAuthBody JUndefined (JStr e) JUndefined (JStr p)) now =
    mkAuthResponse 200 true ("Welcome back " ++ fn)
      (Some (jwt_sign (mkClaims (Some (oid_of_counter (next_user s))) (Some "user"))
               login_secret now token_lifetime))
      (Some (mkLoginUser (oid_of_counter (next_user s)) fn e ph JUndefined "user")).
Proof.
  intros Hfresh Hfn He Hp Hph Hlt. rewrite register_fresh by done.
  eexists; split; [reflexivity|].
  pose proof (findOne_appended (users s) (registered_user s fn e ph p salt)
    (N.succ (next_user s)) Hfresh) as Hf. cbn [email registered_user] in Hf.
  unfold login; cbn [ab_email ab_password truthy]. rewrite Hf.
  destruct (String.eqb_spec e ""), (String.eqb_spec p ""); try done; simpl.
  rewrite compare_hash, String_eqb_refl. done.
Qed.

End Credentials.

(** ** The users collection under register *)

Section Registration.
Context `{RegexEngine} `{PasswordHasher}.

(** The collections register can reach from an empty one. *)
Inductive registered : user_store -> Prop :=
| reg_empty : registered empty_user_store
| reg_step (s : user_store) (b : auth_body) (salt : N) :
    registered s -> registered (snd (register s b salt)).

Lemma register_wf_step (s : user_store) (b : auth_body) (salt : N) :
  users_wf s -> users_wf (snd (register s b salt)).
Proof.
  intros Hwf. destruct (register_snd s b salt) as [->|(h & u & Hc)]; [done|].
  by eapply user_create_wf.
Qed.

(** register keeps the users collection well formed: ids issued by
    the counter and unique, emails unique, roles in the enum. *)
Theorem register_wf (s : user_store) (b : auth_body) (salt : N) :
  users_wf s -> users_wf (snd (register s b salt)).
Proof. apply register_wf_step. Qed.

(** every collection register can build from an empty one is well
    formed and holds only users of role ["user"]: no request creates an
    admin. *)
Theorem registered_no_admin (s : user_store) :
  registered s -> users_wf s /\ Forall (fun u => User.role u = "user") (users s).
Proof.
  induction 1 as [|s b salt _ [Hwf Hroles]].
  - split; [apply users_wfb_sound; vm_compute; reflexivity|constructor].
  - split; [by apply register_wf_step|].
    destruct (register_snd s b salt) as [->|(h & u & Hc)]; [done|].
    apply user_create_inr in Hc as (_ & _ & _ & _ & Hr & _ & _ & _ & ->). simpl.
    apply List.Forall_app. split; [done|]. by constructor.
Qed.

(** C24: a register request whose password is a non-zero number passes
    the presence checks, makes bcrypt throw, and gets no response at all:
    the [catch] only logs. *)
Theorem register_numeric_password (s : user_store) (b : auth_body) (salt : N) (e : string) (z : Z) :
  truthy (ab_fullname b) = true -> ab_email b = JStr e -> e <> "" ->
  e ∉ map email (users s) -> truthy (ab_phoneNumber b) = true ->
  ab_password b = JNum z -> z <> 0 ->
  register s b salt = (None, s).
Proof.
  intros Hfn He Hne Hfresh Hph Hp Hz. unfold register.
  rewrite Hfn, He, Hph, Hp, user_findOne_email, (proj2 (find_email_None _ _) Hfresh). simpl.
  destruct (String.eqb_spec e ""); [done|]. by destruct (Z.eqb_spec z 0).
Qed.

End Registration.

(** ** Typed results *)

Section Typed.
Context `{RegexEngine} `{PasswordHasher} `{TokenService}.

(** Every answer of login is a typed result. *)
Lemma login_typed (s : user_store) (b : auth_body) (now : Z) :
  auth_result_of (login s b now) <> None.
Proof. unfold login. repeat (case_match; simplify_eq/=); vm_compute; congruence. Qed.

(** Every answer register sends is a typed result but one: an email
    already registered gets 201 with [success: false], neither a success
    nor an error of spec section 7. *)
Lemma register_typed (s : user_store) (b : auth_body) (salt : N) (a : auth_response) :
  fst (register s b salt) = Some a ->
  auth_result_of a <> None \/ a = auth_reply 201 false "user already exist".
Proof.
  unfold register. repeat (case_match; simplify_eq/=); intros [= <-];
    (by right) || (left; vm_compute; congruence).
Qed.

Lemma user_exists_untyped : auth_result_of (auth_reply 201 false "user already exist") = None.
Proof. reflexivity. Qed.
End Typed.

End Auth.
