(* ===== verification/Policy.v ===== *)
(** * The access policy of spec section 4.1

    What the handlers must implement, stated without reference to them: a
    task is visible to an admin always and to a user who created it or is
    its assignee ([visible]); a single task may be read or updated by an
    admin or by its creator ([may_read]); the counts of getTaskCounts are
    the sizes of the visible sets ([spec_counts]); the keyword search is a
    case-insensitive substring test ([keyword_match]); a user's update may
    touch only [status] and [updatedAt] ([user_frame]) and no update
    touches the id, creator or creation time ([key_fields]).  The
    refinement theorems relating the handlers of [TaskController] to these
    predicates are proved there.  [docs_change] states the changes to the
    stored documents a caller may cause: the write handlers are shown to
    cause only those, and the server-level invariants of [Router] follow
    from it. *)

From Stdlib Require Import ZArith NArith String.
From stdpp Require Import base list strings options.
From S2P Require Import Prelude Js Task Query Repo Http.

Module Policy.
Import Js Task Query Repo Http.

(** ** The abstract policy *)

(** Identity of a stored ObjectId with the caller's id, as MongoDB
    compares them: the caller's id is cast to an ObjectId first. *)
Definition same_oid (stored userId : string) : bool :=
  match oid_cast userId with Some k => String.eqb stored k | None => false end.

Definition owns (u : caller) (t : task) : bool := same_oid (createdBy t) (id u).

Definition assigned (u : caller) (t : task) : bool :=
  match assignedTo t with Some a => same_oid a (id u) | None => false end.

(** Spec 4.1, visibility predicate. *)
Definition visible (u : caller) (t : task) : bool := is_admin u || owns u t || assigned u t.

(** Spec 4.1, read-one and update: admin or creator. *)
Definition may_read (u : caller) (t : task) : bool := is_admin u || owns u t.

(** A caller the filters can be built for: an admin, or a user whose id
    is an ObjectId (the middleware only checks that it is truthy). *)
Definition caller_ok (u : caller) : bool := is_admin u || is_object_id (id u).

(** The id as the login token carries it: an ObjectId in lower case. *)
Definition canonical_id (s : string) : Prop := oid_cast s = Some s.

Definition count_where (p : task -> bool) (docs : list task) : nat :=
  length (List.filter p docs).

(** Spec 4.1, count aggregation. *)
Definition spec_counts (u : caller) (docs : list task) : counts :=
  mkCounts (count_where (visible u) docs)
    (count_where (fun t => visible u t && bool_decide (status t = Pending)) docs)
    (count_where (fun t => visible u t && bool_decide (status t = InProgress)) docs)
    (count_where (fun t => visible u t && bool_decide (status t = Completed)) docs).

(** Spec 4.2: case-insensitive substring of title or description. *)
Definition keyword_match (kw : string) (t : task) : bool :=
  contains (lower kw) (lower (title t)) ||
  match description t with Some d => contains (lower kw) (lower d) | None => false end.

(** The fields a user's update must leave as they are: everything but
    [status] and [updatedAt]. *)
Definition user_frame (d : task) :=
  (task_id d, title d, description d, priority d, dueDate d, tags d,
   createdBy d, assignedTo d, createdAt d).

(** The fields no update changes. *)
Definition key_fields (d : task) := (task_id d, createdBy d, createdAt d).

(** The changes to the stored documents the policy allows a caller
    ([admin] says whether it is an admin): none; one new document with a
    fresh id (create); a stored document replaced by one with the same
    [key_fields] and, for a non-admin, the same [user_frame] (update,
    spec 4.1 steps 3 and 4); one document removed, by an admin only
    (delete). *)
Inductive docs_change (admin : bool) : list task -> list task -> Prop :=
| change_none (docs : list task) : docs_change admin docs docs
| change_create (docs : list task) (t : task) :
    find_doc (task_id t) docs = None -> docs_change admin docs (docs ++ [t])
| change_update (docs : list task) (t t' : task) :
    find_doc (task_id t') docs = Some t -> key_fields t' = key_fields t ->
    (admin = false -> user_frame t' = user_frame t) ->
    docs_change admin docs (replace_doc t' docs)
| change_delete (docs : list task) (k : string) :
    admin = true -> docs_change admin docs (remove_doc k docs).

(** A document present before and after an allowed change kept its key
    fields, and its frame when the caller is not an admin. *)
Lemma docs_change_find (admin : bool) (docs docs' : list task) (k : string) (t t' : task) :
  docs_change admin docs docs' -> find_doc k docs = Some t -> find_doc k docs' = Some t' ->
  key_fields t' = key_fields t /\ (admin = false -> user_frame t' = user_frame t).
Proof.
  destruct 1 as [docs|docs t0 Hf|docs t0 t1 Hf Hk Hu|docs k0 Ha]; intros H1 H2.
  - simplify_eq. by split.
  - rewrite find_doc_app_one, H1 in H2. simplify_eq. by split.
  - destruct (String.eqb_spec k (task_id t1)) as [->|Hne].
    + rewrite find_doc_replace_same in H2 by congruence. rewrite Hf in H1.
      injection H1 as <-. injection H2 as <-. by split.
    + rewrite find_doc_replace_other in H2 by done. simplify_eq. by split.
  - destruct (String.eqb_spec k k0) as [->|Hne]; [by rewrite find_doc_remove_same in H2|].
    rewrite find_doc_remove_other in H2 by done. simplify_eq. split; [done|congruence].
Qed.

(** The three status counts partition any count. *)
Lemma count_where_by_status (p : task -> bool) (docs : list task) :
  count_where p docs =
  count_where (fun t => p t && bool_decide (status t = Pending)) docs +
  count_where (fun t => p t && bool_decide (status t = InProgress)) docs +
  count_where (fun t => p t && bool_decide (status t = Completed)) docs.
Proof.
  unfold count_where. induction docs as [|d docs IH]; [done|]; simpl.
  destruct (p d), (status d); simpl; lia.
Qed.

End Policy.
