(* ===== verification/TaskController.v ===== *)
(** * The task controller

    The seven handlers of src/controllers/task.controller.js.  Each takes
    the repository state, the request (with [req.user], the caller the
    middleware decoded) and, where it writes, the clock, and returns the
    response [res.status(code).json(...)] sends, with the new state.  The
    handler's [try] block is a computation of type [fault + _]; its
    [catch] is the final [match] that turns a thrown fault into the 500
    response (400 with [error.message] in CreateTask).  The handlers are
    written against the [TaskRepository] interface, so every theorem about
    them holds for any implementation of the contract.

    The second half of the file proves them correct: the filter documents
    compile to filters that select exactly the tasks of the abstract
    policy ([Policy]); the read handlers answer the spec's counts, lists
    and single tasks; the write handlers keep the frame of a user's update,
    never change a task's id, creator or creation time, make no partial
    writes, force [createdBy] to the caller and leave deletion to admins. *)

From Stdlib Require Import ZArith NArith String.
From stdpp Require Import base list strings options.
From S2P Require Import Prelude Js Task Query Repo User Http Policy.

Module TaskController.
Import Js Task Query Repo User Http Policy.

Local Unset Default Proof Using.

(** ** The query documents *)

(** [{ $or: [{ createdBy: userId }, { assignedTo: userId }] }] *)
Definition ownerQuery (userId : string) : jsval :=
  JObj [("$or", JArr [JObj [("createdBy", JStr userId)]; JObj [("assignedTo", JStr userId)]])].

(** getTaskCounts, lines 19-28: [matchQuery] is [{}] for an admin. *)
Definition matchQuery (u : caller) : jsval :=
  if negb (is_admin u) then ownerQuery (id u) else JObj [].

(** getAllTasks, lines 90-95: the keyword search. *)
Definition keywordQuery (keyword : jsval) : jsval :=
  JObj [("$or", JArr [
    JObj [("title", JObj [("$regex", keyword); ("$options", JStr "i")])];
    JObj [("description", JObj [("$regex", keyword); ("$options", JStr "i")])]])].

(** getAllTasks, lines 90-110. *)
Definition baseQuery (u : caller) (keyword : jsval) : jsval :=
  if negb (is_admin u) then JObj [("$and", JArr [keywordQuery keyword; ownerQuery (id u)])]
  else keywordQuery keyword.

(** ** Document updates of updateTask

    [task.path = value] casts the value to the path's schema type; a cast
    failure makes the following [save()] throw. *)

Definition with_title (t : task) (x : string) : task :=
  mkTask (task_id t) x (description t) (status t) (priority t) (dueDate t) (tags t)
    (createdBy t) (assignedTo t) (createdAt t) (updatedAt t).
Definition with_description (t : task) (x : option string) : task :=
  mkTask (task_id t) (title t) x (status t) (priority t) (dueDate t) (tags t)
    (createdBy t) (assignedTo t) (createdAt t) (updatedAt t).
Definition with_status (t : task) (x : TaskStatus) : task :=
  mkTask (task_id t) (title t) (description t) x (priority t) (dueDate t) (tags t)
    (createdBy t) (assignedTo t) (createdAt t) (updatedAt t).
Definition with_priority (t : task) (x : jsval) : task :=
  mkTask (task_id t) (title t) (description t) (status t) x (dueDate t) (tags t)
    (createdBy t) (assignedTo t) (createdAt t) (updatedAt t).
Definition with_dueDate (t : task) (x : jsval) : task :=
  mkTask (task_id t) (title t) (description t) (status t) (priority t) x (tags t)
    (createdBy t) (assignedTo t) (createdAt t) (updatedAt t).
Definition with_tags (t : task) (x : jsval) : task :=
  mkTask (task_id t) (title t) (description t) (status t) (priority t) (dueDate t) x
    (createdBy t) (assignedTo t) (createdAt t) (updatedAt t).
Definition with_assignedTo (t : task) (x : option string) : task :=
  mkTask (task_id t) (title t) (description t) (status t) (priority t) (dueDate t) (tags t)
    (createdBy t) x (createdAt t) (updatedAt t).
Definition with_updatedAt (t : task) (x : Z) : task :=
  mkTask (task_id t) (title t) (description t) (status t) (priority t) (dueDate t) (tags t)
    (createdBy t) (assignedTo t) (createdAt t) x.

(** [task.status = status] *)
Definition assign_status (t : task) (v : jsval) : fault + task :=
  let* o := cast_string "status" v in
  match o ≫= status_of_string with
  | Some st => inr (with_status t st)
  | None => inl (ValidationError "status")
  end.

(** [task.title = title] *)
Definition assign_title (t : task) (v : jsval) : fault + task :=
  let* o := cast_string "title" v in
  match o with
  | Some x => if String.eqb x "" then inl (ValidationError "title") else inr (with_title t x)
  | None => inl (ValidationError "title")
  end.

(** [task.description = description] *)
Definition assign_description (t : task) (v : jsval) : fault + task :=
  let* o := cast_string "description" v in inr (with_description t o).

(** [task.assignedTo = assignedTo] *)
Definition assign_assignedTo (t : task) (v : jsval) : fault + task :=
  let* o := cast_oid "assignedTo" v in inr (with_assignedTo t o).

(** [task.priority = priority]: a Number path. *)
Definition assign_priority (t : task) (v : jsval) : fault + task :=
  let* x := cast_number "priority" v in inr (with_priority t x).

(** [task.dueDate = dueDate]: a Date path. *)
Definition assign_dueDate (t : task) (v : jsval) : fault + task :=
  let* x := cast_date "dueDate" v in inr (with_dueDate t x).

(** [task.tags = tags]: a [[String]] path. *)
Definition assign_tags (t : task) (v : jsval) : fault + task :=
  let* x := cast_tags "tags" v in inr (with_tags t x).

(** Lines 201-207: every field the admin sends that is truthy is set,
    cast to its path's type; a value that does not cast makes [save()]
    reject. *)
Definition admin_update (t : task) (b : body) : fault + task :=
  let* t := if truthy (b_title b) then assign_title t (b_title b) else inr t in
  let* t := if truthy (b_description b) then assign_description t (b_description b) else inr t in
  let* t := if truthy (b_status b) then assign_status t (b_status b) else inr t in
  let* t := if truthy (b_priority b) then assign_priority t (b_priority b) else inr t in
  let* t := if truthy (b_dueDate b) then assign_dueDate t (b_dueDate b) else inr t in
  let* t := if truthy (b_assignedTo b) then assign_assignedTo t (b_assignedTo b) else inr t in
  let* t := if truthy (b_tags b) then assign_tags t (b_tags b) else inr t in
  inr t.

(** ** The handlers *)

Section Handlers.
Context `{RegexEngine} {S : Type} `{TaskRepository S}.

(** getAllUsers, lines 4-13: [User.find({}, "_id fullname email role")];
    a rejection is the catch's 500. *)
Definition getAllUsers (us : user_store) : response :=
  match user_find us (JObj []) with
  | inr l => mkResponse 200 true "" (PUsers (map project l))
  | inl _ => mkResponse 500 false "Failed to fetch users" PNone
  end.

(** getTaskCounts, lines 15-53: four counts under [Promise.all]; a
    rejected count rejects the whole. *)
Definition getTaskCounts (s : S) (req : request) : response :=
  let u := req_user req in
  let mq := matchQuery u in
  let r :=
    let* total := countDocuments s (if is_admin u then JObj [] else mq) in
    let* pending := countDocuments s (spread mq "status" (JStr "pending")) in
    let* inprogress := countDocuments s (spread mq "status" (JStr "in-progress")) in
    let* completed := countDocuments s (spread mq "status" (JStr "completed")) in
    inr (mkCounts total pending inprogress completed) in
  match r with
  | inr c => mkResponse 200 true "" (PCounts c)
  | inl _ => internal_error
  end.

(** CreateTask, lines 56-83. *)
Definition CreateTask (s : S) (req : request) (now : Z) : response * S :=
  let b := req_body req in
  let r :=
    let* bad :=
      if truthy (b_assignedTo b) then
        let* m := match_object_id (b_assignedTo b) in inr (negb m)
      else inr false in
    if bad then inr (mkResponse 400 false "Invalid assignedTo user ID" PNone, s)
    else
      let* (t, s') :=
        create s (mkInput (b_title b) (b_description b) (b_status b) (b_priority b)
                          (b_dueDate b) (b_assignedTo b) (id (req_user req))) now in
      inr (mkResponse 201 true "" (PTask t), s') in
  match r with
  | inr x => x
  | inl e => (mkResponse 400 false (fault_message e) PNone, s)
  end.

(** getAllTasks, lines 85-129: an empty result is a 404. *)
Definition getAllTasks (s : S) (req : request) : response :=
  let keyword := js_or (req_keyword req) (JStr "") in
  match find s (baseQuery (req_user req) keyword) with
  | inr [] => mkResponse 404 false "Tasks not found" PNone
  | inr ts => mkResponse 200 true "" (PTasks ts)
  | inl _ => internal_error
  end.

(** getTaskById, lines 131-160. *)
Definition getTaskById (s : S) (req : request) : response :=
  let u := req_user req in
  match findById s (req_params_id req) with
  | inl _ => internal_error
  | inr None => mkResponse 404 false "Task not found" PNone
  | inr (Some t) =>
      if negb (is_admin u) && negb (String.eqb (createdBy t) (id u))
      then mkResponse 403 false "Access denied" PNone
      else mkResponse 200 true "" (PTask t)
  end.

(** Lines 210-217: stamp [updatedAt], [save()], answer 200. *)
Definition finish_update (s : S) (t : task) (now : Z) : fault + (response * S) :=
  let t' := with_updatedAt t now in
  let* s' := save s t' in
  inr (mkResponse 200 true "Task updated successfully" (PTask t'), s').

(** updateTask, lines 162-225. *)
Definition updateTask (s : S) (req : request) (now : Z) : response * S :=
  let u := req_user req in
  let b := req_body req in
  let r :=
    let* found := findById s (req_params_id req) in
    match found with
    | None => inr (mkResponse 404 false "Task not found" PNone, s)
    | Some t =>
        if negb (is_admin u) && negb (String.eqb (createdBy t) (id u))
        then inr (mkResponse 403 false "Access denied" PNone, s)
        else if negb (is_admin u) then
          if negb (truthy (b_status b)) || negb (includes allowedStatuses (b_status b))
          then inr (mkResponse 400 false
                      "Invalid or missing status. Only status update is allowed." PNone, s)
          else let* t' := assign_status t (b_status b) in finish_update s t' now
        else
          if truthy (b_status b) && negb (includes allowedStatuses (b_status b))
          then inr (mkResponse 400 false "Invalid status value." PNone, s)
          else let* t' := admin_update t b in finish_update s t' now
    end in
  match r with
  | inr x => x
  | inl _ => (internal_error, s)
  end.

(** deleteTask, lines 227-259. *)
Definition deleteTask (s : S) (req : request) : response * S :=
  if negb (is_admin (req_user req))
  then (mkResponse 403 false "Only admin can delete tasks" PNone, s)
  else
    match findByIdAndDelete s (req_params_id req) with
    | inl _ => (internal_error, s)
    | inr (None, s') => (mkResponse 404 false "Task not found" PNone, s')
    | inr (Some _, s') => (mkResponse 200 true "Task deleted successfully" PNone, s')
    end.
End Handlers.

(** The parsed forms of the handlers' filter documents. *)
Definition owner_filter (k : string) : filter :=
  FAnd [FOr [FAnd [FEq "createdBy" k]; FAnd [FEq "assignedTo" k]]].

Definition keyword_filter (kw : string) : filter :=
  FAnd [FOr [FAnd [FRegex "title" kw "i"]; FAnd [FRegex "description" kw "i"]]].

(** ** The filter documents select the policy's tasks *)

Section Filters.
Context `{RegexEngine}.

Lemma compile_ownerQuery (userId k : string) :
  oid_cast userId = Some k -> compile (ownerQuery userId) = inr (owner_filter k).
Proof. intros Hk. simpl. rewrite Hk. reflexivity. Qed.

Lemma fmatch_owner (u : caller) (k : string) (t : task) :
  oid_cast (id u) = Some k -> fmatch (owner_filter k) t = owns u t || assigned u t.
Proof.
  intros Hk. unfold fmatch, owner_filter, owns, assigned, same_oid. rewrite Hk. simpl.
  autorewrite with bm_rw.
  destruct (assignedTo t); simpl; by rewrite ?andb_true_r, ?orb_false_r.
Qed.

Lemma caller_ok_cast (u : caller) :
  caller_ok u = true -> is_admin u = false -> exists k, oid_cast (id u) = Some k.
Proof.
  unfold caller_ok, oid_cast. intros Hok Ha. rewrite Ha in Hok. simpl in Hok.
  rewrite Hok. eauto.
Qed.

(** The filter of [totalTasks] (line 31) selects the visible tasks. *)
Lemma compile_total (u : caller) :
  caller_ok u = true ->
  exists f, compile (if is_admin u then JObj [] else matchQuery u) = inr f /\
            forall t, fmatch f t = visible u t.
Proof.
  intros Hok. unfold visible, matchQuery. destruct (is_admin u) eqn:Ha; [by eexists|].
  destruct (caller_ok_cast u Hok Ha) as [k Hk].
  exists (owner_filter k). split; [by apply compile_ownerQuery|]. intros t.
  by apply fmatch_owner.
Qed.

(** The filters [{ ...matchQuery, status }] (lines 32-34) select the
    visible tasks of that status. *)
Lemma compile_status (u : caller) (st : TaskStatus) :
  caller_ok u = true ->
  exists f, compile (spread (matchQuery u) "status" (JStr (status_string st))) = inr f /\
            forall t, fmatch f t = visible u t && bool_decide (status t = st).
Proof.
  intros Hok. unfold visible, matchQuery. destruct (is_admin u) eqn:Ha; simpl.
  - eexists. split; [done|]. intros t. unfold fmatch; simpl. autorewrite with bm_rw.
    by rewrite status_string_eqb, andb_true_r.
  - destruct (caller_ok_cast u Hok Ha) as [k Hk]. rewrite Hk.
    eexists. split; [reflexivity|]. intros t. rewrite <- (fmatch_owner u k t Hk).
    unfold fmatch, owner_filter; simpl. autorewrite with bm_rw. by rewrite status_string_eqb, !andb_true_r.
Qed.

Context `{!RegexEngineLaws}.

Lemma fmatch_keyword (kw : string) (t : task) :
  is_literal kw = true -> fmatch (keyword_filter kw) t = keyword_match kw t.
Proof.
  intros Hl. unfold fmatch, keyword_filter, keyword_match. simpl. autorewrite with bm_rw.
  destruct (description t); simpl; rewrite ?(re_literal_test_i _ _ Hl);
    by rewrite ?andb_true_r, ?orb_false_r.
Qed.

Lemma compile_keywordQuery (kw : string) :
  is_literal kw = true -> compile (keywordQuery (JStr kw)) = inr (keyword_filter kw).
Proof. intros Hl. simpl. unfold compile_op. simpl. by rewrite (re_literal_valid _ _ Hl). Qed.

(** The filter of getAllTasks (lines 90-110) selects the visible tasks
    whose title or description contains the keyword. *)
Lemma compile_base (u : caller) (kw : string) :
  caller_ok u = true -> is_literal kw = true ->
  exists f, compile (baseQuery u (JStr kw)) = inr f /\
            forall t, fmatch f t = keyword_match kw t && visible u t.
Proof.
  intros Hok Hl. unfold visible, baseQuery. destruct (is_admin u) eqn:Ha; simpl.
  - exists (keyword_filter kw). split; [by apply compile_keywordQuery|].
    intros t. by rewrite fmatch_keyword, andb_true_r.
  - destruct (caller_ok_cast u Hok Ha) as [k Hk].
    exists (FAnd [FAnd [keyword_filter kw; owner_filter k]]). split.
    + simpl. unfold compile_op. simpl. rewrite (re_literal_valid _ _ Hl), Hk. reflexivity.
    + intros t. rewrite <- fmatch_keyword, <- (fmatch_owner u k t Hk) by done.
      unfold fmatch; simpl. by rewrite !andb_true_r.
Qed.
End Filters.

(** ** The read handlers against the repository contract *)

Section ReadHandlers.
Context `{RegexEngine} {S : Type} `{HR : TaskRepository S} `{HL : !TaskRepositoryLaws S}.

(** What getTaskCounts answers: the counts of spec 4.1 when the filters
    can be cast, an internal error otherwise. *)
Lemma getTaskCounts_cases (s : S) (req : request) :
  getTaskCounts s req =
  if caller_ok (req_user req)
  then mkResponse 200 true "" (PCounts (spec_counts (req_user req) (repo_docs s)))
  else internal_error.
Proof.
  destruct (caller_ok (req_user req)) eqn:Hok.
  - unfold getTaskCounts. rewrite !countDocuments_spec.
    destruct (compile_total _ Hok) as [f0 [-> E0]].
    change (JStr "pending") with (JStr (status_string Pending)).
    change (JStr "in-progress") with (JStr (status_string InProgress)).
    change (JStr "completed") with (JStr (status_string Completed)).
    destruct (compile_status _ Pending Hok) as [f1 [-> E1]].
    destruct (compile_status _ InProgress Hok) as [f2 [-> E2]].
    destruct (compile_status _ Completed Hok) as [f3 [-> E3]].
    unfold spec_counts, count_where, select. simpl.
    by rewrite (List.filter_ext _ _ E0), (List.filter_ext _ _ E1),
      (List.filter_ext _ _ E2), (List.filter_ext _ _ E3).
  - apply orb_false_iff in Hok as [Ha Hid].
    unfold getTaskCounts, matchQuery. rewrite Ha, countDocuments_spec. simpl.
    assert (oid_cast (id (req_user req)) = None) as -> by (unfold oid_cast; by rewrite Hid).
    reflexivity.
Qed.

(** C1: getTaskCounts computes the four counts of spec 4.1 (total,
    pending, in-progress, completed) over exactly the tasks visible to
    the caller, for an admin and for any user whose id is an ObjectId. *)
Theorem getTaskCounts_spec (s : S) (req : request) :
  caller_ok (req_user req) = true ->
  getTaskCounts s req =
  mkResponse 200 true "" (PCounts (spec_counts (req_user req) (repo_docs s))).
Proof. intros Hok. by rewrite getTaskCounts_cases, Hok. Qed.

(** A user whose id is not an ObjectId makes the casts of the count
    filters throw: the handler answers 500. *)
Theorem getTaskCounts_bad_id (s : S) (req : request) :
  is_admin (req_user req) = false -> is_object_id (id (req_user req)) = false ->
  getTaskCounts s req = internal_error.
Proof. intros Ha Hid. by rewrite getTaskCounts_cases; unfold caller_ok; rewrite Ha, Hid. Qed.

(** The per-status counts add up to the total. *)
Theorem getTaskCounts_sum (s : S) (req : request) (c : counts) :
  getTaskCounts s req = mkResponse 200 true "" (PCounts c) ->
  totalTasks c = totalPending c + totalInProgress c + totalCompleted c.
Proof.
  rewrite getTaskCounts_cases. destruct (caller_ok _); [|done].
  intros [= <-]. apply count_where_by_status.
Qed.

(** C3: getAllTasks answers the visible tasks matching a literal keyword,
    and 404 when there is none. *)
Theorem getAllTasks_spec `{!RegexEngineLaws} (s : S) (req : request) (kw : string) :
  caller_ok (req_user req) = true ->
  js_or (req_keyword req) (JStr "") = JStr kw -> is_literal kw = true ->
  getAllTasks s req =
  match List.filter (fun t => keyword_match kw t && visible (req_user req) t) (repo_docs s) with
  | [] => mkResponse 404 false "Tasks not found" PNone
  | ts => mkResponse 200 true "" (PTasks ts)
  end.
Proof.
  intros Hok Hkw Hl. unfold getAllTasks. rewrite Hkw, find_spec.
  destruct (compile_base _ _ Hok Hl) as [f [-> Hf]]. unfold select.
  rewrite (List.filter_ext _ _ Hf). by destruct (List.filter _ _).
Qed.

(** A keyword that is not a string (a repeated or nested query
    parameter) cannot be cast for [$regex]: the handler answers 500. *)
Theorem getAllTasks_bad_keyword (s : S) (req : request) (l : list jsval) :
  req_keyword req = JArr l -> getAllTasks s req = internal_error.
Proof.
  intros Hkw. unfold getAllTasks, baseQuery. rewrite Hkw, find_spec.
  by destruct (negb (is_admin _)).
Qed.

(** What getTaskById answers: a malformed id is an internal error (the
    ObjectId cast throws), an unknown id a 404, and a stored task is
    returned exactly when [may_read] allows it. *)
Lemma getTaskById_eq (s : S) (req : request) :
  canonical_id (id (req_user req)) ->
  getTaskById s req =
  match oid_cast (req_params_id req) with
  | None => internal_error
  | Some k =>
      match find_doc k (repo_docs s) with
      | None => mkResponse 404 false "Task not found" PNone
      | Some t => if may_read (req_user req) t then mkResponse 200 true "" (PTask t)
                  else mkResponse 403 false "Access denied" PNone
      end
  end.
Proof.
  intros Hc. unfold getTaskById, may_read, owns, same_oid. rewrite findById_spec, Hc.
  destruct (oid_cast _); [|done]. destruct (find_doc _ _); [|done].
  by destruct (is_admin _), (String.eqb _ _).
Qed.

(** C8: getTaskById returns a task exactly when the requested id names it,
    it is stored, and the read-one rule of spec 4.1 lets the caller read
    it (admin or creator). *)
Theorem getTaskById_spec (s : S) (req : request) (t : task) :
  canonical_id (id (req_user req)) ->
  getTaskById s req = mkResponse 200 true "" (PTask t) <->
  oid_cast (req_params_id req) = Some (task_id t) /\ find_doc (task_id t) (repo_docs s) = Some t /\
  may_read (req_user req) t = true.
Proof.
  intros Hc. rewrite (getTaskById_eq _ _ Hc). split.
  - destruct (oid_cast _) as [k|] eqn:Hk; [|done].
    destruct (find_doc k _) as [t'|] eqn:Hf; [|done].
    destruct (may_read _ t') eqn:Hm; [|done]. intros [= <-].
    pose proof (find_doc_Some _ _ _ Hf) as [_ ->]. auto.
  - intros (-> & -> & ->). done.
Qed.

(** The read-one rule is narrower than visibility: an assignee who did
    not create a task sees it in lists and counts but is refused it by
    getTaskById (spec section 9). *)
Corollary getTaskById_assignee_forbidden (s : S) (req : request) (t : task) :
  canonical_id (id (req_user req)) -> is_admin (req_user req) = false ->
  oid_cast (req_params_id req) = Some (task_id t) ->
  find_doc (task_id t) (repo_docs s) = Some t ->
  assignedTo t = Some (id (req_user req)) -> createdBy t <> id (req_user req) ->
  visible (req_user req) t = true /\
  getTaskById s req = mkResponse 403 false "Access denied" PNone.
Proof.
  intros Hc Ha Hk Hf Has Hcr. unfold visible, may_read, owns, assigned, same_oid.
  rewrite (getTaskById_eq _ _ Hc), Hk, Hf. unfold may_read, owns, same_oid.
  rewrite Hc, Ha, Has, String_eqb_refl, (proj2 (String.eqb_neq _ _) Hcr). by rewrite orb_true_r.
Qed.
End ReadHandlers.

(** ** Field updates *)

Lemma assign_status_valid (t : task) (st : TaskStatus) :
  assign_status t (JStr (status_string st)) = inr (with_status t st).
Proof. by destruct st. Qed.

Lemma assign_status_included (t : task) (v : jsval) :
  includes allowedStatuses v = true -> exists st, assign_status t v = inr (with_status t st).
Proof. intros [st ->]%includes_allowed. eexists. apply assign_status_valid. Qed.

(** The setters of the Number, Date and array paths write their path
    only. *)
Lemma assign_priority_inr (t t' : task) (v : jsval) :
  assign_priority t v = inr t' -> exists x, t' = with_priority t x.
Proof. unfold assign_priority. destruct (cast_number _ _); simpl; [done|]. intros [= <-]. eauto. Qed.

Lemma assign_dueDate_inr (t t' : task) (v : jsval) :
  assign_dueDate t v = inr t' -> exists x, t' = with_dueDate t x.
Proof. unfold assign_dueDate. destruct (cast_date _ _); simpl; [done|]. intros [= <-]. eauto. Qed.

Lemma assign_tags_inr (t t' : task) (v : jsval) :
  assign_tags t v = inr t' -> exists x, t' = with_tags t x.
Proof. unfold assign_tags. destruct (cast_tags _ _); simpl; [done|]. intros [= <-]. eauto. Qed.

(** Unfold [admin_update] into its field writes. *)
Ltac admin_update_cases H :=
  unfold admin_update, assign_title, assign_description, assign_status, assign_assignedTo in H;
  repeat (case_match; simplify_eq/=);
  repeat match goal with
  | Hp : assign_priority _ _ = inr _ |- _ => apply assign_priority_inr in Hp as [? ->]
  | Hp : assign_dueDate _ _ = inr _ |- _ => apply assign_dueDate_inr in Hp as [? ->]
  | Hp : assign_tags _ _ = inr _ |- _ => apply assign_tags_inr in Hp as [? ->]
  end.

(** [admin_update] keeps the id, the creator and the creation time. *)
Lemma admin_update_keys (t t' : task) (b : body) :
  admin_update t b = inr t' -> key_fields t' = key_fields t.
Proof. intros H. admin_update_cases H; done. Qed.

(** C19: Falsy request values leave the stored fields as they were. *)
Lemma admin_update_falsy (t t' : task) (b : body) :
  admin_update t b = inr t' ->
  (truthy (b_title b) = false -> title t' = title t) /\
  (truthy (b_description b) = false -> description t' = description t) /\
  (truthy (b_status b) = false -> status t' = status t) /\
  (truthy (b_priority b) = false -> priority t' = priority t) /\
  (truthy (b_dueDate b) = false -> dueDate t' = dueDate t) /\
  (truthy (b_assignedTo b) = false -> assignedTo t' = assignedTo t) /\
  (truthy (b_tags b) = false -> tags t' = tags t).
Proof.
  intros H. admin_update_cases H; split_and!; intros; simpl; congruence.
Qed.

Lemma assign_status_shape (t t' : task) (v : jsval) :
  assign_status t v = inr t' -> t' = with_status t (status t').
Proof. unfold assign_status. intros H. repeat (case_match; simplify_eq/=); done. Qed.

(** Both update paths keep the key fields of the task they change. *)
Lemma update_keys (admin : bool) (t t1 : task) (b : body) :
  (if admin then admin_update t b else assign_status t (b_status b)) = inr t1 ->
  key_fields t1 = key_fields t.
Proof.
  destruct admin; [apply admin_update_keys|]. intros Hu%assign_status_shape. by rewrite Hu.
Qed.

Lemma map_replace_doc_same {B} (g : task -> B) (t t' : task) (docs : list task) :
  NoDup (map task_id docs) -> find_doc (task_id t') docs = Some t -> g t' = g t ->
  map g (replace_doc t' docs) = map g docs.
Proof.
  intros Hnd Hf Hg. apply find_doc_Some in Hf as [Hin Hid].
  unfold replace_doc. rewrite map_map. apply map_ext_in. intros d Hd.
  destruct (String.eqb_spec (task_id d) (task_id t')) as [E|]; [|done].
  assert (d = t) as ->; [|done].
  apply (NoDup_ids_inj docs); [done | done | done | congruence].
Qed.

(** ** The write handlers against the repository contract *)

Section WriteHandlers.
Context `{RegexEngine} {S : Type} `{HR : TaskRepository S} `{HL : !TaskRepositoryLaws S}.

(** Stamping and saving a document found in the collection succeeds. *)
Lemma finish_update_found (s : S) (t : task) (now : Z) :
  repo_wf s -> find_doc (task_id t) (repo_docs s) <> None ->
  exists s', finish_update s t now =
             inr (mkResponse 200 true "Task updated successfully"
                    (PTask (with_updatedAt t now)), s') /\
             repo_docs s' = replace_doc (with_updatedAt t now) (repo_docs s) /\ repo_wf s'.
Proof.
  intros Hwf Hf. unfold finish_update. pose proof (save_spec s (with_updatedAt t now) Hwf) as Hs.
  destruct (save s _) as [e|s']; simpl in Hs; [by destruct Hs|]. destruct Hs as (_ & Hd & Hw).
  eauto.
Qed.

Lemma finish_update_inv (s s' : S) (t : task) (now : Z) (r : response) :
  repo_wf s -> finish_update s t now = inr (r, s') ->
  r = mkResponse 200 true "Task updated successfully" (PTask (with_updatedAt t now)) /\
  repo_docs s' = replace_doc (with_updatedAt t now) (repo_docs s) /\ repo_wf s'.
Proof.
  intros Hwf. unfold finish_update. pose proof (save_spec s (with_updatedAt t now) Hwf) as Hs.
  destruct (save s _) as [e|s0]; [done|]. intros [= <- <-]. by destruct Hs as (_ & ? & ?).
Qed.

(** Every run of updateTask either leaves the state as it was or goes
    through the success path of lines 210-217 on a task the caller may
    update. *)
Lemma updateTask_inv (s s' : S) (req : request) (now : Z) (r : response) :
  updateTask s req now = (r, s') ->
  s' = s \/
  exists k t t1, oid_cast (req_params_id req) = Some k /\ find_doc k (repo_docs s) = Some t /\
    (is_admin (req_user req) = true \/ createdBy t = id (req_user req)) /\
    (if is_admin (req_user req) then admin_update t (req_body req)
     else assign_status t (b_status (req_body req))) = inr t1 /\
    finish_update s t1 now = inr (r, s').
Proof.
  unfold updateTask. rewrite findById_spec.
  destruct (oid_cast _) as [k|] eqn:Hk; simpl; [|intros [= _ <-]; by left].
  destruct (find_doc k _) as [t|] eqn:Hf; simpl; [|intros [= _ <-]; by left].
  destruct (is_admin _) eqn:Ha; simpl.
  - destruct (_ && _); simpl; [intros [= _ <-]; by left|].
    destruct (admin_update t _) as [e|t1] eqn:Hu; simpl; [intros [= _ <-]; by left|].
    destruct (finish_update s t1 now) as [e|[r0 s0]] eqn:Hfin; [intros [= _ <-]; by left|].
    intros [= <- <-]. right. exists k, t, t1. auto.
  - destruct (String.eqb_spec (createdBy t) (id (req_user req))) as [Hc|]; simpl;
      [|intros [= _ <-]; by left].
    destruct (_ || _); simpl; [intros [= _ <-]; by left|].
    destruct (assign_status t _) as [e|t1] eqn:Hu; simpl; [intros [= _ <-]; by left|].
    destruct (finish_update s t1 now) as [e|[r0 s0]] eqn:Hfin; [intros [= _ <-]; by left|].
    intros [= <- <-]. right. exists k, t, t1. auto.
Qed.

(** C2: a user's update changes nothing but [status] and [updatedAt]:
    every other field of every stored task is as it was, whatever else
    the request body carries (spec section 8). *)
Theorem updateTask_user_frame (s s' : S) (req : request) (now : Z) (r : response) :
  repo_wf s -> is_admin (req_user req) = false -> updateTask s req now = (r, s') ->
  map user_frame (repo_docs s') = map user_frame (repo_docs s).
Proof.
  intros Hwf Ha [-> | (k & t & t1 & Hk & Hf & _ & Hu & Hfin)]%updateTask_inv; [done|].
  rewrite Ha in Hu. apply assign_status_shape in Hu.
  apply finish_update_inv in Hfin as (_ & -> & _); [|done].
  pose proof (find_doc_Some _ _ _ Hf) as [_ Hid].
  apply map_replace_doc_same with t; [by apply wf_nodup | rewrite Hu; simpl; by rewrite Hid |].
  by rewrite Hu.
Qed.

(** No update changes the id, the creator or the creation time of any
    stored task ([createdBy] is set once, spec section 3). *)
Theorem updateTask_keys (s s' : S) (req : request) (now : Z) (r : response) :
  repo_wf s -> updateTask s req now = (r, s') ->
  map key_fields (repo_docs s') = map key_fields (repo_docs s).
Proof.
  intros Hwf [-> | (k & t & t1 & Hk & Hf & _ & Hu & Hfin)]%updateTask_inv; [done|].
  apply finish_update_inv in Hfin as (_ & -> & _); [|done].
  pose proof (find_doc_Some _ _ _ Hf) as [_ Hid].
  pose proof (update_keys _ _ _ _ Hu) as Hkey.
  apply map_replace_doc_same with t; [by apply wf_nodup | | by rewrite <- Hkey].
  injection Hkey as Hi _ _. simpl. by rewrite Hi, Hid.
Qed.

(** C10: An update that does not answer 200 leaves the collection as it was:
    no partial writes. *)
Theorem updateTask_failure_unchanged (s s' : S) (req : request) (now : Z) (r : response) :
  repo_wf s -> updateTask s req now = (r, s') -> code r <> 200%N -> s' = s.
Proof.
  intros Hwf [-> | (k & t & t1 & Hk & Hf & _ & Hu & Hfin)]%updateTask_inv Hc; [done|].
  apply finish_update_inv in Hfin as (-> & _); [|done]. by destruct Hc.
Qed.

(** C9: A user who created the task sets a whitelisted status: 200, and the
    stored task is the old one with that status and a fresh
    [updatedAt]; all other submitted fields are ignored. *)
Theorem updateTask_user_status (s : S) (req : request) (now : Z) (k : string) (t : task)
    (st : TaskStatus) :
  repo_wf s -> is_admin (req_user req) = false ->
  oid_cast (req_params_id req) = Some k -> find_doc k (repo_docs s) = Some t ->
  createdBy t = id (req_user req) -> b_status (req_body req) = JStr (status_string st) ->
  exists s', updateTask s req now =
    (mkResponse 200 true "Task updated successfully"
       (PTask (with_updatedAt (with_status t st) now)), s') /\
    repo_docs s' = replace_doc (with_updatedAt (with_status t st) now) (repo_docs s).
Proof.
  intros Hwf Ha Hk Hf Hc Hst. pose proof (find_doc_Some _ _ _ Hf) as [_ Hid].
  destruct (finish_update_found s (with_status t st) now Hwf) as (s' & Hfin & Hd & _).
  { simpl. rewrite Hid, Hf. done. }
  exists s'. split; [|done]. unfold updateTask. rewrite findById_spec, Hk, Hf, Ha, Hc, Hst.
  simpl. rewrite String_eqb_refl. destruct st; simpl; by rewrite Hfin.
Qed.

(** C6: A user's update without a whitelisted status is refused with 400 and
    changes nothing (spec section 8). *)
Theorem updateTask_user_bad_status (s : S) (req : request) (now : Z) (k : string) (t : task) :
  is_admin (req_user req) = false ->
  oid_cast (req_params_id req) = Some k -> find_doc k (repo_docs s) = Some t ->
  createdBy t = id (req_user req) -> includes allowedStatuses (b_status (req_body req)) = false ->
  updateTask s req now =
  (mkResponse 400 false "Invalid or missing status. Only status update is allowed." PNone, s).
Proof.
  intros Ha Hk Hf Hc Hst. unfold updateTask. rewrite findById_spec, Hk, Hf, Ha, Hc, Hst.
  simpl. rewrite String_eqb_refl, orb_true_r. done.
Qed.

(** C17: A user who did not create the task may not update it: 403, no change. *)
Theorem updateTask_forbidden (s : S) (req : request) (now : Z) (k : string) (t : task) :
  canonical_id (id (req_user req)) ->
  oid_cast (req_params_id req) = Some k -> find_doc k (repo_docs s) = Some t ->
  may_read (req_user req) t = false ->
  updateTask s req now = (mkResponse 403 false "Access denied" PNone, s).
Proof.
  unfold may_read, owns, same_oid. intros Hc Hk Hf. rewrite Hc.
  intros [Ha Ho]%orb_false_iff. unfold updateTask. rewrite findById_spec, Hk, Hf, Ha, Ho.
  done.
Qed.

(** An admin's update with a truthy status outside the whitelist is
    refused with 400 before any field is written. *)
Theorem updateTask_admin_bad_status (s : S) (req : request) (now : Z) (k : string) (t : task) :
  is_admin (req_user req) = true ->
  oid_cast (req_params_id req) = Some k -> find_doc k (repo_docs s) = Some t ->
  truthy (b_status (req_body req)) = true ->
  includes allowedStatuses (b_status (req_body req)) = false ->
  updateTask s req now = (mkResponse 400 false "Invalid status value." PNone, s).
Proof.
  intros Ha Hk Hf Ht Hi. unfold updateTask. rewrite findById_spec, Hk, Hf, Ha, Ht, Hi.
  done.
Qed.


(** An admin's update whose fields do not cast (an [assignedTo] that is
    not an ObjectId, say) throws at [save()]: 500, no change. *)
Theorem updateTask_admin_cast_error (s : S) (req : request) (now : Z) (k : string) (t : task)
    (e : fault) :
  is_admin (req_user req) = true ->
  oid_cast (req_params_id req) = Some k -> find_doc k (repo_docs s) = Some t ->
  truthy (b_status (req_body req)) && negb (includes allowedStatuses (b_status (req_body req)))
    = false ->
  admin_update t (req_body req) = inl e ->
  updateTask s req now = (internal_error, s).
Proof.
  intros Ha Hk Hf Hs Hu. unfold updateTask. rewrite findById_spec, Hk, Hf, Ha.
  simpl. by rewrite Hs, Hu.
Qed.

(** C5: Only an admin deletes: a user is refused with 403 and nothing is
    removed, whoever created the task (spec section 8). *)
Theorem deleteTask_user_forbidden (s : S) (req : request) :
  is_admin (req_user req) = false ->
  deleteTask s req = (mkResponse 403 false "Only admin can delete tasks" PNone, s).
Proof. intros Ha. unfold deleteTask. by rewrite Ha. Qed.

(** An admin's delete removes the task with that id: 200 when it was
    stored, 404 when it was not; a malformed id is a 500. *)
Theorem deleteTask_admin (s : S) (req : request) :
  repo_wf s -> is_admin (req_user req) = true ->
  match oid_cast (req_params_id req) with
  | None => deleteTask s req = (internal_error, s)
  | Some k => exists s',
      deleteTask s req =
        (match find_doc k (repo_docs s) with
         | Some _ => mkResponse 200 true "Task deleted successfully" PNone
         | None => mkResponse 404 false "Task not found" PNone
         end, s') /\
      repo_docs s' = remove_doc k (repo_docs s) /\ find_doc k (repo_docs s') = None /\
      repo_wf s'
  end.
Proof.
  intros Hwf Ha. pose proof (findByIdAndDelete_spec s (req_params_id req) Hwf) as Hd.
  unfold deleteTask. rewrite Ha. simpl.
  destruct (oid_cast _) as [k|]; [|by rewrite Hd].
  destruct Hd as (s' & -> & Hdocs & Hw). exists s'. rewrite Hdocs, find_doc_remove_same.
  split_and!; [|done..]. by destruct (find_doc k _).
Qed.

(** CreateTask refuses a truthy [assignedTo] string that is not 24 hex
    digits with 400, before anything is stored (line 61). *)
Theorem CreateTask_bad_assignedTo (s : S) (req : request) (now : Z) (a : string) :
  b_assignedTo (req_body req) = JStr a -> a <> "" -> is_object_id a = false ->
  CreateTask s req now = (mkResponse 400 false "Invalid assignedTo user ID" PNone, s).
Proof.
  intros Hb Hne Hid. unfold CreateTask. rewrite Hb. simpl.
  by rewrite (proj2 (String.eqb_neq _ _) Hne), Hid.
Qed.

(** C16: A 201 from CreateTask stored one new task, appended with a fresh
    ObjectId, whose creator is the caller, whatever the body said, and
    whose timestamps are the clock. *)
Theorem CreateTask_created (s s' : S) (req : request) (now : Z) (r : response) :
  repo_wf s -> CreateTask s req now = (r, s') -> code r = 201%N ->
  exists t, r = mkResponse 201 true "" (PTask t) /\
    repo_docs s' = repo_docs s ++ [t] /\ repo_wf s' /\
    oid_cast (id (req_user req)) = Some (createdBy t) /\
    find_doc (task_id t) (repo_docs s) = None /\ createdAt t = now /\ updatedAt t = now.
Proof.
  intros Hwf. unfold CreateTask.
  destruct (if truthy _ then _ else _) as [e|[]]; simpl;
    [intros [= <- _]; discriminate | intros [= <- _]; discriminate |].
  pose proof (create_spec s (mkInput (b_title (req_body req)) (b_description (req_body req))
    (b_status (req_body req)) (b_priority (req_body req)) (b_dueDate (req_body req))
    (b_assignedTo (req_body req)) (id (req_user req))) now Hwf) as Hc.
  destruct (create _ _ _) as [e|[t s0]]; [intros [= <- _]; discriminate|].
  intros [= <- <-] _. destruct Hc as (Hb & _ & Hfresh & Hd & Hw).
  pose proof (build_task_fields _ _ _ _ Hb) as (_ & Hcr & Hca & Hua & _).
  exists t. simpl in Hcr. split_and!; auto.
Qed.

(** A CreateTask that does not answer 201 stores nothing. *)
Theorem CreateTask_failure_unchanged (s s' : S) (req : request) (now : Z) (r : response) :
  CreateTask s req now = (r, s') -> code r <> 201%N -> s' = s.
Proof.
  unfold CreateTask.
  destruct (if truthy _ then _ else _) as [e|[]]; simpl; [by intros [= _ <-]|by intros [= _ <-]|].
  destruct (create _ _ _) as [e|[t s0]]; [by intros [= _ <-]|]. by intros [= <- _].
Qed.

(** Round trip (spec section 8): a task a user creates with a title and a
    description is stored with that title and description, the user as
    creator and the default status under a canonical ObjectId, and
    getTaskById by the same user returns it. *)
Theorem create_then_get (s : S) (u : caller) (ti d : string) (now : Z) :
  repo_wf s -> repo_full s = false -> canonical_id (id u) -> ti <> "" ->
  exists t s',
    CreateTask s (mkRequest u "" JUndefined
      (mkBody (JStr ti) (JStr d) JUndefined JUndefined JUndefined JUndefined JUndefined)) now =
      (mkResponse 201 true "" (PTask t), s') /\ canonical_id (task_id t) /\
    title t = ti /\ description t = Some d /\ createdBy t = id u /\ status t = Pending /\
    getTaskById s' (mkRequest u (task_id t) JUndefined empty_body) =
      mkResponse 200 true "" (PTask t).
Proof.
  intros Hwf Hfull Hc Hne.
  set (i := mkInput (JStr ti) (JStr d) JUndefined JUndefined JUndefined JUndefined (id u)).
  assert (forall id0, build_task i id0 now =
    inr (mkTask id0 ti (Some d) Pending JUndefined JUndefined JUndefined (id u) None now now))
    as Hb.
  { intros id0. unfold build_task. simpl. rewrite Hc. simpl.
    by rewrite (proj2 (String.eqb_neq _ _) Hne). }
  destruct (create_room s i now _ Hfull (ex_intro _ "" (Hb ""))) as (t & s' & Hcr).
  pose proof (create_spec s i now Hwf) as Hspec. rewrite Hcr in Hspec.
  destruct Hspec as (Hbt & Hid & Hfresh & Hd & _). rewrite Hb in Hbt. injection Hbt as Ht.
  exists t, s'. unfold CreateTask. simpl. fold i. rewrite Hcr.
  split_and!; [done | exact Hid | by rewrite <- Ht.. |].
  rewrite (getTaskById_eq _ (mkRequest u (task_id t) JUndefined empty_body) Hc). simpl. rewrite Hid, Hd, find_doc_app_one, Hfresh,
    String_eqb_refl. unfold may_read, owns, same_oid. rewrite Hc, <- Ht. simpl.
  by rewrite String_eqb_refl, orb_true_r.
Qed.
End WriteHandlers.

(** ** The write handlers make only the changes the policy allows *)

Section StepChanges.
Context `{RegexEngine} {S : Type} `{HR : TaskRepository S} `{HL : !TaskRepositoryLaws S}.

Lemma CreateTask_change (s s' : S) (req : request) (now : Z) (r : response) (admin : bool) :
  repo_wf s -> CreateTask s req now = (r, s') ->
  repo_wf s' /\ docs_change admin (repo_docs s) (repo_docs s').
Proof.
  intros Hwf. unfold CreateTask.
  destruct (if truthy _ then _ else _) as [e|[]]; simpl;
    [intros [= _ <-]; split; [done|constructor]..|].
  match goal with |- context [create s ?i now] =>
    pose proof (create_spec s i now Hwf) as Hc; destruct (create s i now) as [e|[t s0]] end;
    [intros [= _ <-]; split; [done|constructor]|].
  intros [= _ <-]. destruct Hc as (_ & _ & Hfresh & -> & Hw). split; [done|]. by constructor.
Qed.

Lemma updateTask_change (s s' : S) (req : request) (now : Z) (r : response) :
  repo_wf s -> updateTask s req now = (r, s') ->
  repo_wf s' /\ docs_change (is_admin (req_user req)) (repo_docs s) (repo_docs s').
Proof.
  intros Hwf [-> | (k & t & t1 & Hk & Hf & _ & Hu & Hfin)]%updateTask_inv;
    [split; [done|constructor]|].
  apply finish_update_inv in Hfin as (_ & -> & Hw); [|done]. split; [done|].
  pose proof (update_keys _ _ _ _ Hu) as Hkey.
  pose proof (find_doc_Some _ _ _ Hf) as [_ Hid].
  apply change_update with t.
  - injection Hkey as Hi _ _. simpl. by rewrite Hi, Hid.
  - by rewrite <- Hkey.
  - intros Ha. rewrite Ha in Hu. apply assign_status_shape in Hu. by rewrite Hu.
Qed.

Lemma deleteTask_change (s s' : S) (req : request) (r : response) :
  repo_wf s -> deleteTask s req = (r, s') ->
  repo_wf s' /\ docs_change (is_admin (req_user req)) (repo_docs s) (repo_docs s').
Proof.
  intros Hwf. unfold deleteTask. destruct (is_admin _) eqn:Ha; simpl;
    [|intros [= _ <-]; split; [done|constructor]].
  pose proof (findByIdAndDelete_spec s (req_params_id req) Hwf) as Hd.
  destruct (oid_cast _) as [k|]; [|rewrite Hd; intros [= _ <-]; split; [done|constructor]].
  destruct Hd as (s0 & -> & Hdocs & Hw). intros Hr.
  assert (s' = s0) as -> by (destruct (find_doc k _); congruence).
  split; [done|]. rewrite Hdocs. by constructor.
Qed.

End StepChanges.

(** ** Every answer is a typed result (spec section 7) *)

Section Typed.
Context `{RegexEngine} {S : Type} `{HR : TaskRepository S}.

Ltac typed := repeat (case_match; simplify_eq/=); vm_compute; congruence.

Lemma getAllUsers_typed (us : user_store) : result_of (getAllUsers us) = Some RSuccess.
Proof. unfold getAllUsers. by rewrite user_find_all. Qed.

Lemma getTaskCounts_typed (s : S) (req : request) : result_of (getTaskCounts s req) <> None.
Proof. unfold getTaskCounts. typed. Qed.

Lemma CreateTask_typed (s : S) (req : request) (now : Z) : result_of (fst (CreateTask s req now)) <> None.
Proof. unfold CreateTask. typed. Qed.

Lemma getAllTasks_typed (s : S) (req : request) : result_of (getAllTasks s req) <> None.
Proof. unfold getAllTasks. typed. Qed.

Lemma getTaskById_typed (s : S) (req : request) : result_of (getTaskById s req) <> None.
Proof. unfold getTaskById. typed. Qed.

Lemma updateTask_typed (s : S) (req : request) (now : Z) : result_of (fst (updateTask s req now)) <> None.
Proof. unfold updateTask, finish_update. typed. Qed.

Lemma deleteTask_typed (s : S) (req : request) : result_of (fst (deleteTask s req)) <> None.
Proof. unfold deleteTask. typed. Qed.
End Typed.

End TaskController.
