(* ===== verification/Router.v ===== *)
(** * The server: routes, middleware and handlers composed

    [router/task.route.js] puts [isAuthenticated] in front of each of the
    seven task handlers ([route_of]; a [.get] route answers [HEAD] too,
    and no route takes [PATCH]); [index.js] mounts it at [/api/v1/task] and the
    auth routes (router/auth.route.js, not under src/) at [/api/v1/auth].
    A [world] is the state those requests act on: the Task collection,
    the users collection, and the tokens login has handed out so far
    ([w_issued], a ghost record the code does not keep).  [app_step] is
    one request; [reachable] the worlds a sequence of requests reaches
    from a start world.  The theorems are invariants of those sequences,
    proved by induction on [reachable], and the typing of the router's
    answers: each is a success or one of the five error kinds of spec
    section 7 ([task_router_typed]). *)

From Stdlib Require Import ZArith NArith String.
From stdpp Require Import base list strings options.
From S2P Require Import Prelude Js Task Query Repo User Http Auth Policy TaskController.

Module Router.
Import Js Task Query Repo User Http Auth Policy TaskController.
Local Unset Default Proof Using.
Local Open Scope Z_scope.

(** The HTTP methods a request can carry.  A route declared with [.get]
    also answers [HEAD] (Express's [Route._handles_method]); no route
    accepts [PATCH]; [OPTIONS] is the CORS preflight. *)
Inductive method : Type := GET | HEAD | POST | PUT | PATCH | DELETE | OPTIONS.

(** The routes of task.route.js, lines 14-20. *)
Inductive route : Type :=
| RUsers
| RCounts
| RCreateTask
| RAllTasks
| RTask (id : string)
| RUpdate (id : string)
| RDelete (id : string).

(** Express's default matching ([caseSensitive: false], [strict:
    false]): a literal segment matches in any letter case, one trailing
    slash (an empty last segment) is ignored, and [:id] matches one
    non-empty segment, which [req.params.id] receives as it stands.  Paths
    are the segments below [/api/v1/task], URL-decoded. *)
Definition strip_slash (path : list string) : list string :=
  match rev path with EmptyString :: rest => rev rest | _ => path end.

Definition seg_is (seg lit : string) : bool := String.eqb (lower seg) lit.

Definition route_of (m : method) (path : list string) : option route :=
  match m, strip_slash path with
  | (GET | HEAD), [a] =>
      if seg_is a "user" then Some RUsers
      else if seg_is a "counts" then Some RCounts
      else if seg_is a "all-task" then Some RAllTasks
      else None
  | POST, [a] => if seg_is a "create-task" then Some RCreateTask else None
  | (GET | HEAD), [a; i] => if seg_is a "task" && negb (String.eqb i "") then Some (RTask i) else None
  | PUT, [a; i] => if seg_is a "update" && negb (String.eqb i "") then Some (RUpdate i) else None
  | DELETE, [a; i] =>
      if seg_is a "delete" && negb (String.eqb i "") then Some (RDelete i) else None
  | _, _ => None
  end.

(** [req.params.id] of a route ([undefined] on the routes without one;
    their handlers do not read it). *)
Definition route_param (rt : route) : string :=
  match rt with RTask i | RUpdate i | RDelete i => i | _ => "" end.

(** A request to the task router. *)
Record http_request : Type := mkHttpRequest {
  hr_method : method;
  hr_path : list string;
  hr_authorization : option string;   (** [req.headers.authorization] *)
  hr_keyword : jsval;                 (** [req.query.keyword] *)
  hr_body : body
}.

(** Express's answer when no route matches. *)
Definition route_not_found : response := mkResponse 404 false "Not Found" PNone.

Record world {S : Type} : Type := mkWorld {
  w_tasks : S;
  w_users : user_store;
  w_issued : list string
}.
Arguments world : clear implicits.

(** One request of the server. *)
Inductive event : Type :=
| ETask (r : http_request)
| ERegister (b : auth_body) (salt : N)
| ELogin (b : auth_body).

Inductive reply : Type :=
| TaskReply (r : response)
| AuthReply (r : option auth_response).

Section App.
Context `{RegexEngine} `{PasswordHasher} `{TokenService} {S : Type} `{TaskRepository S}.

Definition set_tasks (w : world S) (s : S) : world S := mkWorld S s (w_users w) (w_issued w).

(** The handler of a route, for the caller [isAuthenticated] admitted. *)
Definition run_route (w : world S) (rt : route) (req : request) (now : Z) : response * world S :=
  match rt with
  | RUsers => (getAllUsers (w_users w), w)
  | RCounts => (getTaskCounts (w_tasks w) req, w)
  | RCreateTask => let '(r, s') := CreateTask (w_tasks w) req now in (r, set_tasks w s')
  | RAllTasks => (getAllTasks (w_tasks w) req, w)
  | RTask _ => (getTaskById (w_tasks w) req, w)
  | RUpdate _ => let '(r, s') := updateTask (w_tasks w) req now in (r, set_tasks w s')
  | RDelete _ => let '(r, s') := deleteTask (w_tasks w) req in (r, set_tasks w s')
  end.

(** [router.route(path).method(isAuth, handler)]: match the route, run the
    middleware against [SECRET_KEY] and the clock in seconds, then the
    handler.  [now] is [Date.now()], in milliseconds. *)
Definition task_router (secret : option string) (w : world S) (r : http_request) (now : Z) :
    response * world S :=
  match route_of (hr_method r) (hr_path r) with
  | None => (route_not_found, w)
  | Some rt =>
      match isAuthenticated secret (now / 1000) (hr_authorization r) with
      | inl resp => (resp, w)
      | inr u => run_route w rt (mkRequest u (route_param rt) (hr_keyword r) (hr_body r)) now
      end
  end.

(** One request to the server. *)
Definition app_step (secret : option string) (w : world S) (e : event) (now : Z) :
    reply * world S :=
  match e with
  | ETask r => let '(resp, w') := task_router secret w r now in (TaskReply resp, w')
  | ERegister b salt =>
      let '(r, us) := register (w_users w) b salt in
      (AuthReply r, mkWorld S (w_tasks w) us (w_issued w))
  | ELogin b =>
      let r := login (w_users w) b (now / 1000) in
      (AuthReply (Some r),
       mkWorld S (w_tasks w) (w_users w)
         (match a_token r with Some t => t :: w_issued w | None => w_issued w end))
  end.

(** The worlds a sequence of requests reaches from [w0]. *)
Inductive reachable (secret : option string) (w0 : world S) : world S -> Prop :=
| reach_init : reachable secret w0 w0
| reach_step (w : world S) (e : event) (now : Z) :
    reachable secret w0 w -> reachable secret w0 (snd (app_step secret w e now)).

(** Every token handed out so far is login's signature of a stored
    user's id and role. *)
Definition issued_ok (w : world S) : Prop :=
  Forall (fun tok => exists u iat, In u (users (w_users w)) /\
            tok = jwt_sign (token_claims u) login_secret iat token_lifetime) (w_issued w).

End App.

(** ** How one request changes the world *)

Section StepLemmas.
Context `{RegexEngine} `{PasswordHasher} `{TokenService} {S : Type} `{HR : TaskRepository S}
  `{HL : !TaskRepositoryLaws S}.

(** The task routes touch only the Task collection. *)
Lemma task_router_users (secret : option string) (w w' : world S) (r : http_request) (now : Z)
    (resp : response) :
  task_router secret w r now = (resp, w') -> w_users w' = w_users w /\ w_issued w' = w_issued w.
Proof.
  unfold task_router, run_route. repeat case_match; intros; simplify_eq/=; done.
Qed.

Lemma run_route_change (w w' : world S) (rt : route) (req : request) (now : Z) (resp : response) :
  repo_wf (w_tasks w) -> run_route w rt req now = (resp, w') ->
  repo_wf (w_tasks w') /\
  docs_change (is_admin (req_user req)) (repo_docs (w_tasks w)) (repo_docs (w_tasks w')).
Proof.
  intros Hwf. destruct rt; simpl; try (intros [= _ <-]; split; by try constructor).
  - destruct (CreateTask _ _ _) as [r0 s0] eqn:E. intros [= _ <-].
    by apply CreateTask_change with (admin := is_admin (req_user req)) in E.
  - destruct (updateTask _ _ _) as [r0 s0] eqn:E. intros [= _ <-].
    by apply updateTask_change in E.
  - destruct (deleteTask _ _) as [r0 s0] eqn:E. intros [= _ <-].
    by apply deleteTask_change in E.
Qed.

(** The Task collection changes only through a handler run for a caller
    the middleware admitted, and only as [docs_change] allows that caller. *)
Lemma step_tasks (secret : option string) (w w' : world S) (e : event) (now : Z) (rep : reply) :
  repo_wf (w_tasks w) -> app_step secret w e now = (rep, w') ->
  repo_wf (w_tasks w') /\
  (w_tasks w' = w_tasks w \/
   exists r u, e = ETask r /\ isAuthenticated secret (now / 1000) (hr_authorization r) = inr u /\
     docs_change (is_admin u) (repo_docs (w_tasks w)) (repo_docs (w_tasks w'))).
Proof.
  intros Hwf. destruct e as [r|b salt|b]; simpl.
  - unfold task_router. destruct (route_of _ _) as [rt|]; [|by intros [= _ <-]; auto].
    destruct (isAuthenticated _ _ _) as [resp|u] eqn:Hu; [by intros [= _ <-]; auto|].
    destruct (run_route _ _ _ _) as [resp w0] eqn:E. intros [= _ <-].
    apply run_route_change in E as [? ?]; [|done]. split; [done|]. right; eauto.
  - destruct (register _ _ _). intros [= _ <-]. auto.
  - intros [= _ <-]. auto.
Qed.

(** The users collection changes only by a registration. *)
Lemma step_users (secret : option string) (w w' : world S) (e : event) (now : Z) (rep : reply) :
  app_step secret w e now = (rep, w') ->
  w_users w' = w_users w \/
  exists b salt, e = ERegister b salt /\ w_users w' = snd (register (w_users w) b salt).
Proof.
  destruct e as [r|b salt|b]; simpl.
  - destruct (task_router _ _ _ _) as [resp w0] eqn:E. intros [= _ <-].
    apply task_router_users in E as [? _]. by left.
  - destruct (register _ _ _) eqn:E. intros [= _ <-]. right. exists b, salt. by rewrite E.
  - intros [= _ <-]. by left.
Qed.

(** A token is added to the record only by a login that handed it out. *)
Lemma step_issued (secret : option string) (w w' : world S) (e : event) (now : Z) (rep : reply) :
  app_step secret w e now = (rep, w') ->
  w_issued w' = w_issued w \/
  exists b tok, e = ELogin b /\ w_users w' = w_users w /\
    a_token (login (w_users w) b (now / 1000)) = Some tok /\ w_issued w' = tok :: w_issued w.
Proof.
  destruct e as [r|b salt|b]; simpl.
  - destruct (task_router _ _ _ _) as [resp w0] eqn:E. intros [= _ <-].
    apply task_router_users in E as [_ ?]. by left.
  - destruct (register _ _ _). intros [= _ <-]. by left.
  - intros [= _ <-]. destruct (a_token _) as [tok|] eqn:Ht; [right|by left]. eauto 10.
Qed.

End StepLemmas.

(** ** Invariants of request sequences *)

Section Invariants.
Context `{RegexEngine} `{PasswordHasher} `{TokenService} {S : Type} `{HR : TaskRepository S}
  `{HL : !TaskRepositoryLaws S}.

Lemma register_users_grow (s : user_store) (b : auth_body) (salt : N) :
  users (snd (register s b salt)) = users s \/
  exists u, users (snd (register s b salt)) = users s ++ [u] /\ User.role u = "user".
Proof.
  destruct (register_snd s b salt) as [->|(h & u & Hc)]; [by left|].
  apply user_create_inr in Hc as (_ & _ & _ & _ & Hr & _ & _ & _ & Hs). right.
  exists u. by rewrite Hs.
Qed.

(** Users are never removed, and every user a request adds has role
    ["user"]. *)
Lemma step_users_grow (secret : option string) (w w' : world S) (e : event) (now : Z)
    (rep : reply) :
  app_step secret w e now = (rep, w') ->
  (forall u, In u (users (w_users w)) -> In u (users (w_users w'))) /\
  (forall u, In u (users (w_users w')) -> In u (users (w_users w)) \/ User.role u = "user").
Proof.
  intros [-> | (b & salt & _ & ->)]%step_users; [split; auto|].
  destruct (register_users_grow (w_users w) b salt) as [-> | (u & -> & Hr)]; [split; auto|].
  split; intros v; rewrite in_app_iff; [by left|]. intros [?|[<-|[]]]; auto.
Qed.

Lemma reachable_issued (secret : option string) (w0 w : world S) :
  reachable secret w0 w -> issued_ok w0 -> issued_ok w.
Proof.
  intros Hr Hinit. induction Hr as [|w e now Hr IH]; [done|].
  destruct (app_step secret w e now) as [rep w'] eqn:E. simpl.
  pose proof (step_users_grow _ _ _ _ _ _ E) as [Hgrow _].
  assert (issued_ok w -> Forall (fun tok => exists u iat, In u (users (w_users w')) /\
            tok = jwt_sign (token_claims u) login_secret iat token_lifetime) (w_issued w)) as Hold.
  { intros Hw. eapply List.Forall_impl; [|exact Hw]. intros tok (u & iat & Hu & ->). eauto. }
  unfold issued_ok. destruct (step_issued _ _ _ _ _ _ E) as [-> | (b & tok & -> & Hus & Ht & ->)];
    [by apply Hold|].
  constructor; [|by apply Hold].
  destruct (login_success (w_users w) b (now / 1000)) as (u & p & Hf & _ & _ & Hl);
    [right; by rewrite Ht|].
  rewrite Hl in Ht. injection Ht as <-. exists u, (now / 1000). split; [|done].
  rewrite Hus. by eapply user_findOne_In.
Qed.

Lemma reachable_roles (secret : option string) (w0 w : world S) :
  reachable secret w0 w -> Forall (fun u => User.role u = "user") (users (w_users w0)) ->
  Forall (fun u => User.role u = "user") (users (w_users w)).
Proof.
  intros Hr Hinit. induction Hr as [|w e now Hr IH]; [done|].
  destruct (app_step secret w e now) as [rep w'] eqn:E. simpl.
  pose proof (step_users_grow _ _ _ _ _ _ E) as [_ Hnew].
  apply List.Forall_forall. intros u [Hu|Hu]%Hnew; [|done].
  by apply (proj1 (List.Forall_forall _ _) IH).
Qed.

Lemma isAuthenticated_inl_code (sec : option string) (now : Z) (h : option string) (resp : response) :
  isAuthenticated sec now h = inl resp -> code resp = 401%N.
Proof. unfold isAuthenticated, decode_caller. repeat case_match; intros; by simplify_eq. Qed.

Lemma route_of_delete (path : list string) (rt : route) :
  route_of DELETE path = Some rt -> exists i, rt = RDelete i.
Proof. unfold route_of. repeat case_match; intros; simplify_eq; eauto. Qed.

Context `{!TokenServiceLaws}.

(** A token login handed out is accepted only as a stored user's id and
    role. *)
Lemma issued_accepted (w : world S) (tok : string) (sec : option string) (now : Z) (c : caller) :
  issued_ok w -> In tok (w_issued w) ->
  isAuthenticated sec now (Some ("Bearer " ++ tok)%string) = inr c ->
  exists u, In u (users (w_users w)) /\ id c = user_id u /\ role c = User.role u.
Proof.
  intros Hok Hin. apply (proj1 (List.Forall_forall _ _) Hok) in Hin as (u & iat & Hu & ->).
  rewrite isAuthenticated_bearer by apply sign_no_space.
  destruct (jwt_verify _ _ _) as [|cl] eqn:Hv; [done|].
  apply verify_sound in Hv as (k & iat' & e & _ & _ & Heq & _).
  apply sign_inj in Heq as (<- & _).
  unfold decode_caller, token_claims; simpl. destruct (_ && _); [|done].
  intros [= <-]. eauto.
Qed.

End Invariants.

(** ** The server's theorems *)

Section ServerTheorems.
Context `{RegexEngine} `{PasswordHasher} `{TokenService} {S : Type} `{HR : TaskRepository S}.

(** C26: a request to the task router changes the world only when its
    route is create-task, update or delete and isAuthenticated admitted
    its caller; unknown routes, refused credentials and the read routes
    leave the world as it was. *)
Theorem task_router_write_authenticated (secret : option string) (w : world S)
    (r : http_request) (now : Z) :
  snd (task_router secret w r now) <> w ->
  exists rt u, route_of (hr_method r) (hr_path r) = Some rt /\
    isAuthenticated secret (now / 1000) (hr_authorization r) = inr u /\
    (rt = RCreateTask \/ exists i, rt = RUpdate i \/ rt = RDelete i).
Proof.
  unfold task_router. destruct (route_of _ _) as [rt|]; [|done].
  destruct (isAuthenticated _ _ _) as [|u]; [done|]. intros Hne.
  exists rt, u. split_and!; [done|done|]. destruct rt; simpl in Hne; try done; eauto.
Qed.

(** GET /user answers every caller isAuthenticated admits,
    whatever its role, with the id, full name, email and role of every
    stored user (spec 4.3: the directory is open to any authenticated
    caller). *)
Theorem directory_open (secret : option string) (w : world S) (r : http_request) (now : Z)
    (u : caller) :
  hr_method r = GET -> hr_path r = ["user"] ->
  isAuthenticated secret (now / 1000) (hr_authorization r) = inr u ->
  task_router secret w r now = (mkResponse 200 true "" (PUsers (map project (users (w_users w)))), w).
Proof.
  intros Hm Hp Ha. unfold task_router. rewrite Hm, Hp, Ha. simpl. unfold getAllUsers.
  by rewrite user_find_all.
Qed.

Lemma isAuthenticated_inl_typed (sec : option string) (now : Z) (h : option string) (resp : response) :
  isAuthenticated sec now h = inl resp -> result_of resp = Some (RError EUnauthenticated).
Proof.
  unfold isAuthenticated, decode_caller. intros Hr. repeat (case_match; simplify_eq/=); done.
Qed.

Lemma run_route_typed (w : world S) (rt : route) (req : request) (now : Z) :
  result_of (fst (run_route w rt req now)) <> None.
Proof.
  destruct rt; simpl.
  - by rewrite getAllUsers_typed.
  - apply getTaskCounts_typed.
  - pose proof (CreateTask_typed (w_tasks w) req now). by destruct (CreateTask _ _ _).
  - apply getAllTasks_typed.
  - apply getTaskById_typed.
  - pose proof (updateTask_typed (w_tasks w) req now). by destruct (updateTask _ _ _).
  - pose proof (deleteTask_typed (w_tasks w) req). by destruct (deleteTask _ _).
Qed.

(** C27: Every answer of the task router is a typed result of spec section
    7: a success (200 or 201, [success: true]) or an error of one of the
    five kinds (400 ValidationError, 401 Unauthenticated, 403 Forbidden,
    404 NotFound, 500 InternalFault) with [success: false] and no data;
    and a request the middleware refuses is answered Unauthenticated. *)
Theorem task_router_typed (secret : option string) (w : world S) (r : http_request) (now : Z) :
  result_of (fst (task_router secret w r now)) <> None /\
  (route_of (hr_method r) (hr_path r) <> None ->
   forall resp, isAuthenticated secret (now / 1000) (hr_authorization r) = inl resp ->
   result_of (fst (task_router secret w r now)) = Some (RError EUnauthenticated)).
Proof.
  unfold task_router. destruct (route_of _ _) as [rt|]; [|split; [discriminate | done]].
  destruct (isAuthenticated _ _ _) as [resp|u] eqn:Ha.
  - simpl. rewrite (isAuthenticated_inl_typed _ _ _ _ Ha). split; [discriminate | done].
  - split; [apply run_route_typed | by intros _ ? ?].
Qed.

Context `{HL : !TaskRepositoryLaws S}.

(** every world a sequence of requests reaches from a well-formed
    world is well formed: the Task collection satisfies the repository's
    invariant and the users collection [users_wf]. *)
Theorem reachable_wf (secret : option string) (w0 w : world S) :
  reachable secret w0 w -> repo_wf (w_tasks w0) -> users_wf (w_users w0) ->
  repo_wf (w_tasks w) /\ users_wf (w_users w).
Proof.
  intros Hr Ht0 Hu0. induction Hr as [|w e now Hr [Ht Hu]]; [done|].
  destruct (app_step secret w e now) as [rep w'] eqn:E. simpl.
  split; [by apply (step_tasks _ _ _ _ _ _ Ht E)|].
  destruct (step_users _ _ _ _ _ _ E) as [-> | (b & salt & _ & ->)]; [done|].
  by apply register_wf_step.
Qed.

(** no request changes the id, the creator or the creation time of
    a task that is stored before and after it ([createdBy] is set once,
    spec section 3). *)
Theorem step_key_fields (secret : option string) (w : world S) (e : event) (now : Z)
    (k : string) (t t' : task) :
  repo_wf (w_tasks w) -> find_doc k (repo_docs (w_tasks w)) = Some t ->
  find_doc k (repo_docs (w_tasks (snd (app_step secret w e now)))) = Some t' ->
  key_fields t' = key_fields t.
Proof.
  intros Hwf Ht. destruct (app_step secret w e now) as [rep w'] eqn:E. simpl.
  destruct (step_tasks _ _ _ _ _ _ Hwf E) as [_ [-> | (r & u & _ & _ & Hc)]].
  - rewrite Ht. by intros [= <-].
  - intros Ht'. by destruct (docs_change_find _ _ _ _ _ _ Hc Ht Ht').
Qed.

(** C32: a request whose credentials are not an admin's changes no field
    of a stored task other than [status] and [updatedAt]: in particular a
    non-admin never changes a task's [assignedTo] (spec section 3). *)
Theorem non_admin_step_frame (secret : option string) (w : world S) (r : http_request) (now : Z)
    (k : string) (t t' : task) :
  repo_wf (w_tasks w) ->
  (forall u, isAuthenticated secret (now / 1000) (hr_authorization r) = inr u -> is_admin u = false) ->
  find_doc k (repo_docs (w_tasks w)) = Some t ->
  find_doc k (repo_docs (w_tasks (snd (app_step secret w (ETask r) now)))) = Some t' ->
  user_frame t' = user_frame t.
Proof.
  intros Hwf Hna Ht. destruct (app_step secret w (ETask r) now) as [rep w'] eqn:E. simpl.
  destruct (step_tasks _ _ _ _ _ _ Hwf E) as [_ [-> | (r' & u & [= <-] & Hu & Hc)]].
  - rewrite Ht. by intros [= <-].
  - intros Ht'. rewrite (Hna u Hu) in Hc. by apply (docs_change_find _ _ _ _ _ _ Hc Ht Ht').
Qed.

Context `{!TokenServiceLaws}.

(** in every world reachable from one whose recorded tokens were
    all issued by login, a recorded token that isAuthenticated accepts
    (under any secret, at any time) authenticates a stored user, with
    that user's id and role. *)
Theorem issued_token_user (secret : option string) (w0 w : world S) (tok : string)
    (sec : option string) (now : Z) (c : caller) :
  reachable secret w0 w -> issued_ok w0 -> In tok (w_issued w) ->
  isAuthenticated sec now (Some ("Bearer " ++ tok)%string) = inr c ->
  exists u, In u (users (w_users w)) /\ id c = user_id u /\ role c = User.role u.
Proof. intros Hr Hinit. apply issued_accepted. by apply (reachable_issued secret w0). Qed.

(** C28: starting from a world without admins, a delete request that
    carries a token login issued never deletes anything: the world is
    unchanged and the answer is not 200.  Only an admin account created
    outside the API can delete tasks. *)
Theorem no_admin_no_delete (secret : option string) (w0 w w' : world S) (tok : string) (now : Z)
    (path : list string) (kw : jsval) (b : body) (resp : response) :
  reachable secret w0 w -> issued_ok w0 ->
  Forall (fun u => User.role u = "user") (users (w_users w0)) -> In tok (w_issued w) ->
  task_router secret w (mkHttpRequest DELETE path (Some ("Bearer " ++ tok)%string) kw b) now =
    (resp, w') ->
  w' = w /\ code resp <> 200%N.
Proof.
  intros Hr Hinit Hroles Hin. unfold task_router. cbn [hr_method hr_path hr_authorization].
  destruct (route_of DELETE path) as [rt|] eqn:Hrt; [|by intros [= <- <-]].
  destruct (isAuthenticated _ _ _) as [e|u] eqn:Ha.
  { intros [= <- <-]. split; [done|]. by rewrite (isAuthenticated_inl_code _ _ _ _ Ha). }
  destruct (issued_accepted w tok _ _ u (reachable_issued _ _ _ Hr Hinit) Hin Ha)
    as (v & Hv & _ & Hrole).
  pose proof (proj1 (List.Forall_forall _ _) (reachable_roles _ _ _ Hr Hroles) v Hv) as Hvr.
  destruct (route_of_delete path rt Hrt) as [i ->]. simpl.
  unfold deleteTask; simpl. unfold is_admin. rewrite Hrole, Hvr. simpl.
  intros [= <- <-]. by destruct w.
Qed.

End ServerTheorems.

End Router.
