(* ===== verification/Server.v ===== *)
(** * The Express application of index.js

    src/index.js builds the application in the order its requests meet
    it: the route [GET /] (and [HEAD /]) answering ["hello user"] (lines
    13-15, [hello_route]), then the
    body parsers [express.json()] and [express.urlencoded()] (lines 17-18),
    the cookie parser and CORS (lines 19-24), and the two routers mounted
    at [/api/v1/auth] and [/api/v1/task] (lines 28-29); a request no layer
    answers gets Express's final 404.  [serve_full] is that dispatch on a
    raw request, in front of [Router.app_step], returning the answer, the
    CORS headers it carries and the new state; [serve] forgets the
    headers; [PORT] is line 26.

    The body parsers are represented by their result: the parsed body (a
    JSON value or a form object, without duplicate keys; the empty object
    when the request has none) or a parse failure.  [express.json()] is
    strict, so a JSON body whose top level is not an object or an array
    fails as well ([strict_body]); Express answers a failure with 400
    before any router runs.  [cors] (lines
    20-24) answers a preflight ([OPTIONS]) itself with 204 and adds its
    headers ([cors_headers]) to every request that reaches it, so they
    are on every answer [serve_full] gives after that layer; the cookie
    parser is not part of the model, as no handler reads a cookie.  [cors_check] is the CORS check of the Fetch
    standard that a browser applies to a cross-origin answer.

    The theorems: the hello route answers before the body is parsed and
    without credentials; a body that does not parse is refused with 400
    and changes nothing; a preflight is answered by [cors] before any
    router; a page on another origin can read an answer of [serve_full]
    exactly when it is not the hello route's or a body parser's 400, and
    never one to a request with credentials, the allowed origin being
    [*] ([cors_readable]); and every state the application
    reaches by a sequence of raw requests is reachable by
    [Router.app_step], so the invariants proved in [Router] hold of the
    deployed application. *)

From Stdlib Require Import ZArith NArith String.
From stdpp Require Import base list strings options.
From S2P Require Import Prelude Js Task Query Repo User Http Auth Policy TaskController Router.

Module Server.
Import Js Task Query Repo User Http Auth Policy TaskController Router.
Local Unset Default Proof Using.

(** [const PORT = process.env.PORT || 3000;] *)
Definition PORT (env_port : option string) : jsval :=
  js_or (match env_port with Some p => JStr p | None => JUndefined end) (JNum 3000).

(** A request as it reaches the application. *)
Record server_request : Type := mkServerRequest {
  sr_method : method;
  sr_path : list string;              (** the URL path, as segments *)
  sr_authorization : option string;
  sr_keyword : jsval;                 (** [req.query.keyword] *)
  sr_body : option jsval;             (** the parsed body; [None]: it did not parse *)
  sr_acrh : option string             (** [Access-Control-Request-Headers] *)
}.

Inductive server_reply : Type :=
| HelloReply                          (** [res.json('hello user')], status 200 *)
| ParseError                          (** the body parser's 400 *)
| Preflight                           (** the CORS preflight answer of [cors], 204 *)
| NotFound                            (** Express's final 404 *)
| Routed (r : reply).                 (** the answer of a mounted router *)

(** [express.json()] with its default [strict: true] (line 17): a JSON
    body whose top level is not an object or an array is refused with
    400 like one that does not parse; [express.urlencoded] (line 18)
    always gives an object. *)
Definition strict_body (ob : option jsval) : option jsval :=
  match ob with
  | Some (JObj _ as v) | Some (JArr _ as v) => Some v
  | _ => None
  end.

(** A property read on the parsed body; [undefined] when absent or when
    the body is not an object. *)
Definition body_field (v : jsval) (k : string) : jsval :=
  match v with JObj es => lookup_key k es | _ => JUndefined end.

(** The destructuring [const { title, ..., tags } = req.body] of the task
    handlers. *)
Definition task_body (v : jsval) : body :=
  mkBody (body_field v "title") (body_field v "description") (body_field v "status")
    (body_field v "priority") (body_field v "dueDate") (body_field v "assignedTo")
    (body_field v "tags").

(** [const { fullname, email, phoneNumber, password } = req.body] of
    auth.controller.js. *)
Definition auth_body_of (v : jsval) : auth_body :=
  mkAuthBody (body_field v "fullname") (body_field v "email") (body_field v "phoneNumber")
    (body_field v "password").

(** router/auth.route.js (not under src/; spec section 6): [POST
    /register] and [POST /login]. *)
Definition auth_route (m : method) (rest : list string) (b : auth_body) (salt : N) : option event :=
  match m, strip_slash rest with
  | POST, [a] =>
      if seg_is a "register" then Some (ERegister b salt)
      else if seg_is a "login" then Some (ELogin b)
      else None
  | _, _ => None
  end.

(** Lines 28-29: the mount points, matched segment by segment in any
    letter case as Express does. *)
(** Lines 13-15: [app.get('/')], which also answers [HEAD /]. *)
Definition hello_route (r : server_request) : bool :=
  match sr_method r, sr_path r with
  | (GET | HEAD), [] => true
  | _, _ => false
  end.

Definition event_of (r : server_request) (v : jsval) (salt : N) : option event :=
  match sr_path r with
  | a :: b :: c :: rest =>
      if seg_is a "api" && seg_is b "v1" then
        if seg_is c "auth" then auth_route (sr_method r) rest (auth_body_of v) salt
        else if seg_is c "task" then
          Some (ETask (mkHttpRequest (sr_method r) rest (sr_authorization r) (sr_keyword r)
                         (task_body v)))
        else None
      else None
  | _ => None
  end.

(** [cors(corsOption)] with [origin: "*"] and [credentials: true] (lines
    20-24), in the order the package sets them: every request it sees
    gets [Access-Control-Allow-Origin: *] and
    [Access-Control-Allow-Credentials: true]; a preflight also gets the
    default methods, [Vary], and the headers it asked for, reflected. *)
Definition cors_headers (r : server_request) : list (string * string) :=
  [("Access-Control-Allow-Origin", "*"); ("Access-Control-Allow-Credentials", "true")] ++
  match sr_method r with
  | OPTIONS =>
      [("Access-Control-Allow-Methods", "GET,HEAD,PUT,PATCH,POST,DELETE");
       ("Vary", "Access-Control-Request-Headers")] ++
      match sr_acrh r with
      | Some h => if String.eqb h "" then [] else [("Access-Control-Allow-Headers", h)]
      | None => []
      end
  | _ => []
  end.

Section Serve.
Context `{RegexEngine} `{PasswordHasher} `{TokenService} {S : Type} `{TaskRepository S}.

(** One request through the layers of index.js, in their order, with the
    headers [cors] put on [res] by the time the answer is sent: the hello
    route (lines 13-15) answers first, the body parsers (lines 17-18)
    refuse a bad body next, [cors] (line 24) sets its headers on every
    request that reaches it and ends a preflight, then the routers (lines
    28-29) answer, or Express's final 404. *)
Definition serve_full (secret : option string) (w : world S) (r : server_request) (salt : N)
    (now : Z) : server_reply * list (string * string) * world S :=
  if hello_route r then (HelloReply, [], w)
  else
    match strict_body (sr_body r) with
    | None => (ParseError, [], w)
    | Some v =>
        let hs := cors_headers r in
        match sr_method r with
        | OPTIONS => (Preflight, hs, w)
        | _ =>
            match event_of r v salt with
            | Some e => let '(rep, w') := app_step secret w e now in (Routed rep, hs, w')
            | None => (NotFound, hs, w)
            end
        end
    end.

(** The answer and the state after it. *)
Definition serve (secret : option string) (w : world S) (r : server_request) (salt : N) (now : Z) :
    server_reply * world S :=
  let '(rep, _, w') := serve_full secret w r salt now in (rep, w').

(** The states a sequence of raw requests reaches. *)
Inductive served (secret : option string) (w0 : world S) : world S -> Prop :=
| served_init : served secret w0 w0
| served_step (w : world S) (r : server_request) (salt : N) (now : Z) :
    served secret w0 w -> served secret w0 (snd (serve secret w r salt now)).
End Serve.

(** ** The browser's CORS check *)

Definition header_get (hs : list (string * string)) (k : string) : option string :=
  option_map snd (List.find (fun kv => String.eqb kv.1 k) hs).

(** The CORS check of the Fetch standard, which a browser applies to the
    answer of a cross-origin request from [origin], sent with credentials
    ([cred]: cookies, [credentials: "include"]) or without: the script
    may read the answer only when it passes. *)
Definition cors_check (cred : bool) (origin : string) (hs : list (string * string)) : bool :=
  match header_get hs "Access-Control-Allow-Origin" with
  | None => false
  | Some o =>
      if negb cred && String.eqb o "*" then true
      else if negb (String.eqb o origin) then false
      else if negb cred then true
      else bool_decide (header_get hs "Access-Control-Allow-Credentials" = Some "true")
  end.

(** ** Dispatch *)

Section Dispatch.
Context `{RegexEngine} `{PasswordHasher} `{TokenService} {S : Type} `{TaskRepository S}.

(** [GET /] is answered before the body parsers run and without
    credentials: whatever the body and the headers, the answer is
    ["hello user"] and the state is unchanged. *)
Lemma serve_hello (secret : option string) (w : world S) (a : option string) (kw : jsval)
    (ob : option jsval) (h : option string) (salt : N) (now : Z) :
  serve secret w (mkServerRequest GET [] a kw ob h) salt now = (HelloReply, w).
Proof. reflexivity. Qed.

(** Any other request whose body does not parse is refused with 400
    before a router sees it. *)
Lemma serve_parse_error (secret : option string) (w : world S) (r : server_request) (salt : N)
    (now : Z) :
  strict_body (sr_body r) = None -> hello_route r = false ->
  serve secret w r salt now = (ParseError, w).
Proof. intros Hb Hr. unfold serve, serve_full. by rewrite Hr, Hb. Qed.
End Dispatch.

(** [process.env.PORT || 3000]: an unset or empty variable gives 3000. *)
Lemma PORT_spec (env_port : option string) :
  PORT env_port = match env_port with
                  | Some p => if String.eqb p "" then JNum 3000 else JStr p
                  | None => JNum 3000
                  end.
Proof. destruct env_port as [p|]; [unfold PORT, js_or; simpl; by destruct (String.eqb p "")|done]. Qed.

(** ** The application refines the server of [Router] *)

Section Refinement.
Context `{RegexEngine} `{PasswordHasher} `{TokenService} {S : Type} `{TaskRepository S}.

(** A raw request either leaves the state as it was or is one request of
    [app_step], answered as [app_step] answers it. *)
Lemma serve_app_step (secret : option string) (w : world S) (r : server_request) (salt : N)
    (now : Z) :
  snd (serve secret w r salt now) = w \/
  exists e, serve secret w r salt now =
            (Routed (fst (app_step secret w e now)), snd (app_step secret w e now)).
Proof.
  unfold serve, serve_full. destruct (hello_route r); [by left|].
  destruct (strict_body (sr_body r)) as [v|]; [|by left].
  destruct (sr_method r); try (by left); (destruct (event_of r v salt) as [e|]; [|by left]);
    right; exists e; by destruct (app_step secret w e now).
Qed.

(** Every state the application of index.js reaches by a sequence of
    raw requests (hello route, body parsers, mount points, Express's 404)
    is a state the server of [Router] reaches by a sequence of its
    requests: the invariants proved by induction on [Router.reachable]
    hold of the deployed application. *)
Theorem served_reachable (secret : option string) (w0 w : world S) :
  served secret w0 w -> reachable secret w0 w.
Proof.
  induction 1 as [|w r salt now _ IH]; [constructor|].
  destruct (serve_app_step secret w r salt now) as [-> | [e ->]]; [done|].
  by apply reach_step.
Qed.
End Refinement.

(** ** What a browser lets a script read *)

Lemma cors_headers_origin (r : server_request) :
  header_get (cors_headers r) "Access-Control-Allow-Origin" = Some "*".
Proof. reflexivity. Qed.

(** What [cors] sets passes the check for a request without credentials
    and fails it for one with credentials, from any origin. *)
Lemma cors_headers_check (r : server_request) (origin : string) :
  origin <> "*" ->
  cors_check false origin (cors_headers r) = true /\ cors_check true origin (cors_headers r) = false.
Proof.
  intros Ho. unfold cors_check. rewrite cors_headers_origin.
  by rewrite (proj2 (String.eqb_neq "*" origin) (not_eq_sym Ho)).
Qed.

Section Readable.
Context `{RegexEngine} `{PasswordHasher} `{TokenService} {S : Type} `{TaskRepository S}.

(** C29: For a cross-origin caller in a browser, of the answers index.js
    sends: one to a request sent without credentials can be read exactly
    when it is neither the hello route's nor a body parser's 400, the
    two layers mounted before [cors]; one to a request sent with
    credentials can never be read, since [Access-Control-Allow-Origin]
    is the wildcard [*]: [credentials: true] has no effect. *)
Theorem cors_readable (secret : option string) (w : world S) (r : server_request) (salt : N)
    (now : Z) (origin : string) :
  origin <> "*" ->
  let '(rep, hs, _) := serve_full secret w r salt now in
  cors_check false origin hs = match rep with HelloReply | ParseError => false | _ => true end /\
  cors_check true origin hs = false.
Proof.
  intros Ho. pose proof (cors_headers_check r origin Ho) as Hc. unfold serve_full.
  destruct (hello_route r); [done|]. destruct (strict_body (sr_body r)) as [v|]; [|done].
  destruct (sr_method r); try exact Hc;
    (destruct (event_of r v salt) as [e|]; [destruct (app_step secret w e now)|]; exact Hc).
Qed.
End Readable.

(** A preflight that gets past the body parsers is answered by [cors],
    before any router: no credentials are asked for and nothing
    changes. *)
Lemma serve_preflight `{RegexEngine} `{PasswordHasher} `{TokenService} {S : Type}
    `{TaskRepository S} (secret : option string) (w : world S) (r : server_request) (salt : N)
    (now : Z) :
  sr_method r = OPTIONS -> strict_body (sr_body r) <> None ->
  serve secret w r salt now = (Preflight, w).
Proof.
  intros Hm Hb. unfold serve, serve_full, hello_route. rewrite Hm.
  by destruct (strict_body (sr_body r)) as [v|].
Qed.

End Server.
