(* ===== verification/Boot.v ===== *)
(** * Start-up of index.js: environment, port and the deployed application

    src/index.js runs, in this order: [dotenv.config({})] (line 8), which
    loads the [.env] file into [process.env]; [express()] and the layers
    of [Server.serve] (lines 11-29); [PORT] (line 26); and
    [app.listen(PORT, ...)] (lines 31-35), whose callback connects to the
    database and logs the address.  The middleware reads
    [process.env.SECRET_KEY] on every request (isAuthenticated.js, line
    14); no code writes [process.env] after start-up, so the secret the
    application runs with is the one of the environment at boot.

    [boot] is that sequence on a process environment and the bindings of
    the [.env] file; [deployed] is [Server.serve] with the secret it
    fixes.  The theorems: which [PORT] the server listens on and logs
    (an empty [PORT] in the process environment is kept by dotenv and
    gives 3000, whatever the file says), which [SECRET_KEY] it runs with;
    and, through the whole application, a client that registers, logs
    in, creates a task and reads it back gets the task, when the
    secret is the one login signs with. *)

From Stdlib Require Import ZArith NArith String DecimalString.
From stdpp Require Import base list strings options gmap.
From S2P Require Import Prelude Js Task Query Repo User Http Auth Policy TaskController Router Server.

Module Boot.
Import Js Task Query Repo User Http Auth Policy TaskController Router Server.
Local Unset Default Proof Using.

(** ** The environment *)

(** [process.env], an object used as a map from names to strings. *)
Abbreviation env := (gmap string string).

(** The [.env] file: its [NAME=value] lines, in order. *)
Abbreviation env_file := (list (string * string)).

(** What dotenv parses from the file: a later line for a name replaces
    an earlier one. *)
Definition file_env (file : env_file) : env := list_to_map (rev file).

(** Line 8, [dotenv.config({})]: the bindings of the [.env] file are
    added to [process.env] except for names it already has, even bound
    to the empty string. *)
Definition dotenv_config (pe : env) (file : env_file) : env := pe ∪ file_env file.

(** [String(v)], as a template literal [`${v}`] converts [v]. *)
Fixpoint js_string (v : jsval) : string :=
  match v with
  | JUndefined => "undefined"
  | JNull => "null"
  | JBool b => if b then "true" else "false"
  | JNum z => NilZero.string_of_int (Z.to_int z)
  | JStr s => s
  | JArr l =>
      String.concat "," (map (fun x => match x with JUndefined | JNull => "" | _ => js_string x end) l)
  | JObj _ => "[object Object]"
  end.

(** Line 33: the message of the [listen] callback. *)
Definition listen_message (port : jsval) : string :=
  "server running at http://localhost:" ++ js_string port.

(** ** Start-up *)

Record deployment : Type := mkDeployment {
  dep_env : env;                (** [process.env] after [dotenv.config] *)
  dep_port : jsval;             (** the port [listen] binds *)
  dep_log : list string         (** what the process writes to the console *)
}.

(** Lines 8-35 in order.  [ConnectTOdb()] (line 32) opens the database
    connection, which is I/O: the collections of the model are there from
    the start. *)
Definition boot (pe : env) (file : env_file) : deployment :=
  let e := dotenv_config pe file in
  let port := PORT (e !! "PORT") in
  mkDeployment e port [listen_message port].

(** [process.env.SECRET_KEY], read by the middleware on each request. *)
Definition dep_secret (d : deployment) : option string := dep_env d !! "SECRET_KEY".

Section Deployed.
Context `{RegexEngine} `{PasswordHasher} `{TokenService} {S : Type} `{TaskRepository S}.

(** The running application: [serve] with the deployment's secret. *)
Definition deployed (d : deployment) (w : world S) (r : server_request) (salt : N) (now : Z) :
    server_reply * world S :=
  serve (dep_secret d) w r salt now.
End Deployed.

(** ** Lemmas *)

(** A name of the process environment keeps its value; the file only
    supplies names the process environment lacks. *)
Lemma lookup_dotenv (pe : env) (file : env_file) (k : string) :
  dotenv_config pe file !! k =
  match pe !! k with Some v => Some v | None => file_env file !! k end.
Proof. unfold dotenv_config. rewrite lookup_union. by destruct (pe !! k), (file_env file !! k). Qed.

(** The last line of the file for a name is the one dotenv keeps. *)
Lemma file_env_last (file : env_file) (k v : string) :
  file_env (file ++ [(k, v)]) !! k = Some v.
Proof. unfold file_env. rewrite rev_app_distr. simpl. apply lookup_insert_eq. Qed.

Lemma dep_secret_boot (pe : env) (file : env_file) :
  dep_secret (boot pe file) =
  match pe !! "SECRET_KEY" with Some v => Some v | None => file_env file !! "SECRET_KEY" end.
Proof. apply lookup_dotenv. Qed.

(** C30: The server listens on, and logs, the port [process.env.PORT]
    holds after dotenv: the process environment's value when it has one,
    even the empty string, and otherwise the last binding of the [.env]
    file; an empty or missing value gives 3000.  So an empty [PORT] in the
    environment makes the server ignore the file's [PORT]. *)
Theorem boot_port (pe : env) (file : env_file) :
  let p := match pe !! "PORT" with Some v => Some v | None => file_env file !! "PORT" end in
  dep_port (boot pe file) =
    match p with Some v => if String.eqb v "" then JNum 3000 else JStr v | None => JNum 3000 end /\
  dep_log (boot pe file) =
    [("server running at http://localhost:" ++
       match p with Some v => if String.eqb v "" then "3000" else v | None => "3000" end)%string].
Proof.
  unfold boot, dotenv_config. cbn [dep_port dep_log]. rewrite lookup_union, PORT_spec.
  destruct (pe !! "PORT") as [v|], (file_env file !! "PORT") as [v'|]; cbn;
    try destruct (String.eqb _ ""); done.
Qed.

(** ** A client session *)

(** The four requests of a client that registers, logs in, creates a
    task and reads it back, as a JSON client sends them. *)
Definition register_request (fn e : string) (ph : jsval) (p : string) : server_request :=
  mkServerRequest POST ["api"; "v1"; "auth"; "register"] None JUndefined
    (Some (JObj [("fullname", JStr fn); ("email", JStr e); ("phoneNumber", ph); ("password", JStr p)])) None.

Definition login_request (e p : string) : server_request :=
  mkServerRequest POST ["api"; "v1"; "auth"; "login"] None JUndefined
    (Some (JObj [("email", JStr e); ("password", JStr p)])) None.

Definition create_request (tok ti dsc : string) : server_request :=
  mkServerRequest POST ["api"; "v1"; "task"; "create-task"] (Some ("Bearer " ++ tok)%string)
    JUndefined (Some (JObj [("title", JStr ti); ("description", JStr dsc)])) None.

Definition get_request (tok tid : string) : server_request :=
  mkServerRequest GET ["api"; "v1"; "task"; "task"; tid] (Some ("Bearer " ++ tok)%string)
    JUndefined (Some (JObj [])) None.

#[local] Arguments isAuthenticated : simpl never.
#[local] Arguments CreateTask : simpl never.
#[local] Arguments getTaskById : simpl never.

Section Requests.
Context `{RegexEngine} `{PasswordHasher} `{TokenService} {S : Type} `{TaskRepository S}.
Implicit Types (sec : option string) (w : world S) (salt : N) (now : Z).

Lemma serve_register sec w (fn e : string) (ph : jsval) (p : string) salt now :
  serve sec w (register_request fn e ph p) salt now =
  let '(r, us) := register (w_users w) (mkAuthBody (JStr fn) (JStr e) ph (JStr p)) salt in
  (Routed (AuthReply r), mkWorld S (w_tasks w) us (w_issued w)).
Proof. unfold serve, serve_full; simpl. by destruct (register _ _ _). Qed.

Lemma serve_login sec w (e p : string) salt now :
  serve sec w (login_request e p) salt now =
  let r := login (w_users w) (mkAuthBody JUndefined (JStr e) JUndefined (JStr p)) (now / 1000) in
  (Routed (AuthReply (Some r)),
   mkWorld S (w_tasks w) (w_users w)
     (match a_token r with Some t => t :: w_issued w | None => w_issued w end)).
Proof. reflexivity. Qed.

Lemma serve_create sec w (tok ti dsc : string) salt now :
  serve sec w (create_request tok ti dsc) salt now =
  match isAuthenticated sec (now / 1000) (Some ("Bearer " ++ tok)%string) with
  | inl resp => (Routed (TaskReply resp), w)
  | inr u =>
      let '(r, s') := CreateTask (w_tasks w) (mkRequest u "" JUndefined
        (mkBody (JStr ti) (JStr dsc) JUndefined JUndefined JUndefined JUndefined JUndefined)) now in
      (Routed (TaskReply r), set_tasks w s')
  end.
Proof.
  unfold serve, serve_full, create_request; simpl; unfold task_router; simpl.
  destruct (isAuthenticated _ _ _); [done|]. simpl.
  by destruct (CreateTask _ _ _).
Qed.

Lemma serve_get sec w (tok tid : string) salt now :
  tid <> "" ->
  serve sec w (get_request tok tid) salt now =
  match isAuthenticated sec (now / 1000) (Some ("Bearer " ++ tok)%string) with
  | inl resp => (Routed (TaskReply resp), w)
  | inr u => (Routed (TaskReply (getTaskById (w_tasks w) (mkRequest u tid JUndefined empty_body))), w)
  end.
Proof.
  intros Htid. destruct tid as [|c tid]; [done|].
  unfold serve, serve_full, get_request; simpl; unfold task_router; simpl.
  by destruct (isAuthenticated _ _ _).
Qed.
End Requests.

Section Session.
Context `{RegexEngine} `{PasswordHasher} `{!PasswordHasherLaws} `{TokenService} `{!TokenServiceLaws}
  {S : Type} `{HR : TaskRepository S} `{HL : !TaskRepositoryLaws S}.

(** C7: Round trip through the deployed application (spec section 8): on a
    server whose [SECRET_KEY] resolves, after dotenv, to the secret login
    signs with, a client who registers a fresh email, logs in with it,
    creates a task with the token login returned and asks for that task
    by its id, within the day of validity, is told the account was
    created, gets a token for the new account with the role ["user"],
    gets 201 with the task, created by the new account with the given
    title and description and pending, and then gets the same task
    back. *)
Theorem session_roundtrip (pe : env) (file : env_file) (w : world S) (fn e p ti dsc : string) (ph : jsval)
    (salt : N) (t0 t1 t2 t3 : Z) :
  dep_secret (boot pe file) = Some login_secret ->
  e ∉ map email (users (w_users w)) -> fn <> "" -> e <> "" -> p <> "" -> truthy ph = true ->
  (next_user (w_users w) < 16 ^ 24)%N ->
  repo_wf (w_tasks w) -> repo_full (w_tasks w) = false -> ti <> "" ->
  (t2 / 1000 < t1 / 1000 + token_lifetime)%Z -> (t3 / 1000 < t1 / 1000 + token_lifetime)%Z ->
  let d := boot pe file in
  let uid := oid_of_counter (next_user (w_users w)) in
  let tok := jwt_sign (mkClaims (Some uid) (Some "user")) login_secret (t1 / 1000) token_lifetime in
  exists w1 w2 w3 t,
    deployed d w (register_request fn e ph p) salt t0 =
      (Routed (AuthReply (Some (auth_reply 200 true "Account created successfuly"))), w1) /\
    deployed d w1 (login_request e p) salt t1 =
      (Routed (AuthReply (Some (mkAuthResponse 200 true ("Welcome back " ++ fn) (Some tok)
         (Some (mkLoginUser uid fn e ph JUndefined "user"))))), w2) /\
    deployed d w2 (create_request tok ti dsc) salt t2 =
      (Routed (TaskReply (mkResponse 201 true "" (PTask t))), w3) /\
    createdBy t = uid /\ title t = ti /\ description t = Some dsc /\ status t = Pending /\
    fst (deployed d w3 (get_request tok (task_id t)) salt t3) =
      Routed (TaskReply (mkResponse 200 true "" (PTask t))).
Proof.
  intros Hsec Hfresh Hfn He Hp Hph Hlt Hwf Hfull Hti Ht2 Ht3 d uid tok. unfold deployed, d.
  rewrite Hsec.
  destruct (register_then_login (w_users w) fn e p ph salt (t1 / 1000) Hfresh Hfn He Hp Hph Hlt)
    as (us & Hreg & Hlog).
  set (u := registered_user (w_users w) fn e ph p salt).
  assert (Hauth : forall t : Z, (t / 1000 < t1 / 1000 + token_lifetime)%Z ->
    isAuthenticated (Some login_secret) (t / 1000) (Some ("Bearer " ++ tok)%string) =
    inr (mkCaller uid "user")).
  { intros t Ht. change tok with (jwt_sign (token_claims u) login_secret (t1 / 1000) token_lifetime).
    rewrite isAuthenticated_login_token by (apply oid_of_counter_nonempty || done).
    by rewrite (proj2 (Z.ltb_lt _ _) Ht). }
  destruct (create_then_get (w_tasks w) (mkCaller uid "user") ti dsc t2 Hwf Hfull
              (oid_cast_counter _) Hti) as (t & s' & Hcr & Hid & Hti' & Hd & Hby & Hst & Hget).
  exists (mkWorld S (w_tasks w) us (w_issued w)), (mkWorld S (w_tasks w) us (tok :: w_issued w)),
    (mkWorld S s' us (tok :: w_issued w)), t.
  rewrite serve_register, Hreg, serve_login. cbn [w_users]. rewrite Hlog.
  split_and!; [reflexivity|reflexivity| |done..|].
  - rewrite serve_create, Hauth by done. cbn [w_tasks]. by rewrite Hcr.
  - rewrite serve_get by (apply object_id_nonempty, (oid_cast_valid _ _ Hid)).
    rewrite Hauth by done. cbn [w_tasks set_tasks]. by rewrite Hget.
Qed.
End Session.

End Boot.
