(* ===== verification/Concurrency.v ===== *)
(** * Interleaved updates: the two awaits of updateTask

    updateTask (src/controllers/task.controller.js, lines 162-225) awaits
    twice: [Task.findById(taskId)] at line 168 and [task.save()] at line
    211.  Between the two, other requests run (spec section 5: the only
    atomicity is the store's single-document update).  This file splits
    the handler at its awaits: [update_begin] is the code from the request
    to the [save()] call, [update_commit] the [save()] and the answer.

    [task.save()] on a document loaded by [findById] does not replace the
    stored document: Mongoose sends [updateOne({_id}, {$set: delta})] where
    the delta holds the paths whose value differs from the loaded one
    ([modifiedPaths]); with an empty delta it only checks that the
    document still exists.  Either way an absent document makes [save()]
    throw DocumentNotFoundError ([save_delta]).  Mongoose also keeps a
    version key [__v] per document ([versions]): a delta that [$set]s an
    array path, here [tags], adds [__v: v0] (the version loaded) to the
    filter and [$inc: {__v: 1}] to the update, so such a save throws a
    VersionError when the version has moved since the read
    ([update_commit_v], the save the threads perform).

    Requests run as threads ([thread]) of a [system]; a schedule (a list of
    thread indices) interleaves their steps ([run]).  The theorems: run
    back to back, the two phases are the atomic [TaskController.updateTask]
    (so the sequential theorems of that file describe them); every thread
    is answered after at most four of its own steps whatever the others do
    ([run_answers]); every step of every interleaving changes the store
    only as the access policy allows its caller ([run_respects_policy]);
    with no admin caller every stored task keeps every field but [status]
    and [updatedAt] ([run_user_frame]), so a non-admin's save never writes
    a stale copy of another field; the lost update of spec section 5
    (last write wins, both callers told "Task updated successfully"); a
    delete between the two awaits makes updateTask answer 500; the
    four counts of getTaskCounts, separate store operations under
    [Promise.all], can straddle an update and disagree ([counts_race]);
    and, by the version key, of two updates changing the [tags] of a task
    read at the same version at most one succeeds
    ([versioned_saves_exclusive], [tags_conflict]). *)

From Stdlib Require Import ZArith NArith String.
From stdpp Require Import base list sets relations strings options gmap.
From S2P Require Import Prelude Js Task Query Repo User Http Policy TaskController.

Module Concurrency.
Import Js Task Query Repo User Http Policy TaskController.

Local Unset Default Proof Using.

(** ** The paths updateTask can write

    The paths of a Task document that the handler assigns
    ([task.status = ...], [task.title = ...], ..., [task.updatedAt = ...]);
    [_id], [createdBy] and [createdAt] are never assigned. *)

Inductive path : Type :=
| PTitle | PDescription | PStatus | PPriority | PDueDate | PAssignedTo | PTags | PUpdatedAt.

#[export] Instance path_eq_dec : EqDecision path.
Proof. solve_decision. Defined.

Definition all_paths : list path :=
  [PTitle; PDescription; PStatus; PPriority; PDueDate; PAssignedTo; PTags; PUpdatedAt].

(** The value of a path, in a type common to all paths. *)
Inductive fval : Type :=
| VStr (s : string) | VOptStr (o : option string) | VStatus (s : TaskStatus)
| VJs (v : jsval) | VDate (z : Z).

#[export] Instance fval_eq_dec : EqDecision fval.
Proof. solve_decision. Defined.

Definition get_at (p : path) (t : task) : fval :=
  match p with
  | PTitle => VStr (title t)
  | PDescription => VOptStr (description t)
  | PStatus => VStatus (status t)
  | PPriority => VJs (priority t)
  | PDueDate => VJs (dueDate t)
  | PAssignedTo => VOptStr (assignedTo t)
  | PTags => VJs (tags t)
  | PUpdatedAt => VDate (updatedAt t)
  end.

(** [$set: {p: src.p}] applied to [dst]. *)
Definition copy_at (p : path) (src dst : task) : task :=
  match p with
  | PTitle => with_title dst (title src)
  | PDescription => with_description dst (description src)
  | PStatus => with_status dst (status src)
  | PPriority => with_priority dst (priority src)
  | PDueDate => with_dueDate dst (dueDate src)
  | PAssignedTo => with_assignedTo dst (assignedTo src)
  | PTags => with_tags dst (tags src)
  | PUpdatedAt => with_updatedAt dst (updatedAt src)
  end.

(** [doc.$__delta()]: an assignment marks a path modified only when the
    new value is not [deepEqual] to the loaded one. *)
Definition modifiedPaths (t0 t1 : task) : list path :=
  List.filter (fun p => bool_decide (get_at p t0 <> get_at p t1)) all_paths.

Definition set_paths (ps : list path) (src dst : task) : task :=
  fold_right (fun p d => copy_at p src d) dst ps.

(** [task.save()] of [t1], loaded as [t0]: [updateOne({_id}, {$set:
    delta})], or [exists({_id})] for an empty delta; no match throws. *)
Definition save_delta (c : Collection) (t0 t1 : task) : fault + Collection :=
  match find_doc (task_id t1) (coll_docs c) with
  | Some d =>
      inr (mkCollection (replace_doc (set_paths (modifiedPaths t0 t1) t1 d) (coll_docs c))
                        (coll_next c))
  | None => inl DocumentNotFoundError
  end.

(** ** updateTask, split at its awaits *)

(** Where a request stands after its first await: answered, or holding
    the loaded document [t0] and the document [t1] it will save. *)
Inductive pending : Type :=
| Answered (r : response)
| Saving (t0 t1 : task).

(** The version key [__v] of each stored document, by id; a document
    [Task.create] inserts has version 0. *)
Abbreviation versions := (gmap string N).

Section Phases.
Context `{RegexEngine}.

(** Lines 162-210: from the request to the [task.save()] call.  A cast
    failure of an assignment rejects [save()] before it reaches the store
    (Mongoose validates first), so it is answered here. *)
Definition update_begin (c : Collection) (req : request) (now : Z) : pending :=
  let u := req_user req in
  let b := req_body req in
  let r :=
    let* found := coll_findById c (req_params_id req) in
    match found with
    | None => inr (Answered (mkResponse 404 false "Task not found" PNone))
    | Some t =>
        if negb (is_admin u) && negb (String.eqb (createdBy t) (id u))
        then inr (Answered (mkResponse 403 false "Access denied" PNone))
        else if negb (is_admin u) then
          if negb (truthy (b_status b)) || negb (includes allowedStatuses (b_status b))
          then inr (Answered (mkResponse 400 false
                      "Invalid or missing status. Only status update is allowed." PNone))
          else let* t' := assign_status t (b_status b) in inr (Saving t (with_updatedAt t' now))
        else
          if truthy (b_status b) && negb (includes allowedStatuses (b_status b))
          then inr (Answered (mkResponse 400 false "Invalid status value." PNone))
          else let* t' := admin_update t b in inr (Saving t (with_updatedAt t' now))
    end in
  match r with
  | inr p => p
  | inl _ => Answered internal_error
  end.

(** Lines 211-225: [await task.save()], then 200 with the in-memory
    [task]; a rejected save is caught as 500. *)
Definition update_commit (c : Collection) (t0 t1 : task) : response * Collection :=
  match save_delta c t0 t1 with
  | inr c' => (mkResponse 200 true "Task updated successfully" (PTask t1), c')
  | inl _ => (internal_error, c)
  end.

Definition version_of (vs : versions) (k : string) : N := default 0%N (vs !! k).

(** Mongoose versions a save that [$set]s an array path, here [tags]
    (the only array path updateTask assigns): the filter also requires
    [__v] to be the version loaded and the update adds [$inc: {__v: 1}].
    The other paths are saved without a version check. *)
Definition versioned (t0 t1 : task) : bool := bool_decide (PTags ∈ modifiedPaths t0 t1).

(** [task.save()] with the version key, for a document loaded at version
    [v0]: when the save is versioned and the stored version has moved, no
    document matches the filter and Mongoose throws a VersionError, which
    the catch answers with 500. *)
Definition update_commit_v (c : Collection) (vs : versions) (t0 t1 : task) (v0 : N) :
    response * Collection * versions :=
  if versioned t0 t1 then
    if bool_decide (version_of vs (task_id t1) = v0) then
      let '(r, c') := update_commit c t0 t1 in
      (r, c', if success r then <[task_id t1 := N.succ v0]> vs else vs)
    else (internal_error, c, vs)
  else let '(r, c') := update_commit c t0 t1 in (r, c', vs).

(** The two phases back to back, with nothing in between. *)
Definition update_serial (c : Collection) (req : request) (now : Z) : response * Collection :=
  match update_begin c req now with
  | Answered r => (r, c)
  | Saving t0 t1 => update_commit c t0 t1
  end.
End Phases.

(** ** Requests as threads

    A request in flight: updateTask before its first await ([TUpdate]) or
    awaiting its [save()] with the version it loaded ([TSaving]); CreateTask and deleteTask, whose
    single await is one store operation ([TCreate], [TDelete]);
    getTaskCounts with the counts it has received ([TCounts]); or
    answered ([TDone]).  Each keeps its request, hence its caller. *)
Inductive thread : Type :=
| TUpdate (req : request) (now : Z)
| TSaving (req : request) (t0 t1 : task) (v0 : N)
| TCreate (req : request) (now : Z)
| TDelete (req : request)
| TCounts (req : request) (got : list nat)
| TDone (req : request) (r : response).

Definition thread_req (th : thread) : request :=
  match th with
  | TUpdate req _ | TSaving req _ _ _ | TCreate req _ | TDelete req | TCounts req _
  | TDone req _ => req
  end.

Definition thread_caller (th : thread) : caller := req_user (thread_req th).

(** The steps a thread still has to take. *)
Definition remaining (th : thread) : nat :=
  match th with
  | TUpdate _ _ => 2
  | TSaving _ _ _ _ | TCreate _ _ | TDelete _ => 1
  | TCounts _ got => S (3 - length got)
  | TDone _ _ => 0
  end.

(** Lines 30-35: the four filters of getTaskCounts, in the order of the
    array [Promise.all] receives. *)
Definition count_queries (u : caller) : list jsval :=
  let mq := matchQuery u in
  [if is_admin u then JObj [] else mq; spread mq "status" (JStr "pending");
   spread mq "status" (JStr "in-progress"); spread mq "status" (JStr "completed")].

Record system : Type := mkSystem {
  sys_coll : Collection;
  sys_threads : list thread;
  sys_vers : versions
}.

Definition callers (w : system) : list caller := thread_caller <$> sys_threads w.

Section Threads.
Context `{RegexEngine}.

(** One step of a thread: the code up to its next await, or the await
    itself. *)
Definition step_thread (c : Collection) (vs : versions) (th : thread) :
    thread * Collection * versions :=
  match th with
  | TUpdate req now =>
      match update_begin c req now with
      | Answered r => (TDone req r, c, vs)
      | Saving t0 t1 => (TSaving req t0 t1 (version_of vs (task_id t0)), c, vs)
      end
  | TSaving req t0 t1 v0 =>
      let '(r, c', vs') := update_commit_v c vs t0 t1 v0 in (TDone req r, c', vs')
  | TCreate req now => let '(r, c') := CreateTask c req now in (TDone req r, c', vs)
  | TDelete req => let '(r, c') := deleteTask c req in (TDone req r, c', vs)
  | TCounts req got =>
      (** [Promise.all] of lines 30-35: the queries run as separate store
          operations; the first rejection rejects the whole, and the
          answer is sent when all four have resolved. *)
      match nth_error (count_queries (req_user req)) (length got) with
      | Some q =>
          match coll_count c q with
          | inr k =>
              match got ++ [k] with
              | [a; b; d; e] =>
                  (TDone req (mkResponse 200 true "" (PCounts (mkCounts a b d e))), c, vs)
              | got' => (TCounts req got', c, vs)
              end
          | inl _ => (TDone req internal_error, c, vs)
          end
      | None => (TDone req internal_error, c, vs)
      end
  | TDone req r => (TDone req r, c, vs)
  end.

(** The scheduler runs thread [i]; an index with no thread is a no-op. *)
Definition step (w : system) (i : nat) : system :=
  match sys_threads w !! i with
  | Some th =>
      let '(th', c', vs') := step_thread (sys_coll w) (sys_vers w) th in
      mkSystem c' (<[i := th']> (sys_threads w)) vs'
  | None => w
  end.

(** A thread run alone for [n] steps. *)
Definition run_thread (n : nat) (c : Collection) (vs : versions) (th : thread) :
    thread * Collection * versions :=
  Nat.iter n (fun p => step_thread p.1.2 p.2 p.1.1) (th, c, vs).

(** An interleaving: the threads run in the order of the schedule. *)
Definition run (w : system) (sched : list nat) : system := foldl step w sched.
End Threads.


(** ** What the threads may do to the store *)

(** A thread awaiting its save holds a document with the key fields of
    the loaded one, and for a non-admin the same frame (what updateTask
    computed from it). *)
Definition thread_ok (th : thread) : Prop :=
  match th with
  | TSaving req t0 t1 _ =>
      key_fields t1 = key_fields t0 /\
      (is_admin (req_user req) = false -> user_frame t1 = user_frame t0)
  | _ => True
  end.

Definition system_ok (w : system) : Prop := coll_wf (sys_coll w) /\ Forall thread_ok (sys_threads w).

(** A change of the stored documents the policy allows one of the callers
    [us]. *)
Definition allowed_by (us : list caller) (docs docs' : list task) : Prop :=
  exists u, u ∈ us /\ docs_change (is_admin u) docs docs'.

(** Along a schedule, each step changes the stored documents only as the
    policy allows the caller of the thread that takes it. *)
Fixpoint policy_trace `{RegexEngine} (w : system) (sched : list nat) : Prop :=
  match sched with
  | [] => True
  | i :: sched' =>
      (forall th, sys_threads w !! i = Some th ->
         docs_change (is_admin (thread_caller th)) (coll_docs (sys_coll w))
                     (coll_docs (sys_coll (step w i)))) /\
      policy_trace (step w i) sched'
  end.

(** ** Path algebra *)

Lemma get_at_copy_at (p q : path) (src dst : task) :
  get_at p (copy_at q src dst) = if decide (p = q) then get_at p src else get_at p dst.
Proof. by destruct p, q. Qed.

Lemma key_fields_copy_at (p : path) (src dst : task) :
  key_fields (copy_at p src dst) = key_fields dst.
Proof. by destruct p. Qed.

Lemma get_at_set_paths (p : path) (ps : list path) (src dst : task) :
  get_at p (set_paths ps src dst) = if decide (p ∈ ps) then get_at p src else get_at p dst.
Proof.
  unfold set_paths. induction ps as [|q ps IH]; cbn [fold_right].
  - case_decide as Hin; [by apply elem_of_nil in Hin | done].
  - rewrite get_at_copy_at, IH. repeat case_decide; set_solver.
Qed.

Lemma key_fields_set_paths (ps : list path) (src dst : task) :
  key_fields (set_paths ps src dst) = key_fields dst.
Proof. induction ps; simpl; [done|]. by rewrite key_fields_copy_at. Qed.

Lemma task_id_set_paths (ps : list path) (src dst : task) :
  task_id (set_paths ps src dst) = task_id dst.
Proof. pose proof (key_fields_set_paths ps src dst) as E. by injection E. Qed.

(** A task is its key fields and its path values. *)
Lemma task_ext (a b : task) :
  key_fields a = key_fields b -> (forall p, get_at p a = get_at p b) -> a = b.
Proof.
  destruct a, b; unfold key_fields; simpl. intros [= -> -> ->] Hp.
  pose proof (Hp PTitle). pose proof (Hp PDescription). pose proof (Hp PStatus).
  pose proof (Hp PPriority). pose proof (Hp PDueDate). pose proof (Hp PAssignedTo).
  pose proof (Hp PTags). pose proof (Hp PUpdatedAt). simplify_eq/=. done.
Qed.

Lemma elem_of_modifiedPaths (p : path) (t0 t1 : task) :
  p ∈ modifiedPaths t0 t1 <-> get_at p t0 <> get_at p t1.
Proof.
  unfold modifiedPaths. rewrite list_elem_of_In, filter_In, bool_decide_eq_true.
  split; [tauto|]. intros; split; [destruct p; simpl; tauto | done].
Qed.

(** Saving the modified paths onto the loaded document itself gives the
    document that was saved. *)
Lemma set_paths_modified (t0 t1 : task) :
  key_fields t1 = key_fields t0 -> set_paths (modifiedPaths t0 t1) t1 t0 = t1.
Proof.
  intros Hk. apply task_ext; [by rewrite key_fields_set_paths|]. intros p.
  rewrite get_at_set_paths. case_decide as Hp; [done|].
  rewrite elem_of_modifiedPaths in Hp. destruct (decide (get_at p t0 = get_at p t1)); tauto.
Qed.

(** Writing only [status] and [updatedAt] keeps the frame of a user's
    update. *)
Lemma user_frame_set_paths (ps : list path) (src dst : task) :
  (forall p, p ∈ ps -> p = PStatus \/ p = PUpdatedAt) ->
  user_frame (set_paths ps src dst) = user_frame dst.
Proof.
  induction ps as [|q ps IH]; intros Hps; simpl; [done|].
  assert (user_frame (set_paths ps src dst) = user_frame dst) as E by (apply IH; set_solver).
  destruct (Hps q) as [->| ->]; [set_solver..|]; exact E.
Qed.

Lemma modifiedPaths_user (t0 t1 : task) :
  user_frame t1 = user_frame t0 ->
  forall p, p ∈ modifiedPaths t0 t1 -> p = PStatus \/ p = PUpdatedAt.
Proof.
  unfold user_frame. intros E p. rewrite elem_of_modifiedPaths.
  destruct p; simplify_eq/=; try congruence; auto.
Qed.

(** ** The save of the modified paths *)

Section Save.
Context `{RegexEngine}.

Lemma coll_findById_Some (c : Collection) (x : string) (t : task) :
  coll_findById c x = inr (Some t) -> find_doc (task_id t) (coll_docs c) = Some t.
Proof.
  unfold coll_findById. destruct (oid_cast x); [|done]. intros [= Hf].
  by pose proof (find_doc_Some _ _ _ Hf) as [_ ->].
Qed.

(** [save_delta] is a whole-document save of the stored document with the
    delta applied. *)
Lemma save_delta_coll_save (c : Collection) (t0 t1 : task) :
  save_delta c t0 t1 =
  match find_doc (task_id t1) (coll_docs c) with
  | Some d => coll_save c (set_paths (modifiedPaths t0 t1) t1 d)
  | None => coll_save c t1
  end.
Proof.
  unfold save_delta, coll_save. destruct (find_doc _ _) as [d|] eqn:Hf; [|done].
  rewrite task_id_set_paths. pose proof (find_doc_Some _ _ _ Hf) as [_ ->]. by rewrite Hf.
Qed.

(** On a document nobody changed since it was loaded, saving the delta is
    saving the whole document. *)
Lemma save_delta_unchanged (c : Collection) (t0 t1 : task) :
  find_doc (task_id t1) (coll_docs c) = Some t0 -> key_fields t1 = key_fields t0 ->
  save_delta c t0 t1 = coll_save c t1.
Proof. intros Hf Hk. by rewrite save_delta_coll_save, Hf, set_paths_modified. Qed.

(** The stored document after a successful save: the saved paths from
    [t1], every other path as the store held it. *)
Lemma save_delta_spec (c : Collection) (t0 t1 : task) :
  coll_wf c ->
  match save_delta c t0 t1 with
  | inl e => e = DocumentNotFoundError /\ find_doc (task_id t1) (coll_docs c) = None
  | inr c' => exists d, find_doc (task_id t1) (coll_docs c) = Some d /\
              coll_docs c' = replace_doc (set_paths (modifiedPaths t0 t1) t1 d) (coll_docs c) /\
              coll_wf c'
  end.
Proof.
  intros Hwf. rewrite save_delta_coll_save.
  destruct (find_doc (task_id t1) (coll_docs c)) as [d|] eqn:Hf.
  2:{ pose proof (coll_save_spec c t1 Hwf) as Hs.
      destruct (coll_save c t1); destruct Hs; [split; congruence | congruence]. }
  pose proof (find_doc_Some _ _ _ Hf) as [_ Hid].
  pose proof (coll_save_spec c (set_paths (modifiedPaths t0 t1) t1 d) Hwf) as Hs.
  rewrite task_id_set_paths, Hid, Hf in Hs.
  destruct (coll_save c _) as [e|c']; [by destruct Hs|]. destruct Hs as (_ & ? & ?). eauto.
Qed.
End Save.

(** ** The two phases back to back are the atomic handler *)

Section Serial.
Context `{RegexEngine}.

Lemma saving_keys (c : Collection) (admin : bool) (t t1 : task) (b : body) (now : Z) :
  (if admin then admin_update t b else assign_status t (b_status b)) = inr t1 ->
  find_doc (task_id t) (coll_docs c) = Some t ->
  find_doc (task_id (with_updatedAt t1 now)) (coll_docs c) = Some t /\
  key_fields (with_updatedAt t1 now) = key_fields t.
Proof.
  intros Hu%update_keys Hf. split; [|exact Hu].
  injection Hu as Hi _ _. simpl. by rewrite Hi.
Qed.

Lemma update_commit_unchanged (c : Collection) (t t1 : task) :
  find_doc (task_id t1) (coll_docs c) = Some t -> key_fields t1 = key_fields t ->
  update_commit c t t1 =
  match coll_save c t1 with
  | inr c' => (mkResponse 200 true "Task updated successfully" (PTask t1), c')
  | inl _ => (internal_error, c)
  end.
Proof. intros Hf Hk. unfold update_commit. by rewrite save_delta_unchanged. Qed.

(** Run with nothing in between, the read phase and the save phase of
    updateTask answer and write exactly as the atomic [updateTask] of
    [TaskController] on the collection. *)
Theorem update_serial_atomic (c : Collection) (req : request) (now : Z) :
  update_serial c req now = updateTask c req now.
Proof.
  unfold update_serial, update_begin, updateTask, finish_update. cbn [findById save collection_repo].
  destruct (coll_findById c _) as [e|[t|]] eqn:Hf; [done| |done].
  apply coll_findById_Some in Hf.
  destruct (negb (is_admin _) && _); [done|].
  destruct (is_admin (req_user req)) eqn:Ha; cbn [negb].
  - destruct (_ && _); [done|].
    destruct (admin_update t _) as [e|t1] eqn:Hu; [done|].
    destruct (saving_keys c true t t1 _ now Hu Hf) as [Hf1 Hk].
    rewrite (update_commit_unchanged _ _ _ Hf1 Hk). by destruct (coll_save _ _).
  - destruct (_ || _); [done|].
    destruct (assign_status t _) as [e|t1] eqn:Hu; [done|].
    destruct (saving_keys c false t t1 (req_body req) now Hu Hf) as [Hf1 Hk].
    rewrite (update_commit_unchanged _ _ _ Hf1 Hk). by destruct (coll_save _ _).
Qed.
End Serial.

(** ** Every request is answered *)

Section Progress.
Context `{RegexEngine}.

Lemma step_thread_progress (c : Collection) (vs : versions) (th : thread) :
  remaining (step_thread c vs th).1.1 <= pred (remaining th) /\
  thread_req (step_thread c vs th).1.1 = thread_req th.
Proof.
  destruct th as [req now|req t0 t1 v0|req now|req|req got|req r]; simpl;
    [repeat case_match; simpl; split; lia || done..| |split; [lia|done]].
  destruct (nth_error _ _) as [q|] eqn:Hn; [|simpl; split; [lia|done]].
  assert (length got < 4)
    by (change 4 with (length (count_queries (req_user req))); apply nth_error_Some; congruence).
  destruct (coll_count c q) as [e|k]; [simpl; split; [lia|done]|].
  pose proof (length_app got [k]) as E. simpl in E.
  destruct (got ++ [k]) as [|a [|b [|d [|e [|x l]]]]]; simpl in *; split; try done; lia.
Qed.

(** Stepping thread [i] changes only thread [i]. *)
Lemma lookup_step (w : system) (i j : nat) :
  sys_threads (step w i) !! j =
  if decide (i = j) then (fun th => (step_thread (sys_coll w) (sys_vers w) th).1.1) <$> sys_threads w !! i
  else sys_threads w !! j.
Proof.
  unfold step. destruct (sys_threads w !! i) as [th|] eqn:E; simpl; [|by case_decide; subst].
  destruct (step_thread _ _ _) as [[th' c'] vs'] eqn:Es. simpl. case_decide as Hij.
  - subst. rewrite list_lookup_insert_eq; [simpl; by rewrite ?Es | by eapply lookup_lt_Some].
  - by rewrite list_lookup_insert_ne.
Qed.

Lemma run_cons (w : system) (j : nat) (sched : list nat) :
  run w (j :: sched) = run (step w j) sched.
Proof. done. Qed.

(** Each time the scheduler picks thread [i], [i] makes a step; the steps
    of the others leave it where it is. *)
Lemma run_progress (w : system) (sched : list nat) (i : nat) (th : thread) :
  sys_threads w !! i = Some th ->
  exists th', sys_threads (run w sched) !! i = Some th' /\
    remaining th' <= remaining th - count_occ Nat.eq_dec sched i /\
    thread_req th' = thread_req th.
Proof.
  revert w th. induction sched as [|j sched IH]; intros w th Hi.
  { exists th. simpl. split_and!; [done | lia | done]. }
  pose proof (lookup_step w j i) as Hs. rewrite run_cons.
  destruct (Nat.eq_dec j i) as [->|Hne].
  - rewrite count_occ_cons_eq by done.
    rewrite decide_True, Hi in Hs by done. simpl in Hs.
    destruct (IH _ _ Hs) as (th' & Hl & Hr & Hq).
    destruct (step_thread_progress (sys_coll w) (sys_vers w) th) as [Hp Hq'].
    exists th'. split_and!; [done | lia | congruence].
  - rewrite count_occ_cons_neq by done.
    rewrite decide_False, Hi in Hs by done.
    destruct (IH _ _ Hs) as (th' & Hl & Hr & Hq). exists th'. split_and!; [done | lia | done].
Qed.

Lemma remaining_le_4 (th : thread) : remaining th <= 4.
Proof. destruct th; simpl; lia. Qed.

Lemma remaining_zero (th : thread) : remaining th = 0 -> exists r, th = TDone (thread_req th) r.
Proof. destruct th; simpl; try lia. eauto. Qed.
End Progress.

(** Run alone, the four steps of the counts thread answer as
    [TaskController.getTaskCounts]. *)
Lemma counts_serial `{RegexEngine} (c : Collection) (vs : versions) (req : request) :
  run_thread 4 c vs (TCounts req []) = (TDone req (getTaskCounts c req), c, vs).

Proof.
  unfold run_thread, getTaskCounts. simpl.
  destruct (coll_count c _) as [e|k1]; [done|]. simpl.
  destruct (coll_count c _) as [e|k2]; [done|]. simpl.
  destruct (coll_count c _) as [e|k3]; [done|]. simpl.
  by destruct (coll_count c _) as [e|k4].
Qed.

(** ** Interleavings respect the access policy *)

Section Policy.
Context `{RegexEngine}.

Lemma update_begin_saving (c : Collection) (req : request) (now : Z) (t0 t1 : task) :
  update_begin c req now = Saving t0 t1 ->
  exists t', (if is_admin (req_user req) then admin_update t0 (req_body req)
              else assign_status t0 (b_status (req_body req))) = inr t' /\
             t1 = with_updatedAt t' now.
Proof.
  unfold update_begin. destruct (coll_findById _ _) as [e|[t|]]; [done| |done].
  destruct (negb _ && _); [intros [=]|]. destruct (is_admin _); cbn [negb].
  - destruct (_ && _); [intros [=]|]. destruct (admin_update _ _) eqn:Hu; [intros [=]|]. intros [= -> <-]. eauto.
  - destruct (_ || _); [intros [=]|]. destruct (assign_status _ _) eqn:Hu; [intros [=]|]. intros [= -> <-]. eauto.
Qed.

Lemma update_begin_ok (c : Collection) (req : request) (now : Z) (t0 t1 : task) (v : N) :
  update_begin c req now = Saving t0 t1 -> thread_ok (TSaving req t0 t1 v).
Proof.
  intros (t' & Hu & ->)%update_begin_saving. split; [exact (update_keys _ _ _ _ Hu)|].
  intros Ha. rewrite Ha in Hu. apply assign_status_shape in Hu. by rewrite Hu.
Qed.

(** A save of the modified paths of a thread in the invariant is a change
    the policy allows its caller, on whatever the store holds by then. *)
Lemma update_commit_change (c c' : Collection) (req : request) (t0 t1 : task) (v : N) (r : response) :
  coll_wf c -> thread_ok (TSaving req t0 t1 v) -> update_commit c t0 t1 = (r, c') ->
  coll_wf c' /\ docs_change (is_admin (req_user req)) (coll_docs c) (coll_docs c').
Proof.
  intros Hwf [Hk Hf] Hc. unfold update_commit in Hc.
  pose proof (save_delta_spec c t0 t1 Hwf) as Hs.
  destruct (save_delta c t0 t1) as [e|c0]; injection Hc as <- <-; [split; [done|constructor]|].
  destruct Hs as (d & Hd & -> & Hw). split; [done|].
  pose proof (find_doc_Some _ _ _ Hd) as [_ Hid].
  apply change_update with d.
  - by rewrite task_id_set_paths, Hid.
  - apply key_fields_set_paths.
  - intros Ha. apply user_frame_set_paths, modifiedPaths_user, Hf, Ha.
Qed.

(** The versioned save either changes nothing or is the save of
    [update_commit]. *)
Lemma update_commit_v_cases (c : Collection) (vs : versions) (t0 t1 : task) (v0 : N) :
  (update_commit_v c vs t0 t1 v0).1.2 = c \/
  (update_commit_v c vs t0 t1 v0).1 = update_commit c t0 t1.
Proof.
  unfold update_commit_v. destruct (versioned t0 t1); [case_bool_decide; [|by left]|];
    destruct (update_commit c t0 t1); by right.
Qed.

Lemma step_thread_ok (c c' : Collection) (vs vs' : versions) (th th' : thread) :
  coll_wf c -> thread_ok th -> step_thread c vs th = (th', c', vs') ->
  coll_wf c' /\ thread_ok th' /\ docs_change (is_admin (thread_caller th)) (coll_docs c) (coll_docs c').
Proof.
  intros Hwf Hok. unfold thread_caller.
  destruct th as [req now|req t0 t1 v0|req now|req|req got|req r]; simpl.
  - destruct (update_begin c req now) eqn:Hb; intros [= <- <- _]; split_and!; try done;
      [constructor | by eapply update_begin_ok | constructor].
  - pose proof (update_commit_v_cases c vs t0 t1 v0) as Hv.
    destruct (update_commit_v c vs t0 t1 v0) as [[r c0] vs0]. intros [= <- <- _]. simpl in Hv.
    destruct Hv as [->|Hc]; [split_and!; [done|done|constructor]|].
    destruct (update_commit_change _ _ _ _ _ _ _ Hwf Hok (eq_sym Hc)). done.
  - destruct (CreateTask c req now) as [r c0] eqn:Hc. intros [= <- <- _].
    destruct (CreateTask_change (HR := collection_repo) c c0 req now r (is_admin (req_user req)) Hwf Hc). done.
  - destruct (deleteTask c req) as [r c0] eqn:Hc. intros [= <- <- _].
    destruct (deleteTask_change (HR := collection_repo) c c0 req r Hwf Hc). done.
  - repeat case_match; intros [= <- <- _]; split_and!; try done; constructor.
  - intros [= <- <- _]. split_and!; [done | done | constructor].
Qed.

Lemma thread_caller_step (c : Collection) (vs : versions) (th : thread) :
  thread_caller (step_thread c vs th).1.1 = thread_caller th.
Proof. unfold thread_caller. by rewrite (proj2 (step_thread_progress c vs th)). Qed.

Lemma step_ok (w : system) (i : nat) :
  system_ok w ->
  system_ok (step w i) /\ callers (step w i) = callers w /\
  rtc (allowed_by (callers w)) (coll_docs (sys_coll w)) (coll_docs (sys_coll (step w i))) /\
  (forall th, sys_threads w !! i = Some th ->
     docs_change (is_admin (thread_caller th)) (coll_docs (sys_coll w))
                 (coll_docs (sys_coll (step w i)))).
Proof.
  intros [Hwf Hths]. unfold step. destruct (sys_threads w !! i) as [th|] eqn:Hi; [|done].
  pose proof (thread_caller_step (sys_coll w) (sys_vers w) th) as Hcal.
  destruct (step_thread _ _ _) as [[th' c'] vs'] eqn:Hs. simpl in Hcal.

  destruct (step_thread_ok _ _ _ _ _ _ Hwf (proj1 (Forall_lookup _ _) Hths _ _ Hi) Hs) as (Hw' & Hok & Hch).
  split_and!.
  - split; [done|]. by apply Forall_insert.
  - unfold callers. simpl. rewrite list_fmap_insert, Hcal. apply list_insert_id.
    by rewrite list_lookup_fmap, Hi.
  - apply rtc_once. exists (thread_caller th). split; [|done].
    apply list_elem_of_fmap. exists th. split; [done|]. by eapply list_elem_of_lookup_2.
  - by intros ? [= <-].
Qed.

Lemma docs_change_user_persist (docs docs' : list task) (k : string) (t : task) :
  docs_change false docs docs' -> find_doc k docs = Some t ->
  exists t', find_doc k docs' = Some t' /\ key_fields t' = key_fields t /\ user_frame t' = user_frame t.
Proof.
  intros Hch Hf. destruct Hch as [docs|docs tn Hn|docs tn t' Hf' Hk Hu|docs k' Ha]; [eauto| | |done].
  - exists t. rewrite find_doc_app_one, Hf. done.
  - destruct (String.eq_dec k (task_id t')) as [->|Hne].
    + rewrite Hf in Hf'. injection Hf' as ->. exists t'.
      rewrite find_doc_replace_same by congruence. split_and!; auto.
    + exists t. by rewrite find_doc_replace_other.
Qed.
End Policy.

(** ** The version key *)

(** The update thread [k] has been answered with success. *)
Definition saved_ok (w : system) (k : nat) : bool :=
  match sys_threads w !! k with Some (TDone _ r) => success r | _ => false end.

Section Versions.
Context `{RegexEngine}.

Lemma version_of_insert (vs : versions) (k k' : string) (x : N) :
  version_of (<[k := x]> vs) k' = if decide (k = k') then x else version_of vs k'.
Proof. unfold version_of. rewrite lookup_insert. by case_decide. Qed.

Lemma update_commit_v_mono (c : Collection) (vs : versions) (t0 t1 : task) (v0 : N) (k : string) :
  (version_of vs k <= version_of (update_commit_v c vs t0 t1 v0).2 k)%N.
Proof.
  unfold update_commit_v. destruct (versioned t0 t1); [case_bool_decide as Hv|];
    destruct (update_commit c t0 t1) as [r c']; simpl; try lia.
  all: destruct (success r); simpl; [rewrite version_of_insert; case_decide; subst|]; lia.
Qed.

(** A versioned save that succeeds found the version it loaded and
    moved it one up. *)
Lemma update_commit_v_success (c : Collection) (vs : versions) (t0 t1 : task) (v0 : N) :
  versioned t0 t1 = true -> success (update_commit_v c vs t0 t1 v0).1.1 = true ->
  version_of vs (task_id t1) = v0 /\
  version_of (update_commit_v c vs t0 t1 v0).2 (task_id t1) = N.succ v0.
Proof.
  unfold update_commit_v. intros ->. case_bool_decide as Hv; [|done].
  destruct (update_commit c t0 t1) as [r c']. simpl. intros ->. split; [done|].
  rewrite version_of_insert. by rewrite decide_True.
Qed.

(** No step lowers a version. *)
Lemma step_vers_mono (w : system) (k : nat) (x : string) :
  (version_of (sys_vers w) x <= version_of (sys_vers (step w k)) x)%N.
Proof.
  unfold step. destruct (sys_threads w !! k) as [th|]; [|lia].
  assert (version_of (sys_vers w) x <= version_of (step_thread (sys_coll w) (sys_vers w) th).2 x)%N.
  { destruct th as [req now|req t0 t1 v0|req now|req|req got|req r]; cbn [step_thread].
    - destruct (update_begin _ _ _); simpl; lia.
    - pose proof (update_commit_v_mono (sys_coll w) (sys_vers w) t0 t1 v0 x).
      destruct (update_commit_v _ _ _ _ _) as [[? ?] ?]; simpl in *; lia.
    - destruct (CreateTask _ _ _); simpl; lia.
    - destruct (deleteTask _ _); simpl; lia.
    - repeat case_match; simpl; lia.
    - simpl; lia. }
  destruct (step_thread _ _ _) as [[th' c'] vs']. done.
Qed.

(** The step of a thread awaiting a versioned save answers it; a
    success moved the version from the one loaded. *)
Lemma step_saving (w : system) (a : nat) (ra : request) (a0 a1 : task) (v : N) :
  sys_threads w !! a = Some (TSaving ra a0 a1 v) -> versioned a0 a1 = true ->
  exists r, sys_threads (step w a) !! a = Some (TDone ra r) /\
    (success r = true -> version_of (sys_vers w) (task_id a1) = v /\
                         version_of (sys_vers (step w a)) (task_id a1) = N.succ v).
Proof.
  intros Ha Hv. pose proof (lookup_step w a a) as Hl. rewrite decide_True, Ha in Hl by done.
  pose proof (update_commit_v_success (sys_coll w) (sys_vers w) a0 a1 v Hv) as Hs.
  assert (sys_vers (step w a) = (update_commit_v (sys_coll w) (sys_vers w) a0 a1 v).2) as Hvs.
  { unfold step. rewrite Ha. cbn [step_thread]. by destruct (update_commit_v _ _ _ _ _) as [[? ?] ?]. }
  rewrite Hvs. cbn [fmap option_fmap option_map step_thread] in Hl.
  destruct (update_commit_v _ _ _ _ _) as [[r c'] vs']. simpl in *. eauto.
Qed.

(** An answered thread stays as it is, and so does the system. *)
Lemma step_done (w : system) (a : nat) (ra : request) (r : response) :
  sys_threads w !! a = Some (TDone ra r) -> step w a = w.
Proof.
  intros Ha. unfold step. rewrite Ha. cbn [step_thread].
  rewrite list_insert_id by done. by destruct w.
Qed.

Lemma saved_ok_other (w : system) (k a : nat) : k <> a -> saved_ok (step w k) a = saved_ok w a.
Proof. intros Hk. unfold saved_ok. by rewrite lookup_step, decide_False. Qed.

(** The thread [a], awaiting a versioned save of [key] loaded at [v] or
    answered, takes a step: if it succeeds, the version was [v] and no
    success of another such save came before. *)
Lemma excl_side (w : system) (a b : nat) (ra : request) (a0 a1 : task) (v : N) (key : string) :
  a <> b -> task_id a1 = key -> versioned a0 a1 = true ->
  (sys_threads w !! a = Some (TSaving ra a0 a1 v) \/ exists r, sys_threads w !! a = Some (TDone ra r)) ->
  (saved_ok w b = true -> (v < version_of (sys_vers w) key)%N) ->
  (saved_ok w a = true -> (v < version_of (sys_vers w) key)%N) ->
  ~ (saved_ok w a = true /\ saved_ok w b = true) ->
  (exists r, sys_threads (step w a) !! a = Some (TDone ra r)) /\
  (saved_ok (step w a) a = true -> (v < version_of (sys_vers (step w a)) key)%N) /\
  (saved_ok (step w a) b = true -> (v < version_of (sys_vers (step w a)) key)%N) /\
  ~ (saved_ok (step w a) a = true /\ saved_ok (step w a) b = true).
Proof.
  intros Hab <- Hv [Ha|[r Ha]] Hb Hao Hn; [|rewrite (step_done _ _ _ _ Ha); eauto].
  destruct (step_saving w a ra a0 a1 v Ha Hv) as (r & Hs & Hsucc).
  pose proof (step_vers_mono w a (task_id a1)). rewrite (saved_ok_other w a b Hab).
  unfold saved_ok at 1 3. rewrite Hs. split_and!; [eauto| |intros Hbo; specialize (Hb Hbo); lia|].
  - intros Hr. destruct (Hsucc Hr) as [_ ->]. lia.
  - intros [Hr Hbo]. destruct (Hsucc Hr) as [Hw _]. specialize (Hb Hbo). lia.
Qed.
(** The thread [a] awaiting a versioned save of [key] loaded at [v], or
    answered. *)
Definition at_commit (w : system) (a : nat) (ra : request) (a0 a1 : task) (v : N) : Prop :=
  sys_threads w !! a = Some (TSaving ra a0 a1 v) \/ exists r, sys_threads w !! a = Some (TDone ra r).

Lemma at_commit_other (w : system) (k a : nat) (ra : request) (a0 a1 : task) (v : N) :
  k <> a -> at_commit w a ra a0 a1 v -> at_commit (step w k) a ra a0 a1 v.
Proof. intros Hk. unfold at_commit. by rewrite lookup_step, decide_False. Qed.

(** Along any schedule, of two such threads on the same [key] and [v], at
    most one is answered with success, and a success has moved the
    version past [v]. *)
Lemma excl_run (sched : list nat) (w : system) (i j : nat) (ri rj : request)
    (t0 t1 u0 u1 : task) (v : N) (key : string) :
  i <> j -> task_id t1 = key -> task_id u1 = key -> versioned t0 t1 = true -> versioned u0 u1 = true ->
  at_commit w i ri t0 t1 v -> at_commit w j rj u0 u1 v ->
  (saved_ok w i = true -> (v < version_of (sys_vers w) key)%N) ->
  (saved_ok w j = true -> (v < version_of (sys_vers w) key)%N) ->
  ~ (saved_ok w i = true /\ saved_ok w j = true) ->
  ~ (saved_ok (run w sched) i = true /\ saved_ok (run w sched) j = true).
Proof.
  intros Hij Hti Htj Hvt Hvu. revert w.
  induction sched as [|k sched IH]; intros w Hai Haj Hvi Hvj Hn; [done|]. rewrite run_cons.
  destruct (decide (k = i)) as [->|Hki]; [|destruct (decide (k = j)) as [->|Hkj]].
  - destruct (excl_side w i j ri t0 t1 v key Hij Hti Hvt Hai Hvj Hvi Hn) as ([r Hd] & Hvi' & Hvj' & Hn').
    apply IH; [right; by exists r | by apply at_commit_other | done..].
  - destruct (excl_side w j i rj u0 u1 v key (not_eq_sym Hij) Htj Hvu Haj Hvi Hvj
                (fun '(conj a b) => Hn (conj b a))) as ([r Hd] & Hvj' & Hvi' & Hn').
    apply IH; [by apply at_commit_other | right; by exists r | done | done |].
    intros [a b]. by apply Hn'.
  - pose proof (step_vers_mono w k key).
    apply IH; [by apply at_commit_other.. | | |]; rewrite ?saved_ok_other by done;
      [intros Ho; specialize (Hvi Ho); lia | intros Ho; specialize (Hvj Ho); lia | done].
Qed.
End Versions.

(** ** The theorems of the interleaved server *)

Section Theorems.
Context `{RegexEngine}.

Lemma run_ok (w : system) (sched : list nat) :
  system_ok w ->
  system_ok (run w sched) /\ callers (run w sched) = callers w /\
  rtc (allowed_by (callers w)) (coll_docs (sys_coll w)) (coll_docs (sys_coll (run w sched))).
Proof.
  revert w. induction sched as [|i sched IH]; intros w Hok; [split_and!; done|].
  rewrite run_cons. destruct (step_ok w i Hok) as (Hok' & Hcal & Hr & _).
  destruct (IH _ Hok') as (Hok'' & Hcal' & Hr'). rewrite Hcal in Hcal', Hr'.
  split_and!; [done | done | by etrans].
Qed.

(** C11: Whatever the interleaving of the threads' steps, the system stays
    well formed and each step changes the stored documents only as the
    access policy allows the caller of the thread that takes it, on the
    documents as they are at that moment: no interleaving lets a caller
    make a change the atomic handlers would refuse it, in particular a
    non-admin's save never writes a stale copy of another field. *)
Theorem run_respects_policy (w : system) (sched : list nat) :
  system_ok w -> system_ok (run w sched) /\ policy_trace w sched.
Proof.
  intros Hok. split; [by destruct (run_ok w sched Hok)|].
  revert w Hok. induction sched as [|i sched IH]; intros w Hok; [done|].
  destruct (step_ok w i Hok) as (Hok' & _ & _ & Hi). split; [exact Hi | exact (IH _ Hok')].
Qed.

(** C12: When no caller is an admin, every interleaving of their requests
    keeps every stored task: still stored at the end, with the same id,
    creator and creation time, and the same values of every field but
    [status] and [updatedAt]. *)
Theorem run_user_frame (w : system) (sched : list nat) (k : string) (t : task) :
  system_ok w -> Forall (fun u => is_admin u = false) (callers w) ->
  find_doc k (coll_docs (sys_coll w)) = Some t ->
  exists t', find_doc k (coll_docs (sys_coll (run w sched))) = Some t' /\
             key_fields t' = key_fields t /\ user_frame t' = user_frame t.
Proof.
  intros Hok Hus Hf. destruct (run_ok w sched Hok) as (_ & _ & Hr).
  revert t Hf. induction Hr as [docs|docs docs1 docs2 [u [Hu Hch]] _ IH]; intros t Hf; [eauto|].
  rewrite (proj1 (Forall_forall _ _) Hus u Hu) in Hch.
  destruct (docs_change_user_persist _ _ _ _ Hch Hf) as (t1 & Hf1 & Hk1 & Hu1).
  destruct (IH _ Hf1) as (t2 & Hf2 & Hk2 & Hu2). exists t2. split_and!; congruence.
Qed.

(** A thread is answered once the scheduler has picked it as many
    times as it has steps left (at most four, [remaining_le_4]: two for
    updateTask, four for getTaskCounts, one for CreateTask and
    deleteTask), whatever the other threads do in between: no request
    waits on another, and the answer is to the thread's own request. *)
Theorem run_answers (w : system) (sched : list nat) (i : nat) (th : thread) :
  sys_threads w !! i = Some th -> remaining th <= count_occ Nat.eq_dec sched i ->
  exists r, sys_threads (run w sched) !! i = Some (TDone (thread_req th) r).
Proof.
  intros Hi Hc. destruct (run_progress w sched i th Hi) as (th' & Hl & Hr & Hq).
  destruct (remaining_zero th') as [r Hr0]; [lia|]. exists r. by rewrite Hl, Hr0, Hq.
Qed.

(** The save sets, on the document the store holds at that moment,
    exactly the paths whose value the handler changed, to the handler's
    values; every other path keeps the stored value, even if another
    request changed it after this one read the document. *)
Theorem save_delta_paths (c : Collection) (t0 t1 d : task) :
  find_doc (task_id t1) (coll_docs c) = Some d ->
  exists c' d', save_delta c t0 t1 = inr c' /\
    find_doc (task_id t1) (coll_docs c') = Some d' /\ key_fields d' = key_fields d /\
    forall p, get_at p d' = if decide (get_at p t0 = get_at p t1) then get_at p d else get_at p t1.
Proof.
  intros Hf. unfold save_delta. rewrite Hf. eexists _, (set_paths (modifiedPaths t0 t1) t1 d).
  split; [done|]. simpl. pose proof (find_doc_Some _ _ _ Hf) as [_ Hid].
  assert (task_id (set_paths (modifiedPaths t0 t1) t1 d) = task_id t1) as E
    by by rewrite task_id_set_paths.
  split_and!; [rewrite <- E; apply find_doc_replace_same; congruence
              | apply key_fields_set_paths |].
  intros p. rewrite get_at_set_paths.
  case_decide as Hp; rewrite elem_of_modifiedPaths in Hp; case_decide; tauto.
Qed.

(** C14: When the task was deleted between updateTask's [findById] and its
    [save()], the save throws (DocumentNotFoundError, or VersionError for
    a versioned save) and updateTask answers 500 "Internal server error",
    not 404; the collection and the versions are unchanged, so the update
    does not bring the task back. *)
Theorem update_commit_deleted (c : Collection) (vs : versions) (t0 t1 : task) (v0 : N) :
  find_doc (task_id t1) (coll_docs c) = None ->
  update_commit_v c vs t0 t1 v0 = (internal_error, c, vs).
Proof. intros Hf. unfold update_commit_v, update_commit, save_delta. rewrite Hf. by repeat case_match. Qed.

(** C15: Two updateTask requests that change the [tags] of the same task,
    both read at the same version, are never both answered with success,
    whatever the schedule: the first save moves the version key, and the
    filter of the second no longer matches (VersionError, answered 500).
    Unlike the other fields, [tags] is not lost to a concurrent update. *)
Theorem versioned_saves_exclusive (w : system) (sched : list nat) (i j : nat) (ri rj : request)
    (t0 t1 u0 u1 : task) (v : N) :
  i <> j -> task_id t1 = task_id u1 -> versioned t0 t1 = true -> versioned u0 u1 = true ->
  sys_threads w !! i = Some (TSaving ri t0 t1 v) -> sys_threads w !! j = Some (TSaving rj u0 u1 v) ->
  ~ (saved_ok (run w sched) i = true /\ saved_ok (run w sched) j = true).
Proof.
  intros Hij Hid Hvt Hvu Hi Hj.
  assert (Hs0 : forall k r a0 a1, sys_threads w !! k = Some (TSaving r a0 a1 v) -> saved_ok w k = false)
    by (intros k r a0 a1 Hk; unfold saved_ok; by rewrite Hk).
  apply (excl_run sched w i j ri rj t0 t1 u0 u1 v (task_id t1)); try done; [by left|by left|..].
  - by rewrite (Hs0 _ _ _ _ Hi).
  - by rewrite (Hs0 _ _ _ _ Hj).
  - by rewrite (Hs0 _ _ _ _ Hi); intros [].
Qed.
End Theorems.


(** ** The lost update, for every task and every two such requests *)

Section LostUpdate.
Context `{RegexEngine}.

Lemma step_at (w : system) (i : nat) (th : thread) :
  sys_threads w !! i = Some th ->
  step w i = let '(th', c', vs') := step_thread (sys_coll w) (sys_vers w) th in
             mkSystem c' (<[i := th']> (sys_threads w)) vs'.
Proof. intros Hi. unfold step. by rewrite Hi. Qed.

(** The first phase of the owner's status update: it holds the loaded
    task and the task with the new status and time. *)
Lemma update_begin_owner (c : Collection) (ro : request) (n : Z) (t : task) (st : TaskStatus) :
  coll_findById c (req_params_id ro) = inr (Some t) -> is_admin (req_user ro) = false ->
  createdBy t = id (req_user ro) -> b_status (req_body ro) = JStr (status_string st) ->
  update_begin c ro n = Saving t (with_updatedAt (with_status t st) n).
Proof.
  intros Hf Ha Hc Hs. unfold update_begin. rewrite Hf, Ha, Hc, Hs, String_eqb_refl. simpl.
  by destruct st.
Qed.

(** The first phase of an admin's update whose fields cast. *)
Lemma update_begin_admin (c : Collection) (ra : request) (n : Z) (t ta : task) :
  coll_findById c (req_params_id ra) = inr (Some t) -> is_admin (req_user ra) = true ->
  truthy (b_status (req_body ra)) && negb (includes allowedStatuses (b_status (req_body ra))) = false ->
  admin_update t (req_body ra) = inr ta ->
  update_begin c ra n = Saving t (with_updatedAt ta n).
Proof. intros Hf Ha Hs Hu. unfold update_begin. rewrite Hf, Ha. simpl. by rewrite Hs, Hu. Qed.

(** A save at the version stored is the unversioned save. *)
Lemma update_commit_v_current (c : Collection) (vs : versions) (t0 t1 : task) (v : N) :
  version_of vs (task_id t1) = v -> (update_commit_v c vs t0 t1 v).1 = update_commit c t0 t1.
Proof.
  intros Hv. unfold update_commit_v. destruct (versioned t0 t1); [|by destruct (update_commit c t0 t1)].
  rewrite bool_decide_eq_true_2 by done. by destruct (update_commit c t0 t1) as [r c'].
Qed.

(** A save that finds its document writes the modified paths on it and
    answers 200 with the in-memory task. *)
Lemma update_commit_found (c : Collection) (t0 t1 d : task) :
  find_doc (task_id t1) (coll_docs c) = Some d ->
  update_commit c t0 t1 =
    (mkResponse 200 true "Task updated successfully" (PTask t1),
     mkCollection (replace_doc (set_paths (modifiedPaths t0 t1) t1 d) (coll_docs c)) (coll_next c)).
Proof. intros Hd. unfold update_commit, save_delta. by rewrite Hd. Qed.

(** C13: The lost update of spec section 5, for every stored task.  The
    owner of a task sets a new status at time [n1] while an admin updates
    the same task at time [n2] with fields that cast; under the schedule
    "owner reads, admin reads, admin saves, owner saves" both are
    answered 200 with their own version of the task, yet the stored task
    has the owner's status, not the admin's, with the admin's title, and
    [updatedAt] is the owner's [n1] whenever that changed it, even when
    [n1] is earlier than [n2]: the owner's save of a stale copy silently
    overwrites the admin's status, path by path. *)
Theorem lost_update (w : system) (i j : nat) (ro ra : request) (n1 n2 : Z) (t ta : task)
    (st : TaskStatus) :
  i <> j ->
  sys_threads w !! i = Some (TUpdate ro n1) -> sys_threads w !! j = Some (TUpdate ra n2) ->
  coll_findById (sys_coll w) (req_params_id ro) = inr (Some t) ->
  coll_findById (sys_coll w) (req_params_id ra) = inr (Some t) ->
  is_admin (req_user ro) = false -> createdBy t = id (req_user ro) ->
  b_status (req_body ro) = JStr (status_string st) -> st <> status t ->
  is_admin (req_user ra) = true ->
  truthy (b_status (req_body ra)) && negb (includes allowedStatuses (b_status (req_body ra))) = false ->
  admin_update t (req_body ra) = inr ta ->
  let w' := run w [i; j; j; i] in
  sys_threads w' !! i = Some (TDone ro (mkResponse 200 true "Task updated successfully"
                                          (PTask (with_updatedAt (with_status t st) n1)))) /\
  sys_threads w' !! j = Some (TDone ra (mkResponse 200 true "Task updated successfully"
                                          (PTask (with_updatedAt ta n2)))) /\
  exists d, find_doc (task_id t) (coll_docs (sys_coll w')) = Some d /\
    status d = st /\ title d = title ta /\ (n1 <> updatedAt t -> updatedAt d = n1).
Proof.
  intros Hij Hi Hj Hfo Hfa Hao Hc Hs Hst Haa Has Hu w'. unfold w'. clear w'.
  destruct w as [c ths vs]. cbn [sys_coll sys_vers sys_threads] in *.
  set (v := version_of vs (task_id t)).
  set (to := with_updatedAt (with_status t st) n1). set (ta' := with_updatedAt ta n2).
  pose proof (admin_update_keys _ _ _ Hu) as Hk. pose proof Hk as Hid. injection Hid as Hid _ _.
  assert (Hd : find_doc (task_id t) (coll_docs c) = Some t) by exact (coll_findById_Some _ _ _ Hfo).
  assert (Hli : i < length ths) by (eapply lookup_lt_Some; eauto).
  assert (Hlj : j < length ths) by (eapply lookup_lt_Some; eauto).
  (* owner reads *)
  set (ths1 := <[i := TSaving ro t to v]> ths).
  assert (E1 : step (mkSystem c ths vs) i = mkSystem c ths1 vs).
  { rewrite (step_at (mkSystem c ths vs) i _ Hi). cbn [step_thread sys_coll sys_vers sys_threads]. by rewrite (update_begin_owner c ro n1 t st Hfo Hao Hc Hs). }
  (* admin reads *)
  set (ths2 := <[j := TSaving ra t ta' v]> ths1).
  assert (E2 : step (mkSystem c ths1 vs) j = mkSystem c ths2 vs).
  { rewrite (step_at _ j (TUpdate ra n2)); [|cbn; unfold ths1; by rewrite list_lookup_insert_ne].
    cbn [step_thread sys_coll sys_vers sys_threads].
    by rewrite (update_begin_admin c ra n2 t ta Hfa Haa Has Hu). }
  (* admin saves *)
  set (c1 := mkCollection (replace_doc ta' (coll_docs c)) (coll_next c)).
  set (ra_ok := mkResponse 200 true "Task updated successfully" (PTask ta')).
  assert (E3 : exists vs', step (mkSystem c ths2 vs) j = mkSystem c1 (<[j := TDone ra ra_ok]> ths2) vs').
  { rewrite (step_at _ j (TSaving ra t ta' v)); cycle 1.
    { cbn. unfold ths2, ths1. rewrite list_lookup_insert_eq; [done|]. by rewrite !length_insert. }
    cbn [step_thread sys_coll sys_vers sys_threads].
    pose proof (update_commit_v_current c vs t ta' v) as Hv.
    specialize (Hv ltac:(unfold v; simpl; by rewrite Hid)).
    rewrite (update_commit_found c t ta' t) in Hv by (simpl; rewrite Hid; exact Hd).
    rewrite set_paths_modified in Hv by (rewrite <- Hk; reflexivity).
    destruct (update_commit_v c vs t ta' v) as [[r c'] vs']. simpl in Hv. injection Hv as -> ->.
    by exists vs'. }
  destruct E3 as [vs' E3].
  (* owner saves *)
  assert (Hvo : versioned t to = false).
  { unfold versioned. apply bool_decide_eq_false_2. rewrite elem_of_modifiedPaths. intros Hn. by apply Hn. }
  assert (Hd1 : find_doc (task_id to) (coll_docs c1) = Some ta').
  { assert (E : task_id to = task_id ta') by (unfold to, ta'; simpl; congruence).
    rewrite E. unfold c1. cbn [coll_docs]. apply find_doc_replace_same.
    unfold ta'. simpl. by rewrite Hid, Hd. }
  set (d := set_paths (modifiedPaths t to) to ta').
  assert (E4 : step (mkSystem c1 (<[j := TDone ra ra_ok]> ths2) vs') i =
               mkSystem (mkCollection (replace_doc d (coll_docs c1)) (coll_next c1))
                 (<[i := TDone ro (mkResponse 200 true "Task updated successfully" (PTask to))]>
                    (<[j := TDone ra ra_ok]> ths2)) vs').
  { rewrite (step_at _ i (TSaving ro t to v)); cycle 1.
    { cbn. unfold ths2, ths1. rewrite !list_lookup_insert_ne by done.
      rewrite list_lookup_insert_eq; [done|lia]. }
    cbn [step_thread sys_coll sys_vers sys_threads]. unfold update_commit_v. rewrite Hvo.
    by rewrite (update_commit_found c1 t to ta' Hd1). }
  unfold run. cbn [foldl]. rewrite E1, E2, E3, E4. cbn [sys_threads sys_coll coll_docs].
  unfold ths2, ths1.
  split_and!.
  - rewrite list_lookup_insert_eq; [done|]. by rewrite !length_insert.
  - rewrite list_lookup_insert_ne by done. rewrite list_lookup_insert_eq; [done|].
    by rewrite !length_insert.
  - exists d. split_and!.
    + replace (task_id t) with (task_id d) by (unfold d; rewrite task_id_set_paths; simpl; congruence).
      apply find_doc_replace_same. unfold d. rewrite task_id_set_paths.
      rewrite (find_doc_Some _ _ _ Hd1).2 at 1 || idtac. simpl in Hd1 |- *. congruence.
    + pose proof (get_at_set_paths PStatus (modifiedPaths t to) to ta') as G. fold d in G.
      rewrite decide_True in G by (rewrite elem_of_modifiedPaths; simpl; congruence). by injection G.
    + pose proof (get_at_set_paths PTitle (modifiedPaths t to) to ta') as G. fold d in G.
      rewrite decide_False in G by (rewrite elem_of_modifiedPaths; simpl; tauto). by injection G.
    + intros Hn. pose proof (get_at_set_paths PUpdatedAt (modifiedPaths t to) to ta') as G. fold d in G.
      rewrite decide_True in G by (rewrite elem_of_modifiedPaths; simpl; congruence). by injection G.
Qed.
End LostUpdate.

(** ** The lost update of spec section 5 *)

Definition race_owner : caller := mkCaller "65a1f0c2e4b0a1b2c3d4e5f6" "user".
Definition race_admin : caller := mkCaller "65a1f0c2e4b0a1b2c3d4e500" "admin".

Definition race_doc : task :=
  mkTask (oid_of_counter 0) "Prepare invoice" None Pending JUndefined JUndefined JUndefined
    (id race_owner) None 0 0.

(** The owner sets the status to "completed" at time 10; an admin renames
    the task and sets it "in-progress" at time 20. *)
Definition race_owner_req : request :=
  mkRequest race_owner (oid_of_counter 0) JUndefined
    (mkBody JUndefined JUndefined (JStr "completed") JUndefined JUndefined JUndefined JUndefined).

Definition race_admin_req : request :=
  mkRequest race_admin (oid_of_counter 0) JUndefined
    (mkBody (JStr "Send invoice") JUndefined (JStr "in-progress") JUndefined JUndefined JUndefined
            JUndefined).

Definition race_system : system :=
  mkSystem (mkCollection [race_doc] 1) [TUpdate race_owner_req 10; TUpdate race_admin_req 20] ∅.

Definition answer_codes (w : system) : list N :=
  (fun th => match th with TDone _ r => code r | _ => 0%N end) <$> sys_threads w.

(** The same two requests under fixed schedules.  Owner reads, admin
    reads, admin saves, owner saves: both callers are answered 200 "Task
    updated successfully", and the stored task has the admin's title with
    the owner's status and time stamp, [updatedAt] going back from 20 to
    10.  Run one after the other, the same two requests leave the
    admin's status. *)
Example lost_update_example :
  answer_codes (run race_system [0; 1; 1; 0]) = [200%N; 200%N] /\
  coll_docs (sys_coll (run race_system [0; 1; 1; 0])) =
    [mkTask (oid_of_counter 0) "Send invoice" None Completed JUndefined JUndefined JUndefined
       (id race_owner) None 0 10] /\
  coll_docs (sys_coll (run race_system [0; 0; 1; 1])) =
    [mkTask (oid_of_counter 0) "Send invoice" None InProgress JUndefined JUndefined JUndefined
       (id race_owner) None 0 20].
Proof. vm_compute. split_and!; reflexivity. Qed.

(** ** Counts read across a concurrent update *)

Definition counts_req : request := mkRequest race_owner "" JUndefined empty_body.

Definition owner_update_req : request :=
  mkRequest race_owner (oid_of_counter 0) JUndefined
    (mkBody JUndefined JUndefined (JStr "completed") JUndefined JUndefined JUndefined JUndefined).

(** The owner asks for the counts while completing the task. *)
Definition counts_system : system :=
  mkSystem (mkCollection [race_doc] 1) [TCounts counts_req []; TUpdate owner_update_req 10] ∅.


(** The four counts of getTaskCounts are separate store operations,
    and a request can write between them.  When the owner's update of
    her only task from pending to completed lands after the pending count
    and before the completed count, she is answered 200 with one task in
    total, one pending and one completed: the per-status counts add up to
    more than the total, a state of the collection that never existed.
    Run before or after the update, the counts add up. *)
Example counts_race :
  sys_threads (run counts_system [0; 0; 1; 1; 0; 0]) !! 0 =
    Some (TDone counts_req (mkResponse 200 true "" (PCounts (mkCounts 1 1 0 1)))) /\
  sys_threads (run counts_system [0; 0; 0; 0; 1; 1]) !! 0 =
    Some (TDone counts_req (mkResponse 200 true "" (PCounts (mkCounts 1 1 0 0)))) /\
  sys_threads (run counts_system [1; 1; 0; 0; 0; 0]) !! 0 =
    Some (TDone counts_req (mkResponse 200 true "" (PCounts (mkCounts 1 0 0 1)))).
Proof. vm_compute. split_and!; reflexivity. Qed.

(** ** Concurrent updates of [tags] *)

(** Two admins tag the owner's task at times 10 and 20; the second also
    renames it. *)
Definition tags_system : system :=
  mkSystem (mkCollection [race_doc] 1)
    [TUpdate (mkRequest race_admin (oid_of_counter 0) JUndefined
       (mkBody JUndefined JUndefined JUndefined JUndefined JUndefined JUndefined
               (JArr [JStr "billing"]))) 10;
     TUpdate (mkRequest race_admin (oid_of_counter 0) JUndefined
       (mkBody (JStr "Send invoice") JUndefined JUndefined JUndefined JUndefined JUndefined
               (JArr [JStr "urgent"]))) 20] ∅.

(** Read, read, save, save: the first save moves the version key to 1,
    the second finds no document at version 0 and is answered 500; none
    of its fields is written, its title included.  Run one after the
    other, the second update reads version 1 and wins. *)
Example tags_conflict :
  answer_codes (run tags_system [0; 1; 0; 1]) = [200%N; 500%N] /\
  coll_docs (sys_coll (run tags_system [0; 1; 0; 1])) =
    [mkTask (oid_of_counter 0) "Prepare invoice" None Pending JUndefined JUndefined
       (JArr [JStr "billing"]) (id race_owner) None 0 10] /\
  version_of (sys_vers (run tags_system [0; 1; 0; 1])) (oid_of_counter 0) = 1%N /\
  answer_codes (run tags_system [0; 0; 1; 1]) = [200%N; 200%N] /\
  coll_docs (sys_coll (run tags_system [0; 0; 1; 1])) =
    [mkTask (oid_of_counter 0) "Send invoice" None Pending JUndefined JUndefined
       (JArr [JStr "urgent"]) (id race_owner) None 0 20].
Proof. vm_compute. split_and!; reflexivity. Qed.

End Concurrency.
