(* ===== verification/Registration.v ===== *)
(** * Concurrent registrations

    [register] (auth.controller.js lines 5-37) awaits three times:
    [User.findOne({ email })], [bcrypt.hash] and [User.create].  Another
    request may run between the first and the last, so the check "user
    already exist" and the insertion are not one atomic step.  A
    registration is here a thread ([reg_thread]) of two steps:
    [register_begin], the presence test and the lookup, and
    [register_commit], the hash and the insertion into the collection as
    it is when the thread resumes; bcrypt touches no store, so its await
    is folded into the second step.  Threads run on the users collection
    in the order of a schedule ([reg_run]).

    Theorems: the two steps run back to back are [register]
    ([register_steps_serial]); under every schedule the users collection
    stays well formed, thanks to the unique index on [email] and not to
    the check ([reg_run_wf]); and of two registrations of one email that
    both passed the check, at least one is never answered: its
    duplicate-key error is swallowed by the [catch] of lines 34-36
    ([register_race]). *)

From Stdlib Require Import ZArith NArith String.
From stdpp Require Import base list strings options.
From S2P Require Import Prelude Js Task Query User Auth.

Module Registration.
Import Js Task Query User Auth.
Local Unset Default Proof Using.

(** A registration in flight: before its lookup, past it (no user has
    the email), or finished with the answer it sent ([None]: none). *)
Inductive reg_thread : Type :=
| RStart (b : auth_body) (salt : N)
| RCreate (b : auth_body) (salt : N)
| RDone (a : option auth_response).

Record reg_system : Type := mkRegSystem {
  rs_users : user_store;
  rs_threads : list reg_thread
}.

Definition reg_ok : option auth_response := Some (auth_reply 200 true "Account created successfuly").

Section Steps.
Context `{RegexEngine} `{PasswordHasher}.

(** Lines 7-21: the presence test and [await User.findOne({ email })]. *)
Definition register_begin (s : user_store) (b : auth_body) (salt : N) : reg_thread :=
  if negb (truthy (ab_fullname b)) || negb (truthy (ab_email b)) ||
     negb (truthy (ab_phoneNumber b)) || negb (truthy (ab_password b))
  then RDone (Some (auth_reply 400 false "something is missing"))
  else
    match user_findOne s (JObj [("email", ab_email b)]) with
    | inl _ => RDone None
    | inr (Some _) => RDone (Some (auth_reply 201 false "user already exist"))
    | inr None => RCreate b salt
    end.

(** Lines 22-33: [await bcrypt.hash(password, 10)] and [await
    User.create(...)]; a throw of either ends in the [catch]. *)
Definition register_commit (s : user_store) (b : auth_body) (salt : N) :
    option auth_response * user_store :=
  match hash_js (ab_password b) bcrypt_cost salt with
  | inl _ => (None, s)
  | inr h =>
      match user_create s (ab_fullname b) (ab_email b) (ab_phoneNumber b) (JStr h) with
      | inl _ => (None, s)
      | inr (_, s') => (reg_ok, s')
      end
  end.

Definition reg_step_thread (s : user_store) (th : reg_thread) : reg_thread * user_store :=
  match th with
  | RStart b salt => (register_begin s b salt, s)
  | RCreate b salt => let '(a, s') := register_commit s b salt in (RDone a, s')
  | RDone a => (RDone a, s)
  end.

(** The scheduler runs thread [i]; an index with no thread is a no-op. *)
Definition reg_step (w : reg_system) (i : nat) : reg_system :=
  match rs_threads w !! i with
  | Some th =>
      let '(th', s') := reg_step_thread (rs_users w) th in
      mkRegSystem s' (<[i := th']> (rs_threads w))
  | None => w
  end.

Definition reg_run (w : reg_system) (sched : list nat) : reg_system := foldl reg_step w sched.
End Steps.

(** ** One registration alone *)

Section Serial.
Context `{RegexEngine} `{PasswordHasher}.

(** Run with nothing in between, the two steps of a registration
    answer and change the users collection exactly as the atomic
    [register]. *)
Theorem register_steps_serial (s : user_store) (b : auth_body) (salt : N) :
  let '(th1, s1) := reg_step_thread s (RStart b salt) in
  reg_step_thread s1 th1 = (RDone (register s b salt).1, (register s b salt).2).
Proof.
  unfold reg_step_thread, register_begin, register, register_commit.
  destruct (_ || _); [done|]. destruct (user_findOne s _) as [|[u|]]; [done..|].
  destruct (hash_js _ _ _); [done|]. by destruct (user_create _ _ _ _ _) as [|[u s']].
Qed.
End Serial.

(** ** What a step does to the collection *)

Section Store.
Context `{RegexEngine} `{PasswordHasher}.

(** The insertion of a thread: nothing and no answer, or [reg_ok] with
    one user appended whose email is the body's, cast, and was new. *)
Lemma register_commit_cases (s : user_store) (b : auth_body) (salt : N) :
  ((register_commit s b salt).1 = None /\ (register_commit s b salt).2 = s) \/
  ((register_commit s b salt).1 = reg_ok /\
   exists u, users (register_commit s b salt).2 = users s ++ [u] /\
             cast_string "email" (ab_email b) = inr (Some (email u)) /\
             email u ∉ map email (users s)).
Proof.
  unfold register_commit. destruct (hash_js _ _ _) as [|h]; [by left|].
  destruct (user_create _ _ _ _ _) as [|[u s']] eqn:Hc; [by left|]. right. split; [done|].
  apply user_create_inr in Hc as (_ & He & _ & _ & _ & Hn & _ & _ & ->). by exists u.
Qed.

Lemma register_commit_wf (s : user_store) (b : auth_body) (salt : N) :
  users_wf s -> users_wf (register_commit s b salt).2.
Proof.
  intros Hwf. unfold register_commit. destruct (hash_js _ _ _) as [|h]; [done|].
  destruct (user_create _ _ _ _ _) as [|[u s']] eqn:Hc; [done|]. exact (user_create_wf _ _ _ _ _ _ _ Hwf Hc).
Qed.

(** A step only appends users, and keeps the collection well formed. *)
Lemma reg_step_thread_store (s : user_store) (th : reg_thread) :
  (exists l, users (reg_step_thread s th).2 = users s ++ l) /\
  (users_wf s -> users_wf (reg_step_thread s th).2).
Proof.
  destruct th as [b salt|b salt|a]; simpl; try (split; [exists []; by rewrite app_nil_r | done]).
  pose proof (register_commit_cases s b salt) as Hc. pose proof (register_commit_wf s b salt) as Hw.
  destruct (register_commit s b salt) as [a s'] eqn:E. simpl in *. split; [|done].
  destruct Hc as [[_ ->]|[_ (u & Hu & _)]]; [exists []; by rewrite app_nil_r | by exists [u]].
Qed.

Lemma reg_step_store (w : reg_system) (k : nat) :
  (exists l, users (rs_users (reg_step w k)) = users (rs_users w) ++ l) /\
  (users_wf (rs_users w) -> users_wf (rs_users (reg_step w k))).
Proof.
  unfold reg_step. destruct (rs_threads w !! k) as [th|]; [|split; [exists []; by rewrite app_nil_r | done]].
  pose proof (reg_step_thread_store (rs_users w) th) as Hs.
  by destruct (reg_step_thread _ th) as [th' s'].
Qed.

(** Stepping thread [k] changes only thread [k]. *)
Lemma lookup_reg_step (w : reg_system) (k m : nat) :
  rs_threads (reg_step w k) !! m =
  if decide (k = m) then (fun th => (reg_step_thread (rs_users w) th).1) <$> rs_threads w !! k
  else rs_threads w !! m.
Proof.
  unfold reg_step. destruct (rs_threads w !! k) as [th|] eqn:E; simpl; [|by case_decide; subst].
  destruct (reg_step_thread _ _) as [th' s'] eqn:Es. simpl. case_decide as Hkm.
  - subst. rewrite list_lookup_insert_eq; [simpl; by rewrite ?Es | by eapply lookup_lt_Some].
  - by rewrite list_lookup_insert_ne.
Qed.

(** The collection a step leaves is the one the stepped thread left. *)
Lemma reg_step_users (w : reg_system) (k : nat) (th : reg_thread) :
  rs_threads w !! k = Some th -> rs_users (reg_step w k) = (reg_step_thread (rs_users w) th).2.
Proof. intros Hk. unfold reg_step. rewrite Hk. by destruct (reg_step_thread _ th). Qed.

(** Under every interleaving of registrations, the users collection
    stays well formed: ids and emails unique, roles in the enum.  The
    unique index on [email] keeps it so, not the lookup of line 15. *)
Theorem reg_run_wf (w : reg_system) (sched : list nat) :
  users_wf (rs_users w) -> users_wf (rs_users (reg_run w sched)).
Proof.
  revert w. induction sched as [|k sched IH]; intros w Hw; [done|].
  apply IH, (proj2 (reg_step_store w k)), Hw.
Qed.
End Store.

(** ** Two registrations of one email *)

(** A thread past the lookup for [e]: awaiting its insertion with a
    body whose email is [e], or finished with [reg_ok] or no answer. *)
Definition raced (e : string) (th : reg_thread) : Prop :=
  match th with
  | RCreate b _ => ab_email b = JStr e
  | RDone a => a = None \/ a = reg_ok
  | RStart _ _ => False
  end.

(** Threads [i] and [j] both past the lookup for [e]: a [reg_ok] among
    them means [e] is stored, and they are not both [reg_ok]. *)
Definition race_inv (e : string) (i j : nat) (w : reg_system) : Prop :=
  exists thi thj, rs_threads w !! i = Some thi /\ rs_threads w !! j = Some thj /\
    raced e thi /\ raced e thj /\
    (thi = RDone reg_ok \/ thj = RDone reg_ok -> e ∈ map email (users (rs_users w))) /\
    ~ (thi = RDone reg_ok /\ thj = RDone reg_ok).

Section Race.
Context `{RegexEngine} `{PasswordHasher}.

Lemma race_inv_sym (e : string) (i j : nat) (w : reg_system) :
  race_inv e i j w -> race_inv e j i w.
Proof.
  intros (thi & thj & Hi & Hj & Ri & Rj & Himp & Hnb). exists thj, thi.
  split_and!; try done; [intros Hd; apply Himp | intros [? ?]; apply Hnb]; tauto.
Qed.

Lemma elem_of_grow (e : string) (l l' : list user) :
  e ∈ map email l -> e ∈ map email (l ++ l').
Proof. rewrite map_app, elem_of_app. by left. Qed.

(** Thread [i] steps. *)
Lemma race_step_self (e : string) (i j : nat) (w : reg_system) :
  i <> j -> race_inv e i j w -> race_inv e i j (reg_step w i).
Proof.
  intros Hij (thi & thj & Hi & Hj & Ri & Rj & Himp & Hnb).
  unfold race_inv. rewrite (reg_step_users w i thi Hi).
  exists (reg_step_thread (rs_users w) thi).1, thj.
  rewrite !lookup_reg_step, decide_True, Hi, decide_False, Hj by done.
  destruct thi as [b salt|b salt|a]; [done| |by split_and!].
  simpl in *. pose proof (register_commit_cases (rs_users w) b salt) as C.
  destruct (register_commit (rs_users w) b salt) as [a s'] eqn:E. simpl in *.
  destruct C as [[-> ->]|[-> (u & Hu & He & Hn)]].
  - split_and!; [done|done|by left|done| |by intros [[=] _]].
    intros [[=]|Hd]. auto.
  - rewrite Ri in He. injection He as ->.
    split_and!; [done|done|by right|done| |].
    + intros _. rewrite Hu, map_app, elem_of_app. right. by apply list_elem_of_singleton.
    + intros [_ Hd]. apply Hn, Himp. by right.
Qed.
(** Another thread steps: it may only add users. *)
Lemma race_step_other (e : string) (i j k : nat) (w : reg_system) :
  k <> i -> k <> j -> race_inv e i j w -> race_inv e i j (reg_step w k).
Proof.
  intros Hki Hkj (thi & thj & Hi & Hj & Ri & Rj & Himp & Hnb).
  destruct (proj1 (reg_step_store w k)) as [l Hl].
  exists thi, thj. rewrite !lookup_reg_step, !decide_False, Hl by done.
  split_and!; try done. intros Hd. by apply elem_of_grow, Himp.
Qed.

Lemma race_run (e : string) (i j : nat) (w : reg_system) (sched : list nat) :
  i <> j -> race_inv e i j w -> race_inv e i j (reg_run w sched).
Proof.
  intros Hij. revert w. induction sched as [|k sched IH]; intros w Hinv; [done|].
  apply IH. destruct (decide (k = i)) as [->|Hki]; [by apply race_step_self|].
  destruct (decide (k = j)) as [->|Hkj]; [|by apply race_step_other].
  by apply race_inv_sym, race_step_self, race_inv_sym.
Qed.

(** C31: Two registrations of the same email [e] that both found no user
    with it (both past line 15): under every schedule, once both are
    finished at least one of them was never answered.  The second
    [User.create] violates the unique index on [email], and the [catch]
    of lines 34-36 logs the error and sends nothing, so that client
    waits forever; in particular they are never both told the account
    was created. *)
Theorem register_race (w : reg_system) (sched : list nat) (e : string) (i j : nat)
    (b1 b2 : auth_body) (salt1 salt2 : N) (a1 a2 : option auth_response) :
  i <> j -> rs_threads w !! i = Some (RCreate b1 salt1) -> rs_threads w !! j = Some (RCreate b2 salt2) ->
  ab_email b1 = JStr e -> ab_email b2 = JStr e ->
  rs_threads (reg_run w sched) !! i = Some (RDone a1) ->
  rs_threads (reg_run w sched) !! j = Some (RDone a2) ->
  a1 = None \/ a2 = None.
Proof.
  intros Hij Hi Hj He1 He2 Ha1 Ha2.
  destruct (race_run e i j w sched Hij) as (thi & thj & Hi' & Hj' & Ri & Rj & _ & Hnb).
  { exists (RCreate b1 salt1), (RCreate b2 salt2). naive_solver. }
  rewrite Ha1 in Hi'. rewrite Ha2 in Hj'. simplify_eq/=. naive_solver.
Qed.
End Race.

End Registration.
