(* ===== verification/Search.v ===== *)
(** * The keyword search of getAllTasks for every pattern

    getAllTasks (task.controller.js, lines 85-129) passes [req.query.keyword]
    to MongoDB as [$regex] with option [i] on the title and on the
    description.  [TaskController.getAllTasks_spec] describes the answer for
    keywords without metacharacters, where the regular expression is a
    substring test.  This file describes it for every keyword: with any
    [$regex] engine, the answer is the visible tasks whose title or
    description the engine matches, and 500 when the engine refuses the
    pattern ([getAllTasks_engine]); with the PCRE engine of [Regex], a task
    is listed exactly when a factor of its title or description is matched
    by the parsed pattern in the reference semantics [RegexSpec.mt],
    case-insensitively ([getAllTasks_pcre]), and the answer is the one of
    the pattern's parse run to completion ([getAllTasks_pcre_total]). *)

From Stdlib Require Import ZArith NArith Ascii String.
From stdpp Require Import base list strings options.
From S2P Require Import Prelude Js Task Query Regex RegexSpec Repo User Http Policy TaskController.

Module Search.
Import Js Task Query Regex RegexSpec Repo User Http Policy TaskController.
Local Unset Default Proof Using.

(** The [$regex] of getAllTasks matches the title or the description of
    [t] (a missing description matches nothing). *)
Definition regex_hit `{RegexEngine} (kw : string) (t : task) : bool :=
  re_test kw "i" (title t) ||
  match description t with Some d => re_test kw "i" d | None => false end.

(** A factor of [s] is matched by [r], case-insensitively, in the
    reference semantics; the anchors read the ends of [s]. *)
Definition factor_match (r : re) (s : string) : Prop :=
  exists pre w post, list_ascii_of_string s = pre ++ w ++ post /\
    mt true (bool_decide (pre = [])) (bool_decide (post = [])) r w.

Section Engine.
Context `{RegexEngine}.

Lemma compile_keywordQuery_any (kw : string) :
  compile (keywordQuery (JStr kw)) =
  if re_valid kw "i" then inr (keyword_filter kw) else inl (RegexError kw).
Proof. simpl. unfold compile_op. simpl. by destruct (re_valid kw "i"). Qed.

Lemma fmatch_keyword_any (kw : string) (t : task) :
  fmatch (keyword_filter kw) t = regex_hit kw t.
Proof.
  unfold fmatch, keyword_filter, regex_hit. simpl. autorewrite with bm_rw.
  destruct (description t); simpl; by rewrite ?andb_true_r, ?orb_false_r.
Qed.

(** The filter of getAllTasks for any keyword string. *)
Lemma compile_base_any (u : caller) (kw : string) :
  caller_ok u = true ->
  match compile (baseQuery u (JStr kw)) with
  | inl e => re_valid kw "i" = false /\ e = RegexError kw
  | inr f => re_valid kw "i" = true /\ forall t, fmatch f t = regex_hit kw t && visible u t
  end.
Proof.
  intros Hok. unfold visible, baseQuery. destruct (is_admin u) eqn:Ha; simpl; unfold compile_op; simpl.
  - destruct (re_valid kw "i"); [|done]. split; [done|]. intros t.
    rewrite andb_true_r. apply fmatch_keyword_any.
  - destruct (caller_ok_cast u Hok Ha) as [k Hk]. destruct (re_valid kw "i"); [|done].
    rewrite Hk. split; [done|]. intros t.
    rewrite <- fmatch_keyword_any, <- (fmatch_owner u k t Hk).
    unfold fmatch; simpl. by rewrite !andb_true_r.
Qed.

Context {S : Type} `{HR : TaskRepository S} `{HL : !TaskRepositoryLaws S}.

(** getAllTasks with any [$regex] engine: a pattern the engine refuses is
    a 500; otherwise the visible tasks the engine matches, 404 for none. *)
Lemma getAllTasks_engine (s : S) (req : request) (kw : string) :
  caller_ok (req_user req) = true -> js_or (req_keyword req) (JStr "") = JStr kw ->
  getAllTasks s req =
  if re_valid kw "i" then
    match List.filter (fun t => regex_hit kw t && visible (req_user req) t) (repo_docs s) with
    | [] => mkResponse 404 false "Tasks not found" PNone
    | ts => mkResponse 200 true "" (PTasks ts)
    end
  else internal_error.
Proof.
  intros Hok Hkw. unfold getAllTasks. rewrite Hkw, find_spec.
  pose proof (compile_base_any (req_user req) kw Hok) as Hc.
  destruct (compile _) as [e|f]; destruct Hc as [-> Hf]; [done|]. unfold select.
  rewrite (List.filter_ext _ _ Hf). by destruct (List.filter _ _).
Qed.
End Engine.

(** With the PCRE engine, the engine's match is the reference semantics. *)
Lemma pcre_hit_spec (kw : string) (r : re) (t : task) :
  parse kw = Some r ->
  @regex_hit pcre_engine kw t = true <->
  factor_match r (title t) \/ exists d, description t = Some d /\ factor_match r d.
Proof.
  intros Hp. unfold regex_hit, factor_match.
  assert (forall s, @re_test pcre_engine kw "i" s = true <->
          exists pre w post, list_ascii_of_string s = pre ++ w ++ post /\
            mt true (bool_decide (pre = [])) (bool_decide (post = [])) r w) as E.
  { intros s. rewrite pcre_test_spec, Hp. split.
    - intros (r' & pre & w & post & [= <-] & ?). by exists pre, w, post.
    - intros (pre & w & post & ?). by exists r, pre, w, post. }
  rewrite orb_true_iff, E. destruct (description t) as [d|].
  - rewrite E. split; [intros [?|?]; [by left | right; eauto]|].
    intros [?|(d' & [= <-] & ?)]; [by left | by right].
  - split; [intros [?|?]; [by left | done]|]. intros [?|(? & ? & _)]; [by left | done].
Qed.

Section Pcre.
Context {S : Type} `{HR : TaskRepository S} `{HL : !@TaskRepositoryLaws pcre_engine S HR}.

(** C4: getAllTasks with MongoDB's PCRE [$regex], for every keyword string
    that is a pattern of the supported syntax: the answer is the list, in
    stored order, of the visible tasks the [$regex] matches (404 when
    there is none), and a task is matched exactly when a factor of its
    title or of its description is matched by the parsed pattern in the
    reference semantics, ignoring case.  The keyword is a regular
    expression, not a substring (spec section 4.1). *)
Theorem getAllTasks_pcre (s : S) (req : request) (kw : string) (r : re) :
  caller_ok (req_user req) = true -> js_or (req_keyword req) (JStr "") = JStr kw ->
  parse kw = Some r ->
  getAllTasks s req =
    match List.filter (fun t => @regex_hit pcre_engine kw t && visible (req_user req) t)
            (repo_docs s) with
    | [] => mkResponse 404 false "Tasks not found" PNone
    | ts => mkResponse 200 true "" (PTasks ts)
    end /\
  forall t, @regex_hit pcre_engine kw t = true <->
            factor_match r (title t) \/ exists d, description t = Some d /\ factor_match r d.
Proof.
  intros Hok Hkw Hp. split; [|intros t; by apply pcre_hit_spec].
  rewrite (getAllTasks_engine s req kw Hok Hkw). simpl. by rewrite Hp.
Qed.

(** A keyword outside the supported syntax (an unbalanced parenthesis,
    say) makes the query fail: getAllTasks answers 500. *)
Lemma getAllTasks_pcre_invalid (s : S) (req : request) (kw : string) :
  caller_ok (req_user req) = true -> js_or (req_keyword req) (JStr "") = JStr kw ->
  parse kw = None -> getAllTasks s req = internal_error.
Proof.
  intros Hok Hkw Hp. rewrite (getAllTasks_engine s req kw Hok Hkw). simpl. by rewrite Hp.
Qed.
(** The search terminates on every keyword: its answer is fixed by the
    parse of the keyword run to completion, with any fuel at or beyond the
    bound [4 * length + 4] of [Regex.parse]: a pattern that parses gives
    the visible tasks its search matches, any other keyword a 500. *)
Theorem getAllTasks_pcre_total (s : S) (req : request) (kw : string) (n : nat) :
  caller_ok (req_user req) = true -> js_or (req_keyword req) (JStr "") = JStr kw ->
  parse_fuel_of (list_ascii_of_string kw) <= n ->
  getAllTasks s req =
    match p_alt n (list_ascii_of_string kw) with
    | Some (_, []) =>
        match List.filter (fun t => @regex_hit pcre_engine kw t && visible (req_user req) t)
                (repo_docs s) with
        | [] => mkResponse 404 false "Tasks not found" PNone
        | ts => mkResponse 200 true "" (PTasks ts)
        end
    | _ => internal_error
    end.
Proof.
  intros Hok Hkw Hn. rewrite (getAllTasks_engine s req kw Hok Hkw). simpl.
  rewrite (parse_fuel kw n Hn). by destruct (p_alt n _) as [[? []]|].
Qed.

End Pcre.

End Search.
