(* ===== verification/Scenarios.v ===== *)
(** * Concrete runs

    A small Task collection, the scenarios of spec section 8 evaluated on
    it, and the theorems of [TaskController] applied to it: each
    [_witness] lemma discharges the theorem's hypotheses on this
    collection, with the [Collection] repository and the literal regular
    expression engine.  The last part registers and logs in a user with
    the sealed hasher and token service and applies the theorems of
    [Auth] to the result; the last runs requests through the server of
    [Router] from a world holding the demo collection. *)

From Stdlib Require Import ZArith NArith Ascii String.
From stdpp Require Import base list relations strings options gmap.
From S2P Require Import Prelude Js Task Query Regex Repo User Http Auth Policy TaskController Router Server Boot Concurrency Registration Search.

Module Scenarios.
Import Js Task Query Repo User Http Auth Policy TaskController Router Server.

(** ** The collection *)

Definition alice : string := "65a1f0c2e4b0a1b2c3d4e5f6".
Definition bob : string := "65a1f0c2e4b0a1b2c3d4e5f7".
Definition carol : string := "65a1f0c2e4b0a1b2c3d4e5f8".

Definition alice_c : caller := mkCaller alice "user".
Definition bob_c : caller := mkCaller bob "user".
Definition carol_c : caller := mkCaller carol "user".
Definition admin_c : caller := mkCaller "65a1f0c2e4b0a1b2c3d4e500" "admin".

Definition mk_doc (n : N) (ti : string) (d : option string) (st : TaskStatus)
    (by_ : string) (a : option string) : task :=
  mkTask (oid_of_counter n) ti d st JUndefined JUndefined JUndefined by_ a 0 0.

(** Alice created two pending tasks and a completed one; Bob created an
    in-progress task assigned to Alice and a pending one of his own. *)
Definition t0 := mk_doc 0 "Prepare invoice" (Some "march invoices") Pending alice None.
Definition t1 := mk_doc 1 "Call supplier" None Pending alice None.
Definition t2 := mk_doc 2 "Archive mail" (Some "old threads") Completed alice None.
Definition t3 := mk_doc 3 "Review budget" (Some "Q2 numbers") InProgress bob (Some alice).
Definition t4 := mk_doc 4 "Plan offsite" None Pending bob None.

Definition demo : Collection := mkCollection [t0; t1; t2; t3; t4] 5.

Definition req (u : caller) (pid : string) (kw : jsval) (b : body) : request :=
  mkRequest u pid kw b.

Definition status_body (v : jsval) : body :=
  mkBody (JStr "renamed") JUndefined v (JNum 3) JUndefined JUndefined JUndefined.

Lemma demo_wf : repo_wf demo.
Proof.
  split; simpl.
  - apply (bool_decide_unpack _). vm_compute. reflexivity.
  - repeat constructor;
      [exists 0%N | exists 1%N | exists 2%N | exists 3%N | exists 4%N]; split; done.
Qed.

(** ** Spec section 8 scenarios *)

(** Counts for a user who created two pending and one completed task and
    is assigned one in-progress task: 4, 2, 1, 1. *)
Example counts_scenario :
  getTaskCounts demo (req alice_c "" JUndefined empty_body) =
  mkResponse 200 true "" (PCounts (mkCounts 4 2 1 1)).
Proof. vm_compute. reflexivity. Qed.

(** An admin counts every task. *)
Example counts_admin :
  getTaskCounts demo (req admin_c "" JUndefined empty_body) =
  mkResponse 200 true "" (PCounts (mkCounts 5 3 1 1)).
Proof. vm_compute. reflexivity. Qed.

(** A keyword search with no match among the visible tasks is a 404. *)
Example search_not_found :
  getAllTasks demo (req carol_c "" (JStr "invoice") empty_body) =
  mkResponse 404 false "Tasks not found" PNone.
Proof. vm_compute. reflexivity. Qed.

(** The search is case-insensitive over title and description. *)
Example search_case_insensitive :
  getAllTasks demo (req alice_c "" (JStr "INVOICE") empty_body) =
  mkResponse 200 true "" (PTasks [t0]).
Proof. vm_compute. reflexivity. Qed.

(** Bob's assigned task is listed for Alice but not for Carol. *)
Example assignee_lists_task :
  getAllTasks demo (req alice_c "" (JStr "budget") empty_body) =
    mkResponse 200 true "" (PTasks [t3]) /\
  getAllTasks demo (req carol_c "" (JStr "budget") empty_body) =
    mkResponse 404 false "Tasks not found" PNone.
Proof. split; vm_compute; reflexivity. Qed.

(** ** Witnesses *)

Lemma getTaskCounts_spec_witness :
  caller_ok alice_c = true /\
  getTaskCounts demo (req alice_c "" JUndefined empty_body) =
  mkResponse 200 true "" (PCounts (spec_counts alice_c (repo_docs demo))).
Proof. split; [reflexivity|]. apply getTaskCounts_spec. reflexivity. Defined.

Lemma getTaskCounts_sum_witness :
  totalTasks (mkCounts 4 2 1 1) =
  totalPending (mkCounts 4 2 1 1) + totalInProgress (mkCounts 4 2 1 1) +
  totalCompleted (mkCounts 4 2 1 1).
Proof.
  apply (getTaskCounts_sum demo (req alice_c "" JUndefined empty_body)).
  vm_compute. reflexivity.
Defined.

Lemma getTaskCounts_bad_id_witness :
  getTaskCounts demo (req (mkCaller "alice" "user") "" JUndefined empty_body) = internal_error.
Proof. apply getTaskCounts_bad_id; reflexivity. Defined.

Lemma getAllTasks_spec_witness :
  getAllTasks demo (req alice_c "" (JStr "invoice") empty_body) =
  match List.filter (fun t => keyword_match "invoice" t && visible alice_c t) (repo_docs demo) with
  | [] => mkResponse 404 false "Tasks not found" PNone
  | ts => mkResponse 200 true "" (PTasks ts)
  end.
Proof. apply getAllTasks_spec; reflexivity. Defined.

Lemma getAllTasks_bad_keyword_witness :
  getAllTasks demo (req admin_c "" (JArr [JStr "a"; JStr "b"]) empty_body) = internal_error.
Proof. apply (getAllTasks_bad_keyword _ _ [JStr "a"; JStr "b"]). reflexivity. Defined.

Lemma getTaskById_spec_witness :
  getTaskById demo (req bob_c (oid_of_counter 3) JUndefined empty_body) =
  mkResponse 200 true "" (PTask t3).
Proof.
  apply (getTaskById_spec demo (req bob_c (oid_of_counter 3) JUndefined empty_body) t3);
    [vm_compute; reflexivity|]. split_and!; vm_compute; reflexivity.
Defined.

Lemma getTaskById_assignee_forbidden_witness :
  visible alice_c t3 = true /\
  getTaskById demo (req alice_c (oid_of_counter 3) JUndefined empty_body) =
  mkResponse 403 false "Access denied" PNone.
Proof.
  apply (getTaskById_assignee_forbidden demo
           (req alice_c (oid_of_counter 3) JUndefined empty_body) t3);
    [reflexivity | reflexivity | vm_compute; reflexivity | vm_compute; reflexivity |
     reflexivity | apply String.eqb_neq; reflexivity].
Defined.

(** Alice, a user, completes her task [t0]; the body also tries to rename
    it and to set a priority. *)
Definition alice_completes : request :=
  req alice_c (oid_of_counter 0) JUndefined (status_body (JStr "completed")).

(** The admin renames [t3] and reassigns it to Bob. *)
Definition admin_reassigns : request :=
  req admin_c (oid_of_counter 3) JUndefined
    (mkBody (JStr "Review budget v2") JUndefined JUndefined JUndefined JUndefined (JStr bob)
       JUndefined).

Lemma updateTask_user_frame_witness :
  is_admin alice_c = false /\
  map user_frame (repo_docs (snd (updateTask demo alice_completes 7))) =
  map user_frame (repo_docs demo).
Proof.
  split; [reflexivity|].
  apply (updateTask_user_frame demo _ alice_completes 7 (fst (updateTask demo alice_completes 7)));
    [apply demo_wf | reflexivity | apply surjective_pairing].
Defined.

Lemma updateTask_keys_witness :
  map key_fields (repo_docs (snd (updateTask demo admin_reassigns 7))) =
  map key_fields (repo_docs demo).
Proof.
  apply (updateTask_keys demo _ admin_reassigns 7 (fst (updateTask demo admin_reassigns 7)));
    [apply demo_wf | apply surjective_pairing].
Defined.

Lemma updateTask_failure_unchanged_witness :
  code (fst (updateTask demo (req carol_c (oid_of_counter 0) JUndefined
                               (status_body (JStr "completed"))) 7)) <> 200%N /\
  snd (updateTask demo (req carol_c (oid_of_counter 0) JUndefined
                         (status_body (JStr "completed"))) 7) = demo.
Proof.
  split; [vm_compute; discriminate|].
  eapply updateTask_failure_unchanged;
    [apply demo_wf | apply surjective_pairing | vm_compute; discriminate].
Defined.

Lemma updateTask_user_status_witness :
  exists s', updateTask demo alice_completes 7 =
    (mkResponse 200 true "Task updated successfully"
       (PTask (with_updatedAt (with_status t0 Completed) 7)), s') /\
    repo_docs s' = replace_doc (with_updatedAt (with_status t0 Completed) 7) (repo_docs demo).
Proof.
  apply (updateTask_user_status demo alice_completes 7 (oid_of_counter 0) t0 Completed);
    [apply demo_wf | reflexivity | vm_compute; reflexivity | vm_compute; reflexivity |
     reflexivity | reflexivity].
Defined.

Lemma updateTask_user_bad_status_witness :
  updateTask demo (req alice_c (oid_of_counter 0) JUndefined (status_body (JStr "done"))) 7 =
  (mkResponse 400 false "Invalid or missing status. Only status update is allowed." PNone, demo).
Proof.
  apply (updateTask_user_bad_status _ _ _ (oid_of_counter 0) t0);
    [reflexivity | vm_compute; reflexivity | vm_compute; reflexivity | reflexivity |
     vm_compute; reflexivity].
Defined.

Lemma updateTask_forbidden_witness :
  updateTask demo (req carol_c (oid_of_counter 0) JUndefined (status_body (JStr "completed"))) 7 =
  (mkResponse 403 false "Access denied" PNone, demo).
Proof.
  apply (updateTask_forbidden _ _ _ (oid_of_counter 0) t0);
    vm_compute; reflexivity.
Defined.

Lemma updateTask_admin_bad_status_witness :
  updateTask demo (req admin_c (oid_of_counter 0) JUndefined (status_body (JStr "archived"))) 7 =
  (mkResponse 400 false "Invalid status value." PNone, demo).
Proof.
  apply (updateTask_admin_bad_status _ _ _ (oid_of_counter 0) t0);
    vm_compute; reflexivity.
Defined.


Lemma updateTask_admin_cast_error_witness :
  updateTask demo (req admin_c (oid_of_counter 3) JUndefined
    (mkBody JUndefined JUndefined JUndefined JUndefined JUndefined (JStr "bob") JUndefined)) 7 =
  (internal_error, demo).
Proof.
  apply (updateTask_admin_cast_error _ _ _ (oid_of_counter 3) t3 (CastError "assignedTo"));
    vm_compute; reflexivity.
Defined.

(** The Number, Date and array paths are cast: priority ["2"] is stored
    as 2, dueDate ["2025-03-01"] as its time in milliseconds, a single
    tag as a one-element array; a dueDate ["abc"] does not cast, so
    [save()] rejects and the admin gets 500 with nothing changed. *)
Example admin_update_casts :
  admin_update t3 (mkBody JUndefined JUndefined JUndefined (JStr "2") (JStr "2025-03-01") JUndefined
                     (JStr "urgent")) =
    inr (with_tags (with_dueDate (with_priority t3 (JNum 2)) (JNum 1740787200000))
           (JArr [JStr "urgent"])) /\
  updateTask demo (req admin_c (oid_of_counter 3) JUndefined
    (mkBody JUndefined JUndefined JUndefined JUndefined (JStr "abc") JUndefined JUndefined)) 7 =
    (internal_error, demo).
Proof. split; vm_compute; reflexivity. Qed.

(** An admin sends an empty description, priority 0 and an empty tag
    array: the falsy values are ignored, the (truthy) empty array is set. *)
Definition falsy_body : body :=
  mkBody JUndefined (JStr "") JUndefined (JNum 0) JUndefined JUndefined (JArr []).

Lemma admin_update_falsy_witness :
  admin_update t0 falsy_body = inr (with_tags t0 (JArr [])) /\
  description (with_tags t0 (JArr [])) = description t0 /\
  priority (with_tags t0 (JArr [])) = priority t0.
Proof.
  assert (admin_update t0 falsy_body = inr (with_tags t0 (JArr []))) as H by reflexivity.
  destruct (admin_update_falsy _ _ _ H) as (_ & Hd & _ & Hp & _).
  split_and!; [exact H | by apply Hd | by apply Hp].
Defined.

Lemma deleteTask_user_forbidden_witness :
  deleteTask demo (req alice_c (oid_of_counter 0) JUndefined empty_body) =
  (mkResponse 403 false "Only admin can delete tasks" PNone, demo).
Proof. apply deleteTask_user_forbidden. reflexivity. Defined.

Lemma deleteTask_admin_witness :
  match oid_cast (oid_of_counter 4) with
  | None => deleteTask demo (req admin_c (oid_of_counter 4) JUndefined empty_body) =
            (internal_error, demo)
  | Some k => exists s',
      deleteTask demo (req admin_c (oid_of_counter 4) JUndefined empty_body) =
        (match find_doc k (repo_docs demo) with
         | Some _ => mkResponse 200 true "Task deleted successfully" PNone
         | None => mkResponse 404 false "Task not found" PNone
         end, s') /\
      repo_docs s' = remove_doc k (repo_docs demo) /\ find_doc k (repo_docs s') = None /\
      repo_wf s'
  end.
Proof.
  exact (deleteTask_admin demo (req admin_c (oid_of_counter 4) JUndefined empty_body)
           demo_wf eq_refl).
Defined.

Definition create_body (ti : jsval) (a : jsval) : body :=
  mkBody ti (JStr "details") JUndefined JUndefined JUndefined a JUndefined.

Lemma CreateTask_bad_assignedTo_witness :
  CreateTask demo (req alice_c "" JUndefined (create_body (JStr "New") (JStr "bob"))) 7 =
  (mkResponse 400 false "Invalid assignedTo user ID" PNone, demo).
Proof. apply (CreateTask_bad_assignedTo _ _ _ "bob"); [reflexivity | discriminate | reflexivity]. Defined.

Lemma CreateTask_created_witness :
  let run := CreateTask demo (req alice_c "" JUndefined (create_body (JStr "New") (JStr bob))) 7 in
  exists t, fst run = mkResponse 201 true "" (PTask t) /\
    repo_docs (snd run) = repo_docs demo ++ [t] /\ repo_wf (snd run) /\
    oid_cast alice = Some (createdBy t) /\
    find_doc (task_id t) (repo_docs demo) = None /\ createdAt t = 7%Z /\ updatedAt t = 7%Z.
Proof.
  intros run.
  apply (CreateTask_created demo (snd run)
           (req alice_c "" JUndefined (create_body (JStr "New") (JStr bob))) 7 (fst run));
    [apply demo_wf | apply surjective_pairing | vm_compute; reflexivity].
Defined.

Lemma CreateTask_failure_unchanged_witness :
  snd (CreateTask demo (req alice_c "" JUndefined (create_body JUndefined JUndefined)) 7) = demo.
Proof.
  apply (CreateTask_failure_unchanged demo _
           (req alice_c "" JUndefined (create_body JUndefined JUndefined)) 7
           (fst (CreateTask demo (req alice_c "" JUndefined (create_body JUndefined JUndefined)) 7)));
    [apply surjective_pairing | vm_compute; discriminate].
Defined.

(** ** The keyword is a regular expression

    With an engine for real patterns ([Regex.pcre_engine]) the search of
    getAllTasks is a regular-expression search, not the substring search
    of spec 4.2. *)

Definition search_pcre (u : caller) (kw : string) : response :=
  @getAllTasks Collection (@collection_repo Regex.pcre_engine) demo
    (req u "" (JStr kw) empty_body).

(** ["."] is in no title, yet it lists every task Alice can see. *)
Example search_regex_dot : search_pcre alice_c "." = mkResponse 200 true "" (PTasks [t0; t1; t2; t3]).
Proof. vm_compute. reflexivity. Qed.

(** ["inv.ice"] finds the invoice task. *)
Example search_regex_wildcard :
  search_pcre alice_c "inv.ice" = mkResponse 200 true "" (PTasks [t0]).
Proof. vm_compute. reflexivity. Qed.

(** ["("] is not a valid pattern: the query fails and the handler
    answers 500. *)
Example search_regex_invalid : search_pcre alice_c "(" = internal_error.
Proof. vm_compute. reflexivity. Qed.

(** A counted repetition: ["p{2}"] finds the task whose title has a
    double [p] ("Call supplier"). *)
Example search_regex_counted : search_pcre alice_c "p{2}" = mkResponse 200 true "" (PTasks [t1]).
Proof. vm_compute. reflexivity. Qed.

(** Bounds out of order are refused by PCRE: 500. *)
Example search_regex_count_order : search_pcre alice_c "p{3,2}" = internal_error.
Proof. vm_compute. reflexivity. Qed.

(** A brace that does not open a quantifier is a literal character: the
    pattern is valid and finds nothing. *)
Example search_regex_brace_literal :
  search_pcre alice_c "Q2{x" = mkResponse 404 false "Tasks not found" PNone.
Proof. vm_compute. reflexivity. Qed.

(** The parsed pattern of ["inv.ice"]. *)
Definition inv_re : Regex.re :=
  match Regex.parse "inv.ice" with Some r => r | None => Regex.RNone end.

Lemma getAllTasks_pcre_witness :
  search_pcre alice_c "inv.ice" =
    match List.filter (fun t => @Search.regex_hit Regex.pcre_engine "inv.ice" t && visible alice_c t)
            (coll_docs demo) with
    | [] => mkResponse 404 false "Tasks not found" PNone
    | ts => mkResponse 200 true "" (PTasks ts)
    end /\
  forall t, @Search.regex_hit Regex.pcre_engine "inv.ice" t = true <->
            Search.factor_match inv_re (title t) \/
            exists d, description t = Some d /\ Search.factor_match inv_re d.
Proof.
  apply (Search.getAllTasks_pcre (HR := @collection_repo Regex.pcre_engine) demo
           (req alice_c "" (JStr "inv.ice") empty_body) "inv.ice" inv_re);
    [reflexivity | reflexivity | vm_compute; reflexivity].
Defined.

(** The search for a nested pattern, with ten times the parser's bound. *)
Lemma getAllTasks_pcre_total_witness :
  search_pcre alice_c "(in(v|o).ice)*" =
    match Regex.p_alt 1000 (list_ascii_of_string "(in(v|o).ice)*") with
    | Some (_, []) =>
        match List.filter (fun t => @Search.regex_hit Regex.pcre_engine "(in(v|o).ice)*" t &&
                                    visible alice_c t) (coll_docs demo) with
        | [] => mkResponse 404 false "Tasks not found" PNone
        | ts => mkResponse 200 true "" (PTasks ts)
        end
    | _ => internal_error
    end.
Proof.
  apply (Search.getAllTasks_pcre_total (HR := @collection_repo Regex.pcre_engine) demo
           (req alice_c "" (JStr "(in(v|o).ice)*") empty_body) "(in(v|o).ice)*" 1000);
    [reflexivity | reflexivity | vm_compute; lia].
Defined.

(** A literal keyword behaves as with the literal engine. *)
Example search_pcre_literal : search_pcre alice_c "INVOICE" = mkResponse 200 true "" (PTasks [t0]).
Proof. vm_compute. reflexivity. Qed.

(** ** Registration, login and sessions *)

Definition ann_body : auth_body :=
  mkAuthBody (JStr "Ann") (JStr "ann@example.com") (JNum 5550100) (JStr "correct horse").

(** The users collection after Ann registered (bcrypt salt 7). *)
Definition users1 : user_store := snd (register empty_user_store ann_body 7).

(** Ann logs in at second 1000. *)
Definition ann_login : auth_response := login users1 ann_body 1000.
Definition ann_token : string := match a_token ann_login with Some t => t | None => "" end.
Definition ann_user : login_user :=
  match a_user ann_login with Some u => u | None => mkLoginUser "" "" "" JUndefined JUndefined "" end.

Example ann_registered : fst (register empty_user_store ann_body 7) =
  Some (auth_reply 200 true "Account created successfuly").
Proof. vm_compute. reflexivity. Qed.

Example ann_registered_twice : fst (register users1 ann_body 8) =
  Some (auth_reply 201 false "user already exist").
Proof. vm_compute. reflexivity. Qed.

(** The email is a filter: [{ $regex: "ann" }] finds Ann, and with her
    password the login succeeds. *)
Example login_regex_email :
  a_code (login users1 (mkAuthBody JUndefined (JObj [("$regex", JStr "ann")]) JUndefined
                          (JStr "correct horse")) 1000) = 200%N.
Proof. vm_compute. reflexivity. Qed.

(** Ann, the first stored user. *)
Definition ann_doc : user :=
  match users users1 with u :: _ => u | [] => mkUser "" "" "" JUndefined "" "" JUndefined end.

Lemma login_ne_email_witness :
  login users1 (mkAuthBody JUndefined (JObj [("$ne", JNull)]) JUndefined (JStr "correct horse")) 1000 =
  mkAuthResponse 200 true ("Welcome back " ++ fullname ann_doc)
    (Some (jwt_sign (token_claims ann_doc) login_secret 1000 token_lifetime))
    (Some (login_view ann_doc)).
Proof.
  apply (login_ne_email users1 ann_doc []); [vm_compute; reflexivity | discriminate |].
  vm_compute. reflexivity.
Defined.

(** ** Concurrent registrations *)

(** Ann's registration sent twice (say a double click), bcrypt drawing
    the salts 7 and 8. *)
Definition reg_twice : Registration.reg_system :=
  Registration.mkRegSystem empty_user_store
    [Registration.RStart ann_body 7; Registration.RStart ann_body 8].

(** Serially the second is told the user exists; when both lookups run
    before either insertion, the second insertion hits the unique index
    and that request is never answered.  One account exists either way. *)
Example register_twice :
  Registration.rs_threads (Registration.reg_run reg_twice [0; 0; 1; 1]) =
    [Registration.RDone Registration.reg_ok;
     Registration.RDone (Some (auth_reply 201 false "user already exist"))] /\
  Registration.rs_threads (Registration.reg_run reg_twice [0; 1; 0; 1]) =
    [Registration.RDone Registration.reg_ok; Registration.RDone None] /\
  length (users (Registration.rs_users (Registration.reg_run reg_twice [0; 1; 0; 1]))) = 1.
Proof. split_and!; vm_compute; reflexivity. Qed.

Lemma register_race_witness : Registration.reg_ok = None \/ @None auth_response = None.
Proof.
  apply (Registration.register_race (Registration.reg_run reg_twice [0; 1]) [0; 1] "ann@example.com"
           0 1 ann_body ann_body 7 8); try (vm_compute; reflexivity); lia.
Defined.

(** The other operators of a string path reach the login filter as
    well: [{ "$not": { "$eq": ... } }] with any other address, and
    [{ "$all": [...] }] with Ann's, log in as Ann; [{ "$not": "x" }] is
    refused by MongoDB and answered with 500; [{ "$regex": ... }] on an
    ObjectId path does not cast. *)
Example login_other_operators :
  a_code (login users1 (mkAuthBody JUndefined (JObj [("$not", JObj [("$eq", JStr "nobody@example.com")])])
                          JUndefined (JStr "correct horse")) 1000) = 200%N /\
  a_code (login users1 (mkAuthBody JUndefined (JObj [("$all", JArr [JStr "ann@example.com"])])
                          JUndefined (JStr "correct horse")) 1000) = 200%N /\
  login users1 (mkAuthBody JUndefined (JObj [("$not", JObj [("$eq", JStr "ann@example.com")])])
                  JUndefined (JStr "correct horse")) 1000 = bad_credentials /\
  login users1 (mkAuthBody JUndefined (JObj [("$not", JStr "x")]) JUndefined (JStr "correct horse")) 1000 =
    auth_reply 500 false "Internal server error" /\
  compile (JObj [("createdBy", JObj [("$regex", JStr "65a")])]) = inl (CastError "createdBy").
Proof. split_and!; vm_compute; reflexivity. Qed.

(** Registering with the email [{ "$ne": null }] reveals that the
    collection is not empty. *)
Example register_ne_email :
  fst (register users1 (mkAuthBody (JStr "Eve") (JObj [("$ne", JNull)]) (JNum 1) (JStr "x")) 9) =
  Some (auth_reply 201 false "user already exist").
Proof. vm_compute. reflexivity. Qed.

(** Two spaces after [Bearer]: [split(" ")[1]] is the empty string. *)
Example bearer_two_spaces :
  isAuthenticated (Some login_secret) 2000 (Some ("Bearer  " ++ ann_token)%string) =
  inl (unauthenticated "Invalid or expired token").
Proof. vm_compute. reflexivity. Qed.

Lemma login_session_witness :
  isAuthenticated (Some "Krishna") 2000 (Some ("Bearer " ++ ann_token)%string) =
  inr (mkCaller (lu_id ann_user) (lu_role ann_user)).
Proof.
  rewrite (login_session users1 ann_body 1000 2000 (Some "Krishna") ann_token ann_user);
    [vm_compute; reflexivity | apply users_wfb_sound; vm_compute; reflexivity
    | vm_compute; reflexivity | vm_compute; reflexivity].
Defined.

Lemma isAuthenticated_sound_witness :
  exists hdr tok cl k iat e, Some ("Bearer " ++ ann_token)%string = Some hdr /\
    String.prefix "Bearer " hdr = true /\
    nth_error (js_split " "%char hdr) 1 = Some tok /\ Some "Krishna" = Some k /\ k <> "" /\
    tok = jwt_sign cl k iat e /\ (2000 < iat + e)%Z /\
    c_userId cl = Some (id (mkCaller (lu_id ann_user) "user")) /\
    c_role cl = Some (role (mkCaller (lu_id ann_user) "user")) /\
    id (mkCaller (lu_id ann_user) "user") <> "" /\ role (mkCaller (lu_id ann_user) "user") <> "".
Proof.
  apply (isAuthenticated_sound (Some "Krishna") 2000 (Some ("Bearer " ++ ann_token)%string)
           (mkCaller (lu_id ann_user) "user")).
  vm_compute. reflexivity.
Defined.

Lemma login_authenticates_witness :
  exists u p q cost salt, In u (users users1) /\
    user_findOne users1 (JObj [("email", ab_email ann_body)]) = inr (Some u) /\
    ab_password ann_body = JStr p /\ password u = bcrypt_hash q cost salt /\
    bcrypt_prefix q = bcrypt_prefix p /\
    a_token (login users1 ann_body 1000) =
      Some (jwt_sign (token_claims u) login_secret 1000 token_lifetime).
Proof. apply (login_authenticates users1 ann_body 1000). vm_compute. reflexivity. Defined.

Lemma login_uniform_failure_witness :
  login users1 (mkAuthBody JUndefined (JStr "ann@example.com") JUndefined (JStr "wrong")) 1000 =
  bad_credentials.
Proof.
  apply (login_uniform_failure users1 _ 1000 "ann@example.com" "wrong");
    [reflexivity | reflexivity | discriminate | discriminate |].
  intros u Hu _. vm_compute in Hu. destruct Hu as [<-|[]]. vm_compute. reflexivity.
Defined.

Definition bo_body : auth_body :=
  mkAuthBody (JStr "Bo") (JStr "bo@example.com") (JNum 5550101) (JStr "hunter2").

Lemma register_wf_witness : users_wf (snd (register users1 bo_body 9)).
Proof. apply (register_wf users1 bo_body 9). apply users_wfb_sound. vm_compute. reflexivity. Defined.

Lemma registered_no_admin_witness :
  users_wf (snd (register users1 bo_body 9)) /\
  Forall (fun u => User.role u = "user") (users (snd (register users1 bo_body 9))).
Proof.
  apply (registered_no_admin (snd (register users1 bo_body 9))).
  apply reg_step, reg_step, reg_empty.
Defined.

Lemma register_numeric_password_witness :
  register users1 (mkAuthBody (JStr "Bo") (JStr "bo@example.com") (JNum 1) (JNum 1234)) 9 =
  (None, users1).
Proof.
  apply (register_numeric_password users1 _ 9 "bo@example.com" 1234);
    [reflexivity | reflexivity | discriminate | | reflexivity | reflexivity | discriminate].
  apply (bool_decide_eq_true_1 ("bo@example.com" ∉ map email (users users1))). vm_compute. reflexivity.
Defined.

(** Two passwords that differ only after their 72nd byte. *)
Definition long_pw (tail : string) : string :=
  "correct horse battery staple correct horse battery staple correct horse " ++ tail.

Lemma login_bcrypt_prefix_witness :
  login users1 (mkAuthBody JUndefined (JStr "ann@example.com") JUndefined (JStr (long_pw "1"))) 1000 =
  login users1 (mkAuthBody JUndefined (JStr "ann@example.com") JUndefined (JStr (long_pw "2"))) 1000.
Proof. apply (login_bcrypt_prefix users1 _ _ _ (long_pw "1") (long_pw "2") 1000). vm_compute. reflexivity. Defined.

(** ** Requests through the server *)

Definition world0 : world Collection := mkWorld Collection demo empty_user_store [].

(** Ann registers at time 0 and logs in at second 1000. *)
Definition world1 : world Collection := snd (app_step (Some login_secret) world0 (ERegister ann_body 7) 0).
Definition world2 : world Collection :=
  snd (app_step (Some login_secret) world1 (ELogin ann_body) 1000000).
Definition ann_token2 : string := match w_issued world2 with t :: _ => t | [] => "" end.

Lemma world2_reachable : reachable (Some login_secret) world0 world2.
Proof. unfold world2, world1. apply reach_step, reach_step, reach_init. Qed.

(** A token for Alice's id and role, signed with the server's secret. *)
Definition alice_token : string :=
  jwt_sign (mkClaims (Some alice) (Some "user")) login_secret 0 token_lifetime.

(** Alice tries to rename her task [t0] while completing it. *)
Definition alice_put : http_request :=
  mkHttpRequest PUT ["update"; oid_of_counter 0] (Some ("Bearer " ++ alice_token)%string)
    JUndefined (mkBody (JStr "Hacked") JUndefined (JStr "completed") JUndefined JUndefined
                  JUndefined JUndefined).

Definition t0_after : task :=
  match find_doc (oid_of_counter 0)
          (repo_docs (w_tasks (snd (app_step (Some login_secret) world0 (ETask alice_put) 1000)))) with
  | Some t => t
  | None => t0
  end.

Example alice_put_completes : status t0_after = Completed /\ title t0_after = title t0.
Proof. vm_compute. split; reflexivity. Qed.

Definition ann_create : http_request :=
  mkHttpRequest POST ["create-task"] (Some ("Bearer " ++ ann_token2)%string) JUndefined
    (create_body (JStr "Ann's task") JUndefined).

Lemma task_router_write_authenticated_witness :
  exists rt u, route_of (hr_method ann_create) (hr_path ann_create) = Some rt /\
    isAuthenticated (Some login_secret) (2000000 / 1000) (hr_authorization ann_create) = inr u /\
    (rt = RCreateTask \/ exists i, rt = RUpdate i \/ rt = RDelete i).
Proof.
  apply (task_router_write_authenticated (Some login_secret) world2 ann_create 2000000).
  vm_compute. congruence.
Defined.

Lemma reachable_wf_witness : repo_wf (w_tasks world2) /\ users_wf (w_users world2).
Proof.
  apply (reachable_wf (Some login_secret) world0 world2);
    [apply world2_reachable | apply demo_wf | apply users_wfb_sound; vm_compute; reflexivity].
Defined.

Lemma step_key_fields_witness : key_fields t0_after = key_fields t0.
Proof.
  apply (step_key_fields (Some login_secret) world0 (ETask alice_put) 1000 (oid_of_counter 0));
    [apply demo_wf | vm_compute; reflexivity | vm_compute; reflexivity].
Defined.

Lemma non_admin_step_frame_witness : user_frame t0_after = user_frame t0.
Proof.
  apply (non_admin_step_frame (Some login_secret) world0 alice_put 1000 (oid_of_counter 0));
    [apply demo_wf | | vm_compute; reflexivity | vm_compute; reflexivity].
  intros u Hu. vm_compute in Hu. injection Hu as <-. reflexivity.
Defined.

Lemma issued_token_user_witness :
  exists u, In u (users (w_users world2)) /\
    id (mkCaller (oid_of_counter 0) "user") = user_id u /\
    role (mkCaller (oid_of_counter 0) "user") = User.role u.
Proof.
  apply (issued_token_user (Some login_secret) world0 world2 ann_token2 (Some login_secret) 2000);
    [apply world2_reachable | constructor | vm_compute; left; reflexivity
    | vm_compute; reflexivity].
Defined.

Definition ann_delete : http_request :=
  mkHttpRequest DELETE ["delete"; oid_of_counter 0] (Some ("Bearer " ++ ann_token2)%string)
    JUndefined empty_body.

Lemma no_admin_no_delete_witness :
  snd (task_router (Some login_secret) world2 ann_delete 2000000) = world2 /\
  code (fst (task_router (Some login_secret) world2 ann_delete 2000000)) <> 200%N.
Proof.
  apply (no_admin_no_delete (Some login_secret) world0 world2 _ ann_token2 2000000
           ["delete"; oid_of_counter 0] JUndefined empty_body);
    [apply world2_reachable | constructor | constructor | vm_compute; left; reflexivity
    | apply surjective_pairing].
Defined.

Definition ann_directory : http_request :=
  mkHttpRequest GET ["user"] (Some ("Bearer " ++ ann_token2)%string) JUndefined empty_body.

Lemma directory_open_witness :
  task_router (Some login_secret) world2 ann_directory 2000000 =
  (mkResponse 200 true "" (PUsers (map project (users (w_users world2)))), world2).
Proof.
  apply (directory_open (Some login_secret) world2 ann_directory 2000000
           (mkCaller (oid_of_counter 0) "user")); [reflexivity | reflexivity | vm_compute; reflexivity].
Defined.

(** ** Raw requests through index.js ([Server]) *)

(** Ann's registration as the application receives it: a JSON body
    posted to /api/v1/auth/register. *)
Definition ann_raw_register : Server.server_request :=
  Server.mkServerRequest POST ["api"; "v1"; "auth"; "register"] None JUndefined
    (Some (JObj [("fullname", JStr "Ann"); ("email", JStr "ann@example.com");
                 ("phoneNumber", JNum 5550100); ("password", JStr "correct horse")])) None.

(** Express matches routes and mount points in any letter case and with a
    trailing slash. *)
Example route_case_insensitive :
  route_of GET ["Counts"; ""] = Some RCounts /\
  route_of DELETE ["DELETE"; "65a1f0c2e4b0a1b2c3d4e5f6"] = Some (RDelete "65a1f0c2e4b0a1b2c3d4e5f6") /\
  route_of GET ["task"; ""] = None.
Proof. vm_compute. split_and!; reflexivity. Qed.

Example ann_raw_register_world1 :
  snd (Server.serve (Some login_secret) world0 ann_raw_register 7 0) = world1.
Proof. vm_compute. reflexivity. Qed.

Lemma served_reachable_witness :
  reachable (Some login_secret) world0 (snd (Server.serve (Some login_secret) world0 ann_raw_register 7 0)).
Proof.
  apply (Server.served_reachable (Some login_secret) world0).
  apply Server.served_step, Server.served_init.
Defined.

Lemma task_router_typed_witness :
  result_of (fst (task_router (Some login_secret) world0 alice_put 1000)) <> None /\
  (route_of (hr_method alice_put) (hr_path alice_put) <> None ->
   forall resp, isAuthenticated (Some login_secret) (1000 / 1000) (hr_authorization alice_put) = inl resp ->
   result_of (fst (task_router (Some login_secret) world0 alice_put 1000)) = Some (RError EUnauthenticated)).
Proof. apply (task_router_typed (Some login_secret) world0 alice_put 1000). Defined.

(** ** Interleaved requests ([Concurrency]) *)

#[local] Existing Instance Concurrency.fval_eq_dec.

Lemma race_system_ok : Concurrency.system_ok Concurrency.race_system.
Proof.
  split; [split; simpl|].
  - apply (bool_decide_unpack _). vm_compute. reflexivity.
  - repeat constructor. exists 0%N. split; done.
  - repeat constructor.
Qed.

Lemma run_respects_policy_witness :
  Concurrency.system_ok Concurrency.race_system /\
  Concurrency.system_ok (Concurrency.run Concurrency.race_system [0; 1; 1; 0]) /\
  Concurrency.policy_trace Concurrency.race_system [0; 1; 1; 0].
Proof.
  split; [exact race_system_ok|].
  apply (Concurrency.run_respects_policy Concurrency.race_system [0; 1; 1; 0]).
  exact race_system_ok.
Defined.

(** Two requests of the owner: a status update and a delete, which the
    owner may not do. *)
Definition owner_system : Concurrency.system :=
  Concurrency.mkSystem (mkCollection [Concurrency.race_doc] 1)
    [Concurrency.TUpdate (req Concurrency.race_owner (oid_of_counter 0) JUndefined
                            (status_body (JStr "completed"))) 10;
     Concurrency.TDelete (req Concurrency.race_owner (oid_of_counter 0) JUndefined empty_body)] ∅.

Lemma run_user_frame_witness :
  exists t', find_doc (oid_of_counter 0)
               (coll_docs (Concurrency.sys_coll (Concurrency.run owner_system [1; 0; 0]))) = Some t' /\
             key_fields t' = key_fields Concurrency.race_doc /\
             user_frame t' = user_frame Concurrency.race_doc.
Proof.
  apply (Concurrency.run_user_frame owner_system [1; 0; 0]).
  - split; [exact (proj1 race_system_ok)|]. repeat constructor.
  - repeat constructor.
  - reflexivity.
Defined.

Lemma run_answers_witness :
  exists r, Concurrency.sys_threads (Concurrency.run Concurrency.race_system [0; 1; 1; 0]) !! 0 =
            Some (Concurrency.TDone (Concurrency.thread_req
                   (Concurrency.TUpdate (req Concurrency.race_owner (oid_of_counter 0) JUndefined
                      (mkBody JUndefined JUndefined (JStr "completed") JUndefined JUndefined
                              JUndefined JUndefined)) 10)) r).
Proof. apply Concurrency.run_answers; [reflexivity | vm_compute; lia]. Defined.

Lemma save_delta_paths_witness :
  exists c' d', Concurrency.save_delta (mkCollection [Concurrency.race_doc] 1) Concurrency.race_doc
                  (with_status Concurrency.race_doc Completed) = inr c' /\
    find_doc (oid_of_counter 0) (coll_docs c') = Some d' /\
    key_fields d' = key_fields Concurrency.race_doc /\
    forall p, Concurrency.get_at p d' =
      if decide (Concurrency.get_at p Concurrency.race_doc =
                 Concurrency.get_at p (with_status Concurrency.race_doc Completed))
      then Concurrency.get_at p Concurrency.race_doc
      else Concurrency.get_at p (with_status Concurrency.race_doc Completed).
Proof. apply Concurrency.save_delta_paths. reflexivity. Defined.

Lemma update_commit_deleted_witness :
  Concurrency.update_commit_v empty_collection ∅ Concurrency.race_doc
    (with_status Concurrency.race_doc Completed) 0 = (internal_error, empty_collection, ∅).
Proof. apply Concurrency.update_commit_deleted. reflexivity. Defined.

(** Two admin updates of the owner's task, both awaiting their save of
    new tags, read at version 0. *)
Definition tag_req (tg : string) : request :=
  req Concurrency.race_admin (oid_of_counter 0) JUndefined
    (mkBody JUndefined JUndefined JUndefined JUndefined JUndefined JUndefined (JArr [JStr tg])).

Definition tagged (tg : string) (now : Z) : task :=
  with_updatedAt (with_tags Concurrency.race_doc (JArr [JStr tg])) now.

Definition tags_saving : Concurrency.system :=
  Concurrency.mkSystem (mkCollection [Concurrency.race_doc] 1)
    [Concurrency.TSaving (tag_req "billing") Concurrency.race_doc (tagged "billing" 10) 0;
     Concurrency.TSaving (tag_req "urgent") Concurrency.race_doc (tagged "urgent" 20) 0] ∅.

Lemma versioned_saves_exclusive_witness :
  ~ (Concurrency.saved_ok (Concurrency.run tags_saving [0; 1]) 0 = true /\
     Concurrency.saved_ok (Concurrency.run tags_saving [0; 1]) 1 = true).
Proof.
  apply (Concurrency.versioned_saves_exclusive tags_saving [0; 1] 0 1 (tag_req "billing")
           (tag_req "urgent") Concurrency.race_doc (tagged "billing" 10) Concurrency.race_doc
           (tagged "urgent" 20) 0); [lia | reflexivity | vm_compute; reflexivity
    | vm_compute; reflexivity | reflexivity | reflexivity].
Defined.

(** ** Start-up and a client session *)

(** The process environment sets [SECRET_KEY] to the secret login signs
    with; an empty [.env]. *)
Definition prod_env : Boot.env := {[ "SECRET_KEY" := "Krishna" ]}.

(** An empty [PORT] in the environment is kept by dotenv: the server
    listens on 3000 although the [.env] file says 8080. *)
Example boot_empty_port :
  Boot.dep_port (Boot.boot {[ "PORT" := "" ]} [("PORT", "8080")]) = JNum 3000 /\
  Boot.dep_log (Boot.boot {[ "PORT" := "" ]} [("PORT", "8080")]) =
    ["server running at http://localhost:3000"].
Proof. split; reflexivity. Qed.

(** Without [SECRET_KEY] in either place, login's token is refused: the
    create request of a session gets 401 and changes nothing. *)
Example session_without_secret :
  let w1 := snd (Boot.deployed (Boot.boot ∅ []) world0
                   (Boot.register_request "Ann" "ann@example.com" (JNum 5550100) "correct horse") 7 0) in
  let tok := jwt_sign (mkClaims (Some (oid_of_counter 0)) (Some "user")) login_secret 1000
               token_lifetime in
  Boot.deployed (Boot.boot ∅ []) w1 (Boot.create_request tok "T1" "D1") 7 2000000 =
    (Routed (TaskReply (unauthenticated "Invalid or expired token")), w1).
Proof. vm_compute. reflexivity. Qed.

Lemma session_roundtrip_witness :
  let d := Boot.boot prod_env [] in
  let uid := oid_of_counter (next_user (w_users world0)) in
  let tok := jwt_sign (mkClaims (Some uid) (Some "user")) login_secret (1000000 / 1000)
               token_lifetime in
  exists w1 w2 w3 t,
    Boot.deployed d world0 (Boot.register_request "Ann" "ann@example.com" (JNum 5550100)
      "correct horse") 7 0 =
      (Routed (AuthReply (Some (auth_reply 200 true "Account created successfuly"))), w1) /\
    Boot.deployed d w1 (Boot.login_request "ann@example.com" "correct horse") 7 1000000 =
      (Routed (AuthReply (Some (mkAuthResponse 200 true ("Welcome back " ++ "Ann") (Some tok)
         (Some (mkLoginUser uid "Ann" "ann@example.com" (JNum 5550100) JUndefined "user"))))), w2) /\
    Boot.deployed d w2 (Boot.create_request tok "T1" "D1") 7 2000000 =
      (Routed (TaskReply (mkResponse 201 true "" (PTask t))), w3) /\
    createdBy t = uid /\ title t = "T1" /\ description t = Some "D1" /\ status t = Pending /\
    fst (Boot.deployed d w3 (Boot.get_request tok (task_id t)) 7 3000000) =
      Routed (TaskReply (mkResponse 200 true "" (PTask t))).
Proof.
  apply (Boot.session_roundtrip prod_env [] world0 "Ann" "ann@example.com" "correct horse" "T1" "D1"
           (JNum 5550100) 7 0 1000000 2000000 3000000);
    [reflexivity | apply not_elem_of_nil | discriminate | discriminate | discriminate | reflexivity
    | vm_compute; reflexivity | apply demo_wf | vm_compute; reflexivity | discriminate
    | vm_compute; reflexivity | vm_compute; reflexivity].
Defined.

(** ** What a browser on another origin can read *)

(** A JSON body that does not parse, posted to the login route from a
    page on another origin. *)
Definition bad_json_login : Server.server_request :=
  Server.mkServerRequest POST ["api"; "v1"; "auth"; "login"] None JUndefined None None.

(** A JSON body whose top level is a string: [express.json()] is strict
    and refuses it with 400, whatever the route; a top-level array gets
    through to the routers, where every field of it is [undefined]. *)
Example strict_json_body :
  Server.serve (Some login_secret) world0
    (Server.mkServerRequest POST ["api"; "v1"; "auth"; "login"] None JUndefined
       (Some (JStr "alice@example.com")) None) 7 0 = (Server.ParseError, world0) /\
  (Server.serve_full (Some login_secret) world0
    (Server.mkServerRequest POST ["api"; "v1"; "auth"; "login"] None JUndefined
       (Some (JArr [])) None) 7 0).1.2 =
    [("Access-Control-Allow-Origin", "*"); ("Access-Control-Allow-Credentials", "true")].
Proof. split; reflexivity. Qed.

(** [HEAD] takes the [GET] routes: [HEAD /] is the hello route, and
    [HEAD /api/v1/task/all-task] reaches isAuthenticated, which refuses a
    request without a token; no route takes [PATCH], so a [PATCH] of an
    update path gets the 404 without any credential being asked for. *)
Example head_and_patch :
  Server.serve (Some login_secret) world0
    (Server.mkServerRequest HEAD [] None JUndefined None None) 7 0 = (Server.HelloReply, world0) /\
  Server.serve (Some login_secret) world0
    (Server.mkServerRequest HEAD ["api"; "v1"; "task"; "all-task"] None JUndefined (Some (JObj [])) None)
    7 0 = (Server.Routed (TaskReply (unauthenticated "User not authenticated - No token provided")), world0) /\
  Server.serve (Some login_secret) world0
    (Server.mkServerRequest PATCH ["api"; "v1"; "task"; "update"; bob] None JUndefined (Some (JObj [])) None)
    7 0 = (Server.Routed (TaskReply route_not_found), world0).
Proof. split_and!; reflexivity. Qed.

(** The preflight of a task request carrying an [Authorization] header. *)
Definition task_preflight : Server.server_request :=
  Server.mkServerRequest OPTIONS ["api"; "v1"; "task"; "all-task"] None JUndefined (Some (JObj []))
    (Some "authorization").

(** The 400 of a body that does not parse carries no CORS header: the
    page cannot read it.  The preflight is answered by [cors] itself,
    reflecting the requested header, and changes nothing. *)
Example cors_bad_json_unreadable :
  (Server.serve_full (Some login_secret) world0 bad_json_login 7 0).1.2 = [] /\
  Server.serve (Some login_secret) world0 bad_json_login 7 0 = (Server.ParseError, world0) /\
  Server.serve (Some login_secret) world0 task_preflight 7 0 = (Server.Preflight, world0) /\
  (Server.serve_full (Some login_secret) world0 task_preflight 7 0).1.2 =
    [("Access-Control-Allow-Origin", "*"); ("Access-Control-Allow-Credentials", "true");
     ("Access-Control-Allow-Methods", "GET,HEAD,PUT,PATCH,POST,DELETE");
     ("Vary", "Access-Control-Request-Headers"); ("Access-Control-Allow-Headers", "authorization")].
Proof. split_and!; reflexivity. Qed.

Lemma cors_readable_witness :
  let '(rep, hs, _) := Server.serve_full (Some login_secret) world0 bad_json_login 7 0 in
  Server.cors_check false "https://app.example" hs =
    match rep with Server.HelloReply | Server.ParseError => false | _ => true end /\
  Server.cors_check true "https://app.example" hs = false.
Proof. apply (Server.cors_readable (Some login_secret) world0 bad_json_login 7 0). discriminate. Defined.

(** ** The lost update *)

(** [Concurrency.lost_update] on this system: the owner completes, the admin's
    "in-progress" is lost, the admin's title stays. *)
Lemma lost_update_witness :
  let w' := Concurrency.run Concurrency.race_system [0; 1; 1; 0] in
  Concurrency.sys_threads w' !! 0 =
    Some (Concurrency.TDone Concurrency.race_owner_req (mkResponse 200 true "Task updated successfully"
                                  (PTask (with_updatedAt (with_status Concurrency.race_doc Completed) 10)))) /\
  Concurrency.sys_threads w' !! 1 =
    Some (Concurrency.TDone Concurrency.race_admin_req (mkResponse 200 true "Task updated successfully"
            (PTask (with_updatedAt (with_status (with_title Concurrency.race_doc "Send invoice") InProgress) 20)))) /\
  exists d, find_doc (task_id Concurrency.race_doc) (coll_docs (Concurrency.sys_coll w')) = Some d /\
    status d = Completed /\ title d = title (with_status (with_title Concurrency.race_doc "Send invoice") InProgress) /\
    (10%Z <> updatedAt Concurrency.race_doc -> updatedAt d = 10%Z).
Proof.
  apply (Concurrency.lost_update Concurrency.race_system 0 1 Concurrency.race_owner_req Concurrency.race_admin_req 10 20 Concurrency.race_doc
           (with_status (with_title Concurrency.race_doc "Send invoice") InProgress) Completed);
    try (vm_compute; reflexivity); discriminate.
Defined.

End Scenarios.
